(* ===== verification/_CoqProject ===== *)
-Q . S2P
Prelude.v
RustStr.v
RustNum.v
RustFloat.v
Json.v
Toml.v
TomlLex.v
TomlDoc.v
World.v
Hoare.v
Config.v
Parsers.v
Catalog.v
Override.v
Reporter.v
Readings.v
Cli.v
CliParser.v
Mqtt.v
Publisher.v
Serde.v
Dump.v
Tests.v
Pass.v
Main.v
