(* ===== verification/Prelude.v ===== *)
(** * unraid_mqtt_stats: a verification development

    The program is a host-telemetry agent for an Unraid server.  One run
    builds a list of sensors (host statistics, shell-command sensors,
    Docker engine and per-container sensors), layers the user's TOML
    configuration over the built-in catalogue, and publishes each enabled
    sensor's Home-Assistant discovery document and current value, either
    to an MQTT broker or as JSON lines on standard output.

    ** The program's parts and the files that model them

    The files are listed in dependency order; each requires the ones
    above it that it names.

    - [Prelude] (this file): Rust's [Result] as [result] with its [?]
      operator as a bind notation in [rs_scope], [Option::or], the
      iterator operations the sources call ([Iterator::nth], [next],
      [last], [skip], [find]) as functions from the items an iterator
      has yet to yield, the development's tactics and the hint database
      [rs].
    - [RustStr], Module [Str]: the [str] methods the sources call
      ([split], [contains], [starts_with], [trim], [trim_start_matches],
      [trim_end_matches], [lines], [split_whitespace], [to_uppercase],
      [to_lowercase], [chars().filter(..)]), on [string] read as the
      UTF-8 bytes of a Rust [String], with the lemmas the components
      share: [split] and [join] are inverse, [contains] is the substring
      relation, the shape of [lines] and [split_whitespace] on texts
      made of lines and words.
    - [RustNum]: machine integers as [Z] with their range written out
      ([u64], [i64], wrapping and checked subtraction and sum), decimal
      printing and [str::parse::<i64>] with their round trip, IEEE
      binary64 values as the Standard Library's [spec_float] (precision
      53, exponent bound 1024), [format!("{:.N}")] as [fmt_fixed], and
      the interface [FloatText] (a class) of the float parser and
      [Display] of Rust's core library.
    - [RustFloat]: an executable instance of [FloatText]: the decimal
      parser of [str::parse::<f64>] and the shortest digit string that
      reads back, which is what [Display] prints.
    - [Json]: the [serde_json::Value] documents the program builds with
      [json!], objects as finite maps keyed by string, [IndexMut] on
      them, and their compact text [to_string].
    - [Toml]: the TOML documents the toml crate reads and prints, for
      the part of the language the program's files use: a tree
      ([Toml.Value]) of strings, booleans, arrays and tables that keep
      the order of their entries; the printer [Toml.to_string] (plain
      entries first, then one section per table); the reader
      [Toml.from_str], which goes line by line ([Toml.parse_line]) and
      builds the tree from the sections ([Toml.build]).
    - [TomlLex]: a printed line is read back as the item it prints
      ([parse_line_print]), with the lemmas on keys, strings and
      arrays behind it.
    - [TomlDoc]: the sections of a tree give the tree back
      ([build_sections]) and the text of a tree is read as the tree
      ([from_str_to_string]).
    - [World]: what the program sees of its collaborators: the records of
      the Docker engine API (bollard) and of sysinfo with the fields the
      sources read, the external calls as events, an oracle that answers
      each call from the history of calls so far, the store of shared
      statistics caches ([Arc<Mutex<Option<..>>>]), and the monad [M] of
      state, panics and external calls in which effectful code is
      written, with [and_then] for the [?] operator, [try_for_each] for
      a loop that an error ends, and the effect discipline [emits];
      the concrete runs start from [quiet_world] with single answers
      replaced ([with_containers], [with_commands], ...).
    - [Hoare]: reasoning on runs of [M]: [keeps ω I m] (the run keeps
      the state invariant [I], returned or panicked) with a rule per
      construct of the monad and the loop rule; the history only grows;
      progress of a loop that returns [Ok], and the count of its
      rounds that count ([try_for_each_counts]); [in_phases Ps m] (the
      events of a run come in consecutive phases).
    - [Config]: [src/src/config.rs].  One Module per struct or enum,
      its type named [t] ([DeviceClass], [SensorConfig], [PostProcess],
      [CommandSensor], [Sensors], [Config], the four reporter structs
      and their stat enums, [SensorReporterType], [Sensor],
      [SensorsDump], [ConfigDump]); [deserialize_sensors] and
      [dump_deserialize_sensors] after the reader of [Serde] has run;
      [From<&CommandSensor> for Sensor] with the closure of each
      [PostProcess]; the methods of [Sensor]: [merge], [sensor_topic],
      [discovery_topic], [disovery_config].  The abstract specification
      of [merge] ([apply_patch] behind [merge_applies]) is here too.
    - [Parsers]: the three output parsers at the end of
      [src/src/unraid_stats.rs] ([parse_disk_usage], [parse_cpu_temp],
      [parse_array_status]).
    - [Catalog]: Module [UnraidStats] holds the struct, [containers],
      [container_sensors] and the [vec!] literal of
      [UnraidStats::sensors] in three groups ([host_sensors],
      [disk_sensors], [status_sensors]) and [docker_engine_sensors];
      Module [docker_stats] holds the copies of the Docker part in
      [src/src/docker_stats.rs], transcribed on their own and proved
      equal.
    - [Override]: the rest of [UnraidStats::sensors]: [star_id], the
      body of the override loop [apply_overrides], the command sensors
      appended in the map's iteration order, [configure], and [sensors]
      itself as a computation of [M].
    - [Reporter]: the value reporters of [src/src/config.rs]:
      [command_get_value], [system_get_value], [docker_get_value] with
      its inner [list_containers], [docker_container_get_value] in its
      two blocks [fill_stash] and [read_stash], the dispatcher
      [get_value], and [calculate_cpu_percent], all computations of
      [M].
    - [Readings]: the command sensors of the catalogue composed with
      their reporter and their parser: what each runs and which field
      of the output it publishes ([disk_args], [disk_value],
      [disk_unit], [package_temp] name the columns).  It adds no
      definition of code.
    - [Cli]: [src/src/cli.rs], Module [Args]: the record [t] of parsed
      arguments, the options as the [arg] attributes and the types of
      the fields declare them ([specs], with the long and short names
      clap derives, the environment variables, the default values and
      the type [Ty] of the value), the value parser of the port, and
      [from_arg_matches], which builds the record from the values the
      parser found.  A [PathBuf] is the text it is made from.
    - [CliParser], Module [Parser]: [Args::parse] as the clap crate
      runs it on the declarations.  The code of the parser is the
      library's and not in the repository: the model follows the
      behaviour of clap 4 and is the one part of the development, with
      the reader and printer of [Toml] and the derived instances of
      [Serde], that is not a translation of lines under [src/].
      [parse_tokens] reads the command line token by token
      ([parse_long_arg], [parse_short_arg], the option that waits for
      its value), a value is parsed when it is found, by the parser of
      the type of its field ([value_parses]: any text for a [String],
      [parse_u16] for the port, any text but the empty one for a
      [PathBuf]), [add_env] and [add_defaults] fill in what the command
      line left open, and [parse] builds the record.  An error is its
      kind ([Parser.Error]) with the exit code of the process.
    - [Mqtt]: [src/src/mqtt_config.rs], Module [MqttConfig]:
      [from_args_and_file] and [create_mqtt_client].
    - [Publisher]: the rest of [impl UnraidStats] ([new],
      [dump_sensors_toml], [get_device_info], [get_unraid_version],
      [publish_discovery], [publish_stats], [publish_ha_state],
      [publish_raw]; the bodies of the two loops are
      [publish_discovery_step] and [publish_stats_step]) and
      [load_config] of config.rs; the TOML reader and printer are the
      interface [TomlText].
    - [Serde]: what [derive(Serialize, Deserialize)] and the serde
      attributes of config.rs generate, as instances of two classes
      [Serialize] and [Deserialize] over [Toml.Value]: a struct is a
      table ([deserialize_sensor_config], [serialize_sensor] and the
      like: an [Option] field may be absent, any other is required, a
      skipped field takes its default, unknown keys are ignored), the
      enums [Sensors] and [SensorsDump] are tagged by [type], the enums
      without data are their variant names, a [HashMap] is a table read
      entry by entry.  [from_str] and [to_string] compose them with the
      reader and printer of [Toml]; [toml_crate] is the instance of
      [TomlText] the program runs with.
    - [Dump]: the text [dump_sensors_toml] writes, read back as a
      configuration ([dump_as_config], what [load_config] returns on
      it) and as a dump.
    - [Tests]: [src/tests/config.rs], its three tests as values of
      [result unit string] with [expect] and the assertions as
      functions.
    - [Pass]: the value pass as a whole, [publish_stats] composed with
      [sensors] and the reporters: the well-formedness of the sensor
      list ([sensor_wf]), the count of statistics queries
      ([stats_queries], [adds_at_most]) and the sensors whose round
      makes one when the cell is empty ([asks]).  It adds no definition
      of code.
    - [Main]: [src/src/main.rs]: [run] parses the command line and
      hands the record to [main], the rest of the function, with its
      broker branch [publish_to_broker]; the phases of a run
      ([run_phases]).

    ** How state and effects are modelled

    A Rust [String] is a Rocq [string] holding its UTF-8 bytes; the
    character-level methods are modelled on bytes, which is exact for the
    ASCII patterns the sources use; [is_whitespace], [is_numeric] and the
    case functions cover the ASCII range, and differ from Rust's on
    non-ASCII text only.  A mutable [&mut self] method is a function
    from the old value to the new one.  A [HashMap<String, V>] is a
    [gmap string V]; its iteration order, which Rust leaves unspecified,
    is the class [HashOrder] of [Override], constrained only to list a
    permutation of the map's entries; theorems hold for every instance.
    A shared cache cell is a location in the store of [World]; the three
    sensors of one container hold the same location.  A panic ([unwrap]
    on [None], arithmetic overflow under overflow checks) is an outcome
    of the monad, distinct from a returned [None] or [Err].  A closure
    stored in a reporter is a Rocq function.  Every external call (an
    engine query, a command, a file access, a printed line, a publish
    request, the sleep) is an event appended to the history, answered by
    the oracle from the history before it; the program awaits each call
    in turn, so a run is one sequence of events.  The spawned future
    that polls the broker's event loop is the event [EvSpawnPoll]; what it does is
    the broker's side and is part of the oracle's answers.  The text of
    a JSON object lists its members in the byte order of their keys,
    which is serde_json's order without its [preserve_order] feature.

    ** Bounds and fuel

    All definitions are executable.  Recursion is structural except in
    the places named here.  The readers of [Toml] that scan a line
    ([parse_elements], [parse_path]) take the length of the line as
    fuel: every round consumes a byte, and the round-trip theorems show
    that the fuel is enough on every printed line.  [Str.trim_start_matches_go] strips a string pattern
    repeatedly with fuel the length of the text: every round removes a
    non-empty pattern, so the fuel is never exhausted
    ([Str.trim_start_matches_go_enough]).  [RustFloat.shortest_from]
    tries 1 to 17 significant digits: 17 digits determine a binary64
    value.  [RustFloat.strip_zeros] removes at most 20 trailing zeros
    from a string of at most 17 digits.  [RustFloat.f64_of_decimal]
    reads decimal exponents above 310 as overflow and below -330 as
    zero, which is where binary64 leaves its range.  Integers are kept at
    their width: [u64_wrapping_sub], [u64_checked_sub] and [World.u64_sub]
    (which panics under overflow checks and wraps without) for the
    counters of the container statistics, [in_i64] for parsed integers.

    ** What the theorems show

    - [RustStr], [RustNum], [Json], [World]: the contracts of the
      library functions and of the monad that the components lean on;
      in [RustNum] also that a positive integer converted to [f64] is
      a positive number, never a zero or NaN ([f64_of_Z_pos], through
      the rounding functions of the Standard Library's [SpecFloat]).
    - [Config]: [merge] refines [apply_patch] behind its guard; it
      changes exactly the fields the patch carries, never the id or the
      reporter; it can set but never clear [disabled]; it is idempotent;
      a patch whose id contains the wildcard marker is applied to any
      sensor.  [deserialize_sensors] sets each entry's id to its key.
      The names of the device classes round-trip.  The topic functions
      are injective in the id.  The discovery document has exactly the
      members the sensor determines.  [ParseInteger] normalises;
      [ExtractNumber] drops the decimal point.
    - [Hoare]: the rules are sound for the monad: an invariant every
      part keeps is kept by the whole, also across a panic or an early
      return; [emits] is the special case of an invariant on the
      history.
    - [Parsers]: the fields [parse_disk_usage] reads from a [df] table,
      the field [parse_cpu_temp] reads from the package line of a
      [sensors] report, and the value [parse_array_status] reads from a
      status text.
    - [Catalog]: the fifteen built-in ids, their distinctness; the ids
      of the whole catalogue are distinct exactly when the names of the
      containers are; one cache
      cell per container, shared by its three sensors; the two copies of
      the Docker catalogue agree; the icons of container sensors are
      prefixed twice in their discovery documents.
    - [Override]: the wildcard key on every shape of id; the loop body
      refines two patch applications, wildcard then exact; the exact
      entry wins field by field; a wildcard disable is final; the final
      list is the patched catalogue followed by a permutation of the
      command entries; where the ids of the final list are unique and
      where they are not; [sensors] always returns, with exactly the
      external calls listed in [sensors_calls].
    - [Reporter]: a command reporter runs its command once and yields
      the transform of the trimmed output; a Docker engine sensor makes
      one query and turns an engine error into no value; two sensors of
      a container sharing a cache make one statistics query, and a
      filled cache is read without any query; [calculate_cpu_percent]
      is the quotient formula when the counters grow, panics or wraps
      when a counter went backwards; a container without id panics; no
      sample means no value, for the status sensor too; with a zero
      memory total the memory usage is [NaN] when nothing is used and
      [inf] otherwise; the image-size sensor publishes the sum of
      the sizes when they are not negative and the sum fits in [i64],
      and panics or wraps, by build mode, when it does not.
    - [Readings]: on a [df] table, [disk_usage] passes [-BM] and
      publishes the percentage while [disk_total] and [disk_available]
      pass no block size and publish their column as printed, under
      the unit [B]; the temperature sensor runs [sensor] and publishes
      the first temperature of the package line; the array sensor
      publishes the value of the [mdState] line; a program that cannot
      be started gives no value.
    - [Cli]: no two options share a long name, a short name or an
      environment variable, none collides with clap's own, and the
      default values give [Args::default].
    - [CliParser]: the command line that spells out a record is parsed
      as that record, with the command line before the environment
      before the default values ([parse_to_argv]; the record has a
      port in [u16] and no empty path, and an empty path is rejected:
      [empty_path_rejected]); a run without options gets the
      environment and the default values, or the error of a port of
      the environment that is no [u16] ([parse_without_options]); a
      token that begins with a hyphen is never a value
      ([hyphen_value_rejected]); a flag that is a token of an accepted
      command line is set, and an option without short name,
      environment variable and default value is found only when a
      token names it ([not_named_not_found], through the rule
      [get_matches_on] for properties every step keeps); what the
      parser has found is well formed and complete for the options
      with default values, so the record is always built
      ([parse_total]); the short forms of an option read as its long
      forms.
    - [Mqtt]: the settings [from_args_and_file] returns, and when it
      fails; the one connection a run with a host opens, with
      credentials only when user name and password are both given.
    - [Publisher]: with an accepting transport the discovery pass hands
      over one retained message per enabled sensor in list order; a
      rejecting broker ends it at the first enabled sensor; the value
      pass is the pass over the enabled sensors, with one unretained
      message per value; the version the device information carries.
    - [TomlLex], [TomlDoc]: the reader inverts the printer on every
      tree in normal form (keys of a table distinct, plain entries
      before tables, arrays of plain values), whatever bytes the keys
      and strings hold.
    - [Serde]: the laws [RoundTrip] (a value is read back from its
      tree) and [Plain] for strings, booleans, vectors, the two plain
      enums and maps; each struct is read back from its table up to
      its skipped fields; a [Config] whose entries carry their keys is
      read back from its text; an entry without [disabled] is rejected,
      and so is a file without [sensors].
    - [Dump]: the dump of the final list, read back as a configuration,
      reproduces the configured catalogue and drops the command
      sensors; [load_config] on the text of a dump returns that
      configuration; the text read back as a dump keeps every id and
      loses the reporters only.
    - [Tests]: the three tests evaluate to [Ok] on the model.
    - [Pass]: every sensor of the list is well-formed (it has a value
      source, and a container sensor holds a listed container and that
      container's cell); the ids of the list are distinct when the
      container names are and no command entry takes a catalogue id; a
      pass makes at most one statistics query for
      a container whose stream gives a sample, by a loop invariant on
      the store and the history, and for a container whose stream
      never gives one a pass that returns makes exactly one query per
      enabled sensor of the container, by a counting invariant; a pass
      that returns has read every enabled sensor and handed every value
      to the transport.
    - [Main]: dump mode, JSON mode and broker mode keep apart (no run
      prints in broker mode, contacts the broker in JSON mode, and so
      on), returned, failed or panicked; a run that publishes goes
      through set-up, discovery, values and the closing sleep in this
      order; a whole run makes at most one statistics query per
      container; a process started with [--json-output] never contacts
      the broker, and one whose accepted command line names neither
      [--json-output] nor [--sensor-dump] is a broker run, whatever the
      environment holds.

    Theorems with hypotheses come with a closed instance on a concrete
    input ([.._witness]) that evaluates the definitions.

    ** Not modelled

    Of the parser of the command line the help and version texts and
    the wording of the error messages are left out (an error is its
    kind, and the help text clap prints is no event of the model), and
    so are values that are not valid Unicode and abbreviated long
    names, which clap does not accept by default; the parts of TOML
    the program's
    files do not use (numbers, dates, inline tables, arrays of tables,
    dotted keys, multi-line strings and [\u] escapes above U+007F are
    rejected by [Toml.from_str]; a table must be given once and before
    its sub-tables; errors carry no column), the MQTT session
    (rumqttc) beyond the requests made to it, logging (tracing: the
    set-up in [main] and every log line) and the tokio runtime are
    libraries the sources only call.  What the host, the engine, the
    file system and the broker answer is the oracle's: the theorems
    hold for every oracle unless they say otherwise (a broker that
    accepts, or rejects, every message). *)

From Stdlib Require Import ZArith Ascii String.
From stdpp Require Import base tactics option list.

(** This file: the notation scope, Rust's [Result] and iterator
    consumption, the shared tactics and hint database, and the list
    facts more than one component uses. *)

Declare Scope rs_scope.
Delimit Scope rs_scope with rs.

(** ** [Result<T, E>] *)

Inductive result (T E : Type) : Type :=
| Ok (t : T)
| Err (e : E).
Arguments Ok {T E} t.
Arguments Err {T E} e.

Definition result_bind {T U E} (r : result T E) (k : T -> result U E) : result U E :=
  match r with
  | Ok t => k t
  | Err e => Err e
  end.

(** [r.ok()] *)
Definition result_ok {T E} (r : result T E) : option T :=
  match r with
  | Ok t => Some t
  | Err _ => None
  end.

(** [e?] followed by the rest of the block. *)
Notation "'let?' x := e 'in' k" := (result_bind e (fun x => k))
  (at level 10, x name, e at level 100, k at level 200) : rs_scope.

(** [a.or(b)] on options. *)
Definition opt_or {A} (a b : option A) : option A :=
  match a with
  | Some _ => a
  | None => b
  end.

(** ** Iterators

    An iterator in the middle of its run is the list of the items it has
    yet to yield.  A consuming method returns its answer and the items
    left. *)

(** [Iterator::nth(n)]: yields the [n]-th remaining item and consumes it
    and all items before it. *)
Definition iter_nth {A} (n : nat) (it : list A) : option A * list A :=
  (it !! n, drop (S n) it).

(** [Iterator::next()] *)
Definition iter_next {A} (it : list A) : option A * list A :=
  iter_nth 0 it.

(** [Iterator::last()]: consumes the iterator. *)
Definition iter_last {A} (it : list A) : option A := last it.

(** [Iterator::skip(n)] *)
Definition iter_skip {A} (n : nat) (it : list A) : list A := drop n it.

(** [Iterator::find(p)], on an iterator that is dropped afterwards. *)
Definition iter_find {A} (p : A -> bool) (it : list A) : option A :=
  List.find p it.

(** ** Tactics and hints *)

Create HintDb rs discriminated.

(** Case analysis on the scrutinee of the first [match] or [if] of the
    goal, keeping the equation. *)
Ltac case_scrut :=
  lazymatch goal with
  | |- context [match ?x with _ => _ end] =>
      lazymatch x with
      | context [match _ with _ => _ end] => fail
      | _ => let E := fresh "E" in destruct x eqn:E
      end
  end.

(** The closing step of most functional lemmas. *)
Ltac rs_done := simplify_eq/=; eauto with rs; try done.

(** ** Shared facts *)

Section lists.
Context {A : Type}.
Implicit Types (l : list A) (x : A).

Lemma iter_nth_0_cons x l : iter_nth 0 (x :: l) = (Some x, l).
Proof. done. Qed.

Lemma last_cons_cons x y l : last (x :: y :: l) = last (y :: l).
Proof. done. Qed.

Lemma last_is_Some l : is_Some (last l) <-> l ≠ [].
Proof.
  split.
  - intros [x Hx] ->. done.
  - intros Hl. destruct l as [|x l _] using rev_ind; [done|].
    rewrite last_snoc. eauto.
Qed.

Lemma find_some_elem (p : A -> bool) l x :
  List.find p l = Some x -> x ∈ l ∧ p x = true.
Proof. intros [? ?]%find_some. split; [by apply list_elem_of_In|done]. Qed.

End lists.



Lemma opt_or_None_r {A} (a : option A) : opt_or a None = a.
Proof. by destruct a. Qed.
