(* ===== verification/RustStr.v ===== *)
(** The [str] methods the program calls, on [string] read as UTF-8
    bytes, with the lemmas the components share.

    A pattern that is a [char] is an ASCII byte in every call of the
    sources ('_', '/', '%', '+', a double quote), and a multi-byte UTF-8
    sequence never contains an ASCII byte, so matching it byte by byte is
    exact.  White space is the ASCII part of Unicode's [White_Space]
    (U+0009 to U+000D and U+0020); case mapping and the numeric test
    cover the ASCII range and leave other bytes as they are. *)

From Stdlib Require Import Ascii String.
From stdpp Require Import base tactics option list strings.
From S2P Require Import Prelude.

Module Str.

(** ** Characters *)

(** [char::is_whitespace], ASCII range. *)
Definition is_whitespace (c : ascii) : bool := Ascii.is_space c.

(** [char::is_numeric], ASCII range. *)
Definition is_numeric (c : ascii) : bool :=
  bool_decide (48 ≤ nat_of_ascii c ≤ 57).

(** [char::to_ascii_uppercase] on a byte. *)
Definition upper_char (c : ascii) : ascii :=
  let n := nat_of_ascii c in
  if bool_decide (97 ≤ n ≤ 122) then ascii_of_nat (n - 32) else c.

Definition lower_char (c : ascii) : ascii :=
  let n := nat_of_ascii c in
  if bool_decide (65 ≤ n ≤ 90) then ascii_of_nat (n + 32) else c.

(** ** Whole-string operations *)

Fixpoint map_chars (f : ascii -> ascii) (s : string) : string :=
  match s with
  | "" => ""
  | String c s' => String (f c) (map_chars f s')
  end.

(** [chars().filter(p).collect::<String>()] *)
Fixpoint filter_chars (p : ascii -> bool) (s : string) : string :=
  match s with
  | "" => ""
  | String c s' => if p c then String c (filter_chars p s') else filter_chars p s'
  end.

Definition to_uppercase : string -> string := map_chars upper_char.
Definition to_lowercase : string -> string := map_chars lower_char.

(** [s.starts_with(pat)] *)
Definition starts_with (s pat : string) : bool := String.prefix pat s.
Arguments starts_with : simpl never.

(** [s.strip_prefix(pat)] *)
Fixpoint strip_prefix (pat s : string) : option string :=
  match pat, s with
  | "", _ => Some s
  | String p pat', String c s' =>
      if Ascii.eqb p c then strip_prefix pat' s' else None
  | String _ _, "" => None
  end.

(** [s.contains(pat)] for a string pattern. *)
Fixpoint contains (s pat : string) : bool :=
  starts_with s pat ||
  match s with
  | "" => false
  | String _ s' => contains s' pat
  end.

(** [s.split(c)] for a character pattern: the pieces between
    occurrences of [c]; never empty, [""] yields [[""]]. *)
Fixpoint split (c : ascii) (s : string) : list string :=
  match s with
  | "" => [""]
  | String a s' =>
      if Ascii.eqb a c then "" :: split c s'
      else match split c s' with
           | [] => [String a ""]
           | w :: ws => String a w :: ws
           end
  end.

(** [pieces.join(sep)] *)
Fixpoint join (sep : string) (l : list string) : string :=
  match l with
  | [] => ""
  | [w] => w
  | w :: ws => w +:+ sep +:+ join sep ws
  end.

(** [s.trim_start_matches(c)] for a character pattern. *)
Fixpoint trim_start_matches (c : ascii) (s : string) : string :=
  match s with
  | "" => ""
  | String a s' => if Ascii.eqb a c then trim_start_matches c s' else s
  end.

(** Dropping from the end every character that satisfies [p]. *)
Fixpoint trim_end_by (p : ascii -> bool) (s : string) : string :=
  match s with
  | "" => ""
  | String a s' =>
      match trim_end_by p s' with
      | "" => if p a then "" else String a ""
      | t => String a t
      end
  end.

Fixpoint trim_start_by (p : ascii -> bool) (s : string) : string :=
  match s with
  | "" => ""
  | String a s' => if p a then trim_start_by p s' else s
  end.

(** [s.trim_end_matches(c)] *)
Definition trim_end_matches (c : ascii) : string -> string :=
  trim_end_by (Ascii.eqb c).

(** [s.trim_matches(c)] *)
Definition trim_matches (c : ascii) (s : string) : string :=
  trim_end_matches c (trim_start_matches c s).

(** [s.trim_start()], [s.trim_end()], [s.trim()] *)
Definition trim_start : string -> string := trim_start_by is_whitespace.
Definition trim_end : string -> string := trim_end_by is_whitespace.
Definition trim (s : string) : string := trim_end (trim_start s).

(** [s.trim_start_matches(pat)] for a string pattern: strips [pat]
    from the front as long as it is a prefix.  Each round removes
    [length pat] bytes, so [length s] rounds are enough for a pattern
    that is not empty; an empty pattern strips nothing. *)
Fixpoint trim_start_matches_go (fuel : nat) (pat s : string) : string :=
  match fuel with
  | 0 => s
  | S fuel' =>
      match strip_prefix pat s with
      | Some r => trim_start_matches_go fuel' pat r
      | None => s
      end
  end.

Definition trim_start_matches_str (pat s : string) : string :=
  match pat with
  | "" => s
  | _ => trim_start_matches_go (String.length s) pat s
  end.

(** [s.trim_end_matches(pat)] for a string pattern, through the
    reversed strings. *)
Definition trim_end_matches_str (pat s : string) : string :=
  String.rev (trim_start_matches_str (String.rev pat) (String.rev s)).

(** [s.split_inclusive(c)]: pieces that keep their terminator; no
    piece for an empty rest. *)
Fixpoint split_inclusive (c : ascii) (s : string) : list string :=
  match s with
  | "" => []
  | String a s' =>
      if Ascii.eqb a c then String a "" :: split_inclusive c s'
      else match split_inclusive c s' with
           | [] => [String a ""]
           | p :: ps => String a p :: ps
           end
  end.

(** [s.strip_suffix(c)] for a character. *)
Fixpoint strip_suffix_char (c : ascii) (s : string) : option string :=
  match s with
  | "" => None
  | String a "" => if Ascii.eqb a c then Some "" else None
  | String a s' => String a <$> strip_suffix_char c s'
  end.

(** One item of [lines()]: the piece without its line feed, and
    without the carriage return before it. *)
Definition strip_line_ending (piece : string) : string :=
  match strip_suffix_char "010" piece with
  | None => piece
  | Some l =>
      match strip_suffix_char "013" l with
      | None => l
      | Some l' => l'
      end
  end.

(** [s.lines()] *)
Definition lines (s : string) : list string :=
  strip_line_ending <$> split_inclusive "010" s.

(** [s.split_whitespace()]: the maximal runs of non-white-space. *)
Fixpoint split_whitespace (s : string) : list string :=
  match s with
  | "" => []
  | String a s' =>
      if is_whitespace a then split_whitespace s'
      else match s' with
           | "" => [String a ""]
           | String b _ =>
               if is_whitespace b then String a "" :: split_whitespace s'
               else match split_whitespace s' with
                    | [] => [String a ""]
                    | w :: ws => String a w :: ws
                    end
           end
  end.

(** A string free of the byte [c]. *)
Fixpoint free_of (c : ascii) (s : string) : bool :=
  match s with
  | "" => true
  | String a s' => negb (Ascii.eqb a c) && free_of c s'
  end.

(** Every byte of the string satisfies [p]. *)
Fixpoint all_chars (p : ascii -> bool) (s : string) : bool :=
  match s with
  | "" => true
  | String a s' => p a && all_chars p s'
  end.

(** A word: not empty and without white space. *)
Definition is_word (s : string) : bool :=
  negb (bool_decide (s = "")) && all_chars (λ a, negb (is_whitespace a)) s.

(** A line: without line feed and carriage return. *)
Definition is_line (s : string) : bool :=
  free_of "010" s && free_of "013" s.

(** ** Facts on append, length and reversal *)

Section string_facts.
Implicit Types (s t u pat : string) (a c : ascii).

Lemma app_cons a s t : String a s +:+ t = String a (s +:+ t).
Proof. done. Qed.

Lemma app_nil_l s : "" +:+ s = s.
Proof. done. Qed.

Lemma app_nil_r s : s +:+ "" = s.
Proof. induction s; [done|]. rewrite app_cons. by f_equal. Qed.

Lemma app_assoc s t u : (s +:+ t) +:+ u = s +:+ (t +:+ u).
Proof. induction s; [done|]. rewrite !app_cons. by f_equal. Qed.

Lemma length_app s t :
  String.length (s +:+ t) = String.length s + String.length t.
Proof. induction s; [done|]. rewrite app_cons. simpl. by f_equal. Qed.

Lemma app_eq_nil s t : s +:+ t = "" -> s = "" ∧ t = "".
Proof. by destruct s. Qed.

Lemma rev_app_spec s t : String.rev_app s t = String.rev s +:+ t.
Proof.
  unfold String.rev. revert t.
  induction s as [|a s IH]; intros t; [done|]; simpl.
  rewrite IH, (IH (String a "")), app_assoc. done.
Qed.

Lemma rev_cons a s : String.rev (String a s) = String.rev s +:+ String a "".
Proof. unfold String.rev at 1. simpl. apply rev_app_spec. Qed.

Lemma rev_app s t : String.rev (s +:+ t) = String.rev t +:+ String.rev s.
Proof.
  induction s as [|a s IH]; [by rewrite app_nil_r|].
  rewrite app_cons, !rev_cons, IH, app_assoc. done.
Qed.

Lemma rev_involutive s : String.rev (String.rev s) = s.
Proof.
  induction s as [|a s IH]; [done|].
  rewrite rev_cons, rev_app, IH. done.
Qed.

Lemma rev_length s : String.length (String.rev s) = String.length s.
Proof.
  induction s as [|a s IH]; [done|].
  rewrite rev_cons, length_app, IH. simpl. lia.
Qed.

Lemma app_inv_head s t u : s +:+ t = s +:+ u -> t = u.
Proof. apply String.app_inj. Qed.

Lemma app_inv_tail s t u : s +:+ u = t +:+ u -> s = t.
Proof.
  intros H%(f_equal String.rev). rewrite !rev_app in H.
  apply app_inv_head in H. by rewrite <-(rev_involutive s), H, rev_involutive.
Qed.

(** ** Prefixes *)

Lemma strip_prefix_spec pat s r :
  strip_prefix pat s = Some r <-> s = pat +:+ r.
Proof.
  revert s. induction pat as [|p pat IH]; intros s; simpl.
  - rewrite app_nil_l. naive_solver.
  - destruct s as [|c s]; [done|]. rewrite app_cons.
    destruct (Ascii.eqb_spec p c) as [->|]; [rewrite IH|]; split; congruence.
Qed.

Lemma strip_prefix_app pat r : strip_prefix pat (pat +:+ r) = Some r.
Proof. by apply strip_prefix_spec. Qed.

Lemma starts_with_strip_prefix s pat :
  starts_with s pat = bool_decide (is_Some (strip_prefix pat s)).
Proof.
  unfold starts_with. revert s.
  induction pat as [|p pat IH]; intros [|c s]; simpl; try done.
  destruct (Ascii.eqb_spec p c) as [->|Hne].
  - destruct (ascii_dec c c); [apply IH|done].
  - destruct (ascii_dec p c); done.
Qed.

Lemma starts_with_spec s pat :
  starts_with s pat = true <-> ∃ r, s = pat +:+ r.
Proof.
  rewrite starts_with_strip_prefix, bool_decide_eq_true.
  unfold is_Some. by setoid_rewrite strip_prefix_spec.
Qed.

Lemma starts_with_app pat r : starts_with (pat +:+ r) pat = true.
Proof. apply starts_with_spec. eauto. Qed.

(** ** Substrings *)

Lemma contains_spec s pat :
  contains s pat = true <-> ∃ u t, s = u +:+ pat +:+ t.
Proof.
  induction s as [|a s IH]; cbn [contains];
    rewrite orb_true_iff, starts_with_spec.
  - split.
    + intros [[r ->]|?]; [by exists "", r|done].
    + intros (u & t & H). left. symmetry in H.
      apply app_eq_nil in H as [-> H]. eauto.
  - rewrite IH. split.
    + intros [[r ->]|(u & t & ->)]; [by exists "", r|].
      by exists (String a u), t.
    + intros ([|b u] & t & H); [left; eauto|].
      rewrite app_cons in H. simplify_eq. right. eauto.
Qed.

Lemma contains_app u pat t : contains (u +:+ pat +:+ t) pat = true.
Proof. apply contains_spec. eauto. Qed.

Lemma contains_nil_l pat : contains "" pat = true -> pat = "".
Proof.
  intros (u & t & H)%contains_spec. symmetry in H.
  apply app_eq_nil in H as [_ H]. by apply app_eq_nil in H as [H _].
Qed.

(** ** Splitting on a character and joining *)

Lemma split_nonempty c s : split c s ≠ [].
Proof. destruct s as [|a s]; simpl; repeat case_match; done. Qed.

Lemma split_cons a c s :
  split c (String a s) =
    if Ascii.eqb a c then "" :: split c s
    else match split c s with
         | [] => [String a ""]
         | w :: ws => String a w :: ws
         end.
Proof. done. Qed.

Lemma join_cons_cons sep w w' ws :
  join sep (w :: w' :: ws) = w +:+ sep +:+ join sep (w' :: ws).
Proof. done. Qed.

(** Joining the pieces with the separator gives the string back. *)
Lemma join_split c s : join (String c "") (split c s) = s.
Proof.
  induction s as [|a s IH]; [done|]. rewrite split_cons.
  pose proof (split_nonempty c s) as Hne.
  destruct (split c s) as [|w ws]; [done|].
  destruct (Ascii.eqb_spec a c) as [->|_].
  - rewrite join_cons_cons, IH. done.
  - destruct ws as [|w' ws]; [simpl in *; by subst|].
    rewrite join_cons_cons in *. rewrite app_cons. by f_equal.
Qed.

(** No piece contains the separator. *)
Lemma split_free c s : Forall (λ w, free_of c w = true) (split c s).
Proof.
  induction s as [|a s IH]; [by repeat constructor|]. rewrite split_cons.
  destruct (Ascii.eqb_spec a c) as [->|Hne]; [by constructor|].
  apply Ascii.eqb_neq in Hne.
  destruct IH as [|w ws Hw Hws]; repeat constructor; simpl; try done;
    by rewrite Hne.
Qed.

Lemma split_free_id c s : free_of c s = true -> split c s = [s].
Proof.
  induction s as [|a s IH]; [done|]. simpl.
  intros [Ha Hs]%andb_true_iff. apply negb_true_iff in Ha.
  by rewrite Ha, IH.
Qed.

Lemma split_app c u t :
  free_of c u = true -> split c (u +:+ String c t) = u :: split c t.
Proof.
  induction u as [|a u IH]; cbn [free_of].
  - intros _. rewrite app_nil_l, split_cons. by rewrite Ascii.eqb_refl.
  - intros [Ha Hu]%andb_true_iff. apply negb_true_iff in Ha.
    rewrite app_cons, split_cons, Ha, IH; done.
Qed.

(** Splitting a join of separator-free pieces gives the pieces back. *)
Lemma split_join c l :
  l ≠ [] -> Forall (λ w, free_of c w = true) l ->
  split c (join (String c "") l) = l.
Proof.
  intros Hne Hl. induction Hl as [|w ws Hw Hws IH]; [done|].
  destruct ws as [|w' ws]; [by apply split_free_id|].
  rewrite join_cons_cons, app_cons, app_nil_l, split_app, IH; done.
Qed.

(** The pieces of two strings joined by the separator are the pieces of
    the first followed by the pieces of the second. *)
Lemma split_app_sep c s t :
  split c (s +:+ String c t) = split c s ++ split c t.
Proof.
  induction s as [|a s IH].
  - rewrite app_nil_l, split_cons. by rewrite Ascii.eqb_refl.
  - rewrite app_cons, !split_cons, IH.
    pose proof (split_nonempty c s).
    destruct (Ascii.eqb a c), (split c s); done.
Qed.

Lemma split_head_free c s :
  ∃ w ws, split c s = w :: ws ∧ free_of c w = true.
Proof.
  pose proof (split_free c s) as H. pose proof (split_nonempty c s).
  destruct H as [|w ws Hw _]; [done|]. eauto.
Qed.

Lemma free_of_app c s t :
  free_of c (s +:+ t) = free_of c s && free_of c t.
Proof.
  induction s as [|a s IH]; [done|].
  rewrite app_cons; simpl. rewrite IH. by rewrite andb_assoc.
Qed.

Lemma free_of_contains c s :
  free_of c s = true -> contains s (String c "") = false.
Proof.
  intros Hs. apply not_true_iff_false. intros (u & t & ->)%contains_spec.
  rewrite !free_of_app in Hs. simpl in Hs. rewrite Ascii.eqb_refl in Hs.
  by rewrite andb_false_r in Hs.
Qed.

End string_facts.

(** ** Fields and lines *)

Section fields_and_lines.
Implicit Types (s t w line : string) (a c : ascii) (ws : list string).

(** A string that is empty or starts with white space. *)
Definition at_boundary (s : string) : bool :=
  match s with
  | "" => true
  | String b _ => is_whitespace b
  end.

Lemma split_whitespace_cons a s :
  split_whitespace (String a s) =
    if is_whitespace a then split_whitespace s
    else match s with
         | "" => [String a ""]
         | String b _ =>
             if is_whitespace b then String a "" :: split_whitespace s
             else match split_whitespace s with
                  | [] => [String a ""]
                  | w :: ws => String a w :: ws
                  end
         end.
Proof. done. Qed.

Lemma split_whitespace_word_cons a w t :
  is_whitespace a = false ->
  all_chars (λ a, negb (is_whitespace a)) w = true ->
  at_boundary t = true ->
  split_whitespace (String a (w +:+ t)) = String a w :: split_whitespace t.
Proof.
  revert a. induction w as [|a' w IH]; intros a Ha Hw Ht;
    rewrite split_whitespace_cons, Ha.
  - rewrite app_nil_l. destruct t as [|b t]; [done|]. simpl in Ht. by rewrite Ht.
  - apply andb_true_iff in Hw as [Ha' Hw]. apply negb_true_iff in Ha'.
    rewrite app_cons, Ha', IH; done.
Qed.

Lemma split_whitespace_word w t :
  is_word w = true -> at_boundary t = true ->
  split_whitespace (w +:+ t) = w :: split_whitespace t.
Proof.
  unfold is_word. destruct w as [|a w]; [done|].
  intros [Ha Hw]%andb_true_iff Ht. apply andb_true_iff in Hw as [Ha' Hw].
  apply negb_true_iff in Ha'. rewrite app_cons. by apply split_whitespace_word_cons.
Qed.

Lemma split_whitespace_skip a t :
  is_whitespace a = true -> split_whitespace (String a t) = split_whitespace t.
Proof. intros H. by rewrite split_whitespace_cons, H. Qed.

(** The fields of words joined by single spaces are the words. *)
Lemma split_whitespace_join ws :
  Forall (λ w, is_word w = true) ws -> split_whitespace (join " " ws) = ws.
Proof.
  induction 1 as [|w ws Hw Hws IH]; [done|].
  destruct ws as [|w' ws].
  - simpl. rewrite <-(app_nil_r w) at 1. by rewrite split_whitespace_word.
  - rewrite join_cons_cons, split_whitespace_word by done.
    rewrite app_cons, app_nil_l, split_whitespace_skip by done. by rewrite IH.
Qed.

Lemma split_inclusive_free c s :
  free_of c s = true -> split_inclusive c s = match s with "" => [] | _ => [s] end.
Proof.
  induction s as [|a s IH]; [done|]. simpl.
  intros [Ha Hs]%andb_true_iff. apply negb_true_iff in Ha. rewrite Ha, IH by done.
  by destruct s.
Qed.

Lemma split_inclusive_app c s t :
  free_of c s = true ->
  split_inclusive c (s +:+ String c t) = (s +:+ String c "") :: split_inclusive c t.
Proof.
  induction s as [|a s IH]; cbn [free_of].
  - intros _. rewrite !app_nil_l. cbn [split_inclusive]. by rewrite Ascii.eqb_refl.
  - intros [Ha Hs]%andb_true_iff. apply negb_true_iff in Ha.
    rewrite !app_cons. cbn [split_inclusive]. by rewrite Ha, IH.
Qed.

Lemma strip_suffix_char_app c s : strip_suffix_char c (s +:+ String c "") = Some s.
Proof.
  induction s as [|a s IH].
  - rewrite app_nil_l. simpl. by rewrite Ascii.eqb_refl.
  - rewrite app_cons. cbn [strip_suffix_char]. rewrite IH.
    by destruct (s +:+ String c "") eqn:E; [destruct s|].
Qed.

Lemma strip_suffix_char_free c s : free_of c s = true -> strip_suffix_char c s = None.
Proof.
  induction s as [|a s IH]; [done|]. simpl.
  intros [Ha Hs]%andb_true_iff. apply negb_true_iff in Ha.
  rewrite IH by done. destruct s; [|done]. by rewrite Ha.
Qed.

Lemma strip_line_ending_line line :
  is_line line = true ->
  strip_line_ending (line +:+ String "010" "") = line ∧ strip_line_ending line = line.
Proof.
  unfold is_line, strip_line_ending. intros [Hn Hr]%andb_true_iff.
  by rewrite strip_suffix_char_app, !strip_suffix_char_free.
Qed.

(** The lines of a first line, a line feed and a second line. *)
Lemma lines_two s t :
  is_line s = true -> is_line t = true ->
  lines (s +:+ String "010" t) = s :: match t with "" => [] | _ => [t] end.
Proof.
  intros Hs Ht. unfold lines.
  pose proof Hs as [Hn _]%andb_true_iff. pose proof Ht as [Hn' _]%andb_true_iff.
  rewrite split_inclusive_app, split_inclusive_free by done. csimpl.
  rewrite (proj1 (strip_line_ending_line s Hs)).
  destruct t; [done|]. csimpl. by rewrite (proj2 (strip_line_ending_line _ Ht)).
Qed.

Lemma free_of_all_chars c s :
  is_whitespace c = true ->
  all_chars (λ a, negb (is_whitespace a)) s = true -> free_of c s = true.
Proof.
  intros Hc. induction s as [|a s IH]; [done|]. simpl.
  intros [Ha Hs]%andb_true_iff. rewrite IH, andb_true_r by done.
  apply negb_true_iff, Ascii.eqb_neq. intros ->. by rewrite Hc in Ha.
Qed.

Lemma is_word_is_line w : is_word w = true -> is_line w = true.
Proof.
  unfold is_word, is_line. intros [_ Hw]%andb_true_iff.
  by rewrite !free_of_all_chars.
Qed.

Lemma is_line_app s t : is_line (s +:+ t) = is_line s && is_line t.
Proof.
  unfold is_line. rewrite !free_of_app.
  by destruct (free_of "010" s), (free_of "010" t), (free_of "013" s).
Qed.

(** Words joined by spaces make a line. *)
Lemma is_line_join ws :
  Forall (λ w, is_word w = true) ws -> is_line (join " " ws) = true.
Proof.
  induction 1 as [|w ws Hw Hws IH]; [done|]. destruct ws as [|w' ws].
  - by apply is_word_is_line.
  - by rewrite join_cons_cons, !is_line_app, is_word_is_line, IH.
Qed.

Lemma is_line_join_lines sep ws :
  is_line sep = true -> Forall (λ w, is_line w = true) ws -> is_line (join sep ws) = true.
Proof.
  intros Hsep. induction 1 as [|w ws Hw Hws IH]; [done|]. destruct ws as [|w' ws]; [done|].
  by rewrite join_cons_cons, !is_line_app, Hw, Hsep, IH.
Qed.

(** A joined text is at least as long as the number of its pieces,
    when none of them is empty. *)
Lemma join_length sep ws :
  Forall (λ w, w ≠ "") ws -> (length ws ≤ String.length (join sep ws))%nat.
Proof.
  induction 1 as [|w ws Hw Hws IH]; [done|]. destruct ws as [|w' ws].
  - destruct w; [done|]. simpl. lia.
  - rewrite join_cons_cons, !length_app. destruct w; [done|]. simpl in *. lia.
Qed.

(** ** Stripping a prefix repeatedly *)

Lemma strip_prefix_length pat s r :
  strip_prefix pat s = Some r -> String.length s = String.length pat + String.length r.
Proof. intros ->%strip_prefix_spec. apply length_app. Qed.

Lemma starts_with_nil pat : pat ≠ "" -> starts_with "" pat = false.
Proof. by destruct pat. Qed.

(** With fuel for every byte of the string, the loop stops only when
    the pattern is no longer a prefix. *)
Lemma trim_start_matches_go_enough fuel pat s :
  pat ≠ "" -> String.length s ≤ fuel ->
  starts_with (trim_start_matches_go fuel pat s) pat = false.
Proof.
  intros Hpat. revert s. induction fuel as [|fuel IH]; intros s Hlen; simpl.
  - destruct s; [by apply starts_with_nil|simpl in Hlen; lia].
  - destruct (strip_prefix pat s) as [r|] eqn:E.
    + apply IH. apply strip_prefix_length in E. destruct pat; [done|]. simpl in E. lia.
    + rewrite starts_with_strip_prefix, E. by apply bool_decide_eq_false_2, is_Some_None.
Qed.

Lemma join_empty_cons w ws : join "" (w :: ws) = w +:+ join "" ws.
Proof. destruct ws; [by rewrite app_nil_r|done]. Qed.

(** What was removed is a number of copies of the pattern. *)
Lemma trim_start_matches_go_prefix fuel pat s :
  ∃ n, s = join "" (replicate n pat) +:+ trim_start_matches_go fuel pat s.
Proof.
  revert s. induction fuel as [|fuel IH]; intros s; simpl; [by exists 0|].
  destruct (strip_prefix pat s) as [r|] eqn:E; [|by exists 0].
  apply strip_prefix_spec in E as ->. destruct (IH r) as [n Hn].
  exists (S n). cbn [replicate]. by rewrite join_empty_cons, app_assoc, <-Hn.
Qed.

Lemma trim_start_matches_str_once pat v :
  starts_with v pat = false -> trim_start_matches_str pat (pat +:+ v) = v.
Proof.
  intros Hv. unfold trim_start_matches_str. destruct pat as [|p pat]; [done|].
  rewrite starts_with_strip_prefix in Hv. apply bool_decide_eq_false in Hv.
  rewrite length_app. generalize (String p pat) Hv. clear. intros pat Hv.
  destruct pat as [|p pat]; [by destruct Hv|].
  cbn [String.length Nat.add trim_start_matches_go]. rewrite strip_prefix_app.
  destruct (String.length pat + String.length v); cbn [trim_start_matches_go]; [done|].
  destruct (strip_prefix _ v); [|done]. by destruct Hv.
Qed.

Lemma lines_two_nonempty s t :
  is_line s = true -> is_line t = true -> t ≠ "" ->
  lines (s +:+ String "010" t) = [s; t].
Proof. intros Hs Ht Hne. rewrite lines_two by done. by destruct t. Qed.

Lemma filter_chars_app p s t :
  filter_chars p (s +:+ t) = filter_chars p s +:+ filter_chars p t.
Proof.
  induction s as [|c s IH]; [done|].
  rewrite app_cons. cbn [filter_chars]. rewrite IH. by destruct (p c).
Qed.

(** ** Trimming a character from both ends *)

Lemma trim_start_matches_free c s : free_of c s = true -> trim_start_matches c s = s.
Proof. destruct s as [|a s]; [done|]. simpl. by intros [->%negb_true_iff _]%andb_true_iff. Qed.

Lemma trim_end_by_snoc p s a :
  p a = true -> trim_end_by p (s +:+ String a "") = trim_end_by p s.
Proof.
  intros Ha. induction s as [|b s IH]; simpl; [by rewrite Ha|by rewrite IH].
Qed.

Lemma trim_end_matches_free c s : free_of c s = true -> trim_end_matches c s = s.
Proof.
  unfold trim_end_matches. induction s as [|a s IH]; [done|]. simpl.
  intros [Ha Hs]%andb_true_iff. rewrite IH by done.
  destruct s; [|done]. apply negb_true_iff in Ha. by rewrite Ascii.eqb_sym, Ha.
Qed.

(** A text between two copies of a character it does not contain. *)
Lemma trim_matches_between c v :
  free_of c v = true -> trim_matches c (String c (v +:+ String c "")) = v.
Proof.
  intros Hv. unfold trim_matches. simpl. rewrite Ascii.eqb_refl.
  destruct v as [|a v]; simpl; [by rewrite !Ascii.eqb_refl|].
  simpl in Hv. apply andb_true_iff in Hv as [Ha Hv]. apply negb_true_iff in Ha.
  rewrite Ha. change (String a (v +:+ String c "")) with (String a v +:+ String c "").
  unfold trim_end_matches. rewrite trim_end_by_snoc by apply Ascii.eqb_refl.
  apply (trim_end_matches_free c (String a v)). simpl. by rewrite Ha.
Qed.

(** The lines of a text whose first line ends with a line feed. *)
Lemma lines_cons s t :
  is_line s = true -> lines (s +:+ String "010" t) = s :: lines t.
Proof.
  intros Hs. unfold lines. pose proof Hs as [Hn _]%andb_true_iff.
  rewrite split_inclusive_app by done. csimpl.
  by rewrite (proj1 (strip_line_ending_line s Hs)).
Qed.

(** The lines of one line with its line feed. *)
Lemma lines_one s : is_line s = true -> lines (s +:+ String "010" "") = [s].
Proof. intros Hs. by rewrite lines_two. Qed.

End fields_and_lines.

End Str.
