(* ===== verification/RustNum.v ===== *)
(** Numbers as the program has them: [u64] and [i64] as [Z] with the
    range written out, subtraction and summation in their wrapping and
    checked forms, decimal text of integers ([to_string],
    [str::parse::<i64>]), IEEE binary64 and binary32 values as
    [spec_float], fixed-precision formatting [{:.N}], and the interface
    [FloatText] of the shortest-digits formatter and the float parser of
    Rust's core library. *)

From Stdlib Require Import ZArith Ascii String SpecFloat.
From stdpp Require Import base tactics option list strings pretty numbers.
From S2P Require Import Prelude RustStr.

Local Open Scope Z_scope.

(** ** Machine integers *)

Definition u64_modulus : Z := 2 ^ 64.
Definition i64_min : Z := - 2 ^ 63.
Definition i64_max : Z := 2 ^ 63 - 1.

Definition in_u64 (z : Z) : Prop := 0 ≤ z < u64_modulus.
Definition in_i64 (z : Z) : Prop := i64_min ≤ z ≤ i64_max.

(** [a.wrapping_sub(b)] on [u64]: what [a - b] computes without
    overflow checks. *)
Definition u64_wrapping_sub (a b : Z) : Z := (a - b) mod u64_modulus.

(** [a.checked_sub(b)] on [u64]: [None] is the overflow that [a - b]
    panics on under overflow checks. *)
Definition u64_checked_sub (a b : Z) : option Z :=
  if decide (b ≤ a) then Some (a - b) else None.

(** Two's-complement reading of an integer at 64 bits. *)
Definition i64_wrap (z : Z) : Z :=
  (z - i64_min) mod u64_modulus + i64_min.

Definition i64_checked_add (a b : Z) : option Z :=
  if decide (in_i64 (a + b)) then Some (a + b) else None.

(** [iter.sum::<i64>()]: a left fold of [+] from 0, checked. *)
Definition i64_checked_sum (l : list Z) : option Z :=
  foldl (λ acc x, acc ≫= λ a, i64_checked_add a x) (Some 0) l.

Definition i64_wrapping_sum (l : list Z) : Z :=
  foldl (λ acc x, i64_wrap (acc + x)) 0 l.

(** The sum of a list as an integer without width, the reference of the
    two above. *)
Definition Z_sum (l : list Z) : Z := foldr Z.add 0 l.

(** ** Decimal text of integers *)

(** [n.to_string()] for an integer. *)
Definition int_to_string (z : Z) : string := pretty z.

Definition digit_of (c : ascii) : option Z :=
  if Str.is_numeric c then Some (Z.of_nat (nat_of_ascii c) - 48) else None.

Fixpoint parse_digits (acc : Z) (s : string) : option Z :=
  match s with
  | "" => Some acc
  | String c s' => d ← digit_of c; parse_digits (acc * 10 + d) s'
  end.

(** [s.parse::<i64>().ok()]: an optional sign, then one or more ASCII
    digits, and a value in range. *)
Definition parse_i64 (s : string) : option Z :=
  match s with
  | "" => None
  | String c r =>
      if Ascii.eqb c "-" then
        match r with
        | "" => None
        | _ => n ← parse_digits 0 r; guard (in_i64 (- n));; Some (- n)
        end
      else if Ascii.eqb c "+" then
        match r with
        | "" => None
        | _ => n ← parse_digits 0 r; guard (in_i64 n);; Some n
        end
      else n ← parse_digits 0 s; guard (in_i64 n);; Some n
  end.

(** ** Floating point *)

(** A binary64 value: [spec_float] at precision 53 and exponent bound
    1024; a binary32 value: precision 24 and bound 128. *)
Abbreviation f64 := spec_float (only parsing).
Abbreviation f32 := spec_float (only parsing).

Definition f64_prec : Z := 53.
Definition f64_emax : Z := 1024.

(** [n as f64] for an integer [n]: the nearest binary64, ties to even. *)
Definition f64_of_Z (z : Z) : f64 := binary_normalize f64_prec f64_emax z 0 false.

Definition f64_div : f64 -> f64 -> f64 := SFdiv f64_prec f64_emax.
Definition f64_mul : f64 -> f64 -> f64 := SFmul f64_prec f64_emax.

(** The literals [0.0] and [100.0]. *)
Definition f64_zero : f64 := S754_zero false.
Definition f64_100 : f64 := f64_of_Z 100.

(** *** Fixed-precision formatting, [format!("{:.N}", x)]

    The decimal expansion of the exact value, rounded to [N] fractional
    digits, ties to even, the sign kept even when the digits are all
    zero. *)

(** The integer nearest to [a / b] for [b > 0], ties to even. *)
Definition div_round_half_even (a b : Z) : Z :=
  let q := a / b in
  match 2 * (a mod b) ?= b with
  | Lt => q
  | Gt => q + 1
  | Eq => if Z.even q then q else q + 1
  end.

(** [m * 2^e * 10^n] rounded to an integer. *)
Definition scaled_round (n : nat) (m : positive) (e : Z) : Z :=
  if 0 <=? e then Z.pos m * 2 ^ e * 10 ^ Z.of_nat n
  else div_round_half_even (Z.pos m * 10 ^ Z.of_nat n) (2 ^ (- e)).

Fixpoint zeros (n : nat) : string :=
  match n with
  | O => ""
  | S n' => String "0" (zeros n')
  end.

(** The [n] fractional digits of the scaled value [v]. *)
Definition frac_digits (n : nat) (v : Z) : string :=
  match n with
  | O => ""
  | _ =>
      let d := int_to_string (v mod 10 ^ Z.of_nat n) in
      "." +:+ zeros (n - String.length d) +:+ d
  end.

Definition sign_text (s : bool) : string := if s then "-" else "".

Definition fmt_fixed (n : nat) (x : spec_float) : string :=
  match x with
  | S754_nan => "NaN"
  | S754_infinity s => sign_text s +:+ "inf"
  | S754_zero s => sign_text s +:+ "0" +:+ frac_digits n 0
  | S754_finite s m e =>
      let v := scaled_round n m e in
      sign_text s +:+ int_to_string (v / 10 ^ Z.of_nat n) +:+ frac_digits n v
  end.

(** *** The text interface of floats

    [parse_f64 s] is [s.parse::<f64>().ok()] and [display_f64 x] is
    [format!("{}", x)], which is also [x.to_string()]: the shortest
    decimal digits that read back as [x].  Both belong to Rust's core
    library; the components are written and proved against this
    interface. *)
Class FloatText := {
  parse_f64 : string -> option f64;
  display_f64 : f64 -> string;
}.

(** ** Facts *)

Section integers.
Implicit Types (a b z : Z).

Lemma u64_wrapping_sub_range a b : in_u64 (u64_wrapping_sub a b).
Proof. unfold in_u64, u64_wrapping_sub. by apply Z.mod_pos_bound. Qed.

(** Without overflow the two subtractions agree. *)
Lemma u64_sub_agree a b :
  in_u64 a -> in_u64 b -> b ≤ a ->
  u64_checked_sub a b = Some (u64_wrapping_sub a b).
Proof.
  unfold u64_checked_sub, u64_wrapping_sub, in_u64. intros ???.
  rewrite decide_True by done. f_equal. rewrite Z.mod_small; lia.
Qed.

(** On overflow the wrapped difference is strictly positive: a counter
    that went backwards reads as a large increase. *)
Lemma u64_wrapping_sub_underflow a b :
  in_u64 a -> in_u64 b -> a < b ->
  u64_checked_sub a b = None ∧ u64_wrapping_sub a b = a - b + u64_modulus ∧
  0 < u64_wrapping_sub a b.
Proof.
  unfold u64_checked_sub, u64_wrapping_sub, in_u64. intros ???.
  rewrite decide_False by lia.
  assert ((a - b) mod u64_modulus = a - b + u64_modulus) as ->;
    [|split_and!; [done..|lia]].
  symmetry. apply (Z.mod_unique_pos _ _ (-1)); lia.
Qed.

Lemma i64_wrap_range z : in_i64 (i64_wrap z).
Proof.
  unfold in_i64, i64_wrap.
  pose proof (Z.mod_pos_bound (z - i64_min) u64_modulus eq_refl).
  unfold i64_min, i64_max, u64_modulus in *. lia.
Qed.

Lemma i64_wrap_id z : in_i64 z -> i64_wrap z = z.
Proof.
  unfold in_i64, i64_wrap, i64_min, i64_max, u64_modulus. intros ?.
  rewrite Z.mod_small; lia.
Qed.

(** *** Sums at 64 bits

    The wrapping sum is the sum reduced to the range; the checked sum
    is the sum when no partial sum leaves the range, which is the case
    for sizes that are not negative and whose sum fits. *)

Lemma Z_sum_nonneg l : Forall (λ x, 0 ≤ x) l -> 0 ≤ Z_sum l.
Proof. induction 1; simpl; lia. Qed.

Lemma i64_wrap_add a b : i64_wrap (i64_wrap a + b) = i64_wrap (a + b).
Proof.
  unfold i64_wrap. f_equal.
  replace ((a - i64_min) `mod` u64_modulus + i64_min + b - i64_min)
    with ((a - i64_min) `mod` u64_modulus + b) by lia.
  rewrite Zplus_mod_idemp_l. f_equal. lia.
Qed.

Lemma i64_wrapping_fold acc l :
  foldl (λ acc x, i64_wrap (acc + x)) (i64_wrap acc) l = i64_wrap (acc + Z_sum l).
Proof.
  revert acc. induction l as [|x l IH]; intros acc; simpl; [by rewrite Z.add_0_r|].
  by rewrite i64_wrap_add, IH, Z.add_assoc.
Qed.

Lemma i64_wrapping_sum_wrap l : i64_wrapping_sum l = i64_wrap (Z_sum l).
Proof. apply (i64_wrapping_fold 0). Qed.

Lemma i64_checked_fold_None l :
  foldl (λ acc x, acc ≫= λ a, i64_checked_add a x) None l = None.
Proof. by induction l. Qed.

Lemma i64_checked_fold_Some acc l t :
  foldl (λ acc x, acc ≫= λ a, i64_checked_add a x) (Some acc) l = Some t ->
  in_i64 acc -> t = acc + Z_sum l ∧ in_i64 t.
Proof.
  revert acc. induction l as [|x l IH]; intros acc; simpl.
  - intros [= <-] ?. by rewrite Z.add_0_r.
  - unfold i64_checked_add at 2. case_decide as Hx; [|by rewrite i64_checked_fold_None].
    intros Ht _. destruct (IH _ Ht Hx) as [-> ?]. split; [lia|done].
Qed.

Lemma i64_checked_fold_nonneg acc l :
  0 ≤ acc -> Forall (λ x, 0 ≤ x) l -> acc + Z_sum l ≤ i64_max ->
  foldl (λ acc x, acc ≫= λ a, i64_checked_add a x) (Some acc) l = Some (acc + Z_sum l).
Proof.
  intros Hacc Hl. revert acc Hacc.
  induction Hl as [|x l Hx Hl IH]; intros acc Hacc; simpl; [by rewrite Z.add_0_r|].
  pose proof (Z_sum_nonneg l Hl).
  intros Hsum. unfold i64_checked_add at 2.
  rewrite decide_True by (unfold in_i64, i64_min; lia).
  rewrite IH by lia. f_equal. lia.
Qed.

(** Without overflow the two build modes compute the same sum. *)
Lemma i64_sum_agree l t : i64_checked_sum l = Some t -> i64_wrapping_sum l = t.
Proof.
  intros Ht. apply i64_checked_fold_Some in Ht as [-> Ht]; [|by unfold in_i64].
  rewrite i64_wrapping_sum_wrap. by apply i64_wrap_id.
Qed.

Lemma i64_checked_sum_nonneg l :
  Forall (λ x, 0 ≤ x) l -> Z_sum l ≤ i64_max -> i64_checked_sum l = Some (Z_sum l).
Proof. intros. by apply (i64_checked_fold_nonneg 0). Qed.

End integers.

(** ** Printing and parsing integers *)

Section decimal_text.
Implicit Types (s t : string) (acc z : Z) (x d : N).

Lemma digit_of_pretty_char d :
  (d < 10)%N -> digit_of (pretty_N_char d) = Some (Z.of_N d).
Proof.
  intros Hd.
  assert (d = 0 ∨ d = 1 ∨ d = 2 ∨ d = 3 ∨ d = 4 ∨ d = 5 ∨ d = 6 ∨ d = 7
          ∨ d = 8 ∨ d = 9)%N as Hcases by lia.
  repeat (destruct Hcases as [->|Hcases]; [done|]). by subst.
Qed.

Lemma is_numeric_pretty_char d : Str.is_numeric (pretty_N_char d) = true.
Proof. unfold pretty_N_char. by repeat case_match. Qed.

Lemma parse_digits_app acc s t :
  parse_digits acc (s +:+ t) = parse_digits acc s ≫= λ a, parse_digits a t.
Proof.
  revert acc. induction s as [|c s IH]; intros acc; [done|].
  rewrite Str.app_cons. simpl. destruct (digit_of c); simpl; [apply IH|done].
Qed.

Lemma pretty_N_go_app x s : pretty_N_go x s = pretty_N_go x "" +:+ s.
Proof.
  revert s. induction (N.lt_wf_0 x) as [x _ IH]; intros s.
  destruct (decide (x = 0)%N) as [->|Hx]; [done|].
  assert (x `div` 10 < x)%N as Hlt by (apply N.div_lt; lia).
  rewrite !(pretty_N_go_step x) by lia.
  rewrite (IH _ Hlt (String _ s)), (IH _ Hlt (String _ "")).
  by rewrite Str.app_assoc.
Qed.

Lemma parse_digits_pretty_N_go x :
  parse_digits 0 (pretty_N_go x "") = Some (Z.of_N x).
Proof.
  induction (N.lt_wf_0 x) as [x _ IH].
  destruct (decide (x = 0)%N) as [->|Hx]; [done|].
  rewrite pretty_N_go_step, pretty_N_go_app, parse_digits_app by lia.
  rewrite IH by (apply N.div_lt; lia). simpl.
  rewrite digit_of_pretty_char by (apply N.mod_lt; lia). simpl. f_equal.
  rewrite (N.div_mod x 10) at 3 by done. lia.
Qed.

(** The text of a positive number starts with a digit. *)
Lemma pretty_N_go_head x :
  (0 < x)%N -> ∃ c r, pretty_N_go x "" = String c r ∧ Str.is_numeric c = true.
Proof.
  induction (N.lt_wf_0 x) as [x _ IH]. intros Hx.
  rewrite pretty_N_go_step, pretty_N_go_app by done.
  destruct (decide (x `div` 10 = 0)%N) as [->|Hq].
  - eexists _, _. split; [done|apply is_numeric_pretty_char].
  - destruct (IH (x `div` 10)%N) as (c & r & -> & Hc);
      [by apply N.div_lt|by apply N.neq_0_lt_0|].
    eexists _, _. split; [by rewrite Str.app_cons|done].
Qed.

Lemma sign_not_numeric c :
  Str.is_numeric c = true -> Ascii.eqb c "-" = false ∧ Ascii.eqb c "+" = false.
Proof.
  intros Hc. split; apply Ascii.eqb_neq; intros ->; done.
Qed.

Lemma parse_i64_unsigned c r :
  Str.is_numeric c = true ->
  parse_i64 (String c r) = n ← parse_digits 0 (String c r); guard (in_i64 n);; Some n.
Proof.
  intros [Hm Hp]%sign_not_numeric. unfold parse_i64. by rewrite Hm, Hp.
Qed.

Lemma parse_i64_minus s :
  s ≠ "" ->
  parse_i64 (String "-" s) = n ← parse_digits 0 s; guard (in_i64 (- n));; Some (- n).
Proof. by destruct s. Qed.

Lemma parse_i64_in_range s z : parse_i64 s = Some z -> in_i64 z.
Proof.
  unfold parse_i64. intros Hs.
  repeat case_match; simplify_option_eq; done.
Qed.

(** Reading back the decimal text of an [i64] gives the number. *)
Lemma parse_i64_int_to_string z : in_i64 z -> parse_i64 (int_to_string z) = Some z.
Proof.
  intros Hz. unfold int_to_string, pretty, pretty_Z.
  destruct z as [|p|p]; [done|..]; unfold pretty, pretty_positive, pretty, pretty_N;
    rewrite decide_False by done;
    destruct (pretty_N_go_head (N.pos p)) as (c & r & E & Hc); try lia.
  - rewrite E, parse_i64_unsigned, <-E, parse_digits_pretty_N_go by done.
    simpl. by rewrite option_guard_True.
  - rewrite Str.app_cons, Str.app_nil_l, parse_i64_minus by (by rewrite E).
    rewrite parse_digits_pretty_N_go. simpl. by rewrite option_guard_True.
Qed.

End decimal_text.

(** ** Facts on the conversion of integers to floats

    Rounding shifts the mantissa of a number to the precision of the
    format: a positive mantissa above the least exponent stays
    positive. *)

Section rounding.
Context (prec emax : Z) (Hprec : 0 < prec).
Implicit Types (m p : positive) (e k : Z) (mrs : shr_record).

Lemma shr_1_pow k mrs : 0 ≤ k -> 2 ^ (k + 1) ≤ shr_m mrs -> 2 ^ k ≤ shr_m (shr_1 mrs).
Proof.
  intros Hk. rewrite Z.pow_add_r by lia. pose proof (Z.pow_pos_nonneg 2 k).
  destruct mrs as [[|[p|p|]|[p|p|]] r s]; simpl; lia.
Qed.

Lemma iter_shr_1_pow p : ∀ k mrs,
  0 ≤ k -> 2 ^ (k + Z.pos p) ≤ shr_m mrs -> 2 ^ k ≤ shr_m (SpecFloat.iter_pos shr_1 p mrs).
Proof.
  induction p as [p IH|p IH|]; intros k mrs Hk Hm; simpl.
  - apply IH; [done|]. apply IH; [lia|]. apply shr_1_pow; [lia|].
    by replace (k + Z.pos p + Z.pos p + 1) with (k + Z.pos p~1) by lia.
  - apply IH; [done|]. apply IH; [lia|].
    by replace (k + Z.pos p + Z.pos p) with (k + Z.pos p~0) by lia.
  - by apply shr_1_pow.
Qed.

Lemma digits2_pos_le m : 2 ^ (Z.pos (digits2_pos m) - 1) ≤ Z.pos m.
Proof.
  induction m as [m IH|m IH|]; simpl; [| |done];
    rewrite Pos2Z.inj_succ, Z.sub_1_r, Z.pred_succ;
    replace (Z.pos (digits2_pos m)) with (Z.pos (digits2_pos m) - 1 + 1) by lia;
    rewrite Z.pow_add_r by lia; lia.
Qed.

Lemma shr_m_of_loc z l : shr_m (shr_record_of_loc z l) = z.
Proof. by destruct l as [|[]]. Qed.

(** The first step of rounding keeps a positive mantissa positive. *)
Lemma shr_fexp_pos m e l :
  emin prec emax ≤ e ->
  0 < shr_m (shr_fexp prec emax (Z.pos m) e l).1 ∧
  emin prec emax ≤ (shr_fexp prec emax (Z.pos m) e l).2.
Proof.
  intros He. unfold shr_fexp, shr, Zdigits2, fexp.
  destruct (Z.max _ _ - e) as [|p|p] eqn:Hn; simpl; rewrite ?shr_m_of_loc; [lia| |lia].
  split; [|lia]. pose proof (digits2_pos_le m) as Hd.
  enough (2 ^ 0 ≤ shr_m (SpecFloat.iter_pos shr_1 p (shr_record_of_loc (Z.pos m) l))) by lia.
  apply iter_shr_1_pow; [done|]. rewrite shr_m_of_loc. etrans; [|exact Hd].
  apply Z.pow_le_mono_r; lia.
Qed.

Lemma round_nearest_even_le z l : z ≤ round_nearest_even z l.
Proof. destruct l as [|[]]; simpl; try case_match; lia. Qed.

(** A positive number does not round to zero. *)
Lemma binary_round_aux_pos sx m e l :
  emin prec emax ≤ e ->
  match binary_round_aux prec emax sx (Z.pos m) e l with
  | S754_finite s _ _ | S754_infinity s => s = sx
  | _ => False
  end.
Proof.
  intros He. unfold binary_round_aux.
  destruct (shr_fexp_pos m e l He) as [Hm1 He1].
  destruct (shr_fexp prec emax (Z.pos m) e l) as [mrs1 e1]. simpl in *.
  pose proof (round_nearest_even_le (shr_m mrs1) (loc_of_shr_record mrs1)) as Hround.
  destruct (round_nearest_even _ _) as [|m2|m2]; [lia| |lia].
  destruct (shr_fexp_pos m2 e1 loc_Exact He1) as [Hm2 _].
  destruct (shr_fexp prec emax (Z.pos m2) e1 loc_Exact) as [mrs2 e2]. simpl in *.
  destruct (shr_m mrs2); [lia| |lia]. by destruct (_ <=? _).
Qed.

(** So does an integer that is converted. *)
Lemma binary_normalize_pos z :
  0 < z -> emin prec emax ≤ 0 ->
  match binary_normalize prec emax z 0 false with
  | S754_finite s _ _ | S754_infinity s => s = false
  | _ => False
  end.
Proof.
  intros Hz He. destruct z as [|m|m]; [lia| |lia]. unfold binary_normalize, binary_round, shl_align.
  destruct (fexp _ _ _ - 0) eqn:Hn; try by apply binary_round_aux_pos.
  apply binary_round_aux_pos. unfold fexp in *. lia.
Qed.

End rounding.

(** A positive number or positive infinity: neither a zero nor NaN. *)
Definition f64_positive (x : f64) : Prop :=
  match x with
  | S754_finite false _ _ | S754_infinity false => True
  | _ => False
  end.

(** [n as f64] for a positive integer. *)
Lemma f64_of_Z_pos z : 0 < z -> f64_positive (f64_of_Z z).
Proof.
  intros Hz. unfold f64_of_Z, f64_positive.
  assert (emin f64_prec f64_emax ≤ 0) as He by done.
  pose proof (binary_normalize_pos f64_prec f64_emax eq_refl z Hz He) as H.
  by destruct (binary_normalize _ _ _ _ _) as [?|[]| |[] ? ?].
Qed.

(** A positive number divided by zero, and that times a hundred. *)
Lemma f64_div_zero x : f64_positive x -> f64_div x f64_zero = S754_infinity false.
Proof. by destruct x as [?|[]| |[] ? ?]. Qed.

Lemma f64_mul_infinity_100 : f64_mul (S754_infinity false) f64_100 = S754_infinity false.
Proof. done. Qed.
