(* ===== verification/RustFloat.v ===== *)
(** The float parser and the shortest-digits formatter of Rust's core
    library, as executable functions on [spec_float], and the instance
    of [FloatText] the witnesses evaluate with.

    [parse_f64_text] accepts what [<f64 as FromStr>] accepts (an optional
    sign, then [inf], [infinity] or [nan] in any letter case, or decimal
    digits with an optional point, at least one digit, and an optional
    exponent) and returns the binary64 value nearest to the decimal,
    ties to even, infinity beyond the range.  [display_f64_text] prints,
    as [Display] does, the shortest decimal digits that read back as the
    value, the nearest such digits when there is a choice, in positional
    notation without exponent. *)

From Stdlib Require Import ZArith Ascii String SpecFloat.
From stdpp Require Import base tactics option list numbers strings.
From S2P Require Import Prelude RustStr RustNum.

Local Open Scope Z_scope.

(** ** From a decimal to the nearest binary64 *)

(** The number of decimal digits of a positive integer. *)
Definition decimal_length (n : Z) : Z := Z.of_nat (String.length (int_to_string n)).

(** The binary64 nearest to [m * 10^e] for [m > 0].  Beyond 310 decimal
    digits before the point the value is above the largest finite
    binary64, and below 330 zeros after the point it is less than half
    the smallest one, so the powers of ten that are computed stay small.
    A negative [e] is handled by a quotient of at least 64 bits with the
    remainder kept as a sticky lowest bit. *)
Definition f64_of_decimal (m e : Z) : f64 :=
  if m <=? 0 then S754_zero false
  else if 310 <? decimal_length m + e then S754_infinity false
  else if decimal_length m + e <? -330 then S754_zero false
  else if 0 <=? e then binary_normalize f64_prec f64_emax (m * 10 ^ e) 0 false
  else
    let d := 10 ^ (- e) in
    let s := Z.max 0 (64 + Z.log2 d - Z.log2 m + 1) in
    let q := (m * 2 ^ s) / d in
    let sticky := if (m * 2 ^ s) mod d =? 0 then 0 else 1 in
    binary_normalize f64_prec f64_emax (2 * q + sticky) (- s - 1) false.

Definition f64_neg (x : f64) : f64 := SFopp x.

(** ** Parsing *)

(** The longest prefix of ASCII digits, and the rest. *)
Fixpoint span_digits (s : string) : string * string :=
  match s with
  | "" => ("", "")
  | String c s' =>
      if Str.is_numeric c then let '(ds, r) := span_digits s' in (String c ds, r)
      else ("", s)
  end.

(** A leading sign, and the rest. *)
Definition split_sign (s : string) : bool * string :=
  match s with
  | "" => (false, "")
  | String c r =>
      if Ascii.eqb c "-" then (true, r)
      else if Ascii.eqb c "+" then (false, r)
      else (false, s)
  end.

(** The exponent part: nothing, or [e] or [E], an optional sign, and one
    or more digits up to the end of the text. *)
Definition parse_exponent (s : string) : option Z :=
  match s with
  | "" => Some 0
  | String c r =>
      if Ascii.eqb c "e" || Ascii.eqb c "E" then
        let '(neg, r) := split_sign r in
        let '(ds, rest) := span_digits r in
        match ds, rest with
        | String _ _, "" => (λ n, if neg : bool then - n else n) <$> parse_digits 0 ds
        | _, _ => None
        end
      else None
  end.

(** A decimal number without sign as mantissa and power of ten. *)
Definition parse_decimal (s : string) : option (Z * Z) :=
  let '(int_part, r) := span_digits s in
  let '(frac_part, r) :=
    match r with
    | String "." r' => span_digits r'
    | _ => ("", r)
    end in
  match int_part +:+ frac_part with
  | "" => None
  | digits =>
      e ← parse_exponent r;
      m ← parse_digits 0 digits;
      Some (m, e - Z.of_nat (String.length frac_part))
  end.

Definition parse_special (s : string) : option f64 :=
  let l := Str.to_lowercase s in
  if bool_decide (l = "nan") then Some S754_nan
  else if bool_decide (l = "inf") || bool_decide (l = "infinity")
  then Some (S754_infinity false)
  else None.

(** [s.parse::<f64>().ok()] *)
Definition parse_f64_text (s : string) : option f64 :=
  let '(neg, r) := split_sign s in
  let magnitude :=
    match parse_decimal r with
    | Some (m, e) => Some (f64_of_decimal m e)
    | None => parse_special r
    end in
  (λ x, if neg : bool then f64_neg x else x) <$> magnitude.

(** ** Shortest digits *)

(** A positive value as a fraction. *)
Definition fraction_of (m : positive) (e : Z) : Z * Z :=
  if 0 <=? e then (Z.pos m * 2 ^ e, 1) else (Z.pos m, 2 ^ (- e)).

(** [num / den < 10^k] *)
Definition below_pow10 (num den k : Z) : bool :=
  if 0 <=? k then num <? den * 10 ^ k else num * 10 ^ (- k) <? den.

(** The decimal exponent of a positive fraction: the least [k] with
    [num / den < 10^k].  The estimate from the binary logarithms is off
    by at most two. *)
Definition decimal_exponent (num den : Z) : Z :=
  let est := (Z.log2 num - Z.log2 den) * 30103 / 100000 in
  let k0 := est - 1 in
  if below_pow10 num den k0 then k0
  else if below_pow10 num den (k0 + 1) then k0 + 1
  else if below_pow10 num den (k0 + 2) then k0 + 2
  else if below_pow10 num den (k0 + 3) then k0 + 3
  else k0 + 4.

(** The value cut to [n] significant digits: the integer
    [floor (num / den * 10^(n - k))]. *)
Definition floor_digits (num den k n : Z) : Z :=
  if 0 <=? n - k then (num * 10 ^ (n - k)) / den
  else num / (den * 10 ^ (k - n)).

(** Does the decimal [d * 10^(k - n)] read back as [x]? *)
Definition reads_back (x : f64) (d k n : Z) : bool :=
  match SFcompare (f64_of_decimal d (k - n)) x with
  | Some Eq => true
  | _ => false
  end.

(** Is [lo] at least as near to the value as [lo + 1], in units of
    [10^(k - n)]?  On a tie the even one wins. *)
Definition lower_is_nearer (num den k n lo : Z) : bool :=
  let '(a, b) :=
    if 0 <=? n - k then (2 * num * 10 ^ (n - k), den)
    else (2 * num, den * 10 ^ (k - n)) in
  match a ?= (2 * lo + 1) * b with
  | Lt => true
  | Gt => false
  | Eq => Z.even lo
  end.

(** The digits of length [n] that read back as [x], if there are. *)
Definition digits_at (x : f64) (num den k n : Z) : option Z :=
  let lo := floor_digits num den k n in
  let hi := lo + 1 in
  match reads_back x lo k n, reads_back x hi k n with
  | true, true => Some (if lower_is_nearer num den k n lo then lo else hi)
  | true, false => Some lo
  | false, true => Some hi
  | false, false => None
  end.

(** The first length from [n] on at which digits read back; seventeen
    digits always do, so [fuel] is seventeen at the call. *)
Fixpoint shortest_from (fuel : nat) (x : f64) (num den k n : Z) : Z * Z :=
  match fuel with
  | O => (floor_digits num den k n, n)
  | S fuel' =>
      match digits_at x num den k n with
      | Some d => (d, n)
      | None => shortest_from fuel' x num den k (n + 1)
      end
  end.

(** Trailing zeros of the digits removed: the digits and their number. *)
Fixpoint strip_zeros (fuel : nat) (d n : Z) : Z * Z :=
  match fuel with
  | O => (d, n)
  | S fuel' => if (d mod 10 =? 0) && (1 <? n) then strip_zeros fuel' (d / 10) (n - 1)
               else (d, n)
  end.

(** Digits [d] with decimal exponent [k] (the value is [0.d * 10^k]) in
    positional notation. *)
Definition positional (d k : Z) : string :=
  let ds := int_to_string d in
  let len := Z.of_nat (String.length ds) in
  if k <=? 0 then "0." +:+ zeros (Z.to_nat (- k)) +:+ ds
  else if k <? len then
    String.substring 0 (Z.to_nat k) ds +:+ "." +:+
    String.substring (Z.to_nat k) (Z.to_nat (len - k)) ds
  else ds +:+ zeros (Z.to_nat (k - len)).

(** [format!("{}", x)] *)
Definition display_f64_text (x : f64) : string :=
  match x with
  | S754_nan => "NaN"
  | S754_infinity s => sign_text s +:+ "inf"
  | S754_zero s => sign_text s +:+ "0"
  | S754_finite s m e =>
      let '(num, den) := fraction_of m e in
      let k := decimal_exponent num den in
      let '(d, n) := shortest_from 17 (S754_finite false m e) num den k 1 in
      (* the upper neighbour may have one digit more than asked for *)
      let k := if decimal_length d =? n then k else k + 1 in
      let '(d, _) := strip_zeros 20 d (decimal_length d) in
      sign_text s +:+ positional d k
  end.

#[export] Instance rust_float_text : FloatText := {|
  parse_f64 := parse_f64_text;
  display_f64 := display_f64_text;
|}.
