(* ===== verification/Json.v ===== *)
(** The [serde_json::Value] documents the program builds with the
    [json!] macro and by index assignment.  An object is a finite map
    keyed by string, as [serde_json::Map] is; two documents with the same
    members are equal whatever the order they were written in. *)

From Stdlib Require Import ZArith Ascii String.
From stdpp Require Import base tactics option list gmap strings sorting.
From S2P Require Import Prelude RustStr RustNum.

Module Json.

#[local] Set Warnings "-register-all".

Inductive Value : Type :=
| Null
| Bool (b : bool)
| Number (n : Z)
| String (s : string)
| Array (l : list Value)
| Object (m : gmap string Value).

(** [json!({ k1: v1, ... })]: later members replace earlier ones with
    the same key. *)
Definition obj (members : list (string * Value)) : Value :=
  Object (foldl (λ m kv, <[kv.1 := kv.2]> m) ∅ members).

(** [json!(o)] for an [Option<String>]: [null] or the string. *)
Definition of_option_string (o : option string) : Value :=
  match o with
  | Some s => String s
  | None => Null
  end.

(** [json!([s1, ...])] for strings. *)
Definition of_strings (l : list string) : Value := Array (String <$> l).

(** [doc[key] = v]: on an object, inserts or replaces the member; on
    [null], makes it an object with that member; on anything else
    [IndexMut] panics, which is [None] here. *)
Definition index_set (key : string) (v : Value) (doc : Value) : option Value :=
  match doc with
  | Object m => Some (Object (<[key := v]> m))
  | Null => Some (Object {[key := v]})
  | _ => None
  end.

(** [doc.get(key)] *)
Definition get (key : string) (doc : Value) : option Value :=
  match doc with
  | Object m => m !! key
  | _ => None
  end.

Definition is_object (doc : Value) : bool :=
  match doc with
  | Object _ => true
  | _ => false
  end.

(** ** Printing: [doc.to_string()]

    The compact form without white space.  The members of an object are
    printed in the order of their keys ([serde_json::Map] is a B-tree
    map when the crate's [preserve_order] feature is off, which is the
    default).  In a string the double quote, the backslash and the
    control characters below U+0020 are escaped, the latter by their
    short form or as [\u00xx] with lower-case digits; every other byte
    is printed as it is. *)

Definition quote : ascii := ascii_of_nat 34.

Definition hex_digit (n : nat) : ascii :=
  if bool_decide (n < 10)%nat then ascii_of_nat (48 + n) else ascii_of_nat (87 + n).

Definition escape_char (c : ascii) : string :=
  let n := nat_of_ascii c in
  if bool_decide (n = 34)%nat then String.String "\" (String.String quote "")
  else if bool_decide (n = 92)%nat then "\\"
  else if bool_decide (n = 8)%nat then "\b"
  else if bool_decide (n = 12)%nat then "\f"
  else if bool_decide (n = 10)%nat then "\n"
  else if bool_decide (n = 13)%nat then "\r"
  else if bool_decide (n = 9)%nat then "\t"
  else if bool_decide (n < 32)%nat then
    "\u00" +:+ String.String (hex_digit (n / 16)) (String.String (hex_digit (n mod 16)) "")
  else String.String c "".

Fixpoint escape (s : string) : string :=
  match s with
  | "" => ""
  | String.String c s' => escape_char c +:+ escape s'
  end.

Definition quoted (s : string) : string :=
  String.String quote (escape s) +:+ String.String quote "".

(** The order of two members of an object: the byte order of their
    keys. *)
Definition key_le (a b : string * string) : Prop := String.leb a.1 b.1 = true.

#[local] Instance key_le_dec a b : Decision (key_le a b) :=
  decide (String.leb a.1 b.1 = true).

Fixpoint to_string (v : Value) : string :=
  match v with
  | Null => "null"
  | Bool b => if b then "true" else "false"
  | Number n => int_to_string n
  | String s => quoted s
  | Array l => "[" +:+ Str.join "," (to_string <$> l) +:+ "]"
  | Object m =>
      "{" +:+ Str.join ","
                ((λ kv : string * string, quoted kv.1 +:+ ":" +:+ kv.2)
                   <$> merge_sort key_le (map_to_list (to_string <$> m)))
          +:+ "}"
  end.

Section facts.
Implicit Types (doc v : Value) (key : string).

Lemma index_set_object key v doc :
  is_object doc = true -> ∃ doc', index_set key v doc = Some doc' ∧ is_object doc' = true.
Proof. destruct doc; try done. intros _. eexists. split; done. Qed.

Lemma get_index_set key key' v doc doc' :
  index_set key v doc = Some doc' ->
  get key' doc' = if decide (key = key') then Some v else get key' doc.
Proof.
  destruct doc; intros ?; simplify_eq/=.
  - apply lookup_singleton.
  - apply lookup_insert.
Qed.

Lemma get_obj_snoc members key v key' :
  get key' (obj (members ++ [(key, v)])) =
    if decide (key = key') then Some v else get key' (obj members).
Proof. unfold obj. rewrite foldl_app. simpl. apply lookup_insert. Qed.

Lemma is_object_obj members : is_object (obj members) = true.
Proof. done. Qed.

End facts.

End Json.
