(* ===== verification/Toml.v ===== *)
(** TOML documents as the program reads and writes them through the
    toml crate: the tree of values, its text, and the reader of texts.

    The subset: tables introduced by headers ([[a.b]]), entries
    [key = value] on one line, bare and quoted keys, basic and literal
    strings, booleans, arrays of strings and booleans on one line,
    comments and blank lines.  Numbers, dates, inline tables, arrays of
    tables, dotted keys in entries, multi-line strings and arrays, and
    [\u] escapes above U+007F are outside it: [from_str] answers a text
    that uses them with an error, where the crate reads it.  A table
    may be given once, before its sub-tables.

    - [Value]: strings, booleans, arrays, tables with their entries in
      the order of the text.
    - [to_string]: the entries of a table that are not tables, then its
      sub-tables under their headers, a blank line between a header and
      what precedes it;
      a table without entries of its own gets no header unless it is
      empty.  A key is printed bare when it can be.
    - [from_str]: line by line into items, the items into sections, the
      sections into the tree.
    - Round trip: [from_str (to_string t) = Ok t] for every tree whose
      tables list their plain entries first and no key twice. *)

From Stdlib Require Import ZArith Ascii String.
From stdpp Require Import base tactics option list numbers strings.
From S2P Require Import Prelude RustStr.

Module Toml.

#[local] Set Warnings "-register-all".

Inductive Value : Type :=
| String (s : string)
| Boolean (b : bool)
| Array (l : list Value)
| Table (t : list (string * Value)).

Abbreviation table := (list (string * Value)).

(** ** Tables *)

Definition is_table (v : Value) : bool :=
  match v with
  | Table _ => true
  | _ => false
  end.

Definition is_scalar (v : Value) : bool :=
  match v with
  | String _ | Boolean _ => true
  | _ => false
  end.

(** The first entry of that key. *)
Fixpoint get (key : string) (t : table) : option Value :=
  match t with
  | [] => None
  | (k, v) :: t' => if bool_decide (k = key) then Some v else get key t'
  end.

(** The entry of that key replaced. *)
Fixpoint set (key : string) (v : Value) (t : table) : table :=
  match t with
  | [] => []
  | (k, v') :: t' =>
      if bool_decide (k = key) then (k, v) :: t' else (k, v') :: set key v t'
  end.

Definition keys (t : table) : list string := t.*1.

(** The entries of a table that are not tables, and its sub-tables. *)
Definition plain (t : table) : table := filter (λ kv, is_table kv.2 = false) t.

Fixpoint subtables (t : table) : list (string * table) :=
  match t with
  | [] => []
  | (k, Table t') :: r => (k, t') :: subtables r
  | _ :: r => subtables r
  end.

(** ** Characters *)

Definition quote : ascii := ascii_of_nat 34.
Definition apostrophe : ascii := ascii_of_nat 39.
Definition backslash : ascii := ascii_of_nat 92.

Definition is_blank (c : ascii) : bool :=
  Ascii.eqb c " " || Ascii.eqb c (ascii_of_nat 9).

(** A byte that a basic string holds only escaped: the control
    characters but the tab. *)
Definition is_control (c : ascii) : bool :=
  let n := nat_of_ascii c in
  (bool_decide (n < 32)%nat && negb (bool_decide (n = 9)%nat)) || bool_decide (n = 127)%nat.

(** The bytes of a bare key: letters, digits, underscore, hyphen. *)
Definition is_bare (c : ascii) : bool :=
  let n := nat_of_ascii c in
  (bool_decide (48 ≤ n)%nat && bool_decide (n ≤ 57)%nat)
  || (bool_decide (65 ≤ n)%nat && bool_decide (n ≤ 90)%nat)
  || (bool_decide (97 ≤ n)%nat && bool_decide (n ≤ 122)%nat)
  || bool_decide (n = 95)%nat || bool_decide (n = 45)%nat.

Definition hex_digit (n : nat) : ascii :=
  if bool_decide (n < 10)%nat then ascii_of_nat (48 + n) else ascii_of_nat (55 + n).

Definition hex_value (c : ascii) : option nat :=
  let n := nat_of_ascii c in
  if bool_decide (48 ≤ n)%nat && bool_decide (n ≤ 57)%nat then Some (n - 48)%nat
  else if bool_decide (65 ≤ n)%nat && bool_decide (n ≤ 70)%nat then Some (n - 55)%nat
  else if bool_decide (97 ≤ n)%nat && bool_decide (n ≤ 102)%nat then Some (n - 87)%nat
  else None.

(** ** Printing *)

Definition escape_char (c : ascii) : string :=
  let n := nat_of_ascii c in
  if bool_decide (n = 34)%nat then String.String backslash (String.String quote "")
  else if bool_decide (n = 92)%nat then String.String backslash (String.String backslash "")
  else if bool_decide (n = 8)%nat then String.String backslash "b"
  else if bool_decide (n = 9)%nat then String.String backslash "t"
  else if bool_decide (n = 10)%nat then String.String backslash "n"
  else if bool_decide (n = 12)%nat then String.String backslash "f"
  else if bool_decide (n = 13)%nat then String.String backslash "r"
  else if is_control c then
    String.String backslash
      ("u00" +:+ String.String (hex_digit (n / 16)) (String.String (hex_digit (n mod 16)) ""))
  else String.String c "".

Fixpoint escape (s : string) : string :=
  match s with
  | "" => ""
  | String.String c s' => escape_char c +:+ escape s'
  end.

(** A basic string. *)
Definition quoted (s : string) : string :=
  String.String quote (escape s +:+ String.String quote "").

Definition is_bare_key (k : string) : bool :=
  negb (bool_decide (k = "")) && Str.all_chars is_bare k.

Definition print_key (k : string) : string :=
  if is_bare_key k then k else quoted k.

Definition print_path (path : list string) : string :=
  Str.join "." (print_key <$> path).

Definition print_scalar (v : Value) : string :=
  match v with
  | String s => quoted s
  | Boolean b => if b then "true" else "false"
  | _ => ""
  end.

Definition print_value (v : Value) : string :=
  match v with
  | Array l => "[" +:+ Str.join ", " (print_scalar <$> l) +:+ "]"
  | _ => print_scalar v
  end.

(** The items of a text, one per line that is neither blank nor a
    comment. *)
Variant Item : Type :=
| Header (path : list string)
| KeyValue (key : string) (v : Value).

Definition print_item (it : Item) : string :=
  match it with
  | Header path => "[" +:+ print_path path +:+ "]"
  | KeyValue key v => print_key key +:+ " = " +:+ print_value v
  end.

(** A section: a header and the entries under it. *)
Definition Section_ : Type := list string * table.

Definition has_header (t : table) : bool :=
  match t with
  | [] => true
  | _ => negb (forallb (λ kv, is_table kv.2) t)
  end.

(** The sections of the sub-tables of a table, each before its own
    sub-tables. *)
Fixpoint sections_of (path : list string) (v : Value) : list Section_ :=
  match v with
  | Table t =>
      (if has_header t then [(path, plain t)] else [])
      ++ (fix go (r : table) : list Section_ :=
            match r with
            | [] => []
            | (k, v') :: r' =>
                (if is_table v' then sections_of (path ++ [k]) v' else []) ++ go r'
            end) t
  | _ => []
  end.

Definition sections (t : table) : list Section_ :=
  flat_map (λ kv, sections_of [kv.1] kv.2) t.

Definition entry_items (t : table) : list Item :=
  (λ kv : string * Value, KeyValue kv.1 kv.2) <$> t.

Definition section_items (s : Section_) : list Item :=
  Header s.1 :: entry_items s.2.

(** The lines of a document: the plain entries of the root, then each
    section after a blank line. *)
Definition section_lines (s : Section_) : list string :=
  "" :: (print_item <$> section_items s).

Definition print_lines (t : table) : list string :=
  match (print_item <$> entry_items (plain t)) ++ flat_map section_lines (sections t) with
  | "" :: lines => lines
  | lines => lines
  end.

Definition unlines (l : list string) : string :=
  foldr (λ line text, line +:+ String.String "010" text) "" l.

(** [toml::to_string] on a document. *)
Definition to_string (t : table) : string := unlines (print_lines t).

(** ** Reading *)

Fixpoint skip_ws (s : string) : string :=
  match s with
  | "" => ""
  | String.String c s' => if is_blank c then skip_ws s' else s
  end.

(** The longest prefix of bytes that satisfy [p], and the rest. *)
Fixpoint span (p : ascii -> bool) (s : string) : string * string :=
  match s with
  | "" => ("", "")
  | String.String c s' =>
      if p c then let '(k, r) := span p s' in (String.String c k, r) else ("", s)
  end.

Definition unescape (e : ascii) : option ascii :=
  let n := nat_of_ascii e in
  if bool_decide (n = 98)%nat then Some (ascii_of_nat 8)
  else if bool_decide (n = 116)%nat then Some (ascii_of_nat 9)
  else if bool_decide (n = 110)%nat then Some (ascii_of_nat 10)
  else if bool_decide (n = 102)%nat then Some (ascii_of_nat 12)
  else if bool_decide (n = 114)%nat then Some (ascii_of_nat 13)
  else if bool_decide (n = 34)%nat then Some quote
  else if bool_decide (n = 92)%nat then Some backslash
  else None.

(** [\uXXXX] below U+0080. *)
Definition unicode4 (h1 h2 h3 h4 : ascii) : option ascii :=
  a ← hex_value h1; b ← hex_value h2; c ← hex_value h3; d ← hex_value h4;
  let n := (((a * 16 + b) * 16 + c) * 16 + d)%nat in
  if bool_decide (n < 128)%nat then Some (ascii_of_nat n) else None.

Definition cons_fst (c : ascii) (r : string * string) : string * string :=
  (String.String c r.1, r.2).

(** A basic string after its opening quote: its content and what
    follows the closing quote. *)
Fixpoint basic_body (s : string) : option (string * string) :=
  match s with
  | "" => None
  | String.String c s' =>
      if Ascii.eqb c quote then Some ("", s')
      else if Ascii.eqb c backslash then
        match s' with
        | "" => None
        | String.String e s'' =>
            if Ascii.eqb e "u" then
              match s'' with
              | String.String h1 (String.String h2 (String.String h3 (String.String h4 s3))) =>
                  d ← unicode4 h1 h2 h3 h4; cons_fst d <$> basic_body s3
              | _ => None
              end
            else d ← unescape e; cons_fst d <$> basic_body s''
        end
      else if is_control c then None
      else cons_fst c <$> basic_body s'
  end.

(** A literal string after its opening apostrophe. *)
Fixpoint literal_body (s : string) : option (string * string) :=
  match s with
  | "" => None
  | String.String c s' =>
      if Ascii.eqb c apostrophe then Some ("", s')
      else if is_control c then None
      else cons_fst c <$> literal_body s'
  end.

Definition parse_key (s : string) : option (string * string) :=
  match s with
  | "" => None
  | String.String c s' =>
      if Ascii.eqb c quote then basic_body s'
      else if Ascii.eqb c apostrophe then literal_body s'
      else
        let '(k, r) := span is_bare s in
        if bool_decide (k = "") then None else Some (k, r)
  end.

Definition parse_scalar (s : string) : option (Value * string) :=
  match s with
  | "" => None
  | String.String c s' =>
      if Ascii.eqb c quote then '(x, r) ← basic_body s'; Some (String x, r)
      else if Ascii.eqb c apostrophe then '(x, r) ← literal_body s'; Some (String x, r)
      else
        match Str.strip_prefix "true" s with
        | Some r => Some (Boolean true, r)
        | None => r ← Str.strip_prefix "false" s; Some (Boolean false, r)
        end
  end.

(** The elements of an array after its opening bracket, up to the
    closing one; a comma may follow the last element.  Every round
    consumes a byte, so the length of the text is fuel enough. *)
Fixpoint parse_elements (fuel : nat) (s : string) : option (list Value * string) :=
  match fuel with
  | 0 => None
  | S fuel =>
      match s with
      | "" => None
      | String.String c s' =>
          if Ascii.eqb c "]" then Some ([], s')
          else
            '(v, r) ← parse_scalar s;
            match skip_ws r with
            | "" => None
            | String.String d r' =>
                if Ascii.eqb d "," then
                  '(l, r'') ← parse_elements fuel (skip_ws r'); Some (v :: l, r'')
                else if Ascii.eqb d "]" then Some ([v], r')
                else None
            end
      end
  end.

Definition parse_value (s : string) : option (Value * string) :=
  match s with
  | "" => None
  | String.String c s' =>
      if Ascii.eqb c "["
      then '(l, r) ← parse_elements (String.length s) (skip_ws s'); Some (Array l, r)
      else parse_scalar s
  end.

(** The keys of a header after its opening bracket, up to the closing
    one. *)
Fixpoint parse_path (fuel : nat) (s : string) : option (list string * string) :=
  match fuel with
  | 0 => None
  | S fuel =>
      '(k, r) ← parse_key s;
      match skip_ws r with
      | "" => None
      | String.String c r' =>
          if Ascii.eqb c "." then
            '(p, r'') ← parse_path fuel (skip_ws r'); Some (k :: p, r'')
          else if Ascii.eqb c "]" then Some ([k], r')
          else None
      end
  end.

(** What may follow on a line: nothing, or a comment. *)
Definition at_end (s : string) : bool :=
  match skip_ws s with
  | "" => true
  | String.String c _ => Ascii.eqb c "#"
  end.

(** One line: an item, or nothing on a blank line or a comment;
    [None] is a syntax error. *)
Definition parse_line (line : string) : option (option Item) :=
  match skip_ws line with
  | "" => Some None
  | String.String c s' as s =>
      if Ascii.eqb c "#" then Some None
      else if Ascii.eqb c "[" then
        '(path, r) ← parse_path (String.length s) (skip_ws s');
        if at_end r then Some (Some (Header path)) else None
      else
        '(key, r) ← parse_key s;
        match skip_ws r with
        | "" => None
        | String.String d r' =>
            if Ascii.eqb d "=" then
              '(v, r'') ← parse_value (skip_ws r');
              if at_end r'' then Some (Some (KeyValue key v)) else None
            else None
        end
  end.

(** The errors of [from_str]. *)
Variant Error : Type :=
| Syntax (line : nat)
| DuplicateKey (key : string)
| DuplicateTable (path : list string).

(** The items of the lines, with the number of the first line that
    does not parse. *)
Fixpoint parse_lines (n : nat) (lines : list string) : result (list Item) Error :=
  match lines with
  | [] => Ok []
  | line :: lines' =>
      match parse_line line with
      | None => Err (Syntax n)
      | Some it =>
          (let? items := parse_lines (S n) lines' in
           Ok (match it with Some it => it :: items | None => items end))%rs
      end
  end.

(** The items in sections: the entries before the first header are the
    root's. *)
Fixpoint group (items : list Item) : table * list Section_ :=
  match items with
  | [] => ([], [])
  | KeyValue k v :: items' =>
      let '(t, ss) := group items' in ((k, v) :: t, ss)
  | Header path :: items' =>
      let '(t, ss) := group items' in ([], (path, t) :: ss)
  end.

(** The first key that occurs again later. *)
Fixpoint duplicate (l : list string) : option string :=
  match l with
  | [] => None
  | k :: l' => if bool_decide (k ∈ l') then Some k else duplicate l'
  end.

(** The table [entries] put at [path] below [t]: the tables on the way
    are made when they are not there, the last one must not be
    there. *)
Fixpoint put (path : list string) (entries : table) (t : table) : option table :=
  match path with
  | [] => None
  | k :: path' =>
      match path' with
      | [] =>
          match get k t with
          | None => Some (t ++ [(k, Table entries)])
          | Some _ => None
          end
      | _ =>
          match get k t with
          | None => sub ← put path' entries []; Some (t ++ [(k, Table sub)])
          | Some (Table sub) => sub' ← put path' entries sub; Some (set k (Table sub') t)
          | Some _ => None
          end
      end
  end.

Definition check_keys (t : table) : result table Error :=
  match duplicate (keys t) with
  | Some k => Err (DuplicateKey k)
  | None => Ok t
  end.

Definition add_section (doc : result table Error) (s : Section_) : result table Error :=
  (let? t := doc in
   let? entries := check_keys s.2 in
   match put s.1 entries t with
   | Some t' => Ok t'
   | None => Err (DuplicateTable s.1)
   end)%rs.

Definition build (root : table) (ss : list Section_) : result table Error :=
  foldl add_section (check_keys root) ss.

(** [toml::from_str] into a document. *)
Definition from_str (text : string) : result table Error :=
  (let? items := parse_lines 1 (Str.lines text) in
   let '(root, ss) := group items in
   build root ss)%rs.

(** ** Trees that are read back as they are

    Every table lists its plain entries before its sub-tables and no
    key twice; an array holds strings and booleans. *)
Fixpoint plain_first (t : table) : bool :=
  match t with
  | [] => true
  | (_, v) :: r => if is_table v then forallb (λ kv, is_table kv.2) r else plain_first r
  end.

Fixpoint normal (v : Value) : bool :=
  match v with
  | String _ | Boolean _ => true
  | Array l => forallb is_scalar l
  | Table t =>
      bool_decide (NoDup (keys t)) && plain_first t
      && (fix go (r : table) : bool :=
            match r with
            | [] => true
            | (_, v') :: r' => normal v' && go r'
            end) t
  end.

End Toml.
