(* ===== verification/TomlLex.v ===== *)
(** The TOML reader on the lines the printer writes: a key, a path, a
    value and a whole line are read back as what was printed, and every
    printed line is free of line feeds. *)

From Stdlib Require Import ZArith Ascii String.
From stdpp Require Import base tactics option list numbers strings.
From S2P Require Import Prelude RustStr Toml.

Import Toml.

Section lexical.
Implicit Types (c : ascii) (s k rest : string) (v : Value).

#[local] Arguments print_key : simpl never.
#[local] Arguments print_path : simpl never.
#[local] Arguments print_scalar : simpl never.
#[local] Arguments Str.join : simpl never.

Lemma print_path_one k : print_path [k] = print_key k.
Proof. done. Qed.

Lemma print_path_cons k k' path :
  print_path (k :: k' :: path) = print_key k +:+ "." +:+ print_path (k' :: path).
Proof. done. Qed.

(** The text that may follow a bare key: nothing, or a byte that no
    bare key holds. *)
Definition delimited (rest : string) : bool :=
  match rest with
  | "" => true
  | String.String c _ => negb (is_bare c)
  end.

Lemma basic_body_escape_char c rest :
  basic_body (escape_char c +:+ rest) = cons_fst c <$> basic_body rest.
Proof. destruct c as [[] [] [] [] [] [] [] []]; reflexivity. Qed.

Lemma basic_body_escape s rest :
  basic_body (escape s +:+ String.String quote rest) = Some (s, rest).
Proof.
  induction s as [|c s IH]; [done|]. cbn [escape].
  by rewrite Str.app_assoc, basic_body_escape_char, IH.
Qed.

Lemma is_line_escape_char c : Str.is_line (escape_char c) = true.
Proof. destruct c as [[] [] [] [] [] [] [] []]; reflexivity. Qed.

Lemma is_line_escape s : Str.is_line (escape s) = true.
Proof.
  induction s as [|c s IH]; [done|]. cbn [escape].
  by rewrite Str.is_line_app, is_line_escape_char, IH.
Qed.

Lemma is_line_quoted s : Str.is_line (quoted s) = true.
Proof.
  unfold quoted. change (String.String quote ?x) with (String.String quote "" +:+ x).
  by rewrite !Str.is_line_app, is_line_escape.
Qed.

Lemma span_app (p : ascii -> bool) k rest :
  Str.all_chars p k = true ->
  match rest with "" => true | String.String c _ => negb (p c) end = true ->
  span p (k +:+ rest) = (k, rest).
Proof.
  intros Hk Hrest. induction k as [|c k IH]; simpl in *.
  - destruct rest as [|c rest]; [done|]. simpl. by apply negb_true_iff in Hrest as ->.
  - apply andb_true_iff in Hk as [-> Hk]. by rewrite IH.
Qed.

(** Case analysis on a byte, each case by computation. *)
Ltac by_bytes c :=
  destruct c as [[] [] [] [] [] [] [] []]; vm_compute; (discriminate || auto).

Lemma is_bare_line c : is_bare c = true -> Str.is_line (String.String c "") = true.
Proof. by_bytes c. Qed.

Lemma is_bare_plain c :
  is_bare c = true ->
  Ascii.eqb c quote = false ∧ Ascii.eqb c apostrophe = false ∧
  Ascii.eqb c "#" = false ∧ Ascii.eqb c "[" = false ∧ is_blank c = false.
Proof. by_bytes c. Qed.

Lemma parse_key_print k rest :
  delimited rest = true -> parse_key (print_key k +:+ rest) = Some (k, rest).
Proof.
  intros Hrest. unfold print_key. destruct (is_bare_key k) eqn:Hk.
  - apply andb_true_iff in Hk as [Hne Hk]. destruct k as [|c k]; [done|].
    pose proof Hk as [Hc _]%andb_true_iff. apply is_bare_plain in Hc as (Hq & Ha & _).
    rewrite Str.app_cons. unfold parse_key. rewrite Hq, Ha, <-Str.app_cons.
    by rewrite span_app.
  - unfold quoted. rewrite Str.app_cons. unfold parse_key.
    change (Ascii.eqb quote quote) with true. cbn match.
    by rewrite Str.app_assoc, Str.app_cons, Str.app_nil_l, basic_body_escape.
Qed.

(** What the printer writes first is never white space, a comment
    sign or a bracket. *)
Definition starts_plain (s : string) : bool :=
  match s with
  | "" => false
  | String.String c _ =>
      negb (is_blank c) && negb (Ascii.eqb c "#") && negb (Ascii.eqb c "[")
      && negb (Ascii.eqb c "]")
  end.

Lemma starts_plain_app s rest : starts_plain s = true -> starts_plain (s +:+ rest) = true.
Proof. by destruct s. Qed.

Lemma skip_ws_plain s : starts_plain s = true -> skip_ws s = s.
Proof.
  destruct s as [|c s]; [done|]. cbn [starts_plain skip_ws]. by destruct (is_blank c).
Qed.

Lemma starts_plain_key k : starts_plain (print_key k) = true.
Proof.
  unfold print_key. destruct (is_bare_key k) eqn:Hk; [|done].
  apply andb_true_iff in Hk as [Hne Hk]. destruct k as [|c k]; [done|].
  apply andb_true_iff in Hk as [Hc _]. clear Hne. revert Hc.
  unfold starts_plain. cbn [print_key]. by_bytes c.
Qed.

Lemma is_line_key k : Str.is_line (print_key k) = true.
Proof.
  unfold print_key. destruct (is_bare_key k) eqn:Hk; [|apply is_line_quoted].
  apply andb_true_iff in Hk as [_ Hk]. induction k as [|c k IH]; [done|].
  apply andb_true_iff in Hk as [Hc Hk].
  change (String.String c k) with (String.String c "" +:+ k).
  by rewrite Str.is_line_app, is_bare_line, IH.
Qed.

Definition starts_solid (s : string) : bool :=
  match s with
  | "" => false
  | String.String c _ => negb (is_blank c)
  end.

Lemma starts_plain_solid s : starts_plain s = true -> starts_solid s = true.
Proof. destruct s as [|c s]; [done|]. simpl. by destruct (is_blank c). Qed.

Lemma starts_solid_app s rest : starts_solid s = true -> starts_solid (s +:+ rest) = true.
Proof. by destruct s. Qed.

Lemma skip_ws_solid s : starts_solid s = true -> skip_ws s = s.
Proof.
  destruct s as [|c s]; [done|]. cbn [starts_solid skip_ws]. by destruct (is_blank c).
Qed.

Lemma print_key_nonempty k : print_key k ≠ "".
Proof. pose proof (starts_plain_key k). by destruct (print_key k). Qed.

Lemma starts_plain_path path : path ≠ [] -> starts_plain (print_path path) = true.
Proof.
  destruct path as [|k [|k' path]]; [done|..]; intros _.
  - apply starts_plain_key.
  - rewrite print_path_cons. apply starts_plain_app, starts_plain_key.
Qed.

Lemma parse_path_print path rest fuel :
  path ≠ [] -> (length path ≤ fuel)%nat ->
  parse_path fuel (print_path path +:+ String.String "]" rest) = Some (path, rest).
Proof.
  revert fuel. induction path as [|k path IH]; [done|]. intros [|fuel] _ Hfuel; [simpl in *; lia|].
  destruct path as [|k' path]; cbn [parse_path].
  - by rewrite print_path_one, parse_key_print.
  - rewrite print_path_cons, !Str.app_assoc, parse_key_print by done. csimpl.
    rewrite Str.app_nil_l.
    rewrite skip_ws_solid by by apply starts_plain_solid, starts_plain_app, starts_plain_path.
    by rewrite (IH fuel) by (done || simpl in *; lia).
Qed.

(** *** Values *)

Lemma starts_plain_scalar v : is_scalar v = true -> starts_plain (print_scalar v) = true.
Proof. by destruct v as [s|[]| |]. Qed.

Lemma parse_scalar_print v rest :
  is_scalar v = true -> parse_scalar (print_scalar v +:+ rest) = Some (v, rest).
Proof.
  destruct v as [s|[]| |]; try done; intros _.
  unfold print_scalar, quoted. rewrite !Str.app_cons. unfold parse_scalar.
  change (Ascii.eqb quote quote) with true. cbn match.
  by rewrite Str.app_assoc, Str.app_cons, Str.app_nil_l, basic_body_escape.
Qed.

Lemma parse_elements_step fuel s :
  starts_plain s = true ->
  parse_elements (S fuel) s =
    '(v, r) ← parse_scalar s;
    match skip_ws r with
    | "" => None
    | String.String d r' =>
        if Ascii.eqb d ","
        then '(l, r'') ← parse_elements fuel (skip_ws r'); Some (v :: l, r'')
        else if Ascii.eqb d "]" then Some ([v], r') else None
    end.
Proof.
  destruct s as [|c s]; [done|]. cbn [starts_plain parse_elements].
  by intros [_ ->%negb_true_iff]%andb_true_iff.
Qed.

Lemma starts_plain_scalars v l :
  is_scalar v = true -> starts_plain (Str.join ", " (print_scalar <$> v :: l)) = true.
Proof.
  intros Hv. destruct l; cbn [fmap list_fmap]; [by apply starts_plain_scalar|].
  rewrite Str.join_cons_cons. by apply starts_plain_app, starts_plain_scalar.
Qed.

Lemma parse_elements_print l rest fuel :
  forallb is_scalar l = true -> (length l < fuel)%nat ->
  parse_elements fuel (Str.join ", " (print_scalar <$> l) +:+ String.String "]" rest)
  = Some (l, rest).
Proof.
  revert fuel. induction l as [|v l IH]; intros [|fuel] Hl Hfuel; try (simpl in *; lia); [done|].
  apply andb_true_iff in Hl as [Hv Hl].
  destruct l as [|v' l]; cbn [fmap list_fmap].
  - change (Str.join ", " [print_scalar v]) with (print_scalar v).
    rewrite parse_elements_step by by apply starts_plain_app, starts_plain_scalar.
    by rewrite parse_scalar_print.
  - rewrite Str.join_cons_cons, !Str.app_assoc.
    rewrite parse_elements_step by by apply starts_plain_app, starts_plain_scalar.
    rewrite parse_scalar_print by done. csimpl. rewrite Str.app_nil_l.
    assert (is_scalar v' = true) as Hv' by by apply andb_true_iff in Hl as [? _].
    rewrite skip_ws_solid.
    + rewrite <-(fmap_cons print_scalar). by rewrite (IH fuel) by (done || simpl in *; lia).
    + rewrite <-(fmap_cons print_scalar).
      by apply starts_plain_solid, starts_plain_app, starts_plain_scalars.
Qed.

(** A value an entry can hold on its line. *)
Definition printable (v : Value) : bool :=
  match v with
  | Array l => forallb is_scalar l
  | Table _ => false
  | _ => true
  end.

Lemma print_scalars_nonempty l :
  forallb is_scalar l = true -> Forall (λ w, w ≠ "") (print_scalar <$> l).
Proof.
  induction l as [|v l IH]; [done|]. intros [Hv Hl]%andb_true_iff. constructor; [|by apply IH].
  apply starts_plain_scalar in Hv. by destruct (print_scalar v).
Qed.

Lemma starts_solid_value v : printable v = true -> starts_solid (print_value v) = true.
Proof.
  destruct v as [s|b|l|t]; try done; intros _; apply starts_plain_solid;
    by apply (starts_plain_scalar (String _)) || by apply (starts_plain_scalar (Boolean _)).
Qed.

Lemma parse_value_print v rest :
  printable v = true -> parse_value (print_value v +:+ rest) = Some (v, rest).
Proof.
  destruct v as [s|b|l|t]; try done; intros Hv.
  - by apply (parse_scalar_print (String s)).
  - destruct b; by apply (parse_scalar_print (Boolean _)).
  - cbn [print_value]. rewrite !Str.app_cons, !Str.app_nil_l. cbn [parse_value].
    change (Ascii.eqb "[" "[") with true. cbn match. rewrite Str.app_assoc, Str.app_cons, Str.app_nil_l.
    rewrite skip_ws_solid.
    + rewrite parse_elements_print; [done|done|]. cbn [String.length]. rewrite Str.length_app.
      pose proof (Str.join_length ", " _ (print_scalars_nonempty l Hv)) as Hlen.
      rewrite length_fmap in Hlen. lia.
    + destruct l as [|v l]; [done|]. apply andb_true_iff in Hv as [Hv _].
      by apply starts_solid_app, starts_plain_solid, starts_plain_scalars.
Qed.

(** *** Lines *)

Definition valid_item (it : Item) : bool :=
  match it with
  | Header path => negb (bool_decide (path = []))
  | KeyValue _ v => printable v
  end.

Lemma parse_line_plain s :
  starts_plain s = true ->
  parse_line s =
    '(key, r) ← parse_key s;
    match skip_ws r with
    | "" => None
    | String.String d r' =>
        if Ascii.eqb d "=" then
          '(v, r'') ← parse_value (skip_ws r');
          if at_end r'' then Some (Some (KeyValue key v)) else None
        else None
    end.
Proof.
  intros Hs. unfold parse_line. rewrite skip_ws_plain by done.
  destruct s as [|c s]; [done|]. cbn [starts_plain] in Hs.
  apply andb_true_iff in Hs as [[[_ ->%negb_true_iff]%andb_true_iff ->%negb_true_iff]%andb_true_iff _].
  done.
Qed.

Lemma parse_line_header s :
  parse_line (String.String "[" s) =
    '(path, r) ← parse_path (S (String.length s)) (skip_ws s);
    if at_end r then Some (Some (Header path)) else None.
Proof. done. Qed.

Lemma parse_line_print it : valid_item it = true -> parse_line (print_item it) = Some (Some it).
Proof.
  destruct it as [path|key v]; cbn [valid_item print_item].
  - intros Hpath%negb_true_iff%bool_decide_eq_false.
    rewrite !Str.app_cons, !Str.app_nil_l, parse_line_header.
    rewrite skip_ws_plain by by apply starts_plain_app, starts_plain_path.
    rewrite parse_path_print; [done|done|]. rewrite Str.length_app.
    pose proof (Str.join_length "." (print_key <$> path)) as Hlen.
    rewrite length_fmap in Hlen. unfold print_path.
    assert (Forall (λ w, w ≠ "") (print_key <$> path))
      by (apply Forall_fmap, Forall_true, print_key_nonempty).
    specialize (Hlen ltac:(done)). lia.
  - intros Hv. rewrite parse_line_plain by apply starts_plain_app, starts_plain_key.
    rewrite parse_key_print by done.
    change (" = " +:+ print_value v) with (String.String " " (String.String "=" (String.String " " (print_value v)))).
    csimpl. rewrite skip_ws_solid by by apply starts_solid_value.
    rewrite <-(Str.app_nil_r (print_value v)), parse_value_print by done. done.
Qed.

Lemma is_line_scalar v : Str.is_line (print_scalar v) = true.
Proof. destruct v as [s|[]| |]; try done. apply is_line_quoted. Qed.

Lemma is_line_value v : Str.is_line (print_value v) = true.
Proof.
  destruct v as [s|b|l|t]; try apply (is_line_scalar (String _)) || apply (is_line_scalar (Boolean _));
    try done.
  cbn [print_value]. rewrite !Str.is_line_app. rewrite Str.is_line_join_lines; [done|done|].
  apply Forall_fmap, Forall_true, is_line_scalar.
Qed.

Lemma is_line_item it : Str.is_line (print_item it) = true.
Proof.
  destruct it as [path|key v]; cbn [print_item]; rewrite !Str.is_line_app.
  - unfold print_path. rewrite Str.is_line_join_lines; [done|done|].
    apply Forall_fmap, Forall_true, is_line_key.
  - by rewrite is_line_key, is_line_value.
Qed.

End lexical.
