(* ===== verification/TomlDoc.v ===== *)
(** The TOML reader on the documents the printer writes: the sections of
    a tree put back one after the other give the tree, and the text of a
    tree is read back as the tree. *)

From Stdlib Require Import ZArith Ascii String.
From stdpp Require Import base tactics option list numbers strings.
From S2P Require Import Prelude RustStr Toml TomlLex.

Import Toml.

(** ** Induction on trees *)

Lemma Value_ind' (P : Value -> Prop) :
  (∀ s, P (String s)) -> (∀ b, P (Boolean b)) ->
  (∀ l, Forall P l -> P (Array l)) ->
  (∀ t, Forall (λ kv, P kv.2) t -> P (Table t)) ->
  ∀ v, P v.
Proof.
  intros Hs Hb Ha Ht. fix IH 1. intros [s|b|l|t]; [apply Hs|apply Hb|apply Ha|apply Ht].
  - induction l as [|v l IHl]; constructor; [apply IH|apply IHl].
  - induction t as [|[k v] t IHt]; constructor; [apply IH|apply IHt].
Qed.

(** ** Tables *)

Section tables.
Implicit Types (t base cur : table) (k : string) (v : Value).

Lemma get_None k t : get k t = None <-> k ∉ keys t.
Proof.
  induction t as [|[k' v] t IH]; simpl.
  - split; [intros _; apply not_elem_of_nil|done].
  - rewrite not_elem_of_cons. case_bool_decide as Hk.
    + split; [done|]. by intros [? _].
    + rewrite IH. split; [by intros ?|by intros [_ ?]].
Qed.

Lemma get_snoc k v base : get k base = None -> get k (base ++ [(k, v)]) = Some v.
Proof.
  induction base as [|[k' v'] base IH]; simpl; [by rewrite bool_decide_eq_true_2|].
  case_bool_decide; [done|]. apply IH.
Qed.

Lemma set_snoc k v v' base :
  get k base = None -> set k v (base ++ [(k, v')]) = base ++ [(k, v)].
Proof.
  induction base as [|[k' w] base IH]; simpl; [by rewrite bool_decide_eq_true_2|].
  case_bool_decide; [done|]. intros ?. by rewrite IH.
Qed.

Lemma duplicate_NoDup (l : list string) : NoDup l -> duplicate l = None.
Proof.
  induction 1 as [|k l Hk Hl IH]; [done|]. simpl. by rewrite bool_decide_eq_false_2.
Qed.

Lemma check_keys_NoDup t : NoDup (keys t) -> check_keys t = Ok t.
Proof. intros Ht. unfold check_keys. by rewrite duplicate_NoDup. Qed.

(** A table that lists its plain entries first is these followed by
    its sub-tables. *)
Definition tables (t : table) : table := filter (λ kv, is_table kv.2 = true) t.

Lemma plain_cons k v t :
  plain ((k, v) :: t) = if is_table v then plain t else (k, v) :: plain t.
Proof. unfold plain. rewrite filter_cons. simpl. by destruct (is_table v). Qed.

Lemma tables_cons k v t :
  tables ((k, v) :: t) = if is_table v then (k, v) :: tables t else tables t.
Proof. unfold tables. rewrite filter_cons. simpl. by destruct (is_table v). Qed.

Lemma all_tables t :
  forallb (λ kv, is_table kv.2) t = true -> plain t = [] ∧ tables t = t.
Proof.
  induction t as [|[k v] t IH]; [done|]. cbn [forallb].
  intros [Hv [Hp Ht]%IH]%andb_true_iff. simpl in Hv.
  by rewrite plain_cons, tables_cons, Hv, Hp, Ht.
Qed.

Lemma plain_first_split t : plain_first t = true -> t = plain t ++ tables t.
Proof.
  induction t as [|[k v] t IH]; [done|]. cbn [plain_first].
  rewrite plain_cons, tables_cons. destruct (is_table v) eqn:Hv.
  - intros [-> ->]%all_tables. done.
  - intros Ht. simpl. f_equal. by apply IH.
Qed.

Lemma keys_split t :
  plain_first t = true -> keys t = keys (plain t) ++ keys (tables t).
Proof. intros Ht. rewrite (plain_first_split t Ht) at 1. apply fmap_app. Qed.

Lemma tables_are_tables t : Forall (λ kv, is_table kv.2 = true) (tables t).
Proof.
  induction t as [|[k v] t IH]; [constructor|]. rewrite tables_cons.
  destruct (is_table v) eqn:Hv; [by constructor|done].
Qed.

Lemma Forall_tables (P : string * Value -> Prop) t : Forall P t -> Forall P (tables t).
Proof.
  induction 1 as [|[k v] t Hv Ht IH]; [constructor|]. rewrite tables_cons.
  destruct (is_table v); [by constructor|done].
Qed.

(** ** Putting a table under a key *)

Lemma put_one k entries base :
  get k base = None -> put [k] entries base = Some (base ++ [(k, Table entries)]).
Proof. intros Hk. simpl. by rewrite Hk. Qed.

Lemma put_under k path entries base cur :
  get k base = None -> path ≠ [] ->
  put (k :: path) entries (base ++ [(k, Table cur)])
  = (λ cur', base ++ [(k, Table cur')]) <$> put path entries cur.
Proof.
  intros Hk Hpath. destruct path as [|k' path]; [done|]. clear Hpath.
  change (put (k :: k' :: path) entries (base ++ [(k, Table cur)]))
    with (match get k (base ++ [(k, Table cur)]) with
          | None => sub ← put (k' :: path) entries [];
                    Some ((base ++ [(k, Table cur)]) ++ [(k, Table sub)])
          | Some (Table sub) =>
              sub' ← put (k' :: path) entries sub;
              Some (set k (Table sub') (base ++ [(k, Table cur)]))
          | Some _ => None
          end).
  rewrite get_snoc by done. destruct (put (k' :: path) entries cur); [|done].
  csimpl. by rewrite set_snoc.
Qed.

(** A table that is not there yet is made on the way. *)
Lemma put_implicit k path entries base :
  get k base = None -> path ≠ [] ->
  put (k :: path) entries base = put (k :: path) entries (base ++ [(k, Table [])]).
Proof.
  intros Hk Hpath. rewrite put_under by done. destruct path as [|k' path]; [done|].
  change (put (k :: k' :: path) entries base)
    with (match get k base with
          | None => sub ← put (k' :: path) entries []; Some (base ++ [(k, Table sub)])
          | Some (Table sub) =>
              sub' ← put (k' :: path) entries sub; Some (set k (Table sub') base)
          | Some _ => None
          end).
  by rewrite Hk.
Qed.

End tables.

(** ** Sections *)

Section sections.
Implicit Types (t base cur : table) (k : string) (v : Value) (path : list string)
  (s : Section_) (ss : list Section_).

Definition under (k : string) (s : Section_) : Section_ := (k :: s.1, s.2).

Lemma add_section_Err e s : add_section (Err e) s = Err e.
Proof. done. Qed.

Lemma fold_add_section_Err e ss : foldl add_section (Err e) ss = Err e.
Proof. by induction ss. Qed.

Lemma add_section_under k base cur cur' s :
  get k base = None -> s.1 ≠ [] ->
  add_section (Ok cur) s = Ok cur' ->
  add_section (Ok (base ++ [(k, Table cur)])) (under k s) = Ok (base ++ [(k, Table cur')]).
Proof.
  destruct s as [path entries]. intros Hk Hs. unfold add_section, under.
  cbn [fst snd result_bind]. destruct (check_keys entries) as [entries'|]; [|done].
  cbn [result_bind]. rewrite put_under by done.
  destruct (put path entries' cur); [|done]. cbn. congruence.
Qed.

Lemma add_section_implicit k base s :
  get k base = None -> s.1 ≠ [] ->
  add_section (Ok base) (under k s) = add_section (Ok (base ++ [(k, Table [])])) (under k s).
Proof.
  destruct s as [path entries]. intros Hk Hs. unfold add_section, under.
  cbn [fst snd result_bind]. destruct (check_keys entries) as [entries'|]; [|done].
  cbn [result_bind]. by rewrite put_implicit.
Qed.

Lemma fold_under k base ss cur cur' :
  get k base = None -> Forall (λ s, s.1 ≠ []) ss ->
  foldl add_section (Ok cur) ss = Ok cur' ->
  foldl add_section (Ok (base ++ [(k, Table cur)])) (under k <$> ss)
  = Ok (base ++ [(k, Table cur')]).
Proof.
  intros Hk Hss. revert cur. induction Hss as [|s ss Hs Hss IH]; intros cur.
  - by intros [= ->].
  - rewrite fmap_cons. cbn [foldl].
    destruct (add_section (Ok cur) s) as [cur1|e] eqn:E;
      [|by rewrite fold_add_section_Err].
    intros Hfold. rewrite (add_section_under k base cur cur1) by done. by apply IH.
Qed.

Lemma sections_of_plain path v : is_table v = false -> sections_of path v = [].
Proof. by destruct v. Qed.

Lemma sections_of_table path t :
  sections_of path (Table t) =
    (if has_header t then [(path, plain t)] else [])
    ++ flat_map (λ kv, sections_of (path ++ [kv.1]) kv.2) t.
Proof.
  cbn [sections_of]. f_equal. induction t as [|[k v] t IH]; [done|]. cbn [flat_map].
  rewrite <-IH. f_equal. destruct (is_table v) eqn:Hv; [done|].
  by rewrite sections_of_plain.
Qed.

Lemma sections_of_under k path v : sections_of (k :: path) v = under k <$> sections_of path v.
Proof.
  revert path. induction v as [| | |t IH] using Value_ind'; intros path; try done.
  rewrite !sections_of_table, fmap_app. f_equal; [by destruct (has_header t)|].
  induction IH as [|[k' v] t Hv Ht IHt]; [done|]. cbn [flat_map].
  rewrite fmap_app, <-IHt. f_equal. apply (Hv (path ++ [k'])).
Qed.

Lemma sections_of_paths path v : path ≠ [] -> Forall (λ s, s.1 ≠ []) (sections_of path v).
Proof.
  revert path. induction v as [| | |t IH] using Value_ind'; intros path Hpath;
    try by constructor.
  rewrite sections_of_table. apply Forall_app. split; [destruct (has_header t); by repeat constructor|].
  induction IH as [|[k' v] t Hv Ht IHt]; [constructor|]. cbn [flat_map].
  apply Forall_app. split; [|done]. apply Hv. by destruct path.
Qed.

End sections.

(** ** The sections of a tree give the tree *)

Section build.
Implicit Types (t base cur : table) (k : string) (v : Value) (path : list string).

Lemma normal_table t :
  normal (Table t) = true <->
  NoDup (keys t) ∧ plain_first t = true ∧ Forall (λ kv, normal kv.2 = true) t.
Proof.
  cbn [normal]. rewrite !andb_true_iff, bool_decide_eq_true.
  assert ((fix go (r : table) : bool :=
             match r with
             | [] => true
             | (_, v') :: r' => normal v' && go r'
             end) t = true <-> Forall (λ kv, normal kv.2 = true) t) as ->.
  { induction t as [|[k v] t IH]; [by split; [constructor|]|].
    rewrite andb_true_iff, IH, Forall_cons. done. }
  tauto.
Qed.

(** The sections of the sub-tables only. *)
Lemma flat_map_tables (f : string * Value -> list Section_) t :
  (∀ kv, is_table kv.2 = false -> f kv = []) -> flat_map f t = flat_map f (tables t).
Proof.
  intros Hf. induction t as [|[k v] t IH]; [done|]. rewrite tables_cons. cbn [flat_map].
  destruct (is_table v) eqn:Hv; cbn [flat_map]; [by rewrite IH|].
  by rewrite (Hf (k, v)), IH.
Qed.

(** A sub-table is there once its sections are put. *)
Definition rebuilt (v : Value) : Prop :=
  is_table v = true -> normal v = true ->
  ∀ k base, get k base = None ->
    foldl add_section (Ok base) (sections_of [k] v) = Ok (base ++ [(k, v)]).

Lemma children_rebuilt tabs cur :
  Forall (λ kv, is_table kv.2 = true ∧ normal kv.2 = true ∧ rebuilt kv.2) tabs ->
  NoDup (keys cur ++ keys tabs) ->
  foldl add_section (Ok cur) (flat_map (λ kv, sections_of [kv.1] kv.2) tabs)
  = Ok (cur ++ tabs).
Proof.
  intros Htabs. revert cur.
  induction Htabs as [|[k v] tabs (Hv & Hn & Hr) _ IH]; intros cur Hnd.
  - by rewrite app_nil_r.
  - cbn [flat_map fst snd] in *. rewrite foldl_app, Hr; [|done|done|].
    + rewrite IH, <-app_assoc; [done|]. unfold keys in *.
      by rewrite fmap_app, <-app_assoc.
    + apply get_None. apply NoDup_app in Hnd as (_ & Hnd & _). intros Hk.
      apply (Hnd k Hk). by left.
Qed.

Lemma table_rebuilt t :
  Forall (λ kv, rebuilt kv.2) t -> rebuilt (Table t).
Proof.
  intros IH _ Hnormal k base Hk.
  pose proof Hnormal as (Hnd & Hfirst & Hall)%normal_table.
  rewrite sections_of_table.
  rewrite (flat_map_tables _ t) by (intros; by apply sections_of_plain).
  rewrite (flat_map_ext _ (λ kv, under k <$> sections_of [kv.1] kv.2))
    by (intros; cbn; apply sections_of_under).
  assert (flat_map (λ kv, under k <$> sections_of [kv.1] kv.2) (tables t)
          = under k <$> flat_map (λ kv, sections_of [kv.1] kv.2) (tables t)) as ->.
  { induction (tables t) as [|kv r IHr]; [done|]. cbn [flat_map]. by rewrite fmap_app, IHr. }
  remember (flat_map (λ kv, sections_of [kv.1] kv.2) (tables t)) as inner eqn:E.
  assert (foldl add_section (Ok (plain t)) inner = Ok t) as Hinner.
  { rewrite E. rewrite (plain_first_split t Hfirst) at 3. apply children_rebuilt.
    - pose proof (tables_are_tables t) as Ht.
      pose proof (Forall_tables _ t Hall) as Hn. pose proof (Forall_tables _ t IH) as Hr.
      rewrite !Forall_forall in *. naive_solver.
    - by rewrite <-keys_split. }
  assert (Forall (λ s, s.1 ≠ []) inner) as Hpaths.
  { rewrite E. apply Forall_flat_map, Forall_forall. intros kv _. by apply sections_of_paths. }
  assert (NoDup (keys (plain t))) as Hplain
    by (rewrite keys_split in Hnd by done; by apply NoDup_app in Hnd as [? _]).
  destruct (has_header t) eqn:Hh.
  - cbn [app foldl]. unfold add_section at 2. cbn [fst snd result_bind].
    rewrite check_keys_NoDup by done. cbn [result_bind]. rewrite put_one by done.
    by apply fold_under.
  - cbn [app]. destruct t as [|kv t]; [done|]. cbn [has_header] in Hh.
    apply negb_false_iff, all_tables in Hh as [Hp Ht]. rewrite Hp in Hinner.
    destruct inner as [|s inner].
    + cbn in Hinner. congruence.
    + rewrite fmap_cons. cbn [foldl]. apply Forall_cons in Hpaths as [Hs Hpaths'].
      rewrite add_section_implicit by done.
      change (foldl add_section (add_section (Ok (base ++ [(k, Table [])])) (under k s))
                (under k <$> inner))
        with (foldl add_section (Ok (base ++ [(k, Table [])])) (under k <$> s :: inner)).
      apply fold_under; [done|by constructor|done].
Qed.

Lemma all_rebuilt v : rebuilt v.
Proof.
  induction v as [| | |t IH] using Value_ind'; try by intros ?.
  by apply table_rebuilt.
Qed.

(** The sections of a document, put one after the other below its
    plain entries, give the document. *)
Lemma build_sections t :
  normal (Table t) = true -> build (plain t) (sections t) = Ok t.
Proof.
  intros (Hnd & Hfirst & Hall)%normal_table. unfold build, sections.
  rewrite (flat_map_tables _ t) by (intros; by apply sections_of_plain).
  rewrite check_keys_NoDup
    by (rewrite keys_split in Hnd by done; by apply NoDup_app in Hnd as [? _]).
  rewrite (plain_first_split t Hfirst) at 3. apply children_rebuilt.
  - pose proof (tables_are_tables t) as Ht. pose proof (Forall_tables _ t Hall) as Hn.
    rewrite !Forall_forall in *. intros kv Hkv. split_and!; [by apply Ht|by apply Hn|].
    apply all_rebuilt.
  - by rewrite <-keys_split.
Qed.

End build.

(** ** The text of a tree is read back as the tree *)

Section text.
Implicit Types (t : table) (v : Value) (it : Item) (o : option Item) (s : Section_).

(** A line of a document: an item, or a blank line. *)
Definition print_opt (o : option Item) : string := from_option print_item "" o.

Definition valid_opt (o : option Item) : bool := from_option valid_item true o.

Definition doc_lines (t : table) : list (option Item) :=
  (Some <$> entry_items (plain t))
  ++ flat_map (λ s, None :: (Some <$> section_items s)) (sections t).

Definition doc_items (t : table) : list Item :=
  entry_items (plain t) ++ flat_map section_items (sections t).

Lemma lines_unlines ls :
  Forall (λ line, Str.is_line line = true) ls -> Str.lines (unlines ls) = ls.
Proof.
  induction 1 as [|line ls Hline Hls IH]; [done|]. cbn [unlines foldr].
  rewrite Str.lines_cons by done. f_equal. apply IH.
Qed.

Lemma parse_line_opt o : valid_opt o = true -> parse_line (print_opt o) = Some o.
Proof. destruct o as [it|]; [apply parse_line_print|done]. Qed.

Lemma parse_lines_print n os :
  Forall (λ o, valid_opt o = true) os ->
  parse_lines n (print_opt <$> os) = Ok (omap id os).
Proof.
  intros Hos. revert n. induction Hos as [|o os Ho Hos IH]; intros n; [done|].
  rewrite fmap_cons. cbn [parse_lines]. rewrite parse_line_opt, IH by done.
  by destruct o.
Qed.

Lemma is_line_opt o : Str.is_line (print_opt o) = true.
Proof. destruct o; [apply is_line_item|done]. Qed.

Lemma doc_lines_print t :
  print_opt <$> doc_lines t =
    (print_item <$> entry_items (plain t)) ++ flat_map section_lines (sections t).
Proof.
  unfold doc_lines. rewrite fmap_app, <-list_fmap_compose. f_equal.
  induction (sections t) as [|s ss IH]; [done|]. cbn [flat_map].
  rewrite fmap_app, IH. f_equal. unfold section_lines. csimpl. f_equal.
  by rewrite <-list_fmap_compose.
Qed.

Lemma doc_lines_items t : omap id (doc_lines t) = doc_items t.
Proof.
  assert (∀ l : list Item, omap id (Some <$> l) = l) as Hsome
    by (induction l as [|x l IH]; [done|]; csimpl; by rewrite IH).
  unfold doc_lines, doc_items. rewrite omap_app, Hsome. f_equal.
  induction (sections t) as [|s ss IH]; [done|]. cbn [flat_map].
  rewrite omap_app, IH. f_equal. csimpl. by rewrite Hsome.
Qed.

Lemma group_entries t items :
  group (entry_items t ++ items) = (t ++ (group items).1, (group items).2).
Proof.
  induction t as [|[k v] t IH]; [cbn; by destruct (group items)|]. csimpl.
  fold (entry_items t). by rewrite IH.
Qed.

Lemma group_header path items :
  group (Header path :: items) = ([], (path, (group items).1) :: (group items).2).
Proof. cbn [group]. by destruct (group items). Qed.

Lemma group_sections ss : group (flat_map section_items ss) = ([], ss).
Proof.
  induction ss as [|[path t] ss IH]; [done|]. cbn [flat_map section_items fst snd].
  change (group (Header path :: (entry_items t ++ flat_map section_items ss)) = ([], (path, t) :: ss)).
  rewrite group_header, group_entries, IH. cbn. by rewrite app_nil_r.
Qed.

Lemma group_doc t : group (doc_items t) = (plain t, sections t).
Proof. unfold doc_items. by rewrite group_entries, group_sections, app_nil_r. Qed.

(** What a normal tree prints can be read. *)
Lemma plain_printable t :
  Forall (λ kv, normal kv.2 = true) t -> Forall (λ kv, printable kv.2 = true) (plain t).
Proof.
  induction 1 as [|[k v] t Hv Ht IH]; [constructor|]. rewrite plain_cons.
  destruct (is_table v) eqn:E; [done|]. constructor; [|done]. by destruct v.
Qed.

Lemma entry_items_valid t :
  Forall (λ kv, printable kv.2 = true) t ->
  Forall (λ o, valid_opt o = true) (Some <$> entry_items t).
Proof. intros Ht. unfold entry_items. by rewrite <-list_fmap_compose, Forall_fmap. Qed.

Lemma sections_of_valid path v :
  path ≠ [] -> normal v = true ->
  Forall (λ s, s.1 ≠ [] ∧ Forall (λ kv, printable kv.2 = true) s.2) (sections_of path v).
Proof.
  revert path. induction v as [| | |t IH] using Value_ind'; intros path Hpath;
    try by constructor.
  intros (_ & _ & Hall)%normal_table. rewrite sections_of_table. apply Forall_app. split.
  - destruct (has_header t); [|constructor]. repeat constructor; [done|].
    by apply plain_printable.
  - apply Forall_flat_map. rewrite Forall_forall in *. intros kv Hkv.
    apply IH; [done|by destruct path|by apply Hall].
Qed.

Lemma doc_lines_valid t :
  normal (Table t) = true -> Forall (λ o, valid_opt o = true) (doc_lines t).
Proof.
  intros (_ & _ & Hall)%normal_table. apply Forall_app. split.
  - by apply entry_items_valid, plain_printable.
  - apply Forall_flat_map. unfold sections. rewrite Forall_forall. intros s Hs.
    apply list_elem_of_In, in_flat_map in Hs as ([k v] & Hkv%list_elem_of_In & Hs%list_elem_of_In).
    rewrite Forall_forall in Hall.
    pose proof (sections_of_valid [k] v ltac:(done) (Hall _ Hkv)) as Hvalid.
    rewrite Forall_forall in Hvalid. destruct (Hvalid s Hs) as [Hpath Hentries].
    constructor; [done|]. unfold section_items. rewrite fmap_cons.
    constructor; [cbn; by rewrite bool_decide_eq_false_2|by apply entry_items_valid].
Qed.

(** The lines of a document, with or without the blank line at the
    top. *)
Lemma print_lines_cases t :
  print_lines t = print_opt <$> doc_lines t ∨
  "" :: print_lines t = print_opt <$> doc_lines t.
Proof.
  unfold print_lines. rewrite <-doc_lines_print.
  destruct (print_opt <$> doc_lines t) as [|[|c line] ls]; auto.
Qed.

Lemma print_lines_are_lines t : Forall (λ line, Str.is_line line = true) (print_lines t).
Proof.
  assert (Forall (λ line, Str.is_line line = true) (print_opt <$> doc_lines t)) as Hall
    by apply Forall_fmap, Forall_true, is_line_opt.
  destruct (print_lines_cases t) as [->|E]; [done|].
  rewrite <-E in Hall. by apply Forall_cons in Hall as [_ ?].
Qed.

Lemma parse_print_lines t :
  normal (Table t) = true -> parse_lines 1 (print_lines t) = Ok (doc_items t).
Proof.
  intros Ht. pose proof (doc_lines_valid t Ht) as Hvalid.
  destruct (print_lines_cases t) as [->|E].
  - by rewrite parse_lines_print, doc_lines_items.
  - pose proof (parse_lines_print 0 _ Hvalid) as Hparse.
    rewrite <-E, doc_lines_items in Hparse. cbn [parse_lines] in Hparse.
    change (parse_line "") with (Some (@None Item)) in Hparse. cbn match in Hparse.
    by destruct (parse_lines 1 (print_lines t)).
Qed.

(** The text of a normal tree is read back as the tree. *)
Theorem from_str_to_string t : normal (Table t) = true -> from_str (to_string t) = Ok t.
Proof.
  intros Ht. unfold from_str, to_string.
  rewrite lines_unlines, parse_print_lines by (done || apply print_lines_are_lines).
  cbn [result_bind]. rewrite group_doc. by apply build_sections.
Qed.

End text.
