(* ===== verification/World.v ===== *)
(** What the program sees of the world outside it.

    - The records of the Docker engine API (crate bollard) and of the
      host statistics (crate sysinfo), with the fields the sources read.
      The counters of a statistics sample are [u64] in the engine API,
      [online_cpus] is [u32], an image size is [i64].
    - The oracle: the answers of the world to the program's external
      calls, each a function of the history of calls made so far, so that
      a second identical call may be answered differently.  The world
      [quiet_world] answers that nothing is there; [with_containers],
      [with_images], [with_commands], [with_files] and [with_broker]
      replace one answer of a world.
    - The state: the history, and the store of statistics caches.  A
      cache is an [Arc<Mutex<Option<ContainerStatsResponse>>>]; the
      program is sequential (a single future awaits each call in turn), so a
      lock is taken and released within one step and the cell is a
      location of the store.
    - The monad [M] of effectful code: a computation takes the oracle and
      a state and returns a value with the new state, or panics;
      [and_then] is the [?] operator and [try_for_each] a loop that the
      first error ends.
    - The effect discipline: [emits P m] says that [m] only appends
      events that satisfy [P], with one rule per construct of the monad
      and the tactic [emits_auto] that applies them. *)

From Stdlib Require Import ZArith SpecFloat.
From stdpp Require Import base tactics option list strings.
From S2P Require Import Prelude RustNum.

(** ** Docker engine data *)

Module ContainerSummary.
Record t := mk {
  id : option string;
  names : option (list string);
  status : option string;
}.
End ContainerSummary.

Module ContainerCpuUsage.
Record t := mk { total_usage : option Z }.
End ContainerCpuUsage.

Module ContainerCpuStats.
Record t := mk {
  cpu_usage : option ContainerCpuUsage.t;
  system_cpu_usage : option Z;
  online_cpus : option Z;
}.
End ContainerCpuStats.

Module ContainerMemoryStats.
Record t := mk { usage : option Z }.
End ContainerMemoryStats.

Module ContainerStatsResponse.
Record t := mk {
  cpu_stats : option ContainerCpuStats.t;
  precpu_stats : option ContainerCpuStats.t;
  memory_stats : option ContainerMemoryStats.t;
}.
End ContainerStatsResponse.

Module ImageSummary.
Record t := mk { size : Z }.
End ImageSummary.

Module VolumeListResponse.
(** Only the number of volumes is read; a volume is its name. *)
Record t := mk { volumes : option (list string) }.
End VolumeListResponse.

(** The handle of the engine connection.  Every clone talks to the same
    engine, so the handle carries no data. *)
Variant Docker : Type := DockerHandle.

(** ** Host statistics: a [sysinfo::System] snapshot *)

Module System.
Record t := mk {
  total_memory : Z;
  used_memory : Z;
  global_cpu_usage : f32;
}.
End System.

(** ** External calls *)

(** The container filter of [list_containers]: a map from a filter name
    to its accepted values, with one entry in every call of the
    sources. *)
Definition Filters : Type := list (string * list string).

Variant QoS : Type := AtMostOnce | AtLeastOnce | ExactlyOnce.

(** The options a session with the broker is opened with
    ([rumqttc::MqttOptions]), with the settings the sources make. *)
Module MqttOptions.
Record t := mk {
  client_id : string;
  host : string;
  port : Z;
  credentials : option (string * string);
  keep_alive : Z;
}.
End MqttOptions.

(** The handle of a session with the broker ([rumqttc::AsyncClient]).
    Requests made through it are answered by the oracle. *)
Variant AsyncClient : Type := ClientHandle.

Inductive Event : Type :=
| EvListContainers (all : bool) (filters : Filters)
| EvListImages
| EvListVolumes
| EvStats (container_id : string)
| EvCommand (command : string) (args : option (list string))
| EvSystemNewAll
| EvSystemRefreshAll
| EvUptime
| EvReadFile (path : string)
| EvWriteFile (path : string) (contents : string)
| EvPublish (topic : string) (qos : QoS) (retain : bool) (payload : string)
| EvPrintln (line : string)
| EvSleep (seconds : Z)
| EvDockerConnect
| EvMqttConnect (options : MqttOptions.t) (capacity : Z)
| EvSpawnPoll.

(** The history of a run, oldest call first. *)
Definition History : Type := list Event.

(** The world's answers.  An engine query answers [Err] with the
    engine's message; a command answers [None] when the process cannot
    be started and its standard output (decoded lossily) otherwise,
    whatever its exit status; the statistics stream answers with its
    first item. *)
Record Oracle := {
  docker_list_containers : History -> bool -> Filters -> result (list ContainerSummary.t) string;
  docker_list_images : History -> result (list ImageSummary.t) string;
  docker_list_volumes : History -> result VolumeListResponse.t string;
  docker_stats_next : History -> string -> option (result ContainerStatsResponse.t string);
  command_output : History -> string -> option (list string) -> option string;
  system_new_all : History -> System.t;
  system_uptime : History -> Z;
  fs_read_to_string : History -> string -> result string string;
  fs_write : History -> string -> string -> result unit string;
  mqtt_publish : History -> string -> QoS -> bool -> string -> result unit string;
  docker_connect : History -> result unit string;
  overflow_checks : bool;
  process_id : Z;
}.

(** ** State *)

Definition loc : Type := nat.

Record State := {
  history : History;
  stashes : list (option ContainerStatsResponse.t);
}.

Definition initial_state : State := {| history := []; stashes := [] |}.

(** ** Worlds

    A world in which nothing is there: the engine lists nothing, no
    program can be started, no file exists, and the broker accepts every
    request; and the same world with one of its answers replaced. *)
Definition quiet_world : Oracle := {|
  docker_list_containers := λ _ _ _, Ok [];
  docker_list_images := λ _, Ok [];
  docker_list_volumes := λ _, Ok (VolumeListResponse.mk None);
  docker_stats_next := λ _ _, None;
  command_output := λ _ _ _, None;
  system_new_all := λ _, System.mk 0%Z 0%Z (S754_zero false);
  system_uptime := λ _, 0%Z;
  fs_read_to_string := λ _ _, Err "no such file";
  fs_write := λ _ _ _, Ok tt;
  mqtt_publish := λ _ _ _ _ _, Ok tt;
  docker_connect := λ _, Ok tt;
  overflow_checks := true;
  process_id := 1%Z;
|}.

Definition with_containers (f : History -> bool -> Filters -> result (list ContainerSummary.t) string) (ω : Oracle) : Oracle := {|
  docker_list_containers := f;
  docker_list_images := docker_list_images ω;
  docker_list_volumes := docker_list_volumes ω;
  docker_stats_next := docker_stats_next ω;
  command_output := command_output ω;
  system_new_all := system_new_all ω;
  system_uptime := system_uptime ω;
  fs_read_to_string := fs_read_to_string ω;
  fs_write := fs_write ω;
  mqtt_publish := mqtt_publish ω;
  docker_connect := docker_connect ω;
  overflow_checks := overflow_checks ω;
  process_id := process_id ω;
|}.

Definition with_images (f : History -> result (list ImageSummary.t) string) (ω : Oracle) : Oracle := {|
  docker_list_containers := docker_list_containers ω;
  docker_list_images := f;
  docker_list_volumes := docker_list_volumes ω;
  docker_stats_next := docker_stats_next ω;
  command_output := command_output ω;
  system_new_all := system_new_all ω;
  system_uptime := system_uptime ω;
  fs_read_to_string := fs_read_to_string ω;
  fs_write := fs_write ω;
  mqtt_publish := mqtt_publish ω;
  docker_connect := docker_connect ω;
  overflow_checks := overflow_checks ω;
  process_id := process_id ω;
|}.

Definition with_commands (f : History -> string -> option (list string) -> option string) (ω : Oracle) : Oracle := {|
  docker_list_containers := docker_list_containers ω;
  docker_list_images := docker_list_images ω;
  docker_list_volumes := docker_list_volumes ω;
  docker_stats_next := docker_stats_next ω;
  command_output := f;
  system_new_all := system_new_all ω;
  system_uptime := system_uptime ω;
  fs_read_to_string := fs_read_to_string ω;
  fs_write := fs_write ω;
  mqtt_publish := mqtt_publish ω;
  docker_connect := docker_connect ω;
  overflow_checks := overflow_checks ω;
  process_id := process_id ω;
|}.

Definition with_files (f : History -> string -> result string string) (ω : Oracle) : Oracle := {|
  docker_list_containers := docker_list_containers ω;
  docker_list_images := docker_list_images ω;
  docker_list_volumes := docker_list_volumes ω;
  docker_stats_next := docker_stats_next ω;
  command_output := command_output ω;
  system_new_all := system_new_all ω;
  system_uptime := system_uptime ω;
  fs_read_to_string := f;
  fs_write := fs_write ω;
  mqtt_publish := mqtt_publish ω;
  docker_connect := docker_connect ω;
  overflow_checks := overflow_checks ω;
  process_id := process_id ω;
|}.

Definition with_broker (f : History -> string -> QoS -> bool -> string -> result unit string) (ω : Oracle) : Oracle := {|
  docker_list_containers := docker_list_containers ω;
  docker_list_images := docker_list_images ω;
  docker_list_volumes := docker_list_volumes ω;
  docker_stats_next := docker_stats_next ω;
  command_output := command_output ω;
  system_new_all := system_new_all ω;
  system_uptime := system_uptime ω;
  fs_read_to_string := fs_read_to_string ω;
  fs_write := fs_write ω;
  mqtt_publish := f;
  docker_connect := docker_connect ω;
  overflow_checks := overflow_checks ω;
  process_id := process_id ω;
|}.

(** ** The monad *)

Inductive outcome (A : Type) : Type :=
| Returned (a : A) (σ : State)
| Panicked (msg : string) (σ : State).
Arguments Returned {A} a σ.
Arguments Panicked {A} msg σ.

Definition M (A : Type) : Type := Oracle -> State -> outcome A.

Definition ret {A} (a : A) : M A := λ _ σ, Returned a σ.

Definition bind {A B} (m : M A) (k : A -> M B) : M B :=
  λ ω σ,
    match m ω σ with
    | Returned a σ' => k a ω σ'
    | Panicked msg σ' => Panicked msg σ'
    end.

Definition panic {A} (msg : string) : M A := λ _ σ, Panicked msg σ.

#[export] Instance M_ret : MRet M := @ret.
#[export] Instance M_bind : MBind M := λ A B k m, bind m k.
#[export] Instance M_fmap : FMap M := λ A B f m, bind m (λ a, ret (f a)).

(** An external call: the world answers from the history before the
    call, and the call joins the history. *)
Definition call {A} (ev : Event) (answer : Oracle -> History -> A) : M A :=
  λ ω σ,
    Returned (answer ω (history σ))
             {| history := history σ ++ [ev]; stashes := stashes σ |}.

(** Reading a setting of the build. *)
Definition ask {A} (f : Oracle -> A) : M A := λ ω σ, Returned (f ω) σ.

(** [Arc::new(Mutex::new(None))] *)
Definition stash_new : M loc :=
  λ _ σ,
    Returned (length (stashes σ))
             {| history := history σ; stashes := stashes σ ++ [None] |}.

(** [stash.lock().await.clone()]; a location outside the store reads as
    an empty cell. *)
Definition stash_get (l : loc) : M (option ContainerStatsResponse.t) :=
  λ _ σ, Returned (mjoin (stashes σ !! l)) σ.

(** [stash.lock().await.replace(v)] *)
Definition stash_replace (l : loc) (v : ContainerStatsResponse.t) : M unit :=
  λ _ σ,
    Returned tt {| history := history σ; stashes := <[l := Some v]> (stashes σ) |}.

(** [xs.into_iter().map(f)] collected, for an effectful [f]: the items in
    order, the first panic ending the run. *)
Fixpoint mapM {A B} (f : A -> M B) (l : list A) : M (list B) :=
  match l with
  | [] => ret []
  | x :: l' => y ← f x; ys ← mapM f l'; ret (y :: ys)
  end.

(** [m.await?] followed by the rest of the block: an [Err] ends the
    function with that error. *)
Definition and_then {A B E} (m : M (result A E)) (k : A -> M (result B E))
  : M (result B E) :=
  r ← m;
  match r with
  | Ok a => k a
  | Err e => mret (Err e)
  end.

(** A [for] loop whose body ends in [?]: the items in order, the first
    error ending the loop (and the function) with that error. *)
Fixpoint try_for_each {A E} (f : A -> M (result unit E)) (l : list A)
  : M (result unit E) :=
  match l with
  | [] => mret (Ok tt)
  | x :: l' => and_then (f x) (λ _, try_for_each f l')
  end.

(** [println!("{}", line)] *)
Definition println (line : string) : M unit :=
  call (EvPrintln line) (λ _ _, tt).

(** [a - b] on [u64]: a panic under overflow checks, the wrapped
    difference otherwise. *)
Definition u64_sub (a b : Z) : M Z :=
  checks ← ask overflow_checks;
  if checks : bool then
    match u64_checked_sub a b with
    | Some d => ret d
    | None => panic "attempt to subtract with overflow"
    end
  else ret (u64_wrapping_sub a b).

(** [iter.sum::<i64>()]: a panic at the first overflow under overflow
    checks, the wrapped sum otherwise. *)
Definition i64_sum (l : list Z) : M Z :=
  checks ← ask overflow_checks;
  if checks : bool then
    match i64_checked_sum l with
    | Some total => ret total
    | None => panic "attempt to add with overflow"
    end
  else ret (i64_wrapping_sum l).

(** The state a run ends in, returned or panicked. *)
Definition final_state {A} (o : outcome A) : State :=
  match o with
  | Returned _ σ => σ
  | Panicked _ σ => σ
  end.

(** ** Effects

    [emits P m]: whatever the world answers and whether it returns or
    panics, [m] only appends to the history, and only events that
    satisfy [P]. *)
Definition emits {A} (P : Event -> Prop) (m : M A) : Prop :=
  ∀ ω σ, ∃ evs,
    history (final_state (m ω σ)) = history σ ++ evs ∧ Forall P evs.

(** Three kinds of events: probes read the host and the engine; output
    is a printed line or anything sent to the broker; the rest are file
    accesses, the engine connection and the final sleep. *)
Definition is_probe (ev : Event) : bool :=
  match ev with
  | EvListContainers _ _ | EvListImages | EvListVolumes | EvStats _ | EvCommand _ _
  | EvSystemNewAll | EvSystemRefreshAll | EvUptime => true
  | _ => false
  end.

Definition is_broker (ev : Event) : bool :=
  match ev with
  | EvPublish _ _ _ _ | EvMqttConnect _ _ | EvSpawnPoll => true
  | _ => false
  end.

Definition is_file_write (ev : Event) : bool :=
  match ev with
  | EvWriteFile _ _ => true
  | _ => false
  end.

Definition is_println (ev : Event) : bool :=
  match ev with
  | EvPrintln _ => true
  | _ => false
  end.

(** ** Laws and shared facts *)

(** Runs the monad's primitives in the goal. *)
Ltac run_M :=
  repeat (unfold and_then, println, mbind, M_bind, bind, mret, M_ret, ret, call, ask,
            panic, stash_get, stash_new, stash_replace; simpl).

Section monad.
Context {A B C : Type}.
Implicit Types (ω : Oracle) (σ : State).

Lemma bind_ret_l (a : A) (k : A -> M B) ω σ : (ret a ≫= k) ω σ = k a ω σ.
Proof. done. Qed.

Lemma bind_ret_r (m : M A) ω σ : (m ≫= ret) ω σ = m ω σ.
Proof. unfold mbind, M_bind, bind. by destruct (m ω σ). Qed.

Lemma bind_assoc (m : M A) (k : A -> M B) (h : B -> M C) ω σ :
  ((m ≫= k) ≫= h) ω σ = (m ≫= λ a, k a ≫= h) ω σ.
Proof. unfold mbind, M_bind, bind. by destruct (m ω σ). Qed.

Lemma bind_returned (m : M A) (k : A -> M B) ω σ a σ' :
  m ω σ = Returned a σ' -> (m ≫= k) ω σ = k a ω σ'.
Proof. unfold mbind, M_bind, bind. by intros ->. Qed.

Lemma bind_panicked (m : M A) (k : A -> M B) ω σ msg σ' :
  m ω σ = Panicked msg σ' -> (m ≫= k) ω σ = Panicked msg σ'.
Proof. unfold mbind, M_bind, bind. by intros ->. Qed.

(** A computation followed by continuations that leave its final state
    alone ends in that state, returned or panicked. *)
Lemma final_state_bind (m : M A) (k : A -> M B) ω σ σ' :
  final_state (m ω σ) = σ' ->
  (∀ a, final_state (k a ω σ') = σ') ->
  final_state ((m ≫= k) ω σ) = σ'.
Proof.
  unfold mbind, M_bind, bind. intros Hm Hk.
  destruct (m ω σ); simpl in *; subst; [apply Hk|done].
Qed.

End monad.

Section arithmetic.
Local Open Scope Z_scope.
Implicit Types (a b : Z) (ω : Oracle) (σ : State).

Lemma u64_sub_state a b ω σ : final_state (u64_sub a b ω σ) = σ.
Proof. unfold u64_sub. run_M. by repeat case_match. Qed.

(** Without underflow the subtraction returns the difference, with or
    without overflow checks. *)
Lemma u64_sub_returned a b ω σ :
  in_u64 a -> 0 ≤ b ≤ a -> u64_sub a b ω σ = Returned (a - b) σ.
Proof.
  intros Ha Hb. unfold u64_sub. run_M.
  assert (in_u64 b) by (unfold in_u64 in *; lia).
  rewrite u64_sub_agree by (done || lia).
  assert (u64_wrapping_sub a b = a - b) as ->
    by (unfold u64_wrapping_sub, in_u64 in *; rewrite Z.mod_small; lia).
  by destruct (overflow_checks ω).
Qed.

(** With underflow it panics under overflow checks and wraps without. *)
Lemma u64_sub_underflow a b ω σ :
  in_u64 a -> in_u64 b -> a < b ->
  u64_sub a b ω σ =
    if overflow_checks ω then Panicked "attempt to subtract with overflow" σ
    else Returned (a - b + u64_modulus) σ.
Proof.
  intros Ha Hb Hlt. unfold u64_sub. run_M.
  destruct (u64_wrapping_sub_underflow a b) as (-> & -> & _); [done..|].
  by destruct (overflow_checks ω).
Qed.

End arithmetic.

(** ** Loops that may end early *)

Section try_for_each.
Context {A E : Type} (f : A -> M (result unit E)).
Implicit Types (l : list A) (ω : Oracle) (σ : State).

Lemma try_for_each_cons_ok x l ω σ σ' :
  f x ω σ = Returned (Ok tt) σ' ->
  try_for_each f (x :: l) ω σ = try_for_each f l ω σ'.
Proof. intros Hx. cbn [try_for_each]. run_M. by rewrite Hx. Qed.

Lemma try_for_each_cons_err x l ω σ σ' e :
  f x ω σ = Returned (Err e) σ' ->
  try_for_each f (x :: l) ω σ = Returned (Err e) σ'.
Proof. intros Hx. cbn [try_for_each]. run_M. by rewrite Hx. Qed.

(** A loop whose every round succeeds and only appends events. *)
Lemma try_for_each_ok (events : A -> list Event) l ω σ :
  (∀ x σ, x ∈ l ->
     f x ω σ = Returned (Ok tt)
                 {| history := history σ ++ events x; stashes := stashes σ |}) ->
  try_for_each f l ω σ =
    Returned (Ok tt)
      {| history := history σ ++ concat (events <$> l); stashes := stashes σ |}.
Proof.
  revert σ. induction l as [|x l IH]; intros σ Hf.
  - destruct σ. simpl. by rewrite app_nil_r.
  - erewrite try_for_each_cons_ok by (apply Hf; by left).
    rewrite IH by (intros; apply Hf; by right). simpl. by rewrite <-app_assoc.
Qed.

(** The rounds that do nothing can be left out. *)
Lemma try_for_each_filter (keep : A -> bool) l ω σ :
  (∀ x σ, keep x = false -> f x ω σ = Returned (Ok tt) σ) ->
  try_for_each f l ω σ = try_for_each f (filter (λ x, keep x = true) l) ω σ.
Proof.
  intros Hskip. revert σ. induction l as [|x l IH]; intros σ; [done|].
  destruct (keep x) eqn:Hx.
  - rewrite filter_cons_True by done. cbn [try_for_each]. run_M.
    destruct (f x ω σ) as [[[]|e] σ'|msg σ']; [apply IH|done..].
  - rewrite filter_cons_False by (by rewrite Hx).
    erewrite try_for_each_cons_ok by by apply Hskip. apply IH.
Qed.

(** A loop in which every round that does anything fails: it ends at
    the first such round. *)
Lemma try_for_each_stops (keep : A -> bool) (events : A -> list Event) e l ω σ :
  (∀ x σ, keep x = false -> f x ω σ = Returned (Ok tt) σ) ->
  (∀ x σ, keep x = true ->
     f x ω σ = Returned (Err e)
                 {| history := history σ ++ events x; stashes := stashes σ |}) ->
  try_for_each f l ω σ =
    match List.find keep l with
    | Some x =>
        Returned (Err e) {| history := history σ ++ events x; stashes := stashes σ |}
    | None => Returned (Ok tt) σ
    end.
Proof.
  intros Hskip Hfail. induction l as [|x l IH]; [done|].
  cbn [List.find]. destruct (keep x) eqn:Hx.
  - by erewrite try_for_each_cons_err by by apply Hfail.
  - by erewrite try_for_each_cons_ok by by apply Hskip.
Qed.

End try_for_each.

(** ** The effect discipline *)

Section effects.
Context {A B : Type} (P : Event -> Prop).
Implicit Types (ω : Oracle) (σ : State).

Lemma emits_silent (m : M A) : (∀ ω σ, history (final_state (m ω σ)) = history σ) -> emits P m.
Proof. intros Hm ω σ. exists []. by rewrite Hm, app_nil_r. Qed.

Lemma emits_ret (a : A) : emits P (mret a).
Proof. by apply emits_silent. Qed.

Lemma emits_panic msg : emits P (panic (A := A) msg).
Proof. by apply emits_silent. Qed.

Lemma emits_ask (f : Oracle -> A) : emits P (ask f).
Proof. by apply emits_silent. Qed.

Lemma emits_call ev (answer : Oracle -> History -> A) : P ev -> emits P (call ev answer).
Proof. intros Hev ω σ. exists [ev]. split; [done|]. by constructor. Qed.

Lemma emits_bind (m : M A) (k : A -> M B) :
  emits P m -> (∀ a, emits P (k a)) -> emits P (m ≫= k).
Proof.
  intros Hm Hk ω σ. destruct (Hm ω σ) as (evs & Hev & HP).
  unfold mbind, M_bind, bind. destruct (m ω σ) as [a σ1|msg σ1]; simpl in *.
  - destruct (Hk a ω σ1) as (evs' & Hev' & HP'). exists (evs ++ evs').
    rewrite Hev', Hev, <-app_assoc. split; [done|]. by apply Forall_app.
  - by exists evs.
Qed.

End effects.

Section effects_result.
Context {A B E : Type} (P : Event -> Prop).

Lemma emits_and_then (m : M (result A E)) (k : A -> M (result B E)) :
  emits P m -> (∀ a, emits P (k a)) -> emits P (and_then m k).
Proof.
  intros Hm Hk. apply emits_bind; [done|]. intros [a|e]; [apply Hk|].
  apply emits_silent. done.
Qed.

(** The same with a fact [Q] about the value the first part returns. *)
Lemma emits_and_then_post (Q : A -> Prop) (m : M (result A E))
    (k : A -> M (result B E)) :
  emits P m ->
  (∀ ω σ a σ', m ω σ = Returned (Ok a) σ' -> Q a) ->
  (∀ a, Q a -> emits P (k a)) ->
  emits P (and_then m k).
Proof.
  intros Hm HQ Hk ω σ. destruct (Hm ω σ) as (evs & Hev & HP).
  unfold and_then, mbind, M_bind, bind.
  destruct (m ω σ) as [[a|e] σ1|msg σ1] eqn:Hrun; simpl in *; [|by exists evs..].
  destruct (Hk a (HQ _ _ _ _ Hrun) ω σ1) as (evs' & Hev' & HP'). exists (evs ++ evs').
  rewrite Hev', Hev, <-app_assoc. split; [done|]. by apply Forall_app.
Qed.

End effects_result.

Section effects_loops.
Context {A B E : Type} (P : Event -> Prop).

Lemma emits_mapM (f : A -> M B) (l : list A) :
  (∀ x, emits P (f x)) -> emits P (mapM f l).
Proof.
  intros Hf. induction l as [|x l IH]; [by apply emits_silent|].
  cbn [mapM]. apply emits_bind; [apply Hf|]. intros y.
  apply emits_bind; [apply IH|]. intros ys. by apply emits_silent.
Qed.

Lemma emits_try_for_each (f : A -> M (result unit E)) (l : list A) :
  (∀ x, emits P (f x)) -> emits P (try_for_each f l).
Proof.
  intros Hf. induction l as [|x l IH]; [by apply emits_silent|].
  cbn [try_for_each]. apply emits_and_then; [apply Hf|done].
Qed.

Lemma emits_mono (Q : Event -> Prop) (m : M A) :
  (∀ ev, P ev -> Q ev) -> emits P m -> emits Q m.
Proof.
  intros HPQ Hm ω σ. destruct (Hm ω σ) as (evs & Hev & HP).
  exists evs. split; [done|]. by eapply Forall_impl.
Qed.

End effects_loops.

Section effects_store.
Context (P : Event -> Prop).

Lemma emits_stash_new : emits P stash_new.
Proof. by apply emits_silent. Qed.

Lemma emits_stash_get l : emits P (stash_get l).
Proof. by apply emits_silent. Qed.

Lemma emits_stash_replace l v : emits P (stash_replace l v).
Proof. by apply emits_silent. Qed.

Lemma emits_u64_sub a b : emits P (u64_sub a b).
Proof. apply emits_silent. intros. by rewrite u64_sub_state. Qed.

Lemma emits_i64_sum l : emits P (i64_sum l).
Proof. apply emits_silent. intros. unfold i64_sum. run_M. by repeat case_match. Qed.

Lemma emits_println line : P (EvPrintln line) -> emits P (println line).
Proof. apply emits_call. Qed.

End effects_store.

#[export] Hint Resolve emits_ret emits_panic emits_ask emits_stash_new emits_stash_get
  emits_stash_replace emits_u64_sub emits_i64_sum : rs.

(** Splits a goal [emits P m] along the structure of [m]; what is left
    are the calls, as goals [P ev], and goals about other computations. *)
Ltac emits_step :=
  lazymatch goal with
  | |- emits _ (mbind _ _) => apply emits_bind; [|intros ?]
  | |- emits _ (and_then _ _) => apply emits_and_then; [|intros ?]
  | |- emits _ (mapM _ _) => apply emits_mapM; intros ?
  | |- emits _ (try_for_each _ _) => apply emits_try_for_each; intros ?
  | |- emits _ (call _ _) => apply emits_call
  | |- emits _ (println _) => apply emits_println
  | |- emits _ (match ?x with _ => _ end) => destruct x
  | |- emits _ (if ?b then _ else _) => destruct b
  | |- emits _ _ => solve [eauto with rs]
  end.

Ltac emits_auto := repeat emits_step.
