(* ===== verification/Hoare.v ===== *)
(** Invariants and progress of runs of the monad of [World].

    - [keeps ω I m]: in the world [ω], the computation [m] started in a
      state that satisfies [I] ends in a state that satisfies [I],
      whether it returns or panics.  One rule per construct of the monad
      and the tactic [keeps_auto] that applies them; an external call
      keeps an invariant that is [stable] under its event.
    - The history only grows: the history at the start of a run is a
      prefix of the history at its end.
    - Progress of a loop: when [try_for_each] returns [Ok], every item of
      the list had its round, between the start and the end of the
      loop; and the rounds that count are as many as the items that
      count.
    - Phases: [in_phases Ps m] says that the events of a run of [m] come
      in consecutive segments, one per predicate of [Ps]. *)

From stdpp Require Import base tactics option list strings.
From S2P Require Import Prelude RustNum World.

Definition keeps {A} (ω : Oracle) (I : State -> Prop) (m : M A) : Prop :=
  ∀ σ, I σ -> I (final_state (m ω σ)).

(** The state after one more event. *)
Definition record (ev : Event) (σ : State) : State :=
  {| history := history σ ++ [ev]; stashes := stashes σ |}.

(** [I] survives every event that satisfies [P]. *)
Definition stable (I : State -> Prop) (P : Event -> Prop) : Prop :=
  ∀ ev σ, P ev -> I σ -> I (record ev σ).

(** What [emits P] promises about a run from [σ0]. *)
Definition extends (P : Event -> Prop) (σ0 σ : State) : Prop :=
  ∃ evs, history σ = history σ0 ++ evs ∧ Forall P evs.

(** ** Rules *)

Section keeps.
Context {A B : Type} (ω : Oracle) (I : State -> Prop).
Implicit Types (σ : State).

Lemma keeps_silent (m : M A) : (∀ σ, final_state (m ω σ) = σ) -> keeps ω I m.
Proof. intros Hm σ HI. by rewrite Hm. Qed.

Lemma keeps_ret (a : A) : keeps ω I (mret a).
Proof. by apply keeps_silent. Qed.

Lemma keeps_panic msg : keeps ω I (panic (A := A) msg).
Proof. by apply keeps_silent. Qed.

Lemma keeps_ask (f : Oracle -> A) : keeps ω I (ask f).
Proof. by apply keeps_silent. Qed.

Lemma keeps_call (P : Event -> Prop) ev (answer : Oracle -> History -> A) :
  stable I P -> P ev -> keeps ω I (call ev answer).
Proof. intros HI Hev σ Hσ. by apply HI. Qed.

Lemma keeps_bind (m : M A) (k : A -> M B) :
  keeps ω I m -> (∀ a, keeps ω I (k a)) -> keeps ω I (m ≫= k).
Proof.
  intros Hm Hk σ Hσ. specialize (Hm σ Hσ). unfold mbind, M_bind, bind.
  destruct (m ω σ) as [a σ1|msg σ1]; simpl in *; [by apply Hk|done].
Qed.

End keeps.

Section keeps_result.
Context {A B E : Type} (ω : Oracle) (I : State -> Prop).

Lemma keeps_and_then (m : M (result A E)) (k : A -> M (result B E)) :
  keeps ω I m -> (∀ a, keeps ω I (k a)) -> keeps ω I (and_then m k).
Proof. intros Hm Hk. apply keeps_bind; [done|]. intros [a|e]; [apply Hk|by apply keeps_ret]. Qed.

End keeps_result.

Section keeps_loops.
Context {A B E : Type} (ω : Oracle) (I : State -> Prop).

(** The loop rule: an invariant every round keeps holds after the
    loop, wherever it ends. *)
Lemma keeps_try_for_each (f : A -> M (result unit E)) (l : list A) :
  (∀ x, x ∈ l -> keeps ω I (f x)) -> keeps ω I (try_for_each f l).
Proof.
  induction l as [|x l IH]; intros Hf; [by apply keeps_ret|].
  cbn [try_for_each]. apply keeps_and_then; [apply Hf; by left|].
  intros _. apply IH. intros y Hy. apply Hf. by right.
Qed.

Lemma keeps_mapM (f : A -> M B) (l : list A) :
  (∀ x, x ∈ l -> keeps ω I (f x)) -> keeps ω I (mapM f l).
Proof.
  induction l as [|x l IH]; intros Hf; [by apply keeps_ret|].
  cbn [mapM]. apply keeps_bind; [apply Hf; by left|]. intros y.
  apply keeps_bind; [|intros; by apply keeps_ret].
  apply IH. intros z Hz. apply Hf. by right.
Qed.

End keeps_loops.

Section keeps_store.
Context (ω : Oracle) (I : State -> Prop).

Lemma keeps_stash_get l : keeps ω I (stash_get l).
Proof. by apply keeps_silent. Qed.

Lemma keeps_u64_sub a b : keeps ω I (u64_sub a b).
Proof. apply keeps_silent. intros. apply u64_sub_state. Qed.

Lemma keeps_i64_sum l : keeps ω I (i64_sum l).
Proof. apply keeps_silent. intros. unfold i64_sum. run_M. by repeat case_match. Qed.

Lemma keeps_println (P : Event -> Prop) line :
  stable I P -> P (EvPrintln line) -> keeps ω I (println line).
Proof. apply keeps_call. Qed.

End keeps_store.

#[export] Hint Resolve keeps_ret keeps_panic keeps_ask keeps_stash_get keeps_u64_sub
  keeps_i64_sum : rs.

(** Splits a goal [keeps ω I m] along the structure of [m], for an
    invariant stable under the events [P]; what is left are the calls, as
    goals [P ev], and goals about other computations. *)
Ltac keeps_step HI :=
  lazymatch goal with
  | |- keeps _ _ (mbind _ _) => apply keeps_bind; [|intros ?]
  | |- keeps _ _ (and_then _ _) => apply keeps_and_then; [|intros ?]
  | |- keeps _ _ (call _ _) => eapply keeps_call; [exact HI|]
  | |- keeps _ _ (println _) => eapply keeps_println; [exact HI|]
  | |- keeps _ _ (match ?x with _ => _ end) => destruct x
  | |- keeps _ _ (if ?b then _ else _) => destruct b
  | |- keeps _ _ _ => solve [eauto with rs]
  end.

Ltac keeps_auto HI := repeat keeps_step HI.

(** ** The effect discipline as an invariant *)

Section extends.
Context {A : Type} (P : Event -> Prop).
Implicit Types (σ : State) (m : M A).

Lemma extends_refl σ : extends P σ σ.
Proof. exists []. by rewrite app_nil_r. Qed.

Lemma extends_trans σ0 σ1 σ2 : extends P σ0 σ1 -> extends P σ1 σ2 -> extends P σ0 σ2.
Proof.
  intros (evs & H1 & HP) (evs' & H2 & HP'). exists (evs ++ evs').
  rewrite H2, H1, <-app_assoc. split; [done|]. by apply Forall_app.
Qed.

(** [emits P m] says that [m] keeps, in every world, the invariant of
    having only added events of [P] since any fixed state. *)
Lemma emits_keeps m : emits P m <-> ∀ ω σ0, keeps ω (extends P σ0) m.
Proof.
  split.
  - intros Hm ω σ0 σ Hσ. eapply extends_trans; [done|]. apply Hm.
  - intros Hm ω σ. apply (Hm ω σ σ), extends_refl.
Qed.

Lemma emits_prefix m ω σ :
  emits P m -> history σ `prefix_of` history (final_state (m ω σ)).
Proof. intros Hm. destruct (Hm ω σ) as (evs & -> & _). by apply prefix_app_r. Qed.

End extends.

(** ** Progress of a loop *)

Section progress.
Context {A E : Type} (f : A -> M (result unit E)).
Implicit Types (l : list A) (ω : Oracle) (σ : State).

Lemma try_for_each_Ok_inv x l ω σ σ' :
  try_for_each f (x :: l) ω σ = Returned (Ok tt) σ' ->
  ∃ σ1, f x ω σ = Returned (Ok tt) σ1 ∧ try_for_each f l ω σ1 = Returned (Ok tt) σ'.
Proof.
  cbn [try_for_each]. unfold and_then, mbind, M_bind, bind.
  destruct (f x ω σ) as [[[]|e] σ1|msg σ1]; [by eexists|done..].
Qed.

(** When the loop returns [Ok], every item had a round that returned
    [Ok], started at or after the start of the loop and ended at or
    before its end. *)
Lemma try_for_each_reaches (P : Event -> Prop) l ω σ σ' :
  (∀ x, emits P (f x)) ->
  try_for_each f l ω σ = Returned (Ok tt) σ' ->
  ∀ x, x ∈ l ->
    ∃ σa σb,
      f x ω σa = Returned (Ok tt) σb ∧
      history σ `prefix_of` history σa ∧ history σb `prefix_of` history σ'.
Proof.
  intros Hf. revert σ. induction l as [|y l IH]; intros σ Hrun x Hx.
  { by apply elem_of_nil in Hx. }
  apply try_for_each_Ok_inv in Hrun as (σ1 & Hy & Hrest).
  pose proof (emits_prefix P (f y) ω σ (Hf y)) as Hpre. rewrite Hy in Hpre.
  apply elem_of_cons in Hx as [->|Hx].
  - exists σ, σ1. split_and!; [done..|].
    pose proof (emits_prefix P (try_for_each f l) ω σ1
                  (emits_try_for_each P f l Hf)) as Hpost.
    by rewrite Hrest in Hpost.
  - destruct (IH σ1 Hrest x Hx) as (σa & σb & Hrun & Ha & Hb).
    exists σa, σb. split_and!; [done| |done]. by etrans.
Qed.

(** Counting the rounds of a loop: when every round that counts (the
    rounds of the items [p] holds of) takes [Q n] to [Q (S n)] and every
    other round keeps [Q n], a loop that returns [Ok] from [Q n] ends in
    [Q] of [n] plus the number of the items that count. *)
Lemma try_for_each_counts (Q : nat -> State -> Prop) (p : A -> bool) l ω :
  (∀ x n σ, x ∈ l -> Q n σ -> Q (if p x then S n else n) (final_state (f x ω σ))) ->
  ∀ n σ σ', Q n σ -> try_for_each f l ω σ = Returned (Ok tt) σ' ->
    Q (n + length (filter (λ x, p x = true) l))%nat σ'.
Proof.
  induction l as [|x l IH]; intros Hf n σ σ' HQ Hrun.
  { injection Hrun as <-. by rewrite Nat.add_0_r. }
  apply try_for_each_Ok_inv in Hrun as (σ1 & Hx & Hrest).
  pose proof (Hf x n σ (list_elem_of_here _ _) HQ) as H1. rewrite Hx in H1. simpl in H1.
  eapply IH in Hrest; [|intros; apply Hf; [by right|done]|exact H1].
  rewrite filter_cons. destruct (p x) eqn:Hp.
  - rewrite decide_True by done. simpl. by rewrite Nat.add_succ_r.
  - by rewrite decide_False by done.
Qed.

End progress.

(** ** Phases of a run

    [phased Ps evs]: the events [evs] fall into consecutive segments,
    one per predicate of [Ps] and in that order, each segment (possibly
    empty) holding only events of its predicate.  [in_phases Ps m]: the
    events a run of [m] adds to the history are phased so, wherever the
    run ends. *)

Fixpoint phased (Ps : list (Event -> Prop)) (evs : list Event) : Prop :=
  match Ps with
  | [] => evs = []
  | P :: Ps => ∃ evs1 evs2, evs = evs1 ++ evs2 ∧ Forall P evs1 ∧ phased Ps evs2
  end.

Definition in_phases {A} (Ps : list (Event -> Prop)) (m : M A) : Prop :=
  ∀ ω σ, ∃ evs, history (final_state (m ω σ)) = history σ ++ evs ∧ phased Ps evs.

Section phased.
Implicit Types (P : Event -> Prop) (Ps : list (Event -> Prop)) (evs : list Event).

Lemma phased_nil Ps : phased Ps [].
Proof. induction Ps as [|P Ps IH]; [done|]. by exists [], []. Qed.

(** A phase may be empty. *)
Lemma phased_next P Ps evs : phased Ps evs -> phased (P :: Ps) evs.
Proof. intros H. by exists [], evs. Qed.

(** A phase goes on as long as its events come. *)
Lemma phased_more P Ps evs evs' :
  Forall P evs -> phased (P :: Ps) evs' -> phased (P :: Ps) (evs ++ evs').
Proof.
  intros HP (evs1 & evs2 & -> & HP1 & Hrest). exists (evs ++ evs1), evs2.
  rewrite app_assoc. split_and!; [done| |done]. by apply Forall_app.
Qed.

Lemma phased_last P Ps evs : Forall P evs -> phased (P :: Ps) evs.
Proof. intros HP. exists evs, []. rewrite app_nil_r. split_and!; [done..|apply phased_nil]. Qed.

End phased.

Section in_phases.
Context {A B : Type} (P : Event -> Prop) (Ps : list (Event -> Prop)).

Lemma in_phases_next (m : M A) : in_phases Ps m -> in_phases (P :: Ps) m.
Proof.
  intros Hm ω σ. destruct (Hm ω σ) as (evs & ? & ?). exists evs.
  split; [done|by apply phased_next].
Qed.

Lemma in_phases_last (m : M A) : emits P m -> in_phases (P :: Ps) m.
Proof.
  intros Hm ω σ. destruct (Hm ω σ) as (evs & ? & ?). exists evs.
  split; [done|by apply phased_last].
Qed.

(** Sequencing: the first part stays in the current phase, the rest
    goes on from there. *)
Lemma in_phases_bind (m : M A) (k : A -> M B) :
  emits P m -> (∀ a, in_phases (P :: Ps) (k a)) -> in_phases (P :: Ps) (m ≫= k).
Proof.
  intros Hm Hk ω σ. destruct (Hm ω σ) as (evs & Hev & HP).
  unfold mbind, M_bind, bind. destruct (m ω σ) as [a σ1|msg σ1]; simpl in *.
  - destruct (Hk a ω σ1) as (evs' & Hev' & Hph). exists (evs ++ evs').
    rewrite Hev', Hev, <-app_assoc. split; [done|by apply phased_more].
  - exists evs. split; [done|by apply phased_last].
Qed.

End in_phases.

Section in_phases_result.
Context {A B E : Type} (P : Event -> Prop) (Ps : list (Event -> Prop)).

Lemma in_phases_and_then (m : M (result A E)) (k : A -> M (result B E)) :
  emits P m -> (∀ a, in_phases (P :: Ps) (k a)) -> in_phases (P :: Ps) (and_then m k).
Proof.
  intros Hm Hk. apply in_phases_bind; [done|]. intros [a|e]; [apply Hk|].
  apply in_phases_last, emits_ret.
Qed.

End in_phases_result.
