(* ===== verification/Config.v ===== *)
(** [src/src/config.rs]: the data model of the configuration file and of
    a sensor, the conversion of a command entry into a sensor, and the
    methods of [Sensor].  Each Rust struct or enum is a Module holding a
    type [t]; the functions of an [impl] block are definitions of the
    struct's Module. *)

From Stdlib Require Import ZArith Ascii String.
From stdpp Require Import base tactics option list gmap strings.
From S2P Require Import Prelude RustStr RustNum Json World.

(** ** [DeviceClass] *)

Module DeviceClass.

Inductive t : Type :=
| Date | Enum | Timestamp | ApparentPower | Aqi | Area
| AtmosphericPressure | Battery | BloodGlucoseConcentration
| CarbonMonoxide | CarbonDioxide | Conductivity | Current | DataRate
| DataSize | Distance | Duration | Energy | EnergyDistance
| EnergyStorage | Frequency | Gas | Humidity | Illuminance | Irradiance
| Moisture | Monetary | NitrogenDioxide | NitrogenMonoxide
| NitrousOxide | Ozone | Ph | Pm1 | Pm10 | Pm25 | PowerFactor | Power
| Precipitation | PrecipitationIntensity | Pressure | ReactiveEnergy
| ReactivePower | SignalStrength | SoundPressure | Speed
| SulphurDioxide | Temperature | VolatileOrganicCompounds
| VolatileOrganicCompoundsParts | Voltage | Volume | VolumeStorage
| VolumeFlowRate | Water | Weight | WindDirection | WindSpeed.

#[export] Instance eq_dec : EqDecision t.
Proof. solve_decision. Defined.

(** The variants in declaration order. *)
Definition all : list t :=
  [Date; Enum; Timestamp; ApparentPower; Aqi; Area; AtmosphericPressure;
   Battery; BloodGlucoseConcentration; CarbonMonoxide; CarbonDioxide;
   Conductivity; Current; DataRate; DataSize; Distance; Duration;
   Energy; EnergyDistance; EnergyStorage; Frequency; Gas; Humidity;
   Illuminance; Irradiance; Moisture; Monetary; NitrogenDioxide;
   NitrogenMonoxide; NitrousOxide; Ozone; Ph; Pm1; Pm10; Pm25;
   PowerFactor; Power; Precipitation; PrecipitationIntensity; Pressure;
   ReactiveEnergy; ReactivePower; SignalStrength; SoundPressure; Speed;
   SulphurDioxide; Temperature; VolatileOrganicCompounds;
   VolatileOrganicCompoundsParts; Voltage; Volume; VolumeStorage;
   VolumeFlowRate; Water; Weight; WindDirection; WindSpeed].

(** A variant's identifier, which is also its [Debug] text. *)
Definition ident (d : t) : string :=
  match d with
  | Date => "Date"
  | Enum => "Enum"
  | Timestamp => "Timestamp"
  | ApparentPower => "ApparentPower"
  | Aqi => "Aqi"
  | Area => "Area"
  | AtmosphericPressure => "AtmosphericPressure"
  | Battery => "Battery"
  | BloodGlucoseConcentration => "BloodGlucoseConcentration"
  | CarbonMonoxide => "CarbonMonoxide"
  | CarbonDioxide => "CarbonDioxide"
  | Conductivity => "Conductivity"
  | Current => "Current"
  | DataRate => "DataRate"
  | DataSize => "DataSize"
  | Distance => "Distance"
  | Duration => "Duration"
  | Energy => "Energy"
  | EnergyDistance => "EnergyDistance"
  | EnergyStorage => "EnergyStorage"
  | Frequency => "Frequency"
  | Gas => "Gas"
  | Humidity => "Humidity"
  | Illuminance => "Illuminance"
  | Irradiance => "Irradiance"
  | Moisture => "Moisture"
  | Monetary => "Monetary"
  | NitrogenDioxide => "NitrogenDioxide"
  | NitrogenMonoxide => "NitrogenMonoxide"
  | NitrousOxide => "NitrousOxide"
  | Ozone => "Ozone"
  | Ph => "Ph"
  | Pm1 => "Pm1"
  | Pm10 => "Pm10"
  | Pm25 => "Pm25"
  | PowerFactor => "PowerFactor"
  | Power => "Power"
  | Precipitation => "Precipitation"
  | PrecipitationIntensity => "PrecipitationIntensity"
  | Pressure => "Pressure"
  | ReactiveEnergy => "ReactiveEnergy"
  | ReactivePower => "ReactivePower"
  | SignalStrength => "SignalStrength"
  | SoundPressure => "SoundPressure"
  | Speed => "Speed"
  | SulphurDioxide => "SulphurDioxide"
  | Temperature => "Temperature"
  | VolatileOrganicCompounds => "VolatileOrganicCompounds"
  | VolatileOrganicCompoundsParts => "VolatileOrganicCompoundsParts"
  | Voltage => "Voltage"
  | Volume => "Volume"
  | VolumeStorage => "VolumeStorage"
  | VolumeFlowRate => "VolumeFlowRate"
  | Water => "Water"
  | Weight => "Weight"
  | WindDirection => "WindDirection"
  | WindSpeed => "WindSpeed"
  end.

(** [#[serde(rename_all = "snake_case")]]: an underscore before every
    upper-case letter but the first, and all letters in lower case. *)
Fixpoint snake_case_go (first : bool) (s : string) : string :=
  match s with
  | "" => ""
  | String c s' =>
      let is_upper := bool_decide (65 ≤ nat_of_ascii c ≤ 90) in
      let rest := String (Str.lower_char c) (snake_case_go false s') in
      if negb first && is_upper then String "_" rest else rest
  end.

Definition snake_case (s : string) : string := snake_case_go true s.

(** The name a variant is serialized as. *)
Definition name (d : t) : string := snake_case (ident d).

(** [Serialize] *)
Definition to_json (d : t) : Json.Value := Json.String (name d).

(** [Deserialize]: the variant of that name. *)
Definition of_name (s : string) : option t :=
  List.find (λ d, bool_decide (name d = s)) all.

End DeviceClass.

(** ** The configuration file *)

Module SensorConfig.
(** An override entry.  [id] is not read from the file; it is the key
    of the entry, set by [deserialize_sensors]. *)
Record t := mk {
  id : string;
  name : option string;
  unit : option string;
  device_class : option DeviceClass.t;
  icon : option string;
  disabled : bool;
}.

Definition with_id (new_id : string) (s : t) : t :=
  mk new_id (name s) (unit s) (device_class s) (icon s) (disabled s).
End SensorConfig.

Module PostProcess.
Variant t : Type :=
| TrimWhitespace | ParseFloat | ParseInteger | ExtractNumber
| ToUpperCase | ToLowerCase.

#[export] Instance eq_dec : EqDecision t.
Proof. solve_decision. Defined.
End PostProcess.

Module CommandSensor.
Record t := mk {
  id : string;
  name : string;
  unit : option string;
  device_class : option DeviceClass.t;
  icon : option string;
  command : string;
  args : option (list string);
  post_process : option PostProcess.t;
  disabled : bool;
}.

Definition with_id (new_id : string) (s : t) : t :=
  mk new_id (name s) (unit s) (device_class s) (icon s) (command s) (args s)
     (post_process s) (disabled s).
End CommandSensor.

Module Sensors.
(** An entry of the [sensors] table, tagged by its [type] key. *)
Variant t : Type :=
| SensorOverride (c : SensorConfig.t)
| Command (c : CommandSensor.t).

Definition id (s : t) : string :=
  match s with
  | SensorOverride c => SensorConfig.id c
  | Command c => CommandSensor.id c
  end.
End Sensors.

Module Config.
Record t := mk { sensors : gmap string Sensors.t }.
End Config.

(** The second half of [deserialize_sensors]: every entry takes its key
    as its id. *)
Definition assign_ids (sensors : gmap string Sensors.t) : gmap string Sensors.t :=
  map_imap (λ id sensor,
    Some match sensor with
         | Sensors.SensorOverride s => Sensors.SensorOverride (SensorConfig.with_id id s)
         | Sensors.Command s => Sensors.Command (CommandSensor.with_id id s)
         end) sensors.

(** [deserialize_sensors]: [parsed] is the outcome of
    [HashMap::deserialize], an error of which is returned as it is. *)
Definition deserialize_sensors {E} (parsed : result (gmap string Sensors.t) E)
  : result (gmap string Sensors.t) E :=
  (let? sensors := parsed in Ok (assign_ids sensors))%rs.

(** ** Reporters *)

Module SystemSensorReporterStat.
Variant t : Type := MemoryUsage | MemoryUsed | MemoryTotal | CpuUsage | Uptime.
End SystemSensorReporterStat.

Module SystemSensorReporter.
Record t := mk {
  system : System.t;
  name : SystemSensorReporterStat.t;
}.
End SystemSensorReporter.

Module CommandSensorReporter.
Record t := mk {
  command : string;
  args : option (list string);
  transform : option (string -> option string);
}.
End CommandSensorReporter.

Module DockerSensorReporterStat.
Variant t : Type :=
| ImagesCount | ImagesSize | VolumesCount | RunningCount | UnhealthyCount.
End DockerSensorReporterStat.

Module DockerSensorReporter.
Record t := mk {
  docker : Docker;
  stat : DockerSensorReporterStat.t;
}.
End DockerSensorReporter.

Module DockerContainerSensorReporterStat.
Variant t : Type := CpuUsage | MemoryUsage | Status.
End DockerContainerSensorReporterStat.

Module DockerContainerSensorReporter.
(** [stats_stash] is the location of the cache cell the reporter shares
    with the other reporters of its container. *)
Record t := mk {
  container : ContainerSummary.t;
  docker : Docker;
  stats_stash : loc;
  stat : DockerContainerSensorReporterStat.t;
}.
End DockerContainerSensorReporter.

Module SensorReporterType.
Variant t : Type :=
| System (r : SystemSensorReporter.t)
| Command (r : CommandSensorReporter.t)
| DockerContainer (r : DockerContainerSensorReporter.t)
| Docker (r : DockerSensorReporter.t).
End SensorReporterType.

(** ** [Sensor] *)

Module Sensor.

Record t := mk {
  id : string;
  name : string;
  unit : option string;
  device_class : option DeviceClass.t;
  icon : option string;
  disabled : bool;
  reporter : option SensorReporterType.t;
}.

(** [Sensor::default()], the derived [Default]. *)
Definition default : t := mk "" "" None None None false None.

(** [Sensor::merge]: the patch of an override entry applied in place.
    The first line is the guard and its early return; each field of the
    result is one [if] of the body. *)
Definition merge (self : t) (other : SensorConfig.t) : t :=
  if bool_decide (id self ≠ SensorConfig.id other)
     && negb (Str.contains (SensorConfig.id other) "_*_")
  then self
  else {|
    id := id self;
    name := match SensorConfig.name other with
            | Some name => name
            | None => name self
            end;
    unit := if bool_decide (is_Some (SensorConfig.unit other))
            then SensorConfig.unit other else unit self;
    device_class := if bool_decide (is_Some (SensorConfig.device_class other))
                    then SensorConfig.device_class other else device_class self;
    icon := if bool_decide (is_Some (SensorConfig.icon other))
            then SensorConfig.icon other else icon self;
    disabled := if SensorConfig.disabled other
                then SensorConfig.disabled other else disabled self;
    reporter := reporter self;
  |}.

(** [Sensor::sensor_topic] *)
Definition sensor_topic (self : t) (node_id : string) : string :=
  node_id +:+ "/sensor/" +:+ id self +:+ "/state".

(** [Sensor::discovery_topic] *)
Definition discovery_topic (self : t) (discovery_prefix node_id : string) : string :=
  discovery_prefix +:+ "/sensor/" +:+ node_id +:+ "/" +:+ id self +:+ "/config".

(** [Sensor::disovery_config] (the source's spelling).  [None] is the
    panic of an index assignment on a document that is not an object. *)
Definition disovery_config (self : t) (device_name node_id : string)
    (device_info : Json.Value) : option Json.Value :=
  let config := Json.obj [
    ("name", Json.String (device_name +:+ " " +:+ name self));
    ("state_topic", Json.String (sensor_topic self node_id));
    ("unique_id", Json.String (node_id +:+ "_" +:+ id self));
    ("device", device_info);
    ("unit_of_measurement", Json.of_option_string (unit self))
  ] in
  config ← match device_class self with
           | Some device_class =>
               Json.index_set "device_class" (DeviceClass.to_json device_class) config
           | None => Some config
           end;
  match icon self with
  | Some icon_str => Json.index_set "icon" (Json.String ("mdi:" +:+ icon_str)) config
  | None => Some config
  end.

Section from_command.
Context `{!FloatText}.

(** The closure a [post_process] setting selects. *)
Definition post_process_transform (p : option PostProcess.t) : string -> option string :=
  match p with
  | Some PostProcess.TrimWhitespace => λ s, Some (Str.trim s)
  | Some PostProcess.ParseFloat => λ s, display_f64 <$> parse_f64 s
  | Some PostProcess.ParseInteger => λ s, int_to_string <$> parse_i64 s
  | Some PostProcess.ExtractNumber =>
      λ s, display_f64 <$> parse_f64 (Str.filter_chars Str.is_numeric s)
  | Some PostProcess.ToUpperCase => λ s, Some (Str.to_uppercase s)
  | Some PostProcess.ToLowerCase => λ s, Some (Str.to_lowercase s)
  | None => λ s, Some s
  end.

(** [impl From<&CommandSensor> for Sensor] *)
Definition from_command_sensor (command_sensor : CommandSensor.t) : t := {|
  id := CommandSensor.id command_sensor;
  name := CommandSensor.name command_sensor;
  unit := CommandSensor.unit command_sensor;
  device_class := CommandSensor.device_class command_sensor;
  icon := CommandSensor.icon command_sensor;
  disabled := CommandSensor.disabled command_sensor;
  reporter := Some (SensorReporterType.Command {|
    CommandSensorReporter.command := CommandSensor.command command_sensor;
    CommandSensorReporter.args := CommandSensor.args command_sensor;
    CommandSensorReporter.transform :=
      Some (post_process_transform (CommandSensor.post_process command_sensor));
  |});
|}.

End from_command.

End Sensor.

(** ** The dump file *)

Module SensorsDump.
Variant t : Type := SensorOverride (s : Sensor.t).
End SensorsDump.

Module ConfigDump.
Record t := mk { sensors : gmap string SensorsDump.t }.
End ConfigDump.

(** The second half of [dump_deserialize_sensors].  The reporter is
    never read from a file. *)
Definition dump_assign_ids (sensors : gmap string SensorsDump.t) : gmap string SensorsDump.t :=
  map_imap (λ id sensor,
    Some match sensor with
         | SensorsDump.SensorOverride s =>
             SensorsDump.SensorOverride
               (Sensor.mk id (Sensor.name s) (Sensor.unit s) (Sensor.device_class s)
                          (Sensor.icon s) (Sensor.disabled s) (Sensor.reporter s))
         end) sensors.

(** [dump_serialize_sensors]: the map goes to the serializer as it is,
    the ids being its keys. *)
Definition dump_serialize_sensors {S} (sensors : gmap string SensorsDump.t)
    (serializer : gmap string SensorsDump.t -> S) : S :=
  serializer sensors.

Definition dump_deserialize_sensors {E} (parsed : result (gmap string SensorsDump.t) E)
  : result (gmap string SensorsDump.t) E :=
  (let? sensors := parsed in Ok (dump_assign_ids sensors))%rs.

(** ** What [merge] promises

    The effect of a patch, field by field: a field the patch carries
    replaces the sensor's, [disabled] is the disjunction, the id and the
    reporter stay. *)
Definition apply_patch (s : Sensor.t) (p : SensorConfig.t) : Sensor.t := {|
  Sensor.id := Sensor.id s;
  Sensor.name := default (Sensor.name s) (SensorConfig.name p);
  Sensor.unit := opt_or (SensorConfig.unit p) (Sensor.unit s);
  Sensor.device_class := opt_or (SensorConfig.device_class p) (Sensor.device_class s);
  Sensor.icon := opt_or (SensorConfig.icon p) (Sensor.icon s);
  Sensor.disabled := SensorConfig.disabled p || Sensor.disabled s;
  Sensor.reporter := Sensor.reporter s;
|}.

(** The guard of [merge] lets the patch through. *)
Definition merge_applies (s : Sensor.t) (p : SensorConfig.t) : bool :=
  bool_decide (Sensor.id s = SensorConfig.id p)
  || Str.contains (SensorConfig.id p) "_*_".

(** A configuration map whose entries carry their key as id, as
    [deserialize_sensors] leaves it. *)
Definition ids_assigned (sensors : gmap string Sensors.t) : Prop :=
  ∀ key sensor, sensors !! key = Some sensor -> Sensors.id sensor = key.

Section merge_facts.
Implicit Types (s : Sensor.t) (p q : SensorConfig.t).

Lemma opt_or_if {A} (o o' : option A) :
  (if bool_decide (is_Some o) then o else o') = opt_or o o'.
Proof. by destruct o. Qed.

Lemma merge_unfold s p :
  Sensor.merge s p = if merge_applies s p then apply_patch s p else s.
Proof.
  unfold Sensor.merge, merge_applies, apply_patch.
  rewrite !opt_or_if.
  destruct (decide (Sensor.id s = SensorConfig.id p)) as [Heq|Hne].
  - rewrite (bool_decide_eq_false_2 (_ ≠ _)), (bool_decide_eq_true_2 (_ = _)) by auto.
    simpl. destruct (SensorConfig.name p), (SensorConfig.disabled p); done.
  - rewrite (bool_decide_eq_true_2 (_ ≠ _)), (bool_decide_eq_false_2 (_ = _)) by auto.
    simpl. destruct (Str.contains _ _); [|done]. simpl.
    destruct (SensorConfig.name p), (SensorConfig.disabled p); done.
Qed.

Lemma merge_applied s p :
  merge_applies s p = true -> Sensor.merge s p = apply_patch s p.
Proof. intros H. by rewrite merge_unfold, H. Qed.

Lemma merge_marked s p :
  Str.contains (SensorConfig.id p) "_*_" = true -> Sensor.merge s p = apply_patch s p.
Proof.
  intros H. apply merge_applied. unfold merge_applies. rewrite H. apply orb_true_r.
Qed.

Lemma apply_patch_idemp s p : apply_patch (apply_patch s p) p = apply_patch s p.
Proof.
  unfold apply_patch; simpl. f_equal.
  - by destruct (SensorConfig.name p).
  - by destruct (SensorConfig.unit p).
  - by destruct (SensorConfig.device_class p).
  - by destruct (SensorConfig.icon p).
  - by destruct (SensorConfig.disabled p).
Qed.

Lemma merge_applies_patched s p q :
  merge_applies (apply_patch s p) q = merge_applies s q.
Proof. done. Qed.

(** A patch never touches the value source of a sensor. *)
Lemma merge_reporter s p : Sensor.reporter (Sensor.merge s p) = Sensor.reporter s.
Proof. rewrite merge_unfold. by destruct (merge_applies s p). Qed.

End merge_facts.

(** ** Properties of [merge] *)

Section merge_properties.
Implicit Types (s : Sensor.t) (p q : SensorConfig.t).

(** C1: [Sensor::merge] implements patch application behind its guard:
    when the patch's id is the sensor's id or contains ["_*_"], the
    result is the sensor with every field the patch carries replaced and
    [disabled] or-ed; otherwise the sensor is returned as it was. *)
Theorem merge_refines_patch s p :
  Sensor.merge s p = if merge_applies s p then apply_patch s p else s.
Proof. apply merge_unfold. Qed.

(** A patch whose id differs from the sensor's id and does not
    contain ["_*_"] changes nothing. *)
Theorem merge_guard_noop s p :
  Sensor.id s ≠ SensorConfig.id p ->
  Str.contains (SensorConfig.id p) "_*_" = false ->
  Sensor.merge s p = s.
Proof.
  intros Hne Hc. rewrite merge_unfold. unfold merge_applies.
  by rewrite bool_decide_eq_false_2, Hc.
Qed.

(** Whatever the patch, [merge] leaves the id and the reporter of
    the sensor as they were, and leaves every field for which the patch
    carries nothing as it was. *)
Theorem merge_absent_fields_unchanged s p :
  Sensor.id (Sensor.merge s p) = Sensor.id s ∧
  Sensor.reporter (Sensor.merge s p) = Sensor.reporter s ∧
  (SensorConfig.name p = None -> Sensor.name (Sensor.merge s p) = Sensor.name s) ∧
  (SensorConfig.unit p = None -> Sensor.unit (Sensor.merge s p) = Sensor.unit s) ∧
  (SensorConfig.device_class p = None ->
     Sensor.device_class (Sensor.merge s p) = Sensor.device_class s) ∧
  (SensorConfig.icon p = None -> Sensor.icon (Sensor.merge s p) = Sensor.icon s) ∧
  (SensorConfig.disabled p = false ->
     Sensor.disabled (Sensor.merge s p) = Sensor.disabled s).
Proof.
  rewrite merge_unfold. destruct (merge_applies s p); [|done].
  unfold apply_patch; simpl. split_and!; try done; by intros ->.
Qed.

(** A patch that passes the guard overwrites exactly the fields it
    carries: a present name, unit, device class or icon is the result's,
    and [disabled = true] disables. *)
Theorem merge_present_fields_overwrite s p :
  merge_applies s p = true ->
  (∀ n, SensorConfig.name p = Some n -> Sensor.name (Sensor.merge s p) = n) ∧
  (∀ u, SensorConfig.unit p = Some u -> Sensor.unit (Sensor.merge s p) = Some u) ∧
  (∀ d, SensorConfig.device_class p = Some d ->
     Sensor.device_class (Sensor.merge s p) = Some d) ∧
  (∀ i, SensorConfig.icon p = Some i -> Sensor.icon (Sensor.merge s p) = Some i) ∧
  (SensorConfig.disabled p = true -> Sensor.disabled (Sensor.merge s p) = true).
Proof.
  intros H. rewrite (merge_applied _ _ H). unfold apply_patch; simpl.
  split_and!; [intros ? ->..|intros ->]; done.
Qed.

(** Merging the same patch a second time changes nothing. *)
Theorem merge_idempotent s p :
  Sensor.merge (Sensor.merge s p) p = Sensor.merge s p.
Proof.
  rewrite (merge_unfold s p). destruct (merge_applies s p) eqn:H; [|by rewrite merge_unfold, H].
  rewrite merge_unfold, merge_applies_patched, H. apply apply_patch_idemp.
Qed.

(** [merge] can disable a sensor and can never enable one: the
    result is disabled exactly when the sensor was, or the patch passes
    the guard and says [disabled = true].  In particular a patch with
    [disabled = false] does not re-enable a disabled sensor. *)
Theorem merge_disabled_one_way s p :
  Sensor.disabled (Sensor.merge s p)
  = (merge_applies s p && SensorConfig.disabled p) || Sensor.disabled s.
Proof. rewrite merge_unfold. by destruct (merge_applies s p). Qed.

(** The guard does not compare the pattern with the sensor's id: a
    patch whose id contains ["_*_"] anywhere is applied to every sensor,
    whatever its id. *)
Theorem merge_wildcard_unchecked s p :
  Str.contains (SensorConfig.id p) "_*_" = true ->
  Sensor.merge s p = apply_patch s p.
Proof.
  intros H. apply merge_applied. unfold merge_applies. rewrite H. apply orb_true_r.
Qed.

End merge_properties.

(** Examples the witnesses use. *)
Definition example_sensor : Sensor.t :=
  Sensor.mk "cpu_usage" "CPU Usage" (Some "%") None None false None.

Definition example_patch (id : string) : SensorConfig.t :=
  SensorConfig.mk id (Some "Processor") None None (Some "chip") true.

Lemma merge_guard_noop_witness :
  Sensor.merge example_sensor (example_patch "memory_usage") = example_sensor.
Proof. apply merge_guard_noop; [done|by vm_compute]. Defined.

Lemma merge_present_fields_overwrite_witness :
  Sensor.name (Sensor.merge example_sensor (example_patch "cpu_usage")) = "Processor".
Proof.
  by apply (merge_present_fields_overwrite example_sensor (example_patch "cpu_usage")).
Defined.

Lemma merge_wildcard_unchecked_witness :
  Sensor.name (Sensor.merge example_sensor (example_patch "dockercontainer_*_memory"))
  = "Processor".
Proof.
  by rewrite (merge_wildcard_unchecked example_sensor
                (example_patch "dockercontainer_*_memory") eq_refl).
Defined.

Lemma merge_absent_fields_unchanged_witness :
  Sensor.unit (Sensor.merge example_sensor (example_patch "cpu_usage")) = Some "%".
Proof.
  by apply (merge_absent_fields_unchanged example_sensor (example_patch "cpu_usage")).
Defined.

(** ** The id of an entry is its key *)

Section ids.
Implicit Types (m : gmap string Sensors.t) (key : string).

Lemma assign_ids_lookup m key :
  assign_ids m !! key =
    match m !! key with
    | Some (Sensors.SensorOverride s) =>
        Some (Sensors.SensorOverride (SensorConfig.with_id key s))
    | Some (Sensors.Command s) => Some (Sensors.Command (CommandSensor.with_id key s))
    | None => None
    end.
Proof.
  unfold assign_ids. rewrite map_lookup_imap.
  by destruct (m !! key) as [[]|].
Qed.

Lemma assign_ids_assigned m : ids_assigned (assign_ids m).
Proof.
  intros key sensor. rewrite assign_ids_lookup.
  destruct (m !! key) as [[]|]; intros; by simplify_eq.
Qed.

Lemma assign_ids_fixpoint m : ids_assigned m -> assign_ids m = m.
Proof.
  intros Hm. apply map_eq. intros key. rewrite assign_ids_lookup.
  destruct (m !! key) as [[[]|[]]|] eqn:E; [| |done];
    apply Hm in E; simpl in E; by subst.
Qed.

(** [deserialize_sensors] passes a parse error through, and on
    success returns a map with the keys of the parsed map in which every
    entry, override or command, carries its key as its id and is
    otherwise the parsed entry. *)
Theorem deserialize_sensors_assigns_ids {E} (parsed : result (gmap string Sensors.t) E) :
  match parsed, deserialize_sensors parsed with
  | Err e, r => r = Err e
  | Ok m, Ok m' =>
      ids_assigned m' ∧ dom m' = dom m ∧
      ∀ key, m' !! key =
        match m !! key with
        | Some (Sensors.SensorOverride s) =>
            Some (Sensors.SensorOverride (SensorConfig.with_id key s))
        | Some (Sensors.Command s) => Some (Sensors.Command (CommandSensor.with_id key s))
        | None => None
        end
  | Ok _, Err _ => False
  end.
Proof.
  destruct parsed as [m|e]; simpl; [|done].
  split_and!; [apply assign_ids_assigned| |apply assign_ids_lookup].
  apply set_eq. intros key. rewrite !elem_of_dom, assign_ids_lookup.
  destruct (m !! key) as [[]|]; by rewrite <-?not_eq_None_Some.
Qed.

End ids.

(** ** [DeviceClass] names *)

Section device_class.

Lemma device_class_all d : d ∈ DeviceClass.all.
Proof. apply list_elem_of_In. destruct d; simpl; tauto. Qed.

Lemma device_class_of_name_name d : DeviceClass.of_name (DeviceClass.name d) = Some d.
Proof. by destruct d. Qed.

Lemma device_class_name_inj d d' : DeviceClass.name d = DeviceClass.name d' -> d = d'.
Proof.
  intros H. apply (f_equal DeviceClass.of_name) in H.
  rewrite !device_class_of_name_name in H. by simplify_eq.
Qed.

Lemma device_class_of_name_Some s d :
  DeviceClass.of_name s = Some d -> DeviceClass.name d = s.
Proof.
  unfold DeviceClass.of_name. intros [_ H]%find_some. by apply bool_decide_eq_true in H.
Qed.

(** The serialized name of a device class is its identifier in
    snake case, and reading a name back gives the class: the names of
    the 57 classes are pairwise distinct, and a text reads as a class
    exactly when it is the name of that class. *)
Theorem device_class_name_roundtrip d :
  DeviceClass.of_name (DeviceClass.name d) = Some d ∧
  ∀ s, DeviceClass.of_name s = Some d <-> s = DeviceClass.name d.
Proof.
  split; [apply device_class_of_name_name|]. intros s. split.
  - by intros <-%device_class_of_name_Some.
  - intros ->. apply device_class_of_name_name.
Qed.

End device_class.

(** ** Topics *)

Section topics.
Implicit Types (s : Sensor.t) (node_id prefix : string).

(** For a given node id (and discovery prefix), the state topic and
    the discovery topic are injective in the sensor id: two sensors
    publish under the same topic only if they have the same id. *)
Theorem topics_injective s s' node_id prefix :
  (Sensor.sensor_topic s node_id = Sensor.sensor_topic s' node_id ->
     Sensor.id s = Sensor.id s') ∧
  (Sensor.discovery_topic s prefix node_id = Sensor.discovery_topic s' prefix node_id ->
     Sensor.id s = Sensor.id s').
Proof.
  unfold Sensor.sensor_topic, Sensor.discovery_topic. split; intros H.
  - do 2 apply Str.app_inv_head in H. by apply Str.app_inv_tail in H.
  - do 4 apply Str.app_inv_head in H. by apply Str.app_inv_tail in H.
Qed.

End topics.

Lemma topics_injective_witness :
  Sensor.id example_sensor = Sensor.id (Sensor.merge example_sensor (example_patch "cpu_usage")).
Proof. by apply (topics_injective _ _ "unraid_tower" "homeassistant"). Defined.

(** ** The discovery document *)

Section discovery.
Implicit Types (s : Sensor.t) (device_name node_id : string) (device_info : Json.Value).

(** The keys a discovery document can have. *)
Definition discovery_keys : list string :=
  ["name"; "state_topic"; "unique_id"; "device"; "unit_of_measurement";
   "device_class"; "icon"].

(** The members of the document [disovery_config] builds. *)
Definition discovery_members s device_name node_id device_info
  : gmap string Json.Value :=
  let base : gmap string Json.Value :=
    <["unit_of_measurement" := Json.of_option_string (Sensor.unit s)]>
    (<["device" := device_info]>
    (<["unique_id" := Json.String (node_id +:+ "_" +:+ Sensor.id s)]>
    (<["state_topic" := Json.String (Sensor.sensor_topic s node_id)]>
    (<["name" := Json.String (device_name +:+ " " +:+ Sensor.name s)]> ∅)))) in
  let with_class :=
    match Sensor.device_class s with
    | Some d => <["device_class" := DeviceClass.to_json d]> base
    | None => base
    end in
  match Sensor.icon s with
  | Some i => <["icon" := Json.String ("mdi:" +:+ i)]> with_class
  | None => with_class
  end.

Lemma disovery_config_members s device_name node_id device_info :
  Sensor.disovery_config s device_name node_id device_info
  = Some (Json.Object (discovery_members s device_name node_id device_info)).
Proof.
  unfold Sensor.disovery_config, discovery_members.
  by destruct (Sensor.device_class s), (Sensor.icon s).
Qed.

(** C40: [disovery_config] never panics and returns an object with
    exactly these members: [name] is the device name, a space and the
    sensor's name; [state_topic] is the sensor's state topic;
    [unique_id] is the node id, an underscore and the sensor id;
    [device] is the caller's document; [unit_of_measurement] is the unit
    or [null]; [device_class] is there exactly when the sensor has one,
    as its snake-case name; [icon] is there exactly when the sensor has
    one, as ["mdi:"] followed by the sensor's icon text. *)
Theorem disovery_config_shape s device_name node_id device_info :
  ∃ doc,
    Sensor.disovery_config s device_name node_id device_info = Some doc ∧
    Json.is_object doc = true ∧
    Json.get "name" doc = Some (Json.String (device_name +:+ " " +:+ Sensor.name s)) ∧
    Json.get "state_topic" doc = Some (Json.String (Sensor.sensor_topic s node_id)) ∧
    Json.get "unique_id" doc = Some (Json.String (node_id +:+ "_" +:+ Sensor.id s)) ∧
    Json.get "device" doc = Some device_info ∧
    Json.get "unit_of_measurement" doc = Some (Json.of_option_string (Sensor.unit s)) ∧
    Json.get "device_class" doc = DeviceClass.to_json <$> Sensor.device_class s ∧
    Json.get "icon" doc = (λ i, Json.String ("mdi:" +:+ i)) <$> Sensor.icon s ∧
    ∀ key, key ∉ discovery_keys -> Json.get key doc = None.
Proof.
  eexists. split; [apply disovery_config_members|].
  unfold discovery_members, discovery_keys.
  destruct (Sensor.device_class s), (Sensor.icon s); simpl;
    split_and!; try done; intros key Hkey;
    repeat (rewrite lookup_insert_ne by set_solver); apply lookup_empty.
Qed.

End discovery.

(** ** Post-processing of command output *)

Section post_process.
Context `{!FloatText}.

(** The [ParseInteger] transform normalises: a text it accepts is
    mapped to a text it accepts and leaves unchanged, so a value that was
    published once is stable under a second pass. *)
Theorem post_process_integer_normal s t :
  Sensor.post_process_transform (Some PostProcess.ParseInteger) s = Some t ->
  Sensor.post_process_transform (Some PostProcess.ParseInteger) t = Some t.
Proof.
  cbn [Sensor.post_process_transform]. intros (z & Hz & ->)%fmap_Some.
  by rewrite parse_i64_int_to_string by by eapply parse_i64_in_range.
Qed.

(** The [ExtractNumber] transform keeps the ASCII digits only, so a
    decimal point in the command's output is dropped before the float is
    parsed: the text [a.b] reads as the text [ab]. *)
Theorem post_process_extract_number_point a b :
  Sensor.post_process_transform (Some PostProcess.ExtractNumber) (a +:+ "." +:+ b)
  = Sensor.post_process_transform (Some PostProcess.ExtractNumber) (a +:+ b).
Proof.
  cbn [Sensor.post_process_transform]. by rewrite !Str.filter_chars_app.
Qed.

End post_process.

Lemma post_process_integer_normal_witness :
  Sensor.post_process_transform (H := Build_FloatText (λ _, None) (λ _, ""))
    (Some PostProcess.ParseInteger) "42" = Some "42".
Proof. by apply (post_process_integer_normal (H := _) "+42"). Defined.
