(* ===== verification/Parsers.v ===== *)
(** The parsers of command output at the end of
    [src/src/unraid_stats.rs]: the second line of [df], the package
    temperature line of [sensors], and the state line of
    [mdcmd status]. *)

From Stdlib Require Import ZArith Ascii String.
From stdpp Require Import base tactics option list numbers strings.
From S2P Require Import Prelude RustStr RustNum RustFloat.

Module DiskInfo.
Record t := mk {
  total : string;
  available : string;
  usage_percent : f64;
}.
End DiskInfo.

Section parsers.
Context `{!FloatText}.

(** [parse_disk_usage].  The indexings [parts[i]] stand under the test
    [parts.len() >= 5], so none of them is out of range. *)
Definition parse_disk_usage (df_output : string) : option DiskInfo.t :=
  (iter_next (iter_skip 1 (Str.lines df_output))).1 ≫= λ line,
    let parts := Str.split_whitespace line in
    if bool_decide (5 ≤ length parts) then
      let usage_str := Str.trim_end_matches "%" (parts !!! 4) in
      usage_percent ← parse_f64 usage_str;
      Some {|
        DiskInfo.total := parts !!! 1;
        DiskInfo.available := parts !!! 3;
        DiskInfo.usage_percent := usage_percent;
      |}
    else None.

(** [parse_cpu_temp] *)
Definition parse_cpu_temp (sensors_output : string) : option f64 :=
  iter_find (λ line, Str.contains line "Package id 0") (Str.lines sensors_output)
  ≫= λ line,
    iter_find (λ word, Str.contains word "°C") (Str.split_whitespace line)
    ≫= λ temp,
      parse_f64 (Str.trim_end_matches_str "°C" (Str.trim_start_matches "+" temp)).

(** [parse_array_status] *)
Definition parse_array_status (status_output : string) : option string :=
  Str.trim_start_matches_str "mdState=" <$>
    iter_find (λ line, Str.starts_with line "mdState=") (Str.lines status_output).

End parsers.

(** ** Properties *)

Section parser_properties.
Context `{!FloatText}.
Implicit Types (header line value : string) (fields : list string).

Lemma second_line header line :
  Str.is_line header = true -> Str.is_line line = true ->
  (iter_next (iter_skip 1 (Str.lines (header +:+ String "010" line)))).1
  = match line with "" => None | _ => Some line end.
Proof. intros Hh Hl. rewrite Str.lines_two by done. by destruct line. Qed.

(** On the output of [df], a header line followed by a line of
    fields separated by single spaces, [parse_disk_usage] needs five
    fields: with fewer it returns [None]; with five or more, the total is
    the second field, the available space the fourth, and the percentage
    the fifth without its trailing [%] signs, parsed as a float, a
    percentage that does not parse giving [None]. *)
Theorem parse_disk_usage_fields header fields :
  Str.is_line header = true ->
  Forall (λ w, Str.is_word w = true) fields ->
  parse_disk_usage (header +:+ String "010" (Str.join " " fields)) =
    if bool_decide (5 ≤ length fields) then
      usage_percent ← parse_f64 (Str.trim_end_matches "%" (fields !!! 4));
      Some {|
        DiskInfo.total := fields !!! 1;
        DiskInfo.available := fields !!! 3;
        DiskInfo.usage_percent := usage_percent;
      |}
    else None.
Proof.
  intros Hh Hf. unfold parse_disk_usage.
  rewrite second_line by (done || by apply Str.is_line_join).
  destruct (Str.join " " fields) eqn:E.
  - destruct fields as [|w [|w' ws]]; [done|..]; simpl in E.
    + apply Forall_cons_1 in Hf as [Hw _]. by subst.
    + by destruct w.
  - rewrite <-E. csimpl. by rewrite Str.split_whitespace_join.
Qed.

(** [parse_array_status] on a status text whose first line that
    starts with [mdState=] is [mdState=] followed by a value returns the
    value (the value itself not starting with [mdState=]; the prefix is
    stripped as often as it repeats). *)
Theorem parse_array_status_value header value :
  Str.is_line header = true -> Str.is_line value = true ->
  Str.starts_with header "mdState=" = false ->
  Str.starts_with value "mdState=" = false ->
  parse_array_status (header +:+ String "010" ("mdState=" +:+ value)) = Some value.
Proof.
  intros Hh Hv Hnh Hnv. unfold parse_array_status.
  rewrite Str.lines_two_nonempty by (done || by rewrite Str.is_line_app, Hv).
  unfold iter_find. cbn [List.find]. rewrite Hnh, Str.starts_with_app.
  cbn [fmap option_fmap option_map]. by rewrite Str.trim_start_matches_str_once.
Qed.

(** [parse_cpu_temp] on the output of [sensors], a line without the
    marker followed by a line of fields separated by single spaces that
    contains [Package id 0]: the temperature is the first field of that
    line that contains [°C], without its leading [+] signs and its
    trailing [°C], parsed as a float; the fields after it (the high and
    critical marks) are not read, and a line without such a field or
    whose field does not parse gives [None]. *)
Theorem parse_cpu_temp_fields header fields :
  Str.is_line header = true -> Str.contains header "Package id 0" = false ->
  Forall (λ w, Str.is_word w = true) fields ->
  Str.contains (Str.join " " fields) "Package id 0" = true ->
  parse_cpu_temp (header +:+ String "010" (Str.join " " fields)) =
    iter_find (λ word, Str.contains word "°C") fields ≫= λ temp,
      parse_f64 (Str.trim_end_matches_str "°C" (Str.trim_start_matches "+" temp)).
Proof.
  intros Hh Hnh Hf Hline. unfold parse_cpu_temp.
  rewrite Str.lines_two by (done || by apply Str.is_line_join).
  unfold iter_find. cbn [List.find]. rewrite Hnh.
  destruct (Str.join " " fields) eqn:E; [done|]. rewrite <-E in Hline |- *.
  cbn [List.find]. rewrite Hline. csimpl. by rewrite Str.split_whitespace_join.
Qed.

End parser_properties.

(** The example of a [df -BM] output. *)
Definition example_df_fields : list string :=
  ["/dev/sda1"; "100M"; "40M"; "60M"; "40%"; "/mnt/user"].

Lemma parse_disk_usage_fields_witness :
  parse_disk_usage
    ("Filesystem 1M-blocks Used Available Use% Mounted on" +:+
     String "010" (Str.join " " example_df_fields))
  = Some (DiskInfo.mk "100M" "60M" (f64_of_Z 40)).
Proof.
  rewrite parse_disk_usage_fields; [by vm_compute|done|].
  unfold example_df_fields. by repeat constructor.
Defined.

Lemma parse_array_status_value_witness :
  parse_array_status ("sbName=/boot/config/super.dat" +:+ String "010" ("mdState=" +:+ "STARTED"))
  = Some "STARTED".
Proof. by apply parse_array_status_value. Defined.

(** The package line of an [lm-sensors] report. *)
Definition example_sensors_fields : list string :=
  ["Package"; "id"; "0:"; "+45.0°C"; "(high"; "="; "+80.0°C,"; "crit"; "="; "+100.0°C)"].

Lemma parse_cpu_temp_fields_witness :
  parse_cpu_temp ("coretemp-isa-0000" +:+ String "010" (Str.join " " example_sensors_fields))
  = Some (f64_of_Z 45).
Proof.
  rewrite parse_cpu_temp_fields; [by vm_compute|done|done| |done].
  unfold example_sensors_fields. by repeat constructor.
Defined.
