(* ===== verification/Catalog.v ===== *)
(** The built-in catalogue: the sensor literals of
    [UnraidStats::sensors] in [src/src/unraid_stats.rs], the query for
    the running containers and the three sensors of a container, and the
    copies of the Docker part in [src/src/docker_stats.rs]. *)

From Stdlib Require Import ZArith Ascii String.
From stdpp Require Import base tactics option list numbers strings.
From S2P Require Import Prelude RustStr RustNum Json World Config Parsers.

(** The filter of [containers]: [status = running]. *)
Definition running_filter : Filters := [("status", ["running"])].

(** [container.names.first()] without its leading slashes, or
    ["unknown"]. *)
Definition container_name (container : ContainerSummary.t) : string :=
  default "unknown"
    (Str.trim_start_matches "/" <$> (ContainerSummary.names container ≫= head)).

(** The three sensors of a container, around the cache cell
    [stats_stash] they share. *)
Definition container_sensor_triplet (docker : Docker) (device_name : string)
    (container : ContainerSummary.t) (stats_stash : loc) : list Sensor.t :=
  let container_name := container_name container in
  let reporter stat :=
    Some (SensorReporterType.DockerContainer {|
      DockerContainerSensorReporter.container := container;
      DockerContainerSensorReporter.stats_stash := stats_stash;
      DockerContainerSensorReporter.stat := stat;
      DockerContainerSensorReporter.docker := docker;
    |}) in
  [ {| Sensor.id := "dockercontainer_" +:+ container_name +:+ "_cpu";
       Sensor.name := device_name +:+ " Docker " +:+ container_name +:+ " CPU";
       Sensor.icon := Some "mdi:cpu-64-bit";
       Sensor.unit := Some "%";
       Sensor.reporter := reporter DockerContainerSensorReporterStat.CpuUsage;
       Sensor.device_class := None;
       Sensor.disabled := false |};
    {| Sensor.id := "dockercontainer_" +:+ container_name +:+ "_memory";
       Sensor.name := device_name +:+ " Docker " +:+ container_name +:+ " Memory";
       Sensor.icon := Some "mdi:memory";
       Sensor.unit := Some "B";
       Sensor.device_class := Some DeviceClass.DataSize;
       Sensor.reporter := reporter DockerContainerSensorReporterStat.MemoryUsage;
       Sensor.disabled := false |};
    {| Sensor.id := "dockercontainer_" +:+ container_name +:+ "_uptime";
       Sensor.name := device_name +:+ " Docker " +:+ container_name +:+ " Uptime";
       Sensor.icon := Some "mdi:docker";
       Sensor.reporter := reporter DockerContainerSensorReporterStat.Status;
       Sensor.unit := None;
       Sensor.device_class := None;
       Sensor.disabled := false |} ].

(** A sensor of the Docker engine as a whole. *)
Definition docker_sensor (docker : Docker) (id name icon : string)
    (unit : option string) (device_class : option DeviceClass.t)
    (stat : DockerSensorReporterStat.t) : Sensor.t := {|
  Sensor.id := id;
  Sensor.name := name;
  Sensor.icon := Some icon;
  Sensor.device_class := device_class;
  Sensor.unit := unit;
  Sensor.reporter := Some (SensorReporterType.Docker {|
    DockerSensorReporter.stat := stat;
    DockerSensorReporter.docker := docker |});
  Sensor.disabled := false;
|}.

(** The five sensors of the Docker engine, in the order of the
    sources. *)
Definition docker_engine_sensors (docker : Docker) : list Sensor.t :=
  [ docker_sensor docker "docker_containers_running" "Docker Containers Running"
      "docker" None None DockerSensorReporterStat.RunningCount;
    docker_sensor docker "docker_containers_unhealthy" "Docker Containers Unhealthy"
      "docker" None None DockerSensorReporterStat.UnhealthyCount;
    docker_sensor docker "docker_images_count" "Docker Images"
      "docker" None None DockerSensorReporterStat.ImagesCount;
    docker_sensor docker "docker_images_size" "Docker Images Size"
      "data_size" (Some "B") (Some DeviceClass.DataSize)
      DockerSensorReporterStat.ImagesSize;
    docker_sensor docker "docker_volumes_count" "Docker Volumes"
      "docker" None None DockerSensorReporterStat.VolumesCount ].

(** ** [src/src/unraid_stats.rs] *)

Module UnraidStats.

Record t := mk {
  sensor_config : option Config.t;
  docker : Docker;
  json_output : bool;
  discovery_prefix : string;
  device_name : string;
  skip_discovery : bool;
}.

(** [UnraidStats::containers]: the running containers, or the engine's
    error. *)
Definition containers (self : t) : M (result (list ContainerSummary.t) string) :=
  call (EvListContainers true running_filter)
       (λ ω h, docker_list_containers ω h true running_filter).

(** [UnraidStats::container_sensors]: a fresh cache cell and the three
    sensors around it. *)
Definition container_sensors (self : t) (container : ContainerSummary.t)
  : M (list Sensor.t) :=
  stats_stash ← stash_new;
  mret (container_sensor_triplet (docker self) (device_name self) container stats_stash).

Section builtin.
Context `{!FloatText}.

(** A sensor of the host statistics. *)
Definition system_sensor (id name : string) (unit : option string)
    (device_class : option DeviceClass.t) (icon : option string)
    (system : System.t) (stat : SystemSensorReporterStat.t) : Sensor.t := {|
  Sensor.id := id;
  Sensor.name := name;
  Sensor.unit := unit;
  Sensor.device_class := device_class;
  Sensor.icon := icon;
  Sensor.reporter := Some (SensorReporterType.System {|
    SystemSensorReporter.system := system;
    SystemSensorReporter.name := stat |});
  Sensor.disabled := false;
|}.

(** A sensor that runs a command and parses its output. *)
Definition command_sensor (id name : string) (unit : option string)
    (device_class : option DeviceClass.t) (icon : option string)
    (command : string) (args : option (list string))
    (transform : string -> option string) : Sensor.t := {|
  Sensor.id := id;
  Sensor.name := name;
  Sensor.unit := unit;
  Sensor.device_class := device_class;
  Sensor.icon := icon;
  Sensor.reporter := Some (SensorReporterType.Command {|
    CommandSensorReporter.command := command;
    CommandSensorReporter.args := args;
    CommandSensorReporter.transform := Some transform |});
  Sensor.disabled := false;
|}.

(** The transform closures of the command sensors. *)
Definition disk_usage_transform (s : string) : option string :=
  match parse_disk_usage s with
  | Some disk_info => Some (display_f64 (DiskInfo.usage_percent disk_info))
  | None => None
  end.

Definition disk_total_transform (s : string) : option string :=
  match parse_disk_usage s with
  | Some disk_info => Some (DiskInfo.total disk_info)
  | None => None
  end.

Definition disk_available_transform (s : string) : option string :=
  match parse_disk_usage s with
  | Some disk_info => Some (DiskInfo.available disk_info)
  | None => None
  end.

Definition cpu_temp_transform (s : string) : option string :=
  match parse_cpu_temp s with
  | Some temp => Some (fmt_fixed 1 temp)
  | None => None
  end.

Definition array_status_transform (s : string) : option string :=
  match parse_array_status s with
  | Some status => Some status
  | None => None
  end.

(** The four sensors of processor and memory, each around a snapshot of
    its own. *)
Definition host_sensors (sys_cpu sys_usage sys_total sys_used : System.t)
  : list Sensor.t :=
  [ system_sensor "cpu_usage" "CPU Usage" (Some "%") None None
      sys_cpu SystemSensorReporterStat.CpuUsage;
    system_sensor "memory_usage" "Memory Usage" (Some "%") None None
      sys_usage SystemSensorReporterStat.MemoryUsage;
    system_sensor "memory_total" "Memory Total" (Some "B")
      (Some DeviceClass.DataSize) (Some "memory")
      sys_total SystemSensorReporterStat.MemoryTotal;
    system_sensor "memory_used" "Memory Used" (Some "B")
      (Some DeviceClass.DataSize) (Some "memory")
      sys_used SystemSensorReporterStat.MemoryUsed ].

(** The three sensors read from [df]. *)
Definition disk_sensors : list Sensor.t :=
  [ command_sensor "disk_usage" "Disk Usage" (Some "%") None None
      "df" (Some ["-BM"; "/mnt/user"]) disk_usage_transform;
    command_sensor "disk_total" "Disk Total" (Some "B")
      (Some DeviceClass.DataSize) (Some "data_size")
      "df" (Some ["/mnt/user"]) disk_total_transform;
    command_sensor "disk_available" "Disk Available" (Some "B")
      (Some DeviceClass.DataSize) (Some "data_size")
      "df" (Some ["/mnt/user"]) disk_available_transform ].

(** Temperature, uptime and array state. *)
Definition status_sensors (sys_uptime : System.t) : list Sensor.t :=
  [ command_sensor "cpu_temp" "CPU Temperature" (Some "°C")
      (Some DeviceClass.Temperature) None
      "sensor" None cpu_temp_transform;
    system_sensor "uptime" "Uptime" None None (Some "duration")
      sys_uptime SystemSensorReporterStat.Uptime;
    command_sensor "array_status" "Array Status" None None None
      "mdcmd" (Some ["status"]) array_status_transform ].

(** The [vec!] literal of [sensors]: fifteen sensors in the order of the
    sources. *)
Definition builtin_sensors (self : t)
    (sys_cpu sys_usage sys_total sys_used sys_uptime : System.t) : list Sensor.t :=
  host_sensors sys_cpu sys_usage sys_total sys_used
  ++ disk_sensors
  ++ status_sensors sys_uptime
  ++ docker_engine_sensors (docker self).

End builtin.

End UnraidStats.

(** ** [src/src/docker_stats.rs]

    The file repeats the Docker part of the catalogue as free functions
    of the engine handle and the device name.  It is transcribed here
    literal by literal, independently of the definitions above. *)

Module docker_stats.

(** [sensor_list] *)
Definition sensor_list (docker : Docker) : list Sensor.t :=
  [ {| Sensor.id := "docker_containers_running";
       Sensor.name := "Docker Containers Running";
       Sensor.icon := Some "docker";
       Sensor.reporter := Some (SensorReporterType.Docker {|
         DockerSensorReporter.stat := DockerSensorReporterStat.RunningCount;
         DockerSensorReporter.docker := docker |});
       Sensor.unit := None; Sensor.device_class := None; Sensor.disabled := false |};
    {| Sensor.id := "docker_containers_unhealthy";
       Sensor.name := "Docker Containers Unhealthy";
       Sensor.icon := Some "docker";
       Sensor.reporter := Some (SensorReporterType.Docker {|
         DockerSensorReporter.stat := DockerSensorReporterStat.UnhealthyCount;
         DockerSensorReporter.docker := docker |});
       Sensor.unit := None; Sensor.device_class := None; Sensor.disabled := false |};
    {| Sensor.id := "docker_images_count";
       Sensor.name := "Docker Images";
       Sensor.icon := Some "docker";
       Sensor.reporter := Some (SensorReporterType.Docker {|
         DockerSensorReporter.stat := DockerSensorReporterStat.ImagesCount;
         DockerSensorReporter.docker := docker |});
       Sensor.unit := None; Sensor.device_class := None; Sensor.disabled := false |};
    {| Sensor.id := "docker_images_size";
       Sensor.name := "Docker Images Size";
       Sensor.icon := Some "data_size";
       Sensor.device_class := Some DeviceClass.DataSize;
       Sensor.unit := Some "B";
       Sensor.reporter := Some (SensorReporterType.Docker {|
         DockerSensorReporter.stat := DockerSensorReporterStat.ImagesSize;
         DockerSensorReporter.docker := docker |});
       Sensor.disabled := false |};
    {| Sensor.id := "docker_volumes_count";
       Sensor.name := "Docker Volumes";
       Sensor.icon := Some "docker";
       Sensor.reporter := Some (SensorReporterType.Docker {|
         DockerSensorReporter.stat := DockerSensorReporterStat.VolumesCount;
         DockerSensorReporter.docker := docker |});
       Sensor.unit := None; Sensor.device_class := None; Sensor.disabled := false |} ].

(** [containers] *)
Definition containers (docker : Docker) : M (result (list ContainerSummary.t) string) :=
  let filters := [("status", ["running"])] in
  call (EvListContainers true filters)
       (λ ω h, docker_list_containers ω h true filters).

(** [container_sensors] *)
Definition container_sensors (docker : Docker) (device_name : string)
    (container : ContainerSummary.t) : M (list Sensor.t) :=
  let container_name :=
    match ContainerSummary.names container ≫= head with
    | Some n => Str.trim_start_matches "/" n
    | None => "unknown"
    end in
  stats_stash ← stash_new;
  mret
  [ {| Sensor.id := "dockercontainer_" +:+ container_name +:+ "_cpu";
       Sensor.name := device_name +:+ " Docker " +:+ container_name +:+ " CPU";
       Sensor.icon := Some "mdi:cpu-64-bit";
       Sensor.unit := Some "%";
       Sensor.reporter := Some (SensorReporterType.DockerContainer {|
         DockerContainerSensorReporter.container := container;
         DockerContainerSensorReporter.stats_stash := stats_stash;
         DockerContainerSensorReporter.stat := DockerContainerSensorReporterStat.CpuUsage;
         DockerContainerSensorReporter.docker := docker |});
       Sensor.device_class := None; Sensor.disabled := false |};
    {| Sensor.id := "dockercontainer_" +:+ container_name +:+ "_memory";
       Sensor.name := device_name +:+ " Docker " +:+ container_name +:+ " Memory";
       Sensor.icon := Some "mdi:memory";
       Sensor.unit := Some "B";
       Sensor.device_class := Some DeviceClass.DataSize;
       Sensor.reporter := Some (SensorReporterType.DockerContainer {|
         DockerContainerSensorReporter.container := container;
         DockerContainerSensorReporter.stats_stash := stats_stash;
         DockerContainerSensorReporter.stat := DockerContainerSensorReporterStat.MemoryUsage;
         DockerContainerSensorReporter.docker := docker |});
       Sensor.disabled := false |};
    {| Sensor.id := "dockercontainer_" +:+ container_name +:+ "_uptime";
       Sensor.name := device_name +:+ " Docker " +:+ container_name +:+ " Uptime";
       Sensor.icon := Some "mdi:docker";
       Sensor.reporter := Some (SensorReporterType.DockerContainer {|
         DockerContainerSensorReporter.container := container;
         DockerContainerSensorReporter.stats_stash := stats_stash;
         DockerContainerSensorReporter.stat := DockerContainerSensorReporterStat.Status;
         DockerContainerSensorReporter.docker := docker |});
       Sensor.unit := None; Sensor.device_class := None; Sensor.disabled := false |} ].

(** [container_sensor_list]: an engine error is returned before any
    sensor is built. *)
Definition container_sensor_list (docker : Docker) (device_name : string)
  : M (result (list Sensor.t) string) :=
  listed ← containers docker;
  match listed with
  | Err e => mret (Err e)
  | Ok cs => sensors ← mapM (container_sensors docker device_name) cs;
             mret (Ok (concat sensors))
  end.

End docker_stats.

(** ** Facts on the catalogue *)

(** The ids of the fifteen sensors of the literal, in order. *)
Definition builtin_ids : list string :=
  ["cpu_usage"; "memory_usage"; "memory_total"; "memory_used";
   "disk_usage"; "disk_total"; "disk_available";
   "cpu_temp"; "uptime"; "array_status";
   "docker_containers_running"; "docker_containers_unhealthy";
   "docker_images_count"; "docker_images_size"; "docker_volumes_count"].

(** The triplets of a list of containers whose cells start at [base]. *)
Definition triplets_from (docker : Docker) (device_name : string) (base : nat)
    (containers : list ContainerSummary.t) : list (list Sensor.t) :=
  imap (λ i container, container_sensor_triplet docker device_name container (base + i))
       containers.

(** The cell a sensor's reporter holds, if it is a container reporter. *)
Definition stash_of (s : Sensor.t) : option loc :=
  match Sensor.reporter s with
  | Some (SensorReporterType.DockerContainer r) =>
      Some (DockerContainerSensorReporter.stats_stash r)
  | _ => None
  end.

Section catalogue_facts.
Implicit Types (self : UnraidStats.t) (ω : Oracle) (σ : State)
  (containers : list ContainerSummary.t).

Lemma container_sensors_run self container ω σ :
  UnraidStats.container_sensors self container ω σ =
    Returned
      (container_sensor_triplet (UnraidStats.docker self) (UnraidStats.device_name self)
         container (length (stashes σ)))
      {| history := history σ; stashes := stashes σ ++ [None] |}.
Proof. done. Qed.

Lemma mapM_container_sensors self containers ω σ :
  mapM (UnraidStats.container_sensors self) containers ω σ =
    Returned
      (triplets_from (UnraidStats.docker self) (UnraidStats.device_name self)
         (length (stashes σ)) containers)
      {| history := history σ;
         stashes := stashes σ ++ replicate (length containers) None |}.
Proof.
  revert σ. induction containers as [|c cs IH]; intros σ.
  - destruct σ. simpl. by rewrite app_nil_r.
  - cbn [mapM]. erewrite bind_returned by apply container_sensors_run.
    erewrite bind_returned by apply IH. simpl.
    unfold ret. rewrite <-app_assoc. simpl. f_equal.
    unfold triplets_from. rewrite imap_cons, Nat.add_0_r. f_equal.
    apply imap_ext. intros i c' _. simpl. rewrite length_app. simpl.
    f_equal. lia.
Qed.

Lemma triplet_stashes docker device_name container l :
  stash_of <$> container_sensor_triplet docker device_name container l
  = [Some l; Some l; Some l].
Proof. done. Qed.

End catalogue_facts.

(** ** The ids of the catalogue *)

(** The id of a container sensor: the container's name between the
    prefix and the kind of the sensor. *)
Definition container_kinds : list string := ["cpu"; "memory"; "uptime"].

Definition container_id (name kind : string) : string :=
  "dockercontainer_" +:+ name +:+ "_" +:+ kind.

Definition container_ids (name : string) : list string :=
  container_id name <$> container_kinds.

Section catalogue_ids.
Implicit Types (name kind id : string) (names : list string)
  (containers : list ContainerSummary.t).

Lemma triplets_ids docker device_name base containers :
  Sensor.id <$> concat (triplets_from docker device_name base containers)
  = (container_name <$> containers) ≫= container_ids.
Proof.
  unfold triplets_from. revert base.
  induction containers as [|c cs IH]; intros base; [done|].
  rewrite imap_cons, fmap_cons, bind_cons, concat_cons, fmap_app. f_equal.
  erewrite imap_ext; [apply (IH (S base))|]. intros i c' _. simpl. f_equal. lia.
Qed.

Lemma container_kinds_cases kind :
  kind ∈ container_kinds -> kind = "cpu" ∨ kind = "memory" ∨ kind = "uptime".
Proof.
  intros Hin. repeat (apply elem_of_cons in Hin as [->|Hin]; [by auto|]).
  by apply elem_of_nil in Hin.
Qed.

(** The name and the kind can be read off the id. *)
Lemma container_id_inj name name' kind kind' :
  kind ∈ container_kinds -> kind' ∈ container_kinds ->
  container_id name kind = container_id name' kind' -> name = name' ∧ kind = kind'.
Proof.
  intros Hk Hk' Heq%Str.app_inv_head%(f_equal String.rev).
  rewrite !Str.rev_app in Heq.
  destruct (container_kinds_cases _ Hk) as [E|[E|E]],
    (container_kinds_cases _ Hk') as [E'|[E'|E']]; subst kind kind';
    simplify_eq/=; (split; [|done]);
    by rewrite <-(Str.rev_involutive name), <-(Str.rev_involutive name'), Heq.
Qed.

Lemma container_ids_nodup name : NoDup (container_ids name).
Proof.
  apply NoDup_fmap_2_strong; [|apply (bool_decide_unpack _); by vm_compute].
  intros kind kind' Hk Hk' Heq. by apply container_id_inj in Heq as [_ ->].
Qed.

Lemma elem_of_container_ids id names :
  id ∈ names ≫= container_ids <->
  ∃ name kind, name ∈ names ∧ kind ∈ container_kinds ∧ id = container_id name kind.
Proof.
  rewrite list_elem_of_bind. split.
  - intros (name & (kind & -> & Hk)%list_elem_of_fmap & Hin). by exists name, kind.
  - intros (name & kind & Hin & Hk & ->). exists name.
    split; [by apply list_elem_of_fmap_2|done].
Qed.

(** The ids of the container sensors are pairwise distinct exactly when
    the names of the containers are. *)
Lemma container_ids_unique names : NoDup (names ≫= container_ids) <-> NoDup names.
Proof.
  induction names as [|name names IH]; [done|].
  rewrite bind_cons, NoDup_app, NoDup_cons, IH. split.
  - intros (_ & Hdisj & Hnames). split; [|done]. intros Hin.
    apply (Hdisj (container_id name "cpu")); [by left|].
    apply elem_of_container_ids. exists name, "cpu". split_and!; [done|by left|done].
  - intros [Hname Hnames]. split_and!; [apply container_ids_nodup| |done].
    intros id (kind & -> & Hk)%list_elem_of_fmap
      (name' & kind' & Hin & Hk' & Heq)%elem_of_container_ids.
    apply container_id_inj in Heq as [-> _]; done.
Qed.

Lemma builtin_ids_nodup : NoDup builtin_ids.
Proof. apply (bool_decide_unpack _). by vm_compute. Qed.

(** No built-in id has the prefix of the container ids. *)
Lemma builtin_ids_apart id names :
  id ∈ builtin_ids -> id ∈ names ≫= container_ids -> False.
Proof.
  intros Hb (name & kind & _ & _ & ->)%elem_of_container_ids.
  assert (Forall (λ id, Str.starts_with id "dockercontainer_" = false) builtin_ids)
    as Hall by (apply (bool_decide_unpack _); by vm_compute).
  rewrite Forall_forall in Hall. apply Hall in Hb.
  unfold container_id in Hb. by rewrite Str.starts_with_app in Hb.
Qed.

End catalogue_ids.

Section catalogue_properties.
Context `{!FloatText}.
Implicit Types (self : UnraidStats.t) (ω : Oracle) (σ : State).

(** The literal of [sensors] holds fifteen sensors with these ids in
    this order, pairwise distinct, none disabled and each with a
    reporter, whatever the snapshots are. *)
Theorem builtin_sensors_ids self sys_cpu sys_usage sys_total sys_used sys_uptime :
  let sensors :=
    UnraidStats.builtin_sensors self sys_cpu sys_usage sys_total sys_used sys_uptime in
  Sensor.id <$> sensors = builtin_ids ∧
  NoDup (Sensor.id <$> sensors) ∧
  Forall (λ s, Sensor.disabled s = false ∧ is_Some (Sensor.reporter s)) sensors.
Proof.
  cbv zeta. split_and!; [done| |repeat constructor; by eexists].
  change (NoDup builtin_ids). apply (bool_decide_unpack _). by vm_compute.
Qed.

(** C6: building the sensors of a list of containers never panics,
    makes no external call, and allocates one empty cache cell per
    container: the three sensors of the [i]-th container hold the cell at
    the [i]-th new location, so the sensors of one container share a
    cell and those of different containers do not. *)
Theorem container_sensors_cells self containers ω σ :
  ∃ σ',
    mapM (UnraidStats.container_sensors self) containers ω σ =
      Returned (triplets_from (UnraidStats.docker self) (UnraidStats.device_name self)
                  (length (stashes σ)) containers) σ' ∧
    history σ' = history σ ∧
    stashes σ' = stashes σ ++ replicate (length containers) None ∧
    ∀ i container,
      containers !! i = Some container ->
      ((λ triplet : list Sensor.t, stash_of <$> triplet) <$>
         triplets_from (UnraidStats.docker self) (UnraidStats.device_name self)
           (length (stashes σ)) containers) !! i
      = Some (replicate 3 (Some (length (stashes σ) + i)%nat : option loc)) ∧
      stashes σ' !! (length (stashes σ) + i)%nat = Some None.
Proof.
  eexists. split; [apply mapM_container_sensors|]. simpl. split_and!; [done..|].
  intros i container Hi. split.
  - unfold triplets_from. by rewrite list_lookup_fmap, list_lookup_imap, Hi.
  - rewrite lookup_app_r, Nat.add_comm, Nat.add_sub by lia.
    apply lookup_replicate_2. by eapply lookup_lt_Some.
Qed.

(** C35: the ids of the catalogue, the fifteen built-in sensors followed
    by the three sensors of every listed container, are pairwise
    distinct exactly when the names of the containers are: the id of a
    container sensor is made of the container's name and nothing else of
    the container.  (The name is the first alias without its leading
    slashes, or [unknown]: two containers without a name share their
    three ids.) *)
Theorem catalogue_ids_unique self sys_cpu sys_usage sys_total sys_used sys_uptime
    base containers :
  NoDup (Sensor.id <$>
           UnraidStats.builtin_sensors self sys_cpu sys_usage sys_total sys_used sys_uptime
           ++ concat (triplets_from (UnraidStats.docker self)
                        (UnraidStats.device_name self) base containers))
  <-> NoDup (container_name <$> containers).
Proof.
  rewrite fmap_app, triplets_ids.
  change (Sensor.id <$> UnraidStats.builtin_sensors _ _ _ _ _ _) with builtin_ids.
  rewrite NoDup_app, container_ids_unique. split; [by intros (_ & _ & ?)|]. intros Hnames.
  split_and!; [apply builtin_ids_nodup| |done].
  intros id Hb Hc. by eapply builtin_ids_apart.
Qed.

(** C39: the Docker part of the catalogue in [docker_stats.rs] is the one
    in [unraid_stats.rs]: the same five engine sensors, the same query
    for the running containers, and the same three sensors per
    container around a fresh cell. *)
Theorem docker_stats_copies_agree self container :
  docker_stats.sensor_list (UnraidStats.docker self)
    = docker_engine_sensors (UnraidStats.docker self) ∧
  docker_stats.containers (UnraidStats.docker self) = UnraidStats.containers self ∧
  docker_stats.container_sensors (UnraidStats.docker self)
      (UnraidStats.device_name self) container
    = UnraidStats.container_sensors self container.
Proof.
  split_and!; [done..|].
  unfold docker_stats.container_sensors, UnraidStats.container_sensors,
    container_sensor_triplet, container_name.
  by destruct (ContainerSummary.names container ≫= head).
Qed.

(** C38: the icon of a container sensor already starts with ["mdi:"],
    and [disovery_config] prefixes every icon with ["mdi:"]: the
    discovery document of each of the three sensors of a container
    carries an icon that starts with ["mdi:mdi:"]. *)
Theorem container_icons_prefixed_twice docker device_name container l s node_id device_info :
  s ∈ container_sensor_triplet docker device_name container l ->
  ∃ doc icon,
    Sensor.disovery_config s device_name node_id device_info = Some doc ∧
    Json.get "icon" doc = Some (Json.String icon) ∧
    Str.starts_with icon "mdi:mdi:" = true.
Proof.
  intros Hs. unfold container_sensor_triplet in Hs.
  repeat (apply elem_of_cons in Hs as [->|Hs];
    [rewrite disovery_config_members; by do 2 eexists|]).
  by apply not_elem_of_nil in Hs.
Qed.

End catalogue_properties.

Definition example_stats : UnraidStats.t :=
  UnraidStats.mk None DockerHandle false "homeassistant" "tower" false.

Definition example_container : ContainerSummary.t :=
  ContainerSummary.mk (Some "4f1c") (Some ["/web"]) (Some "Up 3 hours").

Lemma container_icons_prefixed_twice_witness :
  ∃ doc icon,
    Sensor.disovery_config
      (Sensor.mk "dockercontainer_web_cpu" "tower Docker web CPU" (Some "%") None
         (Some "mdi:cpu-64-bit") false
         (Some (SensorReporterType.DockerContainer
            (DockerContainerSensorReporter.mk example_container DockerHandle 0
               DockerContainerSensorReporterStat.CpuUsage))))
      "tower" "unraid_tower" Json.Null = Some doc ∧
    Json.get "icon" doc = Some (Json.String icon) ∧
    Str.starts_with icon "mdi:mdi:" = true.
Proof.
  apply (container_icons_prefixed_twice DockerHandle "tower" example_container 0).
  apply elem_of_cons. by left.
Defined.
