(* ===== verification/Override.v ===== *)
(** The override engine, the second half of [UnraidStats::sensors] in
    [src/src/unraid_stats.rs]: for every sensor of the catalogue the
    wildcard entry and then the exact entry of the configuration are
    merged into it; then every command entry becomes a sensor of its own,
    in the iteration order of the configuration's map. *)

From Stdlib Require Import ZArith Ascii String.
From stdpp Require Import base tactics option list numbers gmap strings.
From S2P Require Import Prelude RustStr RustNum RustFloat Json World Config Parsers Catalog.

(** The iteration order of a [HashMap]: some order of its entries,
    a function of the map's contents for the length of a run. *)
Class HashOrder := {
  hash_entries : ∀ {V}, gmap string V -> list (string * V);
  hash_entries_perm : ∀ {V} (m : gmap string V), hash_entries m ≡ₚ map_to_list m;
}.

(** [m.values()] *)
Definition hash_values `{!HashOrder} {V} (m : gmap string V) : list V :=
  (hash_entries m).*2.

(** The wildcard key of a sensor id: the first piece of the id split at
    underscores, ["_*_"], and the last of the pieces that remain after
    the first was taken. *)
Definition star_id (id : string) : string :=
  let star_name := Str.split "_" id in
  let '(first, star_name) := iter_nth 0 star_name in
  let last := iter_last star_name in
  default "" first +:+ "_*_" +:+ default "" last.

(** The body of the loop over the sensors: the wildcard entry, then the
    entry of the sensor's own id. *)
Definition apply_overrides (sensor_config : Config.t) (sensor : Sensor.t) : Sensor.t :=
  let star_id := star_id (Sensor.id sensor) in
  let sensor :=
    match Config.sensors sensor_config !! star_id with
    | Some (Sensors.SensorOverride update) => Sensor.merge sensor update
    | _ => sensor
    end in
  match Config.sensors sensor_config !! Sensor.id sensor with
  | Some (Sensors.SensorOverride update) => Sensor.merge sensor update
  | _ => sensor
  end.

Section engine.
Context `{!FloatText, !HashOrder}.

(** The loop over the configuration's values: a sensor for every
    command entry. *)
Definition command_sensors (sensor_config : Config.t) : list Sensor.t :=
  omap (λ sensor,
          match sensor with
          | Sensors.Command command => Some (Sensor.from_command_sensor command)
          | Sensors.SensorOverride _ => None
          end)
       (hash_values (Config.sensors sensor_config)).

(** The block under [if let Some(sensor_config)]. *)
Definition configure (sensor_config : option Config.t) (sensors : list Sensor.t)
  : list Sensor.t :=
  match sensor_config with
  | Some sensor_config =>
      (apply_overrides sensor_config <$> sensors) ++ command_sensors sensor_config
  | None => sensors
  end.

(** [System::new_all()] *)
Definition new_system : M System.t :=
  call EvSystemNewAll (λ ω h, system_new_all ω h).

(** [UnraidStats::sensors]: the container sensors first (an engine
    error reads as no container), then the snapshots of the literal in
    the order of its items, the literal, the container sensors appended,
    and the configuration applied. *)
Definition sensors (self : UnraidStats.t) : M (list Sensor.t) :=
  listed ← UnraidStats.containers self;
  triplets ← mapM (UnraidStats.container_sensors self)
                  (default [] (result_ok listed));
  let containters := concat triplets in
  _ ← new_system;
  _ ← call EvSystemRefreshAll (λ _ _, tt);
  sys_cpu ← new_system;
  sys_usage ← new_system;
  sys_total ← new_system;
  sys_used ← new_system;
  sys_uptime ← new_system;
  let sensors :=
    UnraidStats.builtin_sensors self sys_cpu sys_usage sys_total sys_used sys_uptime
    ++ containters in
  mret (configure (UnraidStats.sensor_config self) sensors).

End engine.

(** ** The wildcard key *)

Section star_id_facts.
Implicit Types (id w kind : string) (ws : list string).

Lemma star_id_unfold id :
  star_id id = default "" (head (Str.split "_" id)) +:+ "_*_"
               +:+ default "" (last (tail (Str.split "_" id))).
Proof. unfold star_id, iter_nth, iter_last. by destruct (Str.split "_" id). Qed.

Lemma star_id_split id w ws :
  Str.split "_" id = w :: ws -> star_id id = w +:+ "_*_" +:+ default "" (last ws).
Proof. intros H. by rewrite star_id_unfold, H. Qed.

(** The wildcard key always contains the marker the guard of [merge]
    looks for. *)
Lemma star_id_contains id : Str.contains (star_id id) "_*_" = true.
Proof. rewrite star_id_unfold. apply (Str.contains_app _ "_*_"). Qed.

Lemma star_id_prefix_suffix w id kind :
  Str.free_of "_" w = true -> Str.free_of "_" kind = true ->
  star_id (w +:+ "_" +:+ id +:+ "_" +:+ kind) = w +:+ "_*_" +:+ kind.
Proof.
  intros Hw Hk.
  rewrite (star_id_split _ w (Str.split "_" id ++ [kind])); [by rewrite last_snoc|].
  change (w +:+ "_" +:+ id +:+ "_" +:+ kind)
    with (w +:+ String "_" (id +:+ String "_" kind)).
  by rewrite Str.split_app, Str.split_app_sep, (Str.split_free_id _ kind).
Qed.

End star_id_facts.

Section star_id_properties.
Implicit Types (id w kind : string) (ws : list string).

(** C7: the wildcard key of any id: write the id as its pieces between
    underscores, [w :: ws]; the key is the first piece, ["_*_"], and the
    last of the other pieces, or nothing when there is no other piece.
    So ["dockercontainer_myapp_cpu"] gives ["dockercontainer_*_cpu"] and
    ["cpu_usage"] gives ["cpu_*_usage"]. *)
Theorem star_id_of_pieces id :
  ∃ w ws,
    id = Str.join "_" (w :: ws) ∧
    Forall (λ x, Str.free_of "_" x = true) (w :: ws) ∧
    star_id id = w +:+ "_*_" +:+ default "" (last ws).
Proof.
  pose proof (Str.join_split "_" id) as Hj. pose proof (Str.split_free "_" id) as Hf.
  pose proof (Str.split_nonempty "_" id).
  destruct (Str.split "_" id) as [|w ws] eqn:E; [done|].
  exists w, ws. split_and!; [done|done|by apply star_id_split].
Qed.

(** An id without an underscore gets the key made of the id and
    ["_*_"] with nothing after it (["uptime"] gives ["uptime_*_"]): the
    id is not repeated after the marker. *)
Theorem star_id_no_underscore id :
  Str.free_of "_" id = true -> star_id id = id +:+ "_*_".
Proof.
  intros H. rewrite (star_id_split id id []) by by apply Str.split_free_id.
  reflexivity.
Qed.

(** The three sensors of a container get the wildcard keys
    ["dockercontainer_*_cpu"], ["dockercontainer_*_memory"] and
    ["dockercontainer_*_uptime"] whatever the container's name is, with
    or without underscores in it. *)
Theorem star_id_container (name kind : string) :
  Str.free_of "_" kind = true ->
  star_id ("dockercontainer_" +:+ name +:+ "_" +:+ kind) = "dockercontainer_*_" +:+ kind.
Proof. intros H. by apply (star_id_prefix_suffix "dockercontainer"). Qed.

End star_id_properties.

Lemma star_id_no_underscore_witness : star_id "uptime" = "uptime_*_".
Proof. by apply star_id_no_underscore. Defined.

Lemma star_id_container_witness :
  star_id ("dockercontainer_" +:+ "my_app" +:+ "_" +:+ "memory") = "dockercontainer_*_memory".
Proof. by apply star_id_container. Defined.

(** ** The engine on a configuration whose entries carry their keys *)

(** The override entry under a key. *)
Definition override_at (sensor_config : Config.t) (key : string) : option SensorConfig.t :=
  match Config.sensors sensor_config !! key with
  | Some (Sensors.SensorOverride update) => Some update
  | _ => None
  end.

(** A patch that may be absent. *)
Definition apply_patch_opt (s : Sensor.t) (o : option SensorConfig.t) : Sensor.t :=
  match o with
  | Some p => apply_patch s p
  | None => s
  end.

(** Two patches as one: the fields of the second where it has them, the
    fields of the first elsewhere. *)
Definition patch_then (p q : SensorConfig.t) : SensorConfig.t := {|
  SensorConfig.id := SensorConfig.id q;
  SensorConfig.name := opt_or (SensorConfig.name q) (SensorConfig.name p);
  SensorConfig.unit := opt_or (SensorConfig.unit q) (SensorConfig.unit p);
  SensorConfig.device_class :=
    opt_or (SensorConfig.device_class q) (SensorConfig.device_class p);
  SensorConfig.icon := opt_or (SensorConfig.icon q) (SensorConfig.icon p);
  SensorConfig.disabled := SensorConfig.disabled p || SensorConfig.disabled q;
|}.

Section engine_facts.
Context (sensor_config : Config.t).
Context (Hids : ids_assigned (Config.sensors sensor_config)).
Implicit Types (s : Sensor.t) (p q : SensorConfig.t).

Lemma override_at_id key p : override_at sensor_config key = Some p -> SensorConfig.id p = key.
Proof.
  unfold override_at. destruct (_ !! key) as [[]|] eqn:E; intros; simplify_eq.
  by apply Hids in E.
Qed.

Lemma apply_overrides_unfold s :
  apply_overrides sensor_config s =
    let s1 := match override_at sensor_config (star_id (Sensor.id s)) with
              | Some p => Sensor.merge s p
              | None => s
              end in
    match override_at sensor_config (Sensor.id s1) with
    | Some p => Sensor.merge s1 p
    | None => s1
    end.
Proof.
  unfold apply_overrides, override_at.
  destruct (_ !! star_id _) as [[]|]; simpl;
    by destruct (_ !! Sensor.id _) as [[]|].
Qed.

Lemma merge_id s p : Sensor.id (Sensor.merge s p) = Sensor.id s.
Proof. rewrite merge_unfold. by destruct (merge_applies s p). Qed.

(** Under the invariant both merges of the loop pass the guard. *)
Lemma apply_overrides_patches s :
  apply_overrides sensor_config s =
    apply_patch_opt
      (apply_patch_opt s (override_at sensor_config (star_id (Sensor.id s))))
      (override_at sensor_config (Sensor.id s)).
Proof.
  rewrite apply_overrides_unfold. cbv zeta.
  destruct (override_at _ (star_id _)) as [p|] eqn:Ep; simpl.
  - apply override_at_id in Ep.
    rewrite (merge_marked s p) by (rewrite Ep; apply star_id_contains).
    simpl. destruct (override_at _ (Sensor.id s)) as [q|] eqn:Eq; [|done]; simpl.
    apply override_at_id in Eq. apply merge_applied. unfold merge_applies; simpl.
    by rewrite bool_decide_eq_true_2.
  - destruct (override_at _ (Sensor.id s)) as [q|] eqn:Eq; [|done]; simpl.
    apply override_at_id in Eq. apply merge_applied. unfold merge_applies.
    by rewrite bool_decide_eq_true_2.
Qed.

Lemma apply_overrides_reporter s :
  Sensor.reporter (apply_overrides sensor_config s) = Sensor.reporter s.
Proof.
  rewrite apply_overrides_unfold. cbv zeta.
  destruct (override_at _ (star_id _)), (override_at _ (Sensor.id _));
    by rewrite ?merge_reporter.
Qed.

Lemma apply_patch_then s p q :
  apply_patch (apply_patch s p) q = apply_patch s (patch_then p q).
Proof.
  unfold apply_patch, patch_then; simpl. f_equal.
  - by destruct (SensorConfig.name q), (SensorConfig.name p).
  - by destruct (SensorConfig.unit q), (SensorConfig.unit p).
  - by destruct (SensorConfig.device_class q), (SensorConfig.device_class p).
  - by destruct (SensorConfig.icon q), (SensorConfig.icon p).
  - by destruct (SensorConfig.disabled q), (SensorConfig.disabled p), (Sensor.disabled s).
Qed.

Lemma apply_overrides_id s :
  Sensor.id (apply_overrides sensor_config s) = Sensor.id s.
Proof.
  rewrite apply_overrides_patches.
  by destruct (override_at _ (star_id _)), (override_at _ (Sensor.id s)).
Qed.

End engine_facts.

(** ** The command entries *)

Definition command_of (sensor : Sensors.t) : option CommandSensor.t :=
  match sensor with
  | Sensors.Command command => Some command
  | Sensors.SensorOverride _ => None
  end.

(** The command entries of a configuration, in the map's canonical
    order. *)
Definition command_entries (sensor_config : Config.t) : list CommandSensor.t :=
  omap command_of (map_to_list (Config.sensors sensor_config)).*2.

(** The key of an entry if it is a command entry. *)
Definition command_key (entry : string * Sensors.t) : option string :=
  match entry.2 with
  | Sensors.Command _ => Some entry.1
  | Sensors.SensorOverride _ => None
  end.

Section command_facts.
Context `{!FloatText, !HashOrder}.
Implicit Types (sensor_config : Config.t) (entries : list (string * Sensors.t)).

Lemma command_sensors_omap sensor_config :
  command_sensors sensor_config =
    Sensor.from_command_sensor <$>
      omap command_of (hash_entries (Config.sensors sensor_config)).*2.
Proof.
  unfold command_sensors, hash_values.
  induction (hash_entries _).*2 as [|[] l IH]; csimpl; by rewrite ?IH.
Qed.

Lemma command_sensors_perm sensor_config :
  command_sensors sensor_config ≡ₚ
    Sensor.from_command_sensor <$> command_entries sensor_config.
Proof.
  rewrite command_sensors_omap. unfold command_entries.
  by rewrite hash_entries_perm.
Qed.

Lemma command_ids_keys entries :
  Forall (λ entry, Sensors.id entry.2 = entry.1) entries ->
  Sensor.id <$> (Sensor.from_command_sensor <$> omap command_of entries.*2)
  = omap command_key entries.
Proof.
  induction 1 as [|[key []] entries Hid _ IH]; csimpl in *; [done..|].
  unfold command_key at 1; csimpl. by rewrite IH, Hid.
Qed.

Lemma command_keys_sublist entries : omap command_key entries `sublist_of` entries.*1.
Proof.
  induction entries as [|[key []] entries IH]; csimpl; [done|..];
    unfold command_key at 1; csimpl; by constructor.
Qed.

Lemma hash_entries_assigned sensor_config :
  ids_assigned (Config.sensors sensor_config) ->
  Forall (λ entry, Sensors.id entry.2 = entry.1)
         (hash_entries (Config.sensors sensor_config)).
Proof.
  intros Hids. apply Forall_forall. intros [key sensor] Hin. simpl.
  rewrite hash_entries_perm in Hin. by apply elem_of_map_to_list, Hids in Hin.
Qed.

Lemma command_sensor_ids sensor_config :
  ids_assigned (Config.sensors sensor_config) ->
  Sensor.id <$> command_sensors sensor_config
  = omap command_key (hash_entries (Config.sensors sensor_config)).
Proof.
  intros Hids. rewrite command_sensors_omap.
  by apply command_ids_keys, hash_entries_assigned.
Qed.

Lemma command_sensor_ids_nodup sensor_config :
  ids_assigned (Config.sensors sensor_config) ->
  NoDup (Sensor.id <$> command_sensors sensor_config).
Proof.
  intros Hids. rewrite command_sensor_ids by done.
  eapply sublist_NoDup; [|apply command_keys_sublist].
  rewrite hash_entries_perm. apply NoDup_fst_map_to_list.
Qed.

Lemma command_sensor_ids_elem sensor_config key :
  ids_assigned (Config.sensors sensor_config) ->
  key ∈ Sensor.id <$> command_sensors sensor_config <->
  ∃ command, Config.sensors sensor_config !! key = Some (Sensors.Command command).
Proof.
  intros Hids. rewrite command_sensor_ids, list_elem_of_omap by done.
  setoid_rewrite hash_entries_perm. split.
  - intros ([k [|c]] & Hin & Hk); unfold command_key in Hk; simplify_eq/=.
    apply elem_of_map_to_list in Hin. eauto.
  - intros [c Hc]. exists (key, Sensors.Command c).
    split; [by apply elem_of_map_to_list|done].
Qed.

Lemma apply_overrides_ids sensor_config (sensors : list Sensor.t) :
  ids_assigned (Config.sensors sensor_config) ->
  Sensor.id <$> (apply_overrides sensor_config <$> sensors) = Sensor.id <$> sensors.
Proof.
  intros Hids. rewrite <-list_fmap_compose. apply list_fmap_ext.
  intros _ s _. by apply apply_overrides_id.
Qed.

End command_facts.

(** ** Properties of the engine *)

Section engine_properties.
Context `{!FloatText, !HashOrder}.
Implicit Types (sensor_config : Config.t) (s : Sensor.t) (sensors : list Sensor.t).

(** C2: on a configuration whose entries carry their keys as ids (what
    [deserialize_sensors] returns), the loop body of the engine is two
    patch applications: the override entry under the sensor's wildcard
    key, if there is one, then the override entry under the sensor's id,
    if there is one.  The guard of [merge] never fires there. *)
Theorem apply_overrides_refines sensor_config s :
  ids_assigned (Config.sensors sensor_config) ->
  apply_overrides sensor_config s =
    apply_patch_opt
      (apply_patch_opt s (override_at sensor_config (star_id (Sensor.id s))))
      (override_at sensor_config (Sensor.id s)).
Proof. intros Hids. by apply apply_overrides_patches. Qed.

(** C3: when a sensor has both a wildcard entry [w] and an exact entry
    [e], every field the exact entry carries is the result's, every
    other field the wildcard entry carries is the result's, the rest is
    the sensor's; the result is disabled when any of the three is. *)
Theorem exact_override_wins sensor_config s w e :
  ids_assigned (Config.sensors sensor_config) ->
  override_at sensor_config (star_id (Sensor.id s)) = Some w ->
  override_at sensor_config (Sensor.id s) = Some e ->
  apply_overrides sensor_config s = apply_patch s (patch_then w e).
Proof.
  intros Hids Hw He. rewrite apply_overrides_patches, Hw, He by done.
  apply apply_patch_then.
Qed.

(** A wildcard entry with [disabled = true] disables every sensor
    it matches, and no exact entry brings the sensor back: an exact
    entry with [disabled = false] leaves it disabled. *)
Theorem wildcard_disable_is_final sensor_config s w :
  ids_assigned (Config.sensors sensor_config) ->
  override_at sensor_config (star_id (Sensor.id s)) = Some w ->
  SensorConfig.disabled w = true ->
  Sensor.disabled (apply_overrides sensor_config s) = true.
Proof.
  intros Hids Hw Hd. rewrite apply_overrides_patches, Hw by done.
  destruct (override_at _ (Sensor.id s)); simpl; rewrite Hd; by rewrite ?orb_true_r.
Qed.

(** C4: with a configuration, the final list is the catalogue with the
    overrides applied in place (same length, same ids, same order)
    followed by one sensor per command entry, the latter a permutation
    of the command entries of the map converted by [From]. *)
Theorem configure_shape sensor_config sensors :
  ids_assigned (Config.sensors sensor_config) ->
  ∃ commands,
    configure (Some sensor_config) sensors
      = (apply_overrides sensor_config <$> sensors) ++ commands ∧
    Sensor.id <$> (apply_overrides sensor_config <$> sensors) = Sensor.id <$> sensors ∧
    commands ≡ₚ Sensor.from_command_sensor <$> command_entries sensor_config ∧
    length (configure (Some sensor_config) sensors)
      = (length sensors + length (command_entries sensor_config))%nat.
Proof.
  intros Hids. exists (command_sensors sensor_config).
  split_and!; [done|by apply apply_overrides_ids|apply command_sensors_perm|].
  unfold configure. rewrite length_app, length_fmap, command_sensors_perm.
  by rewrite length_fmap.
Qed.

(** The ids of the final list are pairwise distinct when the ids of
    the catalogue are and no command entry is keyed by the id of a
    catalogue sensor. *)
Theorem configure_ids_unique sensor_config sensors :
  ids_assigned (Config.sensors sensor_config) ->
  NoDup (Sensor.id <$> sensors) ->
  (∀ s command, s ∈ sensors ->
     Config.sensors sensor_config !! Sensor.id s ≠ Some (Sensors.Command command)) ->
  NoDup (Sensor.id <$> configure (Some sensor_config) sensors).
Proof.
  intros Hids Hnd Hfresh. unfold configure.
  rewrite fmap_app, apply_overrides_ids by done.
  apply NoDup_app. split_and!; [done| |by apply command_sensor_ids_nodup].
  intros id (s & -> & Hs)%list_elem_of_fmap [c Hc]%command_sensor_ids_elem; [|done].
  by eapply Hfresh.
Qed.

(** C36: a command entry keyed by the id of a catalogue sensor is not an
    override of that sensor: the sensor stays as the catalogue and the
    wildcard entry made it, and the final list holds a second sensor with
    the same id. *)
Theorem command_entry_duplicates_id sensor_config sensors s command :
  ids_assigned (Config.sensors sensor_config) ->
  s ∈ sensors ->
  Config.sensors sensor_config !! Sensor.id s = Some (Sensors.Command command) ->
  apply_overrides sensor_config s
    = apply_patch_opt s (override_at sensor_config (star_id (Sensor.id s))) ∧
  ¬ NoDup (Sensor.id <$> configure (Some sensor_config) sensors).
Proof.
  intros Hids Hs Hc. split.
  - rewrite apply_overrides_patches by done.
    assert (override_at sensor_config (Sensor.id s) = None) as ->; [|done].
    unfold override_at. by rewrite Hc.
  - unfold configure. rewrite fmap_app, apply_overrides_ids by done.
    intros (_ & Hdisj & _)%NoDup_app. apply (Hdisj (Sensor.id s)).
    + by apply list_elem_of_fmap_2.
    + apply command_sensor_ids_elem; eauto.
Qed.

End engine_properties.

(** ** Witnesses *)

(** The iteration order that is the map's canonical order. *)
#[export] Instance canonical_order : HashOrder := {|
  hash_entries := λ V m, map_to_list m;
  hash_entries_perm := λ V m, reflexivity _;
|}.

(** The scenario of an override file: every container's memory sensor
    disabled by a wildcard entry, the memory sensor of the container
    [web] renamed and not disabled by its own entry, and a command
    sensor. *)
Definition example_entries : list (string * Sensors.t) :=
  [ ("dockercontainer_*_memory",
     Sensors.SensorOverride (SensorConfig.mk "" None (Some "MiB") None None true));
    ("dockercontainer_web_memory",
     Sensors.SensorOverride (SensorConfig.mk "" (Some "Web memory") None None None false));
    ("backup_age",
     Sensors.Command (CommandSensor.mk "" "Backup age" (Some "d") None None
                        "backup-age" None (Some PostProcess.ParseInteger) false)) ].

Definition example_config : Config.t :=
  Config.mk (assign_ids (list_to_map example_entries)).

Definition example_web_memory : Sensor.t :=
  Sensor.mk "dockercontainer_web_memory" "tower Docker web Memory" (Some "B")
            (Some DeviceClass.DataSize) (Some "mdi:memory") false None.

Lemma example_config_assigned : ids_assigned (Config.sensors example_config).
Proof. apply assign_ids_assigned. Qed.

Lemma apply_overrides_refines_witness :
  Sensor.unit (apply_overrides example_config example_web_memory) = Some "MiB".
Proof.
  by rewrite (apply_overrides_refines example_config example_web_memory
                example_config_assigned).
Defined.

Lemma exact_override_wins_witness :
  Sensor.name (apply_overrides example_config example_web_memory) = "Web memory".
Proof.
  by rewrite (exact_override_wins example_config example_web_memory
                (SensorConfig.mk "dockercontainer_*_memory" None (Some "MiB") None None true)
                (SensorConfig.mk "dockercontainer_web_memory" (Some "Web memory")
                                 None None None false)
                example_config_assigned eq_refl eq_refl).
Defined.

Lemma wildcard_disable_is_final_witness :
  Sensor.disabled (apply_overrides example_config example_web_memory) = true.
Proof.
  exact (wildcard_disable_is_final example_config example_web_memory
           (SensorConfig.mk "dockercontainer_*_memory" None (Some "MiB") None None true)
           example_config_assigned eq_refl eq_refl).
Defined.

Lemma configure_shape_witness :
  length (configure (Some example_config) [example_web_memory]) = 2%nat.
Proof.
  destruct (configure_shape example_config [example_web_memory] example_config_assigned)
    as (? & _ & _ & _ & ->). reflexivity.
Defined.

Lemma configure_ids_unique_witness :
  NoDup (Sensor.id <$> configure (Some example_config) [example_web_memory]).
Proof.
  apply configure_ids_unique; [apply example_config_assigned|apply NoDup_singleton|].
  intros s command ->%list_elem_of_singleton. by vm_compute.
Defined.

Definition clash_config : Config.t :=
  Config.mk (assign_ids (list_to_map
    [("dockercontainer_web_memory",
      Sensors.Command (CommandSensor.mk "" "Mine" None None None "free" None None false))])).

Lemma command_entry_duplicates_id_witness :
  ¬ NoDup (Sensor.id <$> configure (Some clash_config) [example_web_memory]).
Proof.
  eapply (command_entry_duplicates_id clash_config [example_web_memory] example_web_memory).
  - apply assign_ids_assigned.
  - by apply list_elem_of_singleton.
  - by vm_compute.
Defined.

(** ** A run of [sensors] *)

Section sensors_run.
Context `{!FloatText, !HashOrder}.
Implicit Types (self : UnraidStats.t) (ω : Oracle) (σ : State).

(** The external calls of one run of [sensors]. *)
Definition sensors_calls : History :=
  [EvListContainers true running_filter; EvSystemNewAll; EvSystemRefreshAll;
   EvSystemNewAll; EvSystemNewAll; EvSystemNewAll; EvSystemNewAll; EvSystemNewAll].

Lemma sensors_unfold self ω σ :
  let listed := docker_list_containers ω (history σ) true running_filter in
  let containers := default [] (result_ok listed) in
  let h := history σ ++ [EvListContainers true running_filter] in
  let h1 := (h ++ [EvSystemNewAll]) ++ [EvSystemRefreshAll] in
  let h2 := h1 ++ [EvSystemNewAll] in
  let h3 := h2 ++ [EvSystemNewAll] in
  let h4 := h3 ++ [EvSystemNewAll] in
  let h5 := h4 ++ [EvSystemNewAll] in
  sensors self ω σ =
    Returned
      (configure (UnraidStats.sensor_config self)
         (UnraidStats.builtin_sensors self (system_new_all ω h1) (system_new_all ω h2)
            (system_new_all ω h3) (system_new_all ω h4) (system_new_all ω h5)
          ++ concat (triplets_from (UnraidStats.docker self) (UnraidStats.device_name self)
                       (length (stashes σ)) containers)))
      {| history := h5 ++ [EvSystemNewAll];
         stashes := stashes σ ++ replicate (length containers) None |}.
Proof.
  unfold sensors. cbv zeta.
  erewrite bind_returned by reflexivity.
  erewrite bind_returned by apply mapM_container_sensors.
  reflexivity.
Qed.

(** C5: [UnraidStats::sensors] never panics.  It asks the engine once
    for the running containers, takes six snapshots of the host (one of
    them refreshed and dropped), and makes no other external call; it
    allocates one empty cache cell per listed container; an engine error
    reads as no container.  Its result is the configuration applied to
    the fifteen built-in sensors followed by the three sensors of every
    container. *)
Theorem sensors_total self ω σ :
  let containers :=
    default [] (result_ok (docker_list_containers ω (history σ) true running_filter)) in
  ∃ sys_cpu sys_usage sys_total sys_used sys_uptime σ',
    sensors self ω σ =
      Returned
        (configure (UnraidStats.sensor_config self)
           (UnraidStats.builtin_sensors self sys_cpu sys_usage sys_total sys_used sys_uptime
            ++ concat (triplets_from (UnraidStats.docker self)
                         (UnraidStats.device_name self)
                         (length (stashes σ)) containers)))
        σ' ∧
    history σ' = history σ ++ sensors_calls ∧
    stashes σ' = stashes σ ++ replicate (length containers) None.
Proof.
  cbv zeta. do 6 eexists. split; [apply sensors_unfold|]. simpl.
  split; [|done]. by rewrite <-!app_assoc.
Qed.

End sensors_run.

(** Building the sensor list makes the calls of [sensors_calls] and no
    other: it probes the engine and the host. *)
Lemma sensors_calls_probe ev : ev ∈ sensors_calls -> is_probe ev = true.
Proof.
  intros Hin. repeat (apply elem_of_cons in Hin as [->|Hin]; [done|]).
  by apply elem_of_nil in Hin.
Qed.

Lemma sensors_emits_calls `{!FloatText, !HashOrder} (P : Event -> Prop) self :
  (∀ ev, ev ∈ sensors_calls -> P ev) -> emits P (sensors self).
Proof.
  intros HP ω σ. exists sensors_calls.
  pose proof (sensors_unfold self ω σ) as Hrun. cbv zeta in Hrun. rewrite Hrun. simpl.
  split; [by rewrite <-!app_assoc|by apply Forall_forall].
Qed.

Lemma sensors_emits `{!FloatText, !HashOrder} (P : Event -> Prop) self :
  (∀ ev, is_probe ev = true -> P ev) -> emits P (sensors self).
Proof. intros HP. apply sensors_emits_calls. intros ev Hin. by apply HP, sensors_calls_probe. Qed.
