(* ===== verification/Reporter.v ===== *)
(** [src/src/config.rs]: the value reporters.  [get_value] of each of
    the four reporter structs and of [SensorReporterType], and
    [calculate_cpu_percent], as computations of the monad of [World]:
    an engine query, a command or the uptime is an external call; the
    statistics cache of a container is a cell of the store. *)

From Stdlib Require Import ZArith Ascii String SpecFloat.
From stdpp Require Import base tactics option list numbers strings.
From S2P Require Import Prelude RustStr RustNum RustFloat World Config.

Local Open Scope Z_scope.

Section reporters.
Context `{!FloatText}.

(** ** [CommandSensorReporter::get_value] *)

Definition command_get_value (self : CommandSensorReporter.t) : M (option string) :=
  let command := CommandSensorReporter.command self in
  let args := CommandSensorReporter.args self in
  output ← call (EvCommand command args) (λ ω h, command_output ω h command args);
  match output with
  | Some sensors_output =>
      let result := Str.trim sensors_output in
      match CommandSensorReporter.transform self with
      | Some transform_fn => mret (transform_fn result)
      | None => mret (Some result)
      end
  | None => mret None
  end.

(** ** [SystemSensorReporter::get_value]

    A precision in the format of an integer is ignored, so the two
    memory sizes print as plain integers. *)

Definition system_get_value (self : SystemSensorReporter.t) : M (option string) :=
  let system := SystemSensorReporter.system self in
  match SystemSensorReporter.name self with
  | SystemSensorReporterStat.MemoryUsage =>
      let total_memory := f64_of_Z (System.total_memory system) in
      let used_memory := f64_of_Z (System.used_memory system) in
      mret (Some (fmt_fixed 1 (f64_mul (f64_div used_memory total_memory) f64_100)))
  | SystemSensorReporterStat.MemoryUsed =>
      mret (Some (int_to_string (System.used_memory system)))
  | SystemSensorReporterStat.MemoryTotal =>
      mret (Some (int_to_string (System.total_memory system)))
  | SystemSensorReporterStat.CpuUsage =>
      let cpu_usage := System.global_cpu_usage system in
      mret (Some (fmt_fixed 1 cpu_usage))
  | SystemSensorReporterStat.Uptime =>
      uptime ← call EvUptime (λ ω h, system_uptime ω h);
      mret (Some (int_to_string uptime))
  end.

(** ** [DockerSensorReporter::get_value] *)

(** The inner function [list_containers]. *)
Definition list_containers (docker : Docker) (filters : Filters) : M (option string) :=
  containers ← call (EvListContainers true filters)
                    (λ ω h, docker_list_containers ω h true filters);
  match containers with
  | Ok containers => mret (Some (int_to_string (Z.of_nat (length containers))))
  | Err _ => mret None
  end.

Definition docker_get_value (self : DockerSensorReporter.t) : M (option string) :=
  let docker := DockerSensorReporter.docker self in
  match DockerSensorReporter.stat self with
  | DockerSensorReporterStat.ImagesCount =>
      images ← call EvListImages (λ ω h, docker_list_images ω h);
      match images with
      | Ok images => mret (Some (int_to_string (Z.of_nat (length images))))
      | Err _ => mret None
      end
  | DockerSensorReporterStat.ImagesSize =>
      images ← call EvListImages (λ ω h, docker_list_images ω h);
      match images with
      | Ok images =>
          total_size ← i64_sum (ImageSummary.size <$> images);
          mret (Some (int_to_string total_size))
      | Err _ => mret None
      end
  | DockerSensorReporterStat.VolumesCount =>
      volumes ← call EvListVolumes (λ ω h, docker_list_volumes ω h);
      match volumes with
      | Ok volumes =>
          let volume_count :=
            default 0%nat (length <$> VolumeListResponse.volumes volumes) in
          mret (Some (int_to_string (Z.of_nat volume_count)))
      | Err _ => mret None
      end
  | DockerSensorReporterStat.RunningCount =>
      list_containers docker [("status", ["running"])]
  | DockerSensorReporterStat.UnhealthyCount =>
      list_containers docker [("health", ["unhealthy"])]
  end.

(** ** [calculate_cpu_percent]

    The two differences are [u64] subtractions, the comparison with
    zero is on [u64], and the quotient is taken on [f64]. *)

Definition total_usage_of (c : option ContainerCpuStats.t) : Z :=
  default 0 (c ≫= λ c, ContainerCpuStats.cpu_usage c ≫= ContainerCpuUsage.total_usage).

Definition system_usage_of (c : option ContainerCpuStats.t) : Z :=
  default 0 (c ≫= ContainerCpuStats.system_cpu_usage).

Definition calculate_cpu_percent (stats : ContainerStatsResponse.t) : M f64 :=
  let cpu_stats := ContainerStatsResponse.cpu_stats stats in
  let precpu_stats := ContainerStatsResponse.precpu_stats stats in
  cpu_delta ← u64_sub (total_usage_of cpu_stats) (total_usage_of precpu_stats);
  system_delta ← u64_sub (system_usage_of cpu_stats) (system_usage_of precpu_stats);
  if bool_decide (system_delta > 0) && bool_decide (cpu_delta > 0) then
    let cpu_count := f64_of_Z (default 0 (cpu_stats ≫= ContainerCpuStats.online_cpus)) in
    mret (f64_mul (f64_mul (f64_div (f64_of_Z cpu_delta) (f64_of_Z system_delta)) cpu_count)
                  f64_100)
  else mret f64_zero.

(** ** [DockerContainerSensorReporter::get_value] *)

(** The first block: an empty cache is filled from the first item of
    the statistics stream, if there is one and it is not an error. *)
Definition fill_stash (self : DockerContainerSensorReporter.t) : M unit :=
  let stats_stash := DockerContainerSensorReporter.stats_stash self in
  cached ← stash_get stats_stash;
  if bool_decide (cached = None :> option ContainerStatsResponse.t) then
    id ← match ContainerSummary.id (DockerContainerSensorReporter.container self) with
         | Some id => mret id
         | None => panic "called `Option::unwrap()` on a `None` value"
         end;
    item ← call (EvStats id) (λ ω h, docker_stats_next ω h id);
    match item with
    | Some (Ok stats) => stash_replace stats_stash stats
    | _ => mret tt
    end
  else mret tt.

(** The second block: the value read from the cached sample. *)
Definition read_stash (self : DockerContainerSensorReporter.t) : M (option string) :=
  cached ← stash_get (DockerContainerSensorReporter.stats_stash self);
  match cached with
  | Some stats =>
      match DockerContainerSensorReporter.stat self with
      | DockerContainerSensorReporterStat.CpuUsage =>
          cpu_percent ← calculate_cpu_percent stats;
          mret (Some (display_f64 cpu_percent))
      | DockerContainerSensorReporterStat.MemoryUsage =>
          let memory_usage :=
            default 0 (ContainerStatsResponse.memory_stats stats
                         ≫= ContainerMemoryStats.usage) in
          mret (Some (int_to_string memory_usage))
      | DockerContainerSensorReporterStat.Status =>
          mret (ContainerSummary.status (DockerContainerSensorReporter.container self))
      end
  | None => mret None
  end.

Definition docker_container_get_value (self : DockerContainerSensorReporter.t)
  : M (option string) :=
  fill_stash self;; read_stash self.

(** ** [SensorReporterType::get_value] *)

Definition get_value (self : SensorReporterType.t) : M (option string) :=
  match self with
  | SensorReporterType.System reporter => system_get_value reporter
  | SensorReporterType.Command reporter => command_get_value reporter
  | SensorReporterType.DockerContainer reporter => docker_container_get_value reporter
  | SensorReporterType.Docker reporter => docker_get_value reporter
  end.

End reporters.

(** ** Specification vocabulary *)

(** The engine query a Docker engine sensor makes. *)
Definition docker_query (stat : DockerSensorReporterStat.t) : Event :=
  match stat with
  | DockerSensorReporterStat.ImagesCount | DockerSensorReporterStat.ImagesSize =>
      EvListImages
  | DockerSensorReporterStat.VolumesCount => EvListVolumes
  | DockerSensorReporterStat.RunningCount => EvListContainers true [("status", ["running"])]
  | DockerSensorReporterStat.UnhealthyCount =>
      EvListContainers true [("health", ["unhealthy"])]
  end.

Definition is_err {T E} (r : result T E) : bool :=
  match r with
  | Ok _ => false
  | Err _ => true
  end.

(** The engine answers that query with an error. *)
Definition docker_query_failed (ω : Oracle) (h : History)
    (stat : DockerSensorReporterStat.t) : bool :=
  match docker_query stat with
  | EvListImages => is_err (docker_list_images ω h)
  | EvListVolumes => is_err (docker_list_volumes ω h)
  | EvListContainers all filters => is_err (docker_list_containers ω h all filters)
  | _ => false
  end.

(** The percentage [calculate_cpu_percent] computes from two deltas. *)
Definition cpu_percent_of (cpu_delta system_delta : Z) (online_cpus : option Z) : f64 :=
  f64_mul (f64_mul (f64_div (f64_of_Z cpu_delta) (f64_of_Z system_delta))
                   (f64_of_Z (default 0 online_cpus)))
          f64_100.

(** ** Facts *)

Section reporter_facts.
Context `{!FloatText}.
Implicit Types (ω : Oracle) (σ : State) (self : DockerContainerSensorReporter.t)
  (stats : ContainerStatsResponse.t).

Lemma calculate_cpu_percent_state stats ω σ :
  final_state (calculate_cpu_percent stats ω σ) = σ.
Proof.
  unfold calculate_cpu_percent.
  apply final_state_bind; [apply u64_sub_state|]. intros cpu_delta.
  apply final_state_bind; [apply u64_sub_state|]. intros system_delta.
  by case_match.
Qed.

Lemma read_stash_state self ω σ : final_state (read_stash self ω σ) = σ.
Proof.
  unfold read_stash. apply final_state_bind; [done|]. intros [stats|]; [|done].
  destruct (DockerContainerSensorReporter.stat self); [|done..].
  apply final_state_bind; [apply calculate_cpu_percent_state|done].
Qed.

Lemma fill_stash_hit self ω σ stats :
  stashes σ !! DockerContainerSensorReporter.stats_stash self = Some (Some stats) ->
  fill_stash self ω σ = Returned tt σ.
Proof. intros Hl. unfold fill_stash. run_M. by rewrite Hl. Qed.

Lemma fill_stash_miss self ω σ id :
  mjoin (stashes σ !! DockerContainerSensorReporter.stats_stash self) = None ->
  ContainerSummary.id (DockerContainerSensorReporter.container self) = Some id ->
  fill_stash self ω σ =
    Returned tt
      {| history := history σ ++ [EvStats id];
         stashes :=
           match docker_stats_next ω (history σ) id with
           | Some (Ok stats) =>
               <[DockerContainerSensorReporter.stats_stash self := Some stats]> (stashes σ)
           | _ => stashes σ
           end |}.
Proof.
  intros Hl Hid. unfold fill_stash. run_M. rewrite Hl, Hid. simpl.
  by destruct (docker_stats_next ω (history σ) id) as [[]|].
Qed.

Lemma fill_stash_no_id self ω σ :
  mjoin (stashes σ !! DockerContainerSensorReporter.stats_stash self) = None ->
  ContainerSummary.id (DockerContainerSensorReporter.container self) = None ->
  fill_stash self ω σ = Panicked "called `Option::unwrap()` on a `None` value" σ.
Proof. intros Hl Hid. unfold fill_stash. run_M. by rewrite Hl, Hid. Qed.

Lemma fill_stash_no_sample self ω σ id :
  mjoin (stashes σ !! DockerContainerSensorReporter.stats_stash self) = None ->
  ContainerSummary.id (DockerContainerSensorReporter.container self) = Some id ->
  (∀ stats, docker_stats_next ω (history σ) id ≠ Some (Ok stats)) ->
  fill_stash self ω σ =
    Returned tt {| history := history σ ++ [EvStats id]; stashes := stashes σ |}.
Proof.
  intros Hl Hid Hnext. rewrite (fill_stash_miss _ _ _ id) by done.
  destruct (docker_stats_next ω (history σ) id) as [[stats|]|] eqn:E; [|done..].
  by destruct (Hnext stats).
Qed.

Lemma read_stash_hit self ω σ stats :
  stashes σ !! DockerContainerSensorReporter.stats_stash self = Some (Some stats) ->
  read_stash self ω σ =
    match DockerContainerSensorReporter.stat self with
    | DockerContainerSensorReporterStat.CpuUsage =>
        (cpu_percent ← calculate_cpu_percent stats;
         mret (Some (display_f64 cpu_percent))) ω σ
    | DockerContainerSensorReporterStat.MemoryUsage =>
        Returned
          (Some (int_to_string
                   (default 0 (ContainerStatsResponse.memory_stats stats
                                 ≫= ContainerMemoryStats.usage)))) σ
    | DockerContainerSensorReporterStat.Status =>
        Returned (ContainerSummary.status (DockerContainerSensorReporter.container self)) σ
    end.
Proof.
  intros Hl. unfold read_stash. erewrite bind_returned by (unfold stash_get; by rewrite Hl).
  simpl. by destruct (DockerContainerSensorReporter.stat self).
Qed.

(** With a sample in the cell, a reading leaves the state as it is. *)
Lemma container_get_value_hit_state self ω σ stats :
  stashes σ !! DockerContainerSensorReporter.stats_stash self = Some (Some stats) ->
  final_state (docker_container_get_value self ω σ) = σ.
Proof.
  intros Hl. unfold docker_container_get_value.
  erewrite bind_returned by by eapply fill_stash_hit. apply read_stash_state.
Qed.

End reporter_facts.

(** Reading a value only probes the engine and the host. *)
Lemma get_value_emits `{!FloatText} (P : Event -> Prop) (self : SensorReporterType.t) :
  (∀ ev, is_probe ev = true -> P ev) -> emits P (get_value self).
Proof.
  intros HP.
  unfold get_value, system_get_value, command_get_value, docker_container_get_value,
    docker_get_value, list_containers, fill_stash, read_stash, calculate_cpu_percent.
  emits_auto; by apply HP.
Qed.

(** ** Properties *)

Section reporter_properties.
Context `{!FloatText}.
Implicit Types (ω : Oracle) (σ : State) (stats : ContainerStatsResponse.t).

(** A command reporter runs its command once and never panics.  It
    yields no value exactly when the process cannot be started or the
    transform rejects the output; otherwise the value is the transform
    of the trimmed standard output, or the trimmed output itself when
    there is no transform. *)
Theorem command_get_value_contract (self : CommandSensorReporter.t) ω σ :
  command_get_value self ω σ =
    Returned
      (output ← command_output ω (history σ) (CommandSensorReporter.command self)
                  (CommandSensorReporter.args self);
       match CommandSensorReporter.transform self with
       | Some transform_fn => transform_fn (Str.trim output)
       | None => Some (Str.trim output)
       end)
      {| history := history σ ++ [EvCommand (CommandSensorReporter.command self)
                                            (CommandSensorReporter.args self)];
         stashes := stashes σ |}.
Proof.
  unfold command_get_value. run_M.
  destruct (command_output _ _ _ _); simpl; [|done].
  by destruct (CommandSensorReporter.transform self).
Qed.

(** A Docker engine sensor makes exactly one engine query, touches
    no cache, and yields no value exactly when the engine answers with
    an error, which is never passed on.  (The sum of the image sizes is
    an [i64] sum: the statement leaves out the run with overflow
    checks, where the sum can panic.) *)
Theorem docker_get_value_total (self : DockerSensorReporter.t) ω σ :
  DockerSensorReporter.stat self ≠ DockerSensorReporterStat.ImagesSize
    ∨ overflow_checks ω = false ->
  ∃ value,
    docker_get_value self ω σ =
      Returned value
        {| history := history σ ++ [docker_query (DockerSensorReporter.stat self)];
           stashes := stashes σ |} ∧
    (value = None <->
       docker_query_failed ω (history σ) (DockerSensorReporter.stat self) = true).
Proof.
  intros Hstat. unfold docker_get_value, list_containers, docker_query_failed, i64_sum.
  destruct (DockerSensorReporter.stat self); run_M; case_match; simpl.
  all: try (destruct Hstat as [?|Hchecks]; [congruence|rewrite Hchecks]).
  all: eexists; (split; [done|]); split; done.
Qed.

(** The image-size sensor on every branch: an engine error gives no
    value; otherwise the sizes are summed at 64 bits, a sum that
    overflows being a panic with overflow checks and the wrapped sum
    without. *)
Lemma images_size_run (self : DockerSensorReporter.t) ω σ :
  DockerSensorReporter.stat self = DockerSensorReporterStat.ImagesSize ->
  docker_get_value self ω σ =
    let σ' := {| history := history σ ++ [EvListImages]; stashes := stashes σ |} in
    match docker_list_images ω (history σ) with
    | Err _ => Returned None σ'
    | Ok images =>
        let sizes := ImageSummary.size <$> images in
        if overflow_checks ω then
          match i64_checked_sum sizes with
          | Some total => Returned (Some (int_to_string total)) σ'
          | None => Panicked "attempt to add with overflow" σ'
          end
        else Returned (Some (int_to_string (i64_wrap (Z_sum sizes)))) σ'
    end.
Proof.
  intros Hstat. unfold docker_get_value, i64_sum. rewrite Hstat. run_M.
  destruct (docker_list_images _ _); simpl; [|done].
  destruct (overflow_checks ω); simpl; [by destruct (i64_checked_sum _)|].
  by rewrite i64_wrapping_sum_wrap.
Qed.

(** C30: the image-size sensor publishes the sum of the sizes the engine
    lists.  When no size is negative and the sum fits in [i64], no
    partial sum overflows: the value is the decimal text of the sum in
    both build modes, after one engine query and with the store
    untouched. *)
Theorem images_size_sum (self : DockerSensorReporter.t) ω σ images :
  DockerSensorReporter.stat self = DockerSensorReporterStat.ImagesSize ->
  docker_list_images ω (history σ) = Ok images ->
  Forall (λ image, 0 ≤ ImageSummary.size image) images ->
  Z_sum (ImageSummary.size <$> images) ≤ i64_max ->
  docker_get_value self ω σ =
    Returned (Some (int_to_string (Z_sum (ImageSummary.size <$> images))))
      {| history := history σ ++ [EvListImages]; stashes := stashes σ |}.
Proof.
  intros Hstat Himages Hsizes Hsum. rewrite images_size_run, Himages by done.
  apply Forall_fmap in Hsizes. pose proof (Z_sum_nonneg _ Hsizes) as Hpos.
  assert (in_i64 (Z_sum (ImageSummary.size <$> images))) by (unfold in_i64, i64_min; lia).
  cbv zeta. rewrite i64_checked_sum_nonneg, i64_wrap_id by done. by case_match.
Qed.

(** With a sample in the cell, reading a container sensor makes no
    engine query and leaves the store as it is, and the value comes from
    the sample: the memory usage as an integer (0 when the engine did
    not report it), the status of the container summary, the CPU
    percentage of the sample. *)
Theorem container_stats_cached (self : DockerContainerSensorReporter.t) ω σ stats :
  stashes σ !! DockerContainerSensorReporter.stats_stash self = Some (Some stats) ->
  final_state (docker_container_get_value self ω σ) = σ ∧
  docker_container_get_value self ω σ =
    match DockerContainerSensorReporter.stat self with
    | DockerContainerSensorReporterStat.CpuUsage =>
        (cpu_percent ← calculate_cpu_percent stats;
         mret (Some (display_f64 cpu_percent))) ω σ
    | DockerContainerSensorReporterStat.MemoryUsage =>
        Returned
          (Some (int_to_string
                   (default 0 (ContainerStatsResponse.memory_stats stats
                                 ≫= ContainerMemoryStats.usage)))) σ
    | DockerContainerSensorReporterStat.Status =>
        Returned (ContainerSummary.status (DockerContainerSensorReporter.container self)) σ
    end.
Proof.
  intros Hl. split; [by eapply container_get_value_hit_state|].
  unfold docker_container_get_value.
  erewrite bind_returned by by eapply fill_stash_hit. by apply read_stash_hit.
Qed.

(** C8: two sensors of a container that share an empty cell, read one
    after the other, make one statistics query between them: the first
    reading fills the cell with the first item of the stream and the
    second reads the cell.  This holds whichever two of the three
    sensors they are, and also when the first reading panics. *)
Theorem container_stats_single_query (r1 r2 : DockerContainerSensorReporter.t)
    ω σ id stats :
  DockerContainerSensorReporter.stats_stash r2 = DockerContainerSensorReporter.stats_stash r1 ->
  ContainerSummary.id (DockerContainerSensorReporter.container r1) = Some id ->
  stashes σ !! DockerContainerSensorReporter.stats_stash r1 = Some None ->
  docker_stats_next ω (history σ) id = Some (Ok stats) ->
  let σ' :=
    final_state ((v1 ← docker_container_get_value r1;
                  v2 ← docker_container_get_value r2;
                  mret (v1, v2)) ω σ) in
  history σ' = history σ ++ [EvStats id] ∧
  stashes σ' = <[DockerContainerSensorReporter.stats_stash r1 := Some stats]> (stashes σ).
Proof.
  intros Hshare Hid Hl Hnext σ'.
  set (σ1 := {| history := history σ ++ [EvStats id];
                stashes := <[DockerContainerSensorReporter.stats_stash r1 := Some stats]>
                             (stashes σ) |}).
  assert (stashes σ1 !! DockerContainerSensorReporter.stats_stash r1 = Some (Some stats))
    as Hfilled by (apply list_lookup_insert_eq; by eapply lookup_lt_Some).
  enough (σ' = σ1) as -> by done. subst σ'.
  apply final_state_bind.
  - unfold docker_container_get_value.
    erewrite bind_returned by (apply fill_stash_miss; [by rewrite Hl|done]).
    rewrite Hnext. apply read_stash_state.
  - intros v1. apply final_state_bind; [|done].
    eapply container_get_value_hit_state. by rewrite Hshare.
Qed.

(** C9: when neither counter went backwards, [calculate_cpu_percent]
    returns, with or without overflow checks: the quotient of the two
    differences times the number of CPUs times 100 when both
    differences are positive, and 0 otherwise (so a division by zero
    never happens). *)
Theorem cpu_percent_formula stats ω σ :
  let cpu_stats := ContainerStatsResponse.cpu_stats stats in
  let precpu_stats := ContainerStatsResponse.precpu_stats stats in
  let cpu_delta := total_usage_of cpu_stats - total_usage_of precpu_stats in
  let system_delta := system_usage_of cpu_stats - system_usage_of precpu_stats in
  in_u64 (total_usage_of cpu_stats) -> in_u64 (system_usage_of cpu_stats) ->
  0 ≤ total_usage_of precpu_stats ≤ total_usage_of cpu_stats ->
  0 ≤ system_usage_of precpu_stats ≤ system_usage_of cpu_stats ->
  calculate_cpu_percent stats ω σ =
    Returned
      (if bool_decide (0 < system_delta ∧ 0 < cpu_delta)
       then cpu_percent_of cpu_delta system_delta
              (cpu_stats ≫= ContainerCpuStats.online_cpus)
       else f64_zero)
      σ.
Proof.
  intros cpu_stats precpu_stats cpu_delta system_delta Hc Hs Hpc Hps.
  unfold calculate_cpu_percent.
  erewrite bind_returned by by apply u64_sub_returned.
  erewrite bind_returned by by apply u64_sub_returned.
  fold cpu_stats precpu_stats cpu_delta system_delta.
  destruct (decide (0 < system_delta)), (decide (0 < cpu_delta)).
  all: rewrite ?(bool_decide_eq_true_2 (_ > 0)), ?(bool_decide_eq_false_2 (_ > 0)) by lia.
  all: first [rewrite (bool_decide_eq_true_2 (_ ∧ _)) by done
             |rewrite (bool_decide_eq_false_2 (_ ∧ _)) by (intros []; lia)].
  all: done.
Qed.

(** C29: when the CPU counter of the sample is below the one before it
    (a restarted container), the subtraction underflows: under overflow
    checks [calculate_cpu_percent] panics; without them the difference
    wraps to a large positive number, the guard against non-positive
    differences does not fire, and the result is the percentage
    computed from the wrapped difference, not 0. *)
Theorem cpu_percent_counter_backwards stats ω σ :
  let cpu_stats := ContainerStatsResponse.cpu_stats stats in
  let precpu_stats := ContainerStatsResponse.precpu_stats stats in
  in_u64 (total_usage_of cpu_stats) -> in_u64 (total_usage_of precpu_stats) ->
  in_u64 (system_usage_of cpu_stats) ->
  total_usage_of cpu_stats < total_usage_of precpu_stats ->
  0 ≤ system_usage_of precpu_stats < system_usage_of cpu_stats ->
  calculate_cpu_percent stats ω σ =
    if overflow_checks ω then Panicked "attempt to subtract with overflow" σ
    else
      Returned
        (cpu_percent_of
           (total_usage_of cpu_stats - total_usage_of precpu_stats + u64_modulus)
           (system_usage_of cpu_stats - system_usage_of precpu_stats)
           (cpu_stats ≫= ContainerCpuStats.online_cpus))
        σ.
Proof.
  intros cpu_stats precpu_stats Hc Hp Hs Hlt Hsys. unfold calculate_cpu_percent.
  fold cpu_stats precpu_stats.
  destruct (overflow_checks ω) eqn:Hchecks.
  - erewrite bind_panicked; [done|]. by rewrite u64_sub_underflow, Hchecks.
  - erewrite bind_returned by by rewrite u64_sub_underflow, Hchecks.
    erewrite bind_returned by (apply u64_sub_returned; [done|lia]).
    unfold in_u64 in *.
    by rewrite !bool_decide_eq_true_2 by lia.
Qed.

(** C31: a container summary without an id makes the first reading of
    any of its three sensors panic: the id is unwrapped before the
    statistics query. *)
Theorem container_id_missing_panics (self : DockerContainerSensorReporter.t) ω σ :
  ContainerSummary.id (DockerContainerSensorReporter.container self) = None ->
  mjoin (stashes σ !! DockerContainerSensorReporter.stats_stash self) = None ->
  docker_container_get_value self ω σ
  = Panicked "called `Option::unwrap()` on a `None` value" σ.
Proof.
  intros Hid Hl. unfold docker_container_get_value.
  by erewrite bind_panicked by by apply fill_stash_no_id.
Qed.

(** A container sensor whose cell is empty and whose stream gives no
    sample: one query, no value, and the cell stays empty. *)
Lemma docker_container_no_sample (self : DockerContainerSensorReporter.t) ω σ id :
  ContainerSummary.id (DockerContainerSensorReporter.container self) = Some id ->
  mjoin (stashes σ !! DockerContainerSensorReporter.stats_stash self) = None ->
  (∀ stats, docker_stats_next ω (history σ) id ≠ Some (Ok stats)) ->
  docker_container_get_value self ω σ =
    Returned None {| history := history σ ++ [EvStats id]; stashes := stashes σ |}.
Proof.
  intros Hid Hl Hnext. unfold docker_container_get_value.
  erewrite bind_returned by by apply fill_stash_no_sample.
  unfold read_stash. run_M. by rewrite Hl.
Qed.

(** C32: a container sensor reads the cache before anything else: when
    the statistics stream gives no sample (it ends, or its first item
    is an error), the reading yields no value whichever of the three
    sensors it is.  The status sensor too yields nothing, although the
    status is a field of the container summary the sensor holds. *)
Theorem container_status_needs_sample (self : DockerContainerSensorReporter.t) ω σ id :
  ContainerSummary.id (DockerContainerSensorReporter.container self) = Some id ->
  mjoin (stashes σ !! DockerContainerSensorReporter.stats_stash self) = None ->
  (∀ stats, docker_stats_next ω (history σ) id ≠ Some (Ok stats)) ->
  docker_container_get_value self ω σ =
    Returned None {| history := history σ ++ [EvStats id]; stashes := stashes σ |}.
Proof. apply docker_container_no_sample. Qed.

(** C33: the memory usage sensor divides by the total without a
    guard.  On a snapshot whose total memory is zero it divides by zero
    on [f64] and publishes a text that is no percentage: [NaN] when the
    used memory is zero too, [inf] for every other amount of used
    memory. *)
Theorem memory_usage_degenerate (self : SystemSensorReporter.t) ω σ :
  let used := System.used_memory (SystemSensorReporter.system self) in
  SystemSensorReporter.name self = SystemSensorReporterStat.MemoryUsage ->
  System.total_memory (SystemSensorReporter.system self) = 0 -> 0 ≤ used ->
  system_get_value self ω σ
  = Returned (Some (if bool_decide (used = 0) then "NaN" else "inf")) σ.
Proof.
  intros used Hname Htotal Hused. unfold system_get_value. rewrite Hname, Htotal.
  fold used. case_bool_decide as Hzero; [by rewrite Hzero|].
  change (f64_of_Z 0) with f64_zero.
  by rewrite f64_div_zero, f64_mul_infinity_100 by (apply f64_of_Z_pos; lia).
Qed.

End reporter_properties.

(** ** The theorems on a concrete world *)

(** A sample of a container that used 200 of the 1000 units the host
    spent, on four CPUs. *)
Definition example_cpu (total system : Z) : option ContainerCpuStats.t :=
  Some {| ContainerCpuStats.cpu_usage :=
            Some {| ContainerCpuUsage.total_usage := Some total |};
          ContainerCpuStats.system_cpu_usage := Some system;
          ContainerCpuStats.online_cpus := Some 4 |}.

Definition example_sample : ContainerStatsResponse.t := {|
  ContainerStatsResponse.cpu_stats := example_cpu 400 2000;
  ContainerStatsResponse.precpu_stats := example_cpu 200 1000;
  ContainerStatsResponse.memory_stats :=
    Some {| ContainerMemoryStats.usage := Some 1048576 |};
|}.

(** The same container after a restart: its counter is below the one
    before. *)
Definition example_restarted : ContainerStatsResponse.t := {|
  ContainerStatsResponse.cpu_stats := example_cpu 100 2000;
  ContainerStatsResponse.precpu_stats := example_cpu 200 1000;
  ContainerStatsResponse.memory_stats := None;
|}.

(** A world whose engine lists nothing, fails to list volumes, and
    streams [example_sample] for the container ["abc"] only. *)
Definition example_world (checks : bool) : Oracle := {|
  docker_list_containers := λ _ _ _, Ok [];
  docker_list_images := λ _, Ok [ImageSummary.mk 10; ImageSummary.mk 32];
  docker_list_volumes := λ _, Err "engine unreachable";
  docker_stats_next := λ _ id,
    if bool_decide (id = "abc") then Some (Ok example_sample) else None;
  command_output := λ _ _ _, Some " 42 ";
  system_new_all := λ _, System.mk 0 0 (S754_zero false);
  system_uptime := λ _, 3600;
  fs_read_to_string := λ _ _, Err "no such file";
  fs_write := λ _ _ _, Ok tt;
  mqtt_publish := λ _ _ _ _ _, Ok tt;
  docker_connect := λ _, Ok tt;
  overflow_checks := checks;
  process_id := 1;
|}.

Definition example_reporter (id : option string)
    (stat : DockerContainerSensorReporterStat.t) : DockerContainerSensorReporter.t := {|
  DockerContainerSensorReporter.container :=
    ContainerSummary.mk id (Some ["/web"]) (Some "Up 2 hours");
  DockerContainerSensorReporter.docker := DockerHandle;
  DockerContainerSensorReporter.stats_stash := 0%nat;
  DockerContainerSensorReporter.stat := stat;
|}.

Definition empty_cell : State := {| history := []; stashes := [None] |}.
Definition full_cell : State := {| history := []; stashes := [Some example_sample] |}.

Lemma docker_get_value_total_witness :
  ∃ value,
    docker_get_value (DockerSensorReporter.mk DockerHandle DockerSensorReporterStat.VolumesCount)
      (example_world true) initial_state
    = Returned value {| history := [EvListVolumes]; stashes := [] |} ∧
    (value = None <-> true = true).
Proof.
  refine (docker_get_value_total
            (DockerSensorReporter.mk DockerHandle DockerSensorReporterStat.VolumesCount)
            (example_world true) initial_state _).
  by left.
Defined.

Lemma container_stats_cached_witness :
  final_state (docker_container_get_value
                 (example_reporter (Some "abc") DockerContainerSensorReporterStat.MemoryUsage)
                 (example_world true) full_cell) = full_cell ∧
  docker_container_get_value
    (example_reporter (Some "abc") DockerContainerSensorReporterStat.MemoryUsage)
    (example_world true) full_cell
  = Returned (Some "1048576") full_cell.
Proof.
  exact (container_stats_cached
           (example_reporter (Some "abc") DockerContainerSensorReporterStat.MemoryUsage)
           (example_world true) full_cell example_sample eq_refl).
Defined.

Lemma container_stats_single_query_witness :
  let σ' :=
    final_state
      ((v1 ← docker_container_get_value
               (example_reporter (Some "abc") DockerContainerSensorReporterStat.CpuUsage);
        v2 ← docker_container_get_value
               (example_reporter (Some "abc") DockerContainerSensorReporterStat.MemoryUsage);
        mret (v1, v2)) (example_world true) empty_cell) in
  history σ' = [EvStats "abc"] ∧ stashes σ' = [Some example_sample].
Proof.
  exact (container_stats_single_query
           (example_reporter (Some "abc") DockerContainerSensorReporterStat.CpuUsage)
           (example_reporter (Some "abc") DockerContainerSensorReporterStat.MemoryUsage)
           (example_world true) empty_cell "abc" example_sample
           eq_refl eq_refl eq_refl eq_refl).
Defined.

Lemma cpu_percent_formula_witness :
  calculate_cpu_percent example_sample (example_world true) empty_cell
  = Returned (cpu_percent_of 200 1000 (Some 4)) empty_cell.
Proof.
  apply (cpu_percent_formula example_sample); by vm_compute.
Defined.

Lemma cpu_percent_counter_backwards_witness :
  calculate_cpu_percent example_restarted (example_world false) empty_cell
  = Returned (cpu_percent_of (2 ^ 64 - 100) 1000 (Some 4)) empty_cell.
Proof.
  apply (cpu_percent_counter_backwards example_restarted (example_world false));
    by vm_compute.
Defined.

Lemma container_id_missing_panics_witness :
  docker_container_get_value
    (example_reporter None DockerContainerSensorReporterStat.Status)
    (example_world false) empty_cell
  = Panicked "called `Option::unwrap()` on a `None` value" empty_cell.
Proof. by apply container_id_missing_panics. Defined.

Lemma container_status_needs_sample_witness :
  docker_container_get_value
    (example_reporter (Some "gone") DockerContainerSensorReporterStat.Status)
    (example_world false) empty_cell
  = Returned None {| history := [EvStats "gone"]; stashes := [None] |}.
Proof.
  refine (container_status_needs_sample
            (example_reporter (Some "gone") DockerContainerSensorReporterStat.Status)
            (example_world false) empty_cell "gone" eq_refl eq_refl _).
  intros stats. by vm_compute.
Defined.

Lemma memory_usage_degenerate_witness :
  system_get_value
    (SystemSensorReporter.mk (System.mk 0 4096 (S754_zero false))
       SystemSensorReporterStat.MemoryUsage)
    (example_world false) initial_state
  = Returned (Some "inf") initial_state.
Proof.
  by apply (memory_usage_degenerate
              (SystemSensorReporter.mk (System.mk 0 4096 (S754_zero false))
                 SystemSensorReporterStat.MemoryUsage)).
Defined.

Lemma images_size_sum_witness :
  docker_get_value (DockerSensorReporter.mk DockerHandle DockerSensorReporterStat.ImagesSize)
    (example_world true) initial_state
  = Returned (Some "42") {| history := [EvListImages]; stashes := [] |}.
Proof.
  apply (images_size_sum _ (example_world true) initial_state
           [ImageSummary.mk 10; ImageSummary.mk 32]);
    [done|done|by repeat constructor|by vm_compute].
Defined.

(** Two images whose sizes add up past the range: a panic with overflow
    checks, a negative size without. *)
Definition example_world_huge (checks : bool) : Oracle :=
  with_images (λ _, Ok [ImageSummary.mk i64_max; ImageSummary.mk 1]) (example_world checks).

Example images_size_overflow :
  docker_get_value (DockerSensorReporter.mk DockerHandle DockerSensorReporterStat.ImagesSize)
    (example_world_huge true) initial_state
  = Panicked "attempt to add with overflow" {| history := [EvListImages]; stashes := [] |} ∧
  docker_get_value (DockerSensorReporter.mk DockerHandle DockerSensorReporterStat.ImagesSize)
    (example_world_huge false) initial_state
  = Returned (Some "-9223372036854775808") {| history := [EvListImages]; stashes := [] |}.
Proof. by vm_compute. Qed.
