(* ===== verification/Readings.v ===== *)
(** What the command sensors of the catalogue read: the sensor literals
    of [UnraidStats::sensors] in [src/src/unraid_stats.rs] composed with
    [CommandSensorReporter::get_value] and the parsers of
    [src/src/config.rs].

    - A command sensor runs its program once and yields the transform of
      the trimmed standard output.
    - The three disk sensors on a [df] table: which arguments each
      passes and which column each publishes, under which unit.
    - The temperature sensor on a report with a package line, and the
      array sensor on a status text.
    - A program that cannot be started gives no value. *)

From Stdlib Require Import ZArith Ascii String.
From stdpp Require Import base tactics option list numbers strings.
From S2P Require Import Prelude RustStr RustNum RustFloat World Hoare.
From S2P Require Import Config Parsers Catalog Reporter.

(** ** Vocabulary *)

(** The arguments a disk sensor passes to [df], the column it publishes
    and the unit it declares, by its id. *)
Definition disk_args (id : string) : option (list string) :=
  if bool_decide (id = "disk_usage") then Some ["-BM"; "/mnt/user"]
  else Some ["/mnt/user"].

Definition disk_value `{!FloatText} (id : string) (fields : list string)
    (usage_percent : f64) : string :=
  if bool_decide (id = "disk_usage") then display_f64 usage_percent
  else if bool_decide (id = "disk_total") then fields !!! 1%nat
  else fields !!! 3%nat.

Definition disk_unit (id : string) : string :=
  if bool_decide (id = "disk_usage") then "%" else "B".

(** The first field of a package line that carries a temperature. *)
Definition package_temp `{!FloatText} (fields : list string) : option f64 :=
  iter_find (λ word, Str.contains word "°C") fields ≫= λ temp,
    parse_f64 (Str.trim_end_matches_str "°C" (Str.trim_start_matches "+" temp)).

Section readings.
Context `{!FloatText}.
Implicit Types (ω : Oracle) (σ : State) (s : Sensor.t).

(** ** Command sensors *)

(** A command sensor of the catalogue has a command reporter, and
    reading it is one run of the program. *)
Lemma command_sensor_reads id name unit device_class icon command args transform ω σ :
  ∃ r,
    Sensor.reporter
      (UnraidStats.command_sensor id name unit device_class icon command args transform)
      = Some r ∧
    get_value r ω σ =
      Returned (command_output ω (history σ) command args ≫= λ output,
                  transform (Str.trim output))
               (record (EvCommand command args) σ).
Proof. eexists. split; [done|]. simpl. by rewrite command_get_value_contract. Qed.

(** A program that cannot be started gives no value, whatever the
    transform. *)
Lemma command_sensor_unavailable id name unit device_class icon command args transform ω σ :
  command_output ω (history σ) command args = None ->
  ∃ r,
    Sensor.reporter
      (UnraidStats.command_sensor id name unit device_class icon command args transform)
      = Some r ∧
    get_value r ω σ = Returned None (record (EvCommand command args) σ).
Proof.
  intros Hout.
  destruct (command_sensor_reads id name unit device_class icon command args transform ω σ)
    as (r & Hr & Hread).
  exists r. by rewrite Hread, Hout.
Qed.

(** ** The disk sensors *)

Section disk.
Context (header : string) (fields : list string) (usage_percent : f64).
Context (Hheader : Str.is_line header = true).
Context (Hfields : Forall (λ w, Str.is_word w = true) fields).
Context (Hlength : (5 ≤ length fields)%nat).
Context (Hpercent : parse_f64 (Str.trim_end_matches "%" (fields !!! 4%nat)) = Some usage_percent).

Lemma df_table_parsed :
  parse_disk_usage (header +:+ String "010" (Str.join " " fields)) =
    Some {| DiskInfo.total := fields !!! 1%nat;
            DiskInfo.available := fields !!! 3%nat;
            DiskInfo.usage_percent := usage_percent |}.
Proof.
  rewrite parse_disk_usage_fields, bool_decide_eq_true_2 by done.
  by rewrite Hpercent.
Qed.

(** C26: the disk sensors on a [df] table, a header line and a row of at
    least five fields whose fifth is a percentage.  [disk_usage] passes
    [-BM] and publishes the percentage; [disk_total] and
    [disk_available] pass no block size and publish the second and the
    fourth field of the row as printed, under the unit [B].  Each runs
    [df] once. *)
Theorem disk_sensors_read s ω σ output :
  s ∈ UnraidStats.disk_sensors ->
  command_output ω (history σ) "df" (disk_args (Sensor.id s)) = Some output ->
  Str.trim output = header +:+ String "010" (Str.join " " fields) ->
  Sensor.unit s = Some (disk_unit (Sensor.id s)) ∧
  ∃ r,
    Sensor.reporter s = Some r ∧
    get_value r ω σ =
      Returned (Some (disk_value (Sensor.id s) fields usage_percent))
               (record (EvCommand "df" (disk_args (Sensor.id s))) σ).
Proof.
  intros Hs Hout Htrim. unfold UnraidStats.disk_sensors in Hs.
  repeat (apply elem_of_cons in Hs as [->|Hs]); [..|by apply elem_of_nil in Hs].
  all: unfold disk_args, disk_value, disk_unit in *.
  all: cbn [Sensor.id Sensor.unit Sensor.reporter UnraidStats.command_sensor] in *.
  all: repeat case_bool_decide; try done.
  all: (split; [done|]); eexists; (split; [done|]).
  all: cbn [get_value]; rewrite command_get_value_contract; cbn.
  all: rewrite Hout; cbn; rewrite Htrim.
  all: unfold UnraidStats.disk_usage_transform, UnraidStats.disk_total_transform,
         UnraidStats.disk_available_transform.
  all: by rewrite df_table_parsed.
Qed.

End disk.

(** ** The temperature sensor *)

(** C27: the temperature sensor runs the program [sensor], without
    arguments, once.  On a report whose second line is the package line
    it publishes the first temperature of that line with one decimal,
    under the unit [°C], and nothing when the line has no temperature
    that parses. *)
Theorem cpu_temp_reads s sys_uptime ω σ output header fields :
  s ∈ UnraidStats.status_sensors sys_uptime ->
  Sensor.id s = "cpu_temp" ->
  command_output ω (history σ) "sensor" None = Some output ->
  Str.trim output = header +:+ String "010" (Str.join " " fields) ->
  Str.is_line header = true ->
  Str.contains header "Package id 0" = false ->
  Forall (λ w, Str.is_word w = true) fields ->
  Str.contains (Str.join " " fields) "Package id 0" = true ->
  Sensor.unit s = Some "°C" ∧
  ∃ r,
    Sensor.reporter s = Some r ∧
    get_value r ω σ =
      Returned (fmt_fixed 1 <$> package_temp fields) (record (EvCommand "sensor" None) σ).
Proof.
  intros Hs Hid Hout Htrim Hheader Hmarker Hfields Hline.
  unfold UnraidStats.status_sensors in Hs.
  repeat (apply elem_of_cons in Hs as [->|Hs]); [..|by apply elem_of_nil in Hs]; try done.
  (split; [done|]); eexists; (split; [done|]).
  cbn [get_value]. rewrite command_get_value_contract. cbn.
  rewrite Hout. cbn. rewrite Htrim. unfold UnraidStats.cpu_temp_transform.
  rewrite parse_cpu_temp_fields by done. fold (package_temp fields).
  by destruct (package_temp fields).
Qed.

(** ** The array sensor *)

(** The array sensor runs [mdcmd status] once and publishes the value of
    the first line that starts with [mdState=]. *)
Theorem array_status_reads s sys_uptime ω σ output header value :
  s ∈ UnraidStats.status_sensors sys_uptime ->
  Sensor.id s = "array_status" ->
  command_output ω (history σ) "mdcmd" (Some ["status"]) = Some output ->
  Str.trim output = header +:+ String "010" ("mdState=" +:+ value) ->
  Str.is_line header = true -> Str.is_line value = true ->
  Str.starts_with header "mdState=" = false ->
  Str.starts_with value "mdState=" = false ->
  ∃ r,
    Sensor.reporter s = Some r ∧
    get_value r ω σ =
      Returned (Some value) (record (EvCommand "mdcmd" (Some ["status"])) σ).
Proof.
  intros Hs Hid Hout Htrim Hheader Hvalue Hnh Hnv.
  unfold UnraidStats.status_sensors in Hs.
  repeat (apply elem_of_cons in Hs as [->|Hs]); [..|by apply elem_of_nil in Hs]; try done.
  eexists; (split; [done|]).
  cbn [get_value]. rewrite command_get_value_contract. cbn.
  rewrite Hout. cbn. rewrite Htrim. unfold UnraidStats.array_status_transform.
  by rewrite parse_array_status_value.
Qed.

End readings.

(** ** Concrete runs *)

(** A host where [df] prints megabyte blocks when asked to and kilobyte
    blocks otherwise, where the program of the [lm-sensors] package,
    [sensors], prints a report, and where no program is called
    [sensor]. *)
Definition example_df_report (block total used available : string) : string :=
  "Filesystem " +:+ block +:+ " Used Available Use% Mounted on" +:+ String "010"
    (Str.join " " ["shfs"; total; used; available; "40%"; "/mnt/user"]) +:+ String "010" "".

Definition example_sensors_report : string :=
  "coretemp-isa-0000" +:+ String "010"
    (Str.join " " example_sensors_fields) +:+ String "010" "".

Definition example_host (sensor_program : string) : Oracle :=
  with_commands
    (λ _ command args,
       if bool_decide (command = "df") then
         if bool_decide (args = Some ["-BM"; "/mnt/user"])
         then Some (example_df_report "1M-blocks" "1M" "1M" "1M")
         else Some (example_df_report "1K-blocks" "1000" "400" "600")
       else if bool_decide (command = sensor_program) then Some example_sensors_report
       else None)
    quiet_world.

Definition example_disk_total : Sensor.t :=
  default Sensor.default (UnraidStats.disk_sensors !! 1%nat).

Definition example_cpu_temp : Sensor.t :=
  default Sensor.default
    (UnraidStats.status_sensors (System.mk 0%Z 0%Z f64_zero) !! 0%nat).

(** A volume of 1000 kilobyte blocks is published as [1000] under the
    unit [B]. *)
Lemma disk_sensors_read_witness :
  Sensor.unit example_disk_total = Some "B" ∧
  ∃ r,
    Sensor.reporter example_disk_total = Some r ∧
    get_value r (example_host "sensors") initial_state =
      Returned (Some "1000") (record (EvCommand "df" (Some ["/mnt/user"])) initial_state).
Proof.
  apply (disk_sensors_read "Filesystem 1K-blocks Used Available Use% Mounted on"
           ["shfs"; "1000"; "400"; "600"; "40%"; "/mnt/user"] (f64_of_Z 40))
    with (output := example_df_report "1K-blocks" "1000" "400" "600");
    [done|by repeat constructor|simpl; lia|by vm_compute
    |by apply (list_elem_of_lookup_2 _ 1)|done|by vm_compute].
Defined.

(** On a host whose program is called [sensor] the package temperature
    is published with one decimal. *)
Lemma cpu_temp_reads_witness :
  Sensor.unit example_cpu_temp = Some "°C" ∧
  ∃ r,
    Sensor.reporter example_cpu_temp = Some r ∧
    get_value r (example_host "sensor") initial_state =
      Returned (Some "45.0") (record (EvCommand "sensor" None) initial_state).
Proof.
  replace (Some "45.0") with (fmt_fixed 1 <$> package_temp example_sensors_fields)
    by by vm_compute.
  apply (cpu_temp_reads example_cpu_temp (System.mk 0%Z 0%Z f64_zero)
           (example_host "sensor") initial_state example_sensors_report
           "coretemp-isa-0000" example_sensors_fields);
    [by apply (list_elem_of_lookup_2 _ 0)|done|done|by vm_compute|done|done| |done].
  unfold example_sensors_fields. by repeat constructor.
Defined.

(** On a host with the [lm-sensors] package, whose program is called
    [sensors], the temperature sensor has no value. *)
Example cpu_temp_without_sensor_program :
  ∃ r,
    Sensor.reporter example_cpu_temp = Some r ∧
    get_value r (example_host "sensors") initial_state =
      Returned None (record (EvCommand "sensor" None) initial_state).
Proof. by apply command_sensor_unavailable. Qed.
