(* ===== verification/Cli.v ===== *)
(** [src/src/cli.rs]: the command-line arguments.  The record the
    parser fills, the options as the [arg] attributes and the types of
    the fields declare them (the names clap derives from them, their
    environment variables and default values, the type that selects the
    value parser), the value parser of the port and the construction of
    the record from the values the parser found.  The parser itself is
    in [CliParser].  A [PathBuf] is the text it is made from. *)

From Stdlib Require Import ZArith Ascii String.
From stdpp Require Import base tactics option list strings.
From S2P Require Import Prelude RustStr RustNum.

Local Open Scope Z_scope.

Module Args.

Record t := mk {
  host : option string;
  port : Z;
  client_id : option string;
  username : option string;
  password : option string;
  config_file : option string;
  sensor_dump : option string;
  json_output : bool;
  discovery_prefix : string;
  device_name : string;
  skip_discovery : bool;
}.

(** The arguments of a run without options and without the
    environment variables the attributes name: the [default_value]s. *)
Definition default : t := {|
  host := None;
  port := 1883;
  client_id := None;
  username := None;
  password := None;
  config_file := None;
  sensor_dump := None;
  json_output := false;
  discovery_prefix := "homeassistant";
  device_name := "unraid";
  skip_discovery := false;
|}.

(** ** The options

    The [short] attribute of an option: absent, bare (the first
    character of the field name), or with a character of its own. *)
Variant Short : Type := NoShort | ShortOfField | ShortChar (c : ascii).

(** What an option takes, by the type of its field: a [bool] is a flag
    without a value, an [Option] may be absent, a field of another type
    has its [default_value]. *)
Variant Takes : Type := Flag | Optional | Defaulted (default_value : string).

(** The type of the value of a field, inside [Option] where the field
    has one: [String] (here [Text]), [u16], [PathBuf] or [bool].  It
    selects the value parser of the option. *)
Variant Ty : Type := Text | U16 | PathBuf | Bool.

Record Spec := {
  field : string;
  short_attr : Short;
  env : option string;
  takes : Takes;
  ty : Ty;
}.

Definition specs : list Spec := [
  {| field := "host"; short_attr := ShortChar "H"; env := Some "MQTT_HOST";
     takes := Optional; ty := Text |};
  {| field := "port"; short_attr := ShortOfField; env := Some "MQTT_PORT";
     takes := Defaulted "1883"; ty := U16 |};
  {| field := "client_id"; short_attr := ShortChar "i"; env := Some "MQTT_CLIENT_ID";
     takes := Optional; ty := Text |};
  {| field := "username"; short_attr := ShortOfField; env := Some "MQTT_USER";
     takes := Optional; ty := Text |};
  {| field := "password"; short_attr := ShortChar "P"; env := Some "MQTT_PASSWORD";
     takes := Optional; ty := Text |};
  {| field := "config_file"; short_attr := ShortChar "c"; env := None;
     takes := Optional; ty := PathBuf |};
  {| field := "sensor_dump"; short_attr := NoShort; env := None;
     takes := Optional; ty := PathBuf |};
  {| field := "json_output"; short_attr := NoShort; env := None;
     takes := Flag; ty := Bool |};
  {| field := "discovery_prefix"; short_attr := NoShort; env := None;
     takes := Defaulted "homeassistant"; ty := Text |};
  {| field := "device_name"; short_attr := NoShort; env := None;
     takes := Defaulted "unraid"; ty := Text |};
  {| field := "skip_discovery"; short_attr := NoShort; env := None;
     takes := Flag; ty := Bool |}
].

(** Every option has the bare [long] attribute: its long name is the
    field name with [-] for [_]. *)
Definition long (s : Spec) : string :=
  Str.map_chars (λ c, if Ascii.eqb c "_" then "-"%char else c) (field s).

Definition short (s : Spec) : option ascii :=
  match short_attr s with
  | NoShort => None
  | ShortOfField =>
      match field s with
      | String c _ => Some c
      | EmptyString => None
      end
  | ShortChar c => Some c
  end.

(** The options clap adds to a command with [version]: [-h], [--help],
    [-V], [--version]. *)
Definition builtin_shorts : list ascii := ["h"; "V"]%char.
Definition builtin_longs : list string := ["help"; "version"].

(** The value of a field when neither the command line nor the
    environment gives one. *)
Definition default_value_of (name : string) : option string :=
  s ← List.find (λ s, bool_decide (field s = name)) specs;
  match takes s with
  | Defaulted v => Some v
  | _ => None
  end.

(** The value parser of a [u16] field: the text is read as an [i64]
    ([str::parse::<i64>]: an optional sign and ASCII digits) and must
    lie in the range of [u16]. *)
Definition parse_u16 (s : string) : option Z :=
  n ← parse_i64 s; guard (0 ≤ n ∧ n < 65536);; Some n.

(** The record built from what the parser found: [value_of] gives the
    value of an option by its field name, [flag] tells whether a flag
    was given.  A missing value of a field that is not an [Option], or a
    port that is not a [u16], is an error. *)
Definition from_arg_matches (value_of : string -> option string) (flag : string -> bool)
  : option t :=
  port ← value_of "port" ≫= parse_u16;
  discovery_prefix ← value_of "discovery_prefix";
  device_name ← value_of "device_name";
  Some {|
    host := value_of "host";
    port := port;
    client_id := value_of "client_id";
    username := value_of "username";
    password := value_of "password";
    config_file := value_of "config_file";
    sensor_dump := value_of "sensor_dump";
    json_output := flag "json_output";
    discovery_prefix := discovery_prefix;
    device_name := device_name;
    skip_discovery := flag "skip_discovery";
  |}.

End Args.

(** ** Properties *)

(** The options are well declared.  No two options share a long
    name, a short name or an environment variable, and none takes a name
    clap uses for help and version, so every option can be given; and a
    run without options and without the environment variables gets the
    record [Args::default] of the default values, the port 1883
    included. *)
Theorem options_well_declared :
  NoDup (Args.builtin_longs ++ (Args.long <$> Args.specs)) ∧
  NoDup (Args.builtin_shorts ++ omap Args.short Args.specs) ∧
  NoDup (omap Args.env Args.specs) ∧
  Args.from_arg_matches Args.default_value_of (λ _, false) = Some Args.default.
Proof. split_and!; [apply (bool_decide_unpack _); by vm_compute..|done]. Qed.
