(* ===== verification/CliParser.v ===== *)
(** The parser clap derives for [Args] of [src/src/cli.rs]
    ([Args::parse], called first in [main]): the command line token by
    token ([--name value], [--name=value], [-n value], [-nvalue],
    [-n=value], flags, [--], help and version), then the environment
    variables the declarations name, then the default values, and the
    record built from what was found.  An option may be given once; a
    value is parsed when it is found, by the parser of the type of its
    field (any text for a [String], a number in range for the [u16], any
    text but the empty one for a [PathBuf]); a token that begins with a
    hyphen is never taken as the value of the option before it.  The
    tokens and the values of the environment are texts: a value that is
    not valid Unicode, which clap rejects for every field but the paths,
    is not modelled.  The help and version texts and the wording of the
    error messages are not modelled: an error is its kind and the exit
    code of the process. *)

From Stdlib Require Import ZArith Ascii String.
From stdpp Require Import base tactics option list strings.
From S2P Require Import Prelude RustStr RustNum Cli.

Local Open Scope Z_scope.

Module Parser.
Import Args.

(** ** The parser

    Why a command line is not parsed, by the kind of clap's error.
    [InvalidValue] is the kind of a value that is required and not
    supplied: an option without its value and an empty path.
    [Args::parse] prints the message of the error or the help or
    version text and ends the process with the [exit_code]. *)
Variant Error : Type :=
| DisplayHelp
| DisplayVersion
| UnknownArgument (arg : string)
| InvalidValue (name : string)
| TooManyValues (name value : string)
| ArgumentConflict (name : string)
| ValueValidation (name value : string)
| MissingRequiredArgument (name : string).

Definition exit_code (e : Error) : Z :=
  match e with
  | DisplayHelp | DisplayVersion => 0
  | _ => 2
  end.

(** What the parser has found: the values of the options, by field
    name, and the flags given. *)
Record Matches := {
  values : list (string * string);
  flags : list string;
}.

Definition no_matches : Matches := {| values := []; flags := [] |}.

Definition value_of (m : Matches) (name : string) : option string :=
  snd <$> List.find (λ kv, bool_decide (kv.1 = name)) (values m).

Definition flag (m : Matches) (name : string) : bool := bool_decide (name ∈ flags m).

Definition present (m : Matches) (name : string) : bool :=
  bool_decide (name ∈ (values m).*1) || flag m name.

(** A value is parsed when it is found, by the value parser of the
    type of the field: every text is a [String], the text of a [u16] is
    read by [parse_u16], and a [PathBuf] is made from every text but the
    empty one. *)
Definition value_parses (s : Spec) (value : string) : bool :=
  match ty s with
  | U16 => bool_decide (is_Some (parse_u16 value))
  | PathBuf => negb (bool_decide (value = ""))
  | Text | Bool => true
  end.

(** The error of a value that does not parse: an empty path counts as
    a value that was not supplied. *)
Definition value_error (s : Spec) (value : string) : Error :=
  match ty s with
  | PathBuf => InvalidValue (field s)
  | _ => ValueValidation (field s) value
  end.

(** An option found with its value, and a flag found: an option may be
    given once. *)
Definition react_set (s : Spec) (value : string) (m : Matches) : result Matches Error :=
  if present m (field s) then Err (ArgumentConflict (field s))
  else if value_parses s value
       then Ok {| values := values m ++ [(field s, value)]; flags := flags m |}
       else Err (value_error s value).

Definition react_flag (s : Spec) (m : Matches) : result Matches Error :=
  if present m (field s) then Err (ArgumentConflict (field s))
  else Ok {| values := values m; flags := flags m ++ [field s] |}.

(** The option that waits for its value, or has it from the next token
    and is not recorded yet. *)
Definition Pending : Type := option (Spec * option string).

Definition resolve_pending (m : Matches) (pending : Pending) : result Matches Error :=
  match pending with
  | None => Ok m
  | Some (s, None) => Err (InvalidValue (field s))
  | Some (s, Some value) => react_set s value m
  end.

(** The tokens: [--name] and [--name=value], and a cluster [-abc]; the
    tokens [-] and [--] are neither. *)
Fixpoint split_equals (s : string) : string * option string :=
  match s with
  | EmptyString => (EmptyString, None)
  | String c r =>
      if Ascii.eqb c "=" then (EmptyString, Some r)
      else let '(name, value) := split_equals r in (String c name, value)
  end.

Definition to_long (token : string) : option (string * option string) :=
  match token with
  | String "-" (String "-" (String c r)) => Some (split_equals (String c r))
  | _ => None
  end.

Definition to_short (token : string) : option string :=
  match token with
  | String "-" (String c r) => if Ascii.eqb c "-" then None else Some (String c r)
  | _ => None
  end.

Definition find_long (name : string) : option Spec :=
  List.find (λ s, bool_decide (long s = name)) specs.

Definition find_short (c : ascii) : option Spec :=
  List.find (λ s, bool_decide (short s = Some c)) specs.

(** [--name] or [--name=value]. *)
Definition parse_long_arg (name : string) (attached : option string) (m : Matches)
    (pending : Pending) : result (Matches * Pending) Error :=
  if bool_decide (name ∈ builtin_longs) then
    match attached with
    | Some value => Err (TooManyValues name value)
    | None =>
        (let? _ := resolve_pending m pending in
         Err (if bool_decide (name = "help") then DisplayHelp else DisplayVersion))%rs
    end
  else
    match find_long name with
    | None => Err (UnknownArgument ("--" +:+ name))
    | Some s =>
        match takes s, attached with
        | Flag, Some value => Err (TooManyValues (field s) value)
        | Flag, None =>
            (let? m := resolve_pending m pending in
             let? m := react_flag s m in Ok (m, None))%rs
        | _, Some value =>
            (let? m := resolve_pending m pending in
             let? m := react_set s value m in Ok (m, None))%rs
        | _, None =>
            (let? m := resolve_pending m pending in Ok (m, Some (s, None)))%rs
        end
    end.

(** A cluster of short options: flags one by one, and an option that
    takes the rest of the cluster, without one [=], or the next token as
    its value. *)
Fixpoint parse_short_arg (cluster : string) (m : Matches) (pending : Pending)
  : result (Matches * Pending) Error :=
  match cluster with
  | EmptyString => Ok (m, pending)
  | String c rest =>
      if bool_decide (c ∈ builtin_shorts) then
        (let? _ := resolve_pending m pending in
         Err (if Ascii.eqb c "h" then DisplayHelp else DisplayVersion))%rs
      else
        match find_short c with
        | None => Err (UnknownArgument (String "-" (String c EmptyString)))
        | Some s =>
            match takes s, rest with
            | Flag, _ =>
                (let? m := resolve_pending m pending in
                 let? m := react_flag s m in parse_short_arg rest m None)%rs
            | _, EmptyString =>
                (let? m := resolve_pending m pending in Ok (m, Some (s, None)))%rs
            | _, String c' rest' =>
                (let? m := resolve_pending m pending in
                 let? m := react_set s (if Ascii.eqb c' "=" then rest' else rest) m in
                 Ok (m, None))%rs
            end
        end
  end.

(** The tokens of the command line in turn.  After [--] only
    positional arguments follow, and the command has none. *)
Fixpoint parse_tokens (tokens : list string) (m : Matches) (pending : Pending)
  : result Matches Error :=
  match tokens with
  | [] => resolve_pending m pending
  | token :: tokens' =>
      if bool_decide (token = "--") then
        match tokens' with
        | [] => resolve_pending m pending
        | extra :: _ => Err (UnknownArgument extra)
        end
      else
        match to_long token, to_short token, pending with
        | Some (name, attached), _, _ =>
            (let? found := parse_long_arg name attached m pending in
             parse_tokens tokens' found.1 found.2)%rs
        | None, Some cluster, _ =>
            (let? found := parse_short_arg cluster m pending in
             parse_tokens tokens' found.1 found.2)%rs
        | None, None, Some (s, None) => parse_tokens tokens' m (Some (s, Some token))
        | None, None, _ => Err (UnknownArgument token)
        end
  end.

(** An option that is not found yet takes the value [source] has for
    it; so do all of them, in the order of the declarations. *)
Definition add_value (source : Spec -> option string) (r : result Matches Error) (s : Spec)
  : result Matches Error :=
  (let? m := r in
   match source s with
   | Some value => if present m (field s) then Ok m else react_set s value m
   | None => Ok m
   end)%rs.

Definition add_values (source : Spec -> option string) (m : Matches) : result Matches Error :=
  foldl (add_value source) (Ok m) specs.

Definition default_value (s : Spec) : option string :=
  match takes s with
  | Defaulted value => Some value
  | _ => None
  end.

(** The options the command line did not give: from the environment,
    then from the default values. *)
Definition add_env (getenv : string -> option string) : Matches -> result Matches Error :=
  add_values (λ s, env s ≫= getenv).

Definition add_defaults : Matches -> result Matches Error := add_values default_value.

Definition get_matches (argv : list string) (getenv : string -> option string)
  : result Matches Error :=
  (let? m := parse_tokens argv no_matches None in
   let? m := add_env getenv m in
   add_defaults m)%rs.

(** [Args::parse] without the exit: [argv] is the command line after
    the name of the program. *)
Definition parse (argv : list string) (getenv : string -> option string) : result t Error :=
  (let? m := get_matches argv getenv in
   match from_arg_matches (value_of m) (flag m) with
   | Some args => Ok args
   | None => Err (MissingRequiredArgument "port")
   end)%rs.

(** ** The command line of a record

    The canonical token of an option with a value ([--name=value]) and
    the token of a flag or of an option whose value follows ([--name]),
    and the command line that gives the options [given] has a value for and
    the flags [set] holds, in the order of the declarations. *)
Definition is_flag (s : Spec) : bool :=
  match takes s with
  | Flag => true
  | _ => false
  end.

Definition option_token (s : Spec) (value : string) : string :=
  "--" +:+ long s +:+ "=" +:+ value.

Definition long_token (s : Spec) : string := "--" +:+ long s.

(** The token [-c] followed by text in one token. *)
Definition short_token (c : ascii) (value : string) : string := String "-" (String c value).

(** The text attached to a short option without one [=]. *)
Definition attached_value (text : string) : string :=
  match text with
  | String c rest => if Ascii.eqb c "=" then rest else text
  | EmptyString => text
  end.

Definition tokens_of (given : string -> option string) (set : string -> bool) (s : Spec)
  : list string :=
  if is_flag s then (if set (field s) then [long_token s] else [])
  else match given (field s) with
       | Some value => [option_token s value]
       | None => []
       end.

Definition command_line (given : string -> option string) (set : string -> bool)
  : list string :=
  flat_map (tokens_of given set) specs.

(** The value an option ends with: from the command line, else from
    the environment, else the default value. *)
Definition resolved (given getenv : string -> option string) (s : Spec) : option string :=
  opt_or (given (field s)) (opt_or (env s ≫= getenv) (default_value s)).

(** The same by field name, and the record of a command line that
    gives the options [given] has a value for and sets the flags of
    [set], in the environment [getenv]. *)
Definition env_of (name : string) : option string :=
  s ← List.find (λ s, bool_decide (field s = name)) specs; env s.

Definition resolve (given getenv : string -> option string) (name : string) : option string :=
  opt_or (given name) (opt_or (env_of name ≫= getenv) (default_value_of name)).

Definition record_of (given : string -> option string) (set : string -> bool)
    (getenv : string -> option string) : option t :=
  from_arg_matches (resolve given getenv) set.

(** The values and the flags of a record, by field name. *)
Definition value_in (a : t) (name : string) : option string :=
  if bool_decide (name = "host") then host a
  else if bool_decide (name = "port") then Some (int_to_string (port a))
  else if bool_decide (name = "client_id") then client_id a
  else if bool_decide (name = "username") then username a
  else if bool_decide (name = "password") then password a
  else if bool_decide (name = "config_file") then config_file a
  else if bool_decide (name = "sensor_dump") then sensor_dump a
  else if bool_decide (name = "discovery_prefix") then Some (discovery_prefix a)
  else if bool_decide (name = "device_name") then Some (device_name a)
  else None.

Definition flag_in (a : t) (name : string) : bool :=
  if bool_decide (name = "json_output") then json_output a
  else if bool_decide (name = "skip_discovery") then skip_discovery a
  else false.

Definition to_argv (a : t) : list string := command_line (value_in a) (flag_in a).

(** The record with the options it leaves open taken from the
    environment. *)
Definition with_env (getenv : string -> option string) (a : t) : t := {|
  host := opt_or (host a) (getenv "MQTT_HOST");
  port := port a;
  client_id := opt_or (client_id a) (getenv "MQTT_CLIENT_ID");
  username := opt_or (username a) (getenv "MQTT_USER");
  password := opt_or (password a) (getenv "MQTT_PASSWORD");
  config_file := config_file a;
  sensor_dump := sensor_dump a;
  json_output := json_output a;
  discovery_prefix := discovery_prefix a;
  device_name := device_name a;
  skip_discovery := skip_discovery a;
|}.

(** ** Well-formed matches

    Every value found belongs to an option that takes one, once, and
    passes the parser of its field; every flag found is a flag. *)
Definition value_fields : list string := field <$> filter (λ s, is_flag s = false) specs.
Definition flag_fields : list string := field <$> filter (λ s, is_flag s = true) specs.

Definition matches_wf (m : Matches) : Prop :=
  NoDup (values m).*1 ∧
  Forall (λ kv, kv.1 ∈ value_fields ∧
                ∀ s, s ∈ specs -> field s = kv.1 -> value_parses s kv.2 = true) (values m) ∧
  Forall (λ name, name ∈ flag_fields) (flags m).

(** The option that waits is one that takes a value, among the
    options [ok] holds of. *)
Definition pending_on (ok : Spec -> Prop) (pending : Pending) : Prop :=
  match pending with
  | Some (s, value) => s ∈ specs ∧ is_flag s = false ∧ ok s
  | None => True
  end.

Definition pending_wf : Pending -> Prop := pending_on (λ _, True).

(** The long name of a token that is a long option, and a token that
    names only options [ok] holds of. *)
Definition long_name (token : string) : option string := fst <$> to_long token.

Definition long_on (ok : Spec -> Prop) (token : string) : Prop :=
  ∀ name s, long_name token = Some name -> find_long name = Some s -> ok s.

End Parser.

(** ** Facts *)

Section parser_facts.
Import Args Parser.
Implicit Types (s : Spec) (m : Matches) (pending : Pending) (name value token : string).

(** *** The declarations *)

Lemma specs_fields_nodup : NoDup (field <$> specs).
Proof. apply (bool_decide_unpack _). by vm_compute. Qed.

Lemma specs_field_inj s s' : s ∈ specs -> s' ∈ specs -> field s = field s' -> s = s'.
Proof.
  intros [i Hi]%list_elem_of_lookup [j Hj]%list_elem_of_lookup Heq.
  assert (i = j) as ->; [|congruence].
  eapply (NoDup_lookup (field <$> specs)); [apply specs_fields_nodup|..];
    rewrite list_lookup_fmap; [by rewrite Hi|by rewrite Hj, Heq].
Qed.

Lemma find_long_specs name s : find_long name = Some s -> s ∈ specs ∧ long s = name.
Proof.
  intros [Hin Hname%bool_decide_eq_true]%find_some. by rewrite list_elem_of_In.
Qed.

Lemma find_short_specs c s : find_short c = Some s -> s ∈ specs ∧ short s = Some c.
Proof.
  intros [Hin Hname%bool_decide_eq_true]%find_some. by rewrite list_elem_of_In.
Qed.

Lemma flags_without_env s : s ∈ specs -> is_flag s = true -> env s = None ∧ default_value s = None.
Proof.
  revert s. apply (Forall_forall (λ s, is_flag s = true -> env s = None ∧ default_value s = None)).
  apply (bool_decide_unpack _). by vm_compute.
Qed.

Lemma value_field_of s : s ∈ specs -> is_flag s = false -> field s ∈ value_fields.
Proof. intros. apply list_elem_of_fmap_2, list_elem_of_filter. done. Qed.

Lemma flag_field_of s : s ∈ specs -> is_flag s = true -> field s ∈ flag_fields.
Proof. intros. apply list_elem_of_fmap_2, list_elem_of_filter. done. Qed.

Lemma is_flag_takes s : is_flag s = match takes s with Flag => true | _ => false end.
Proof. done. Qed.

(** *** What is found *)

Lemma present_false m name :
  present m name = false <-> (name ∉ (values m).*1) ∧ (name ∉ flags m).
Proof.
  unfold present, flag. rewrite orb_false_iff, !bool_decide_eq_false. done.
Qed.

Lemma value_of_None m name : value_of m name = None <-> name ∉ (values m).*1.
Proof.
  unfold value_of. induction (values m) as [|[k v] l IH]; simpl.
  - split; [intros _ ?%elem_of_nil|]; done.
  - rewrite not_elem_of_cons. case_bool_decide as Hk; simpl in *.
    + split; [done|]. by intros [? _].
    + rewrite IH. split; [by intros; split; [congruence|]|by intros [_ ?]].
Qed.

Lemma value_of_elem m name value :
  value_of m name = Some value -> (name, value) ∈ values m.
Proof.
  unfold value_of. destruct (List.find _ _) as [[k v]|] eqn:E; [|done].
  apply find_some in E as [Hin Hk%bool_decide_eq_true]. simpl in Hk. subst k.
  intros [= <-]. by apply list_elem_of_In.
Qed.

(** *** The invariant *)

Lemma react_set_wf s value m m' :
  s ∈ specs -> is_flag s = false -> matches_wf m -> react_set s value m = Ok m' ->
  matches_wf m'.
Proof.
  intros Hs Hflag (Hnodup & Hvalues & Hflags). unfold react_set.
  destruct (present m (field s)) eqn:Hpresent; [done|].
  destruct (value_parses s value) eqn:Hvalid; [|done]. intros [= <-].
  apply present_false in Hpresent as [Hfree _]. split_and!; simpl; [| |done].
  - rewrite fmap_app. apply NoDup_app. split_and!; [done| |apply NoDup_singleton].
    by intros x Hx ->%list_elem_of_singleton.
  - apply Forall_app. split; [done|]. apply Forall_singleton. simpl.
    split; [by apply value_field_of|]. by intros s' Hs' <-%(specs_field_inj s' s).
Qed.

Lemma react_flag_wf s m m' :
  s ∈ specs -> is_flag s = true -> matches_wf m -> react_flag s m = Ok m' -> matches_wf m'.
Proof.
  intros Hs Hflag (Hnodup & Hvalues & Hflags). unfold react_flag.
  destruct (present m (field s)); [done|]. intros [= <-]. split_and!; simpl; [done..|].
  apply Forall_app. split; [done|]. by apply Forall_singleton, flag_field_of.
Qed.

(** The environment and the default values are for options that take
    a value. *)
Lemma sources_take_values (getenv : string -> option string) s :
  s ∈ specs -> is_Some (env s ≫= getenv) ∨ is_Some (default_value s) -> is_flag s = false.
Proof.
  intros Hs Hsome. destruct (is_flag s) eqn:Hkind; [|done].
  destruct (flags_without_env s) as [Henv Hdefault]; [done..|].
  rewrite Henv, Hdefault in Hsome. by destruct Hsome as [[? ?]|[? ?]].
Qed.

(** A property of the matches that every value found and every flag
    found keeps is kept by the parser; the options found may be
    restricted to those [ok] holds of, when the tokens name only such
    options (every option with a short name being one) and only such
    options have a value in the environment or a default value. *)
Section keeps_on.
Context (ok : Spec -> Prop) (I : Matches -> Prop).
Context (Hshort : ∀ c s, find_short c = Some s -> ok s).
Context (Hset : ∀ s value m m', s ∈ specs -> ok s -> is_flag s = false -> I m ->
                  react_set s value m = Ok m' -> I m').
Context (Hflag : ∀ s m m', s ∈ specs -> ok s -> is_flag s = true -> I m ->
                   react_flag s m = Ok m' -> I m').

Lemma resolve_pending_on m pending m' :
  I m -> pending_on ok pending -> resolve_pending m pending = Ok m' -> I m'.
Proof.
  intros Hm Hp. destruct pending as [[s [value|]]|]; simpl; [|done|by intros [= <-]].
  destruct Hp as (? & ? & ?). by apply Hset.
Qed.

(** A step of the parser that ends in a value found, a flag found or
    an option waiting. *)
Ltac found_keeps :=
  match goal with
  | |- result_bind (resolve_pending ?m ?p) _ = Ok _ -> _ =>
      let m1 := fresh "m" in let Hr := fresh "Hr" in
      destruct (resolve_pending m p) as [m1|] eqn:Hr; [|done];
      apply resolve_pending_on in Hr; [|done..]; cbn [result_bind]
  | |- result_bind (react_set ?s ?v ?m) _ = Ok _ -> _ =>
      let m1 := fresh "m" in let Hr := fresh "Hr" in
      destruct (react_set s v m) as [m1|] eqn:Hr; [|done];
      apply Hset in Hr; [|done..]; cbn [result_bind]
  | |- result_bind (react_flag ?s ?m) _ = Ok _ -> _ =>
      let m1 := fresh "m" in let Hr := fresh "Hr" in
      destruct (react_flag s m) as [m1|] eqn:Hr; [|done];
      apply Hflag in Hr; [|done..]; cbn [result_bind]
  end.

Lemma parse_long_arg_on name attached m pending found :
  (∀ s, find_long name = Some s -> ok s) -> I m -> pending_on ok pending ->
  parse_long_arg name attached m pending = Ok found ->
  I found.1 ∧ pending_on ok found.2.
Proof.
  intros Hname Hm Hp. unfold parse_long_arg. case_bool_decide.
  { destruct attached; [done|]. by destruct (resolve_pending m pending). }
  destruct (find_long name) as [s|] eqn:Hfind; [|done]. pose proof (Hname s eq_refl) as Hok.
  apply find_long_specs in Hfind as [Hs _]. pose proof (is_flag_takes s) as Hkind.
  destruct (takes s), attached; try done; repeat found_keeps; by intros [= <-].
Qed.

Lemma parse_short_arg_on cluster m pending found :
  I m -> pending_on ok pending ->
  parse_short_arg cluster m pending = Ok found ->
  I found.1 ∧ pending_on ok found.2.
Proof.
  revert m pending. induction cluster as [|c rest IH]; intros m pending Hm Hp; simpl.
  { by intros [= <-]. }
  case_bool_decide; [by destruct (resolve_pending m pending)|].
  destruct (find_short c) as [s|] eqn:Hfind; [|done]. pose proof (Hshort c s Hfind) as Hok.
  apply find_short_specs in Hfind as [Hs _]. pose proof (is_flag_takes s) as Hkind.
  destruct (takes s), rest; try done; repeat found_keeps; try (by intros [= <-]); by apply IH.
Qed.

Lemma parse_tokens_on tokens m pending m' :
  Forall (long_on ok) tokens -> I m -> pending_on ok pending ->
  parse_tokens tokens m pending = Ok m' -> I m'.
Proof.
  intros Htokens. revert m pending.
  induction Htokens as [|token tokens Htoken _ IH]; intros m pending Hm Hp; simpl.
  { by apply resolve_pending_on. }
  case_bool_decide; [destruct tokens; [by apply resolve_pending_on|done]|].
  unfold long_on, long_name in Htoken. destruct (to_long token) as [[name attached]|].
  { destruct (parse_long_arg _ _ _ _) as [found|] eqn:Hfound; [|done]. simpl.
    apply parse_long_arg_on in Hfound as [? ?]; [by apply IH|by intros s; apply Htoken|done..]. }
  destruct (to_short token) as [cluster|].
  { destruct (parse_short_arg _ _ _) as [found|] eqn:Hfound; [|done]. simpl.
    apply parse_short_arg_on in Hfound as [? ?]; [|done..]. by apply IH. }
  destruct pending as [[s [value|]]|]; [done| |done]. by apply IH.
Qed.

Lemma add_values_on source m m' :
  (∀ s, s ∈ specs -> is_Some (source s) -> is_flag s = false ∧ ok s) ->
  I m -> add_values source m = Ok m' -> I m'.
Proof.
  intros Hsource. unfold add_values.
  assert (∀ s, s ∈ specs -> s ∈ specs) as Hsub by done. revert Hsub.
  generalize specs at 1 3 as l. intros l. revert m m'.
  induction l as [|s l IH] using rev_ind; intros m m' Hsub Hm; simpl; [by intros [= <-]|].
  rewrite foldl_app. cbn [foldl]. unfold add_value at 1.
  destruct (foldl _ _ l) as [m1|] eqn:Hfold; [|done]. simpl.
  assert (I m1) as Hm1.
  { eapply IH; [|done..]. intros s' Hs'. apply Hsub, elem_of_app. by left. }
  assert (s ∈ specs) as Hs by (apply Hsub, elem_of_app; right; by left).
  destruct (source s) as [value|] eqn:Hvalue; [|by intros [= <-]].
  destruct (present m1 (field s)); [by intros [= <-]|].
  destruct (Hsource s Hs) as [? ?]; [by rewrite Hvalue|]. by apply Hset.
Qed.

Lemma get_matches_on argv getenv m :
  Forall (long_on ok) argv ->
  (∀ s, s ∈ specs -> is_Some (env s ≫= getenv) ∨ is_Some (default_value s) -> ok s) ->
  I no_matches -> get_matches argv getenv = Ok m -> I m.
Proof.
  intros Hargv Hsources Hstart. unfold get_matches.
  destruct (parse_tokens argv no_matches None) as [m1|] eqn:H1; [|done]. simpl.
  destruct (add_env getenv m1) as [m2|] eqn:H2; [|done]. simpl. intros H3.
  apply parse_tokens_on in H1; [|done..].
  apply add_values_on in H2; [|intros; split; eauto using sources_take_values|done].
  apply add_values_on in H3; [done| |done].
  intros; split; [|by eauto]. eapply (sources_take_values (λ _, None)); eauto.
Qed.

End keeps_on.

(** Without a restriction on the options. *)
Section keeps.
Context (I : Matches -> Prop).
Context (Hset : ∀ s value m m', s ∈ specs -> is_flag s = false -> I m ->
                  react_set s value m = Ok m' -> I m').
Context (Hflag : ∀ s m m', s ∈ specs -> is_flag s = true -> I m ->
                   react_flag s m = Ok m' -> I m').

Lemma parse_long_arg_keeps name attached m pending found :
  I m -> pending_wf pending ->
  parse_long_arg name attached m pending = Ok found ->
  I found.1 ∧ pending_wf found.2.
Proof. apply (parse_long_arg_on (λ _, True)); eauto. Qed.

Lemma parse_short_arg_keeps cluster m pending found :
  I m -> pending_wf pending ->
  parse_short_arg cluster m pending = Ok found ->
  I found.1 ∧ pending_wf found.2.
Proof. apply (parse_short_arg_on (λ _, True)); eauto. Qed.

Lemma parse_tokens_keeps tokens m pending m' :
  I m -> pending_wf pending -> parse_tokens tokens m pending = Ok m' -> I m'.
Proof. apply (parse_tokens_on (λ _, True)); eauto. by apply Forall_true. Qed.

Lemma add_values_keeps source m m' :
  (∀ s, s ∈ specs -> is_Some (source s) -> is_flag s = false) ->
  I m -> add_values source m = Ok m' -> I m'.
Proof. intros Hsource. apply (add_values_on (λ _, True)); eauto. Qed.

Lemma get_matches_keeps argv getenv m : I no_matches -> get_matches argv getenv = Ok m -> I m.
Proof. apply (get_matches_on (λ _, True)); eauto. by apply Forall_true. Qed.

End keeps.

(** The matches of a command line are well formed. *)
Lemma get_matches_wf argv getenv m : get_matches argv getenv = Ok m -> matches_wf m.
Proof.
  apply get_matches_keeps; [apply react_set_wf|apply react_flag_wf|].
  by split_and!; constructor.
Qed.

(** *** What a step adds *)

Lemma value_of_snoc m key value name :
  key ∉ (values m).*1 ->
  value_of {| values := values m ++ [(key, value)]; flags := flags m |} name
  = if bool_decide (name = key) then Some value else value_of m name.
Proof.
  intros Hkey. unfold value_of. simpl. induction (values m) as [|[k v] l IH]; simpl.
  - by repeat case_bool_decide.
  - apply not_elem_of_cons in Hkey as [Hne Hkey]. simpl in Hne.
    repeat case_bool_decide; simplify_eq/=; try done; rewrite IH by done;
      by repeat case_bool_decide.
Qed.

Lemma react_set_Ok s value m :
  present m (field s) = false -> value_parses s value = true ->
  react_set s value m = Ok {| values := values m ++ [(field s, value)]; flags := flags m |}.
Proof. unfold react_set. by intros -> ->. Qed.

Lemma react_flag_Ok s m :
  present m (field s) = false ->
  react_flag s m = Ok {| values := values m; flags := flags m ++ [field s] |}.
Proof. unfold react_flag. by intros ->. Qed.

Lemma fields_disjoint name : name ∈ value_fields -> name ∈ flag_fields -> False.
Proof.
  revert name. apply (Forall_forall (λ name, name ∈ flag_fields -> False)).
  apply (bool_decide_unpack _). by vm_compute.
Qed.

(** The field of an option that takes a value is found as a value or
    not at all. *)
Lemma present_value m s :
  matches_wf m -> s ∈ specs -> is_flag s = false ->
  present m (field s) = bool_decide (is_Some (value_of m (field s))).
Proof.
  intros (_ & _ & Hflags) Hs Hflag. unfold present, flag.
  rewrite (bool_decide_eq_false_2 (field s ∈ flags m)), orb_false_r.
  - apply bool_decide_ext. rewrite <-not_eq_None_Some, value_of_None.
    split; [by intros ? ?|]. intros Hnot. by destruct (decide (field s ∈ (values m).*1)).
  - intros Hin. eapply fields_disjoint; [by apply value_field_of|].
    by eapply Forall_forall in Hflags.
Qed.

(** One option that is not found yet takes the value the source has. *)
Lemma add_value_step source s m :
  matches_wf m -> s ∈ specs -> (is_Some (source s) -> is_flag s = false) ->
  (∀ value, source s = Some value -> value_of m (field s) = None ->
            value_parses s value = true) ->
  ∃ m',
    add_value source (Ok m) s = Ok m' ∧ flags m' = flags m ∧ matches_wf m' ∧
    value_of m' (field s) = opt_or (value_of m (field s)) (source s) ∧
    ∀ name, name ≠ field s -> value_of m' name = value_of m name.
Proof.
  intros Hm Hs Hflag Hvalid. unfold add_value. cbn [result_bind].
  destruct (source s) as [value|] eqn:Hsource.
  2: { exists m. split_and!; [done..| |done]. by destruct (value_of m (field s)). }
  rewrite present_value by auto.
  destruct (value_of m (field s)) as [w|] eqn:Hw.
  { rewrite bool_decide_eq_true_2 by done. exists m. by rewrite Hw. }
  rewrite bool_decide_eq_false_2 by (by intros [? ?]).
  assert (present m (field s) = false) as Hpresent.
  { rewrite present_value, Hw by auto. apply bool_decide_eq_false_2. by intros [? ?]. }
  rewrite react_set_Ok by auto. eexists. split; [done|].
  apply value_of_None in Hw. split_and!; [done| | |].
  - eapply react_set_wf; [done|auto|done|]. by apply react_set_Ok; auto.
  - rewrite value_of_snoc by done. by rewrite bool_decide_eq_true_2.
  - intros name Hname. rewrite value_of_snoc by done. by rewrite bool_decide_eq_false_2.
Qed.

(** The options of a list of declarations. *)
Lemma add_values_prefix source m l :
  matches_wf m -> NoDup (field <$> l) -> (∀ s, s ∈ l -> s ∈ specs) ->
  (∀ s, s ∈ specs -> is_Some (source s) -> is_flag s = false) ->
  (∀ s value, s ∈ specs -> source s = Some value -> value_of m (field s) = None ->
              value_parses s value = true) ->
  ∃ m',
    foldl (add_value source) (Ok m) l = Ok m' ∧ flags m' = flags m ∧ matches_wf m' ∧
    (∀ s, s ∈ l -> value_of m' (field s) = opt_or (value_of m (field s)) (source s)) ∧
    (∀ name, name ∉ field <$> l -> value_of m' name = value_of m name).
Proof.
  intros Hm Hnodup Hsub Hflag Hvalid. induction l as [|s l IH] using rev_ind.
  { exists m. split_and!; [done..| |done]. by intros s ?%elem_of_nil. }
  rewrite fmap_app in Hnodup. apply NoDup_app in Hnodup as (Hnodup & Hfresh & _).
  destruct IH as (m1 & Hfold & Hflags & Hm1 & Hin & Hout);
    [done|by intros s' ?; apply Hsub, elem_of_app; left|].
  assert (s ∈ specs) as Hs by (apply Hsub, elem_of_app; right; by left).
  assert (field s ∉ field <$> l) as Hs_out by (intros ?; eapply Hfresh; [done|by left]).
  destruct (add_value_step source s m1) as (m2 & Hstep & Hflags2 & Hm2 & Hat & Hother);
    [done|done|by apply Hflag|..].
  { intros value ? Hnone. rewrite Hout in Hnone by done. by eapply Hvalid. }
  exists m2. rewrite foldl_app. cbn [foldl]. rewrite Hfold. split_and!; [done|congruence|done|..].
  - intros s' [Hs'| ->%list_elem_of_singleton]%elem_of_app; [|by rewrite Hat, Hout].
    rewrite Hother, Hin; [done..|]. intros Heq. apply Hs_out. rewrite <-Heq.
    by apply list_elem_of_fmap_2.
  - intros name. rewrite fmap_app. intros [Hl Hname]%not_elem_of_app.
    rewrite Hother, Hout; [done..|]. intros ->. apply Hname. by left.
Qed.

Lemma add_values_found source m :
  matches_wf m ->
  (∀ s, s ∈ specs -> is_Some (source s) -> is_flag s = false) ->
  (∀ s value, s ∈ specs -> source s = Some value -> value_of m (field s) = None ->
              value_parses s value = true) ->
  ∃ m',
    add_values source m = Ok m' ∧ flags m' = flags m ∧ matches_wf m' ∧
    ∀ s, s ∈ specs -> value_of m' (field s) = opt_or (value_of m (field s)) (source s).
Proof.
  intros Hm Hflag Hvalid.
  destruct (add_values_prefix source m specs) as (m' & ? & ? & ? & ? & _);
    [done|apply specs_fields_nodup|done..|].
  by exists m'.
Qed.

(** *** The canonical command line *)

(** One token of it. *)
Lemma option_token_step s :
  s ∈ specs -> is_flag s = false ->
  ∀ value rest m,
    parse_tokens (option_token s value :: rest) m None
    = (let? m' := react_set s value m in parse_tokens rest m' None)%rs.
Proof.
  revert s.
  apply (Forall_forall (λ s, is_flag s = false -> ∀ value rest m,
    parse_tokens (option_token s value :: rest) m None
    = (let? m' := react_set s value m in parse_tokens rest m' None)%rs)).
  repeat (apply Forall_cons; split); [..|done]; intros Hflag value rest m; try done.
  all: match goal with
       | |- parse_tokens (option_token ?s _ :: _) _ _ = _ =>
           change (parse_tokens (option_token s value :: rest) m None)
             with (result_bind (result_bind (react_set s value m) (λ m', Ok (m', None)))
                     (λ found, parse_tokens rest found.1 found.2));
           by destruct (react_set s value m)
       end.
Qed.

Lemma long_token_step s :
  s ∈ specs -> is_flag s = true ->
  ∀ rest m pending,
    parse_tokens (long_token s :: rest) m pending
    = (let? m := resolve_pending m pending in
       let? m := react_flag s m in parse_tokens rest m None)%rs.
Proof.
  revert s.
  apply (Forall_forall (λ s, is_flag s = true -> ∀ rest m pending,
    parse_tokens (long_token s :: rest) m pending
    = (let? m := resolve_pending m pending in
       let? m := react_flag s m in parse_tokens rest m None)%rs)).
  repeat (apply Forall_cons; split); [..|done]; intros Hflag rest m pending; try done.
  all: match goal with
       | |- parse_tokens (long_token ?s :: _) _ _ = _ =>
           change (parse_tokens (long_token s :: rest) m pending)
             with (result_bind
                     (result_bind (resolve_pending m pending)
                        (λ m, result_bind (react_flag s m) (λ m, Ok (m, None))))
                     (λ found, parse_tokens rest found.1 found.2));
           destruct (resolve_pending m pending) as [m1|]; [|reflexivity];
           cbn [result_bind]; destruct (react_flag s m1); reflexivity
       end.
Qed.

Lemma flag_snoc m key name :
  flag {| values := values m; flags := flags m ++ [key] |} name
  = bool_decide (name = key) || flag m name.
Proof.
  unfold flag. simpl. apply eq_true_iff_eq.
  rewrite orb_true_iff, !bool_decide_eq_true, elem_of_app, list_elem_of_singleton. tauto.
Qed.

(** The tokens of one declaration. *)
Lemma tokens_of_step given set s rest m :
  matches_wf m -> s ∈ specs -> present m (field s) = false ->
  (∀ value, is_flag s = false -> given (field s) = Some value ->
            value_parses s value = true) ->
  ∃ m',
    parse_tokens (tokens_of given set s ++ rest) m None = parse_tokens rest m' None ∧
    matches_wf m' ∧
    value_of m' (field s) = (if is_flag s then None else given (field s)) ∧
    flag m' (field s) = is_flag s && set (field s) ∧
    ∀ name, name ≠ field s -> value_of m' name = value_of m name ∧ flag m' name = flag m name.
Proof.
  intros Hm Hs Hpresent Hvalid. pose proof Hpresent as [Hvalue Hflag]%present_false.
  assert (value_of m (field s) = None) as Hnone by by apply value_of_None.
  assert (flag m (field s) = false) as Hunset by by apply bool_decide_eq_false_2.
  unfold tokens_of. destruct (is_flag s) eqn:Hkind.
  - destruct (set (field s)); [|by exists m].
    cbn [app]. rewrite long_token_step by done. cbn [resolve_pending result_bind].
    rewrite react_flag_Ok by done. eexists. split; [done|].
    split_and!; [by eapply react_flag_wf, react_flag_Ok|done|..].
    + rewrite flag_snoc. by rewrite bool_decide_eq_true_2.
    + intros name Hname. split; [done|]. rewrite flag_snoc. by rewrite bool_decide_eq_false_2.
  - destruct (given (field s)) as [value|] eqn:Hgiven; [|by exists m].
    cbn [app]. rewrite option_token_step, react_set_Ok by auto. eexists. split; [done|].
    split_and!; [by eapply react_set_wf, react_set_Ok; auto|..].
    + rewrite value_of_snoc by done. by rewrite bool_decide_eq_true_2.
    + done.
    + intros name Hname. split; [|done]. rewrite value_of_snoc by done.
      by rewrite bool_decide_eq_false_2.
Qed.

Lemma present_same m m' name :
  value_of m' name = value_of m name -> flag m' name = flag m name ->
  present m' name = present m name.
Proof.
  intros Hvalue Hflag. unfold present. rewrite Hflag. f_equal. apply bool_decide_ext.
  destruct (decide (name ∈ (values m').*1)) as [H1|H1],
           (decide (name ∈ (values m).*1)) as [H2|H2]; [done| | |done]; exfalso.
  - apply value_of_None in H2. rewrite <-Hvalue in H2. by apply value_of_None in H2.
  - apply value_of_None in H1. rewrite Hvalue in H1. by apply value_of_None in H1.
Qed.

(** The tokens of a list of declarations. *)
Lemma command_line_prefix given set l rest m :
  matches_wf m -> NoDup (field <$> l) -> (∀ s, s ∈ l -> s ∈ specs) ->
  (∀ s, s ∈ l -> present m (field s) = false) ->
  (∀ s value, s ∈ l -> is_flag s = false -> given (field s) = Some value ->
              value_parses s value = true) ->
  ∃ m',
    parse_tokens (flat_map (tokens_of given set) l ++ rest) m None = parse_tokens rest m' None ∧
    matches_wf m' ∧
    (∀ s, s ∈ l -> value_of m' (field s) = (if is_flag s then None else given (field s)) ∧
                   flag m' (field s) = is_flag s && set (field s)) ∧
    (∀ name, name ∉ field <$> l -> value_of m' name = value_of m name ∧ flag m' name = flag m name).
Proof.
  revert m. induction l as [|s l IH]; intros m Hm Hnodup Hsub Hfree Hvalid.
  { exists m. split_and!; [done..| |done]. by intros s ?%elem_of_nil. }
  apply NoDup_cons in Hnodup as [Hs_out Hnodup]. simpl. rewrite <-app_assoc.
  destruct (tokens_of_step given set s (flat_map (tokens_of given set) l ++ rest) m)
    as (m1 & -> & Hm1 & Hvalue & Hflag & Hother);
    [done|apply Hsub; by left|apply Hfree; by left|intros; eapply Hvalid; by try left|].
  assert (∀ s', s' ∈ l -> field s' ≠ field s) as Hne.
  { intros s' Hs' Heq. apply Hs_out. rewrite <-Heq. by apply list_elem_of_fmap_2. }
  destruct (IH m1) as (m2 & -> & Hm2 & Hin & Hout); [done|done|..].
  { intros s' ?. apply Hsub. by right. }
  { intros s' Hs'. destruct (Hother (field s')) as [? ?]; [by apply Hne|].
    rewrite (present_same m m1) by done. apply Hfree. by right. }
  { intros s' value ?. apply Hvalid. by right. }
  exists m2. split_and!; [done..| |].
  - intros s' [->|Hs']%elem_of_cons; [|by apply Hin].
    destruct (Hout (field s)) as [-> ->]; done.
  - intros name [Hname Hl]%not_elem_of_cons.
    destruct (Hout name) as [-> ->]; [done|]. by apply Hother.
Qed.

Lemma defaults_valid s value :
  s ∈ specs -> default_value s = Some value -> value_parses s value = true.
Proof.
  revert s value.
  enough (Forall (λ s, ∀ value, default_value s = Some value ->
                        value_parses s value = true) specs) as H
    by (intros s value Hs; apply (proj1 (Forall_forall _ _) H s Hs)).
  repeat (apply Forall_cons; split); [..|done]; by intros value [= <-].
Qed.

Lemma parse_u16_int_to_string (n : Z) : 0 ≤ n < 65536 -> parse_u16 (int_to_string n) = Some n.
Proof.
  intros Hn. unfold parse_u16.
  rewrite parse_i64_int_to_string by (unfold in_i64, i64_min, i64_max; lia).
  simpl. by rewrite option_guard_True by lia.
Qed.

(** The canonical command line is parsed, and every option ends with
    the value of the command line, else of the environment, else the
    default value. *)
Lemma get_matches_command_line given set getenv :
  (∀ s value, s ∈ specs -> is_flag s = false -> given (field s) = Some value ->
              value_parses s value = true) ->
  (∀ s value, s ∈ specs -> given (field s) = None -> env s ≫= getenv = Some value ->
              value_parses s value = true) ->
  ∃ m,
    get_matches (command_line given set) getenv = Ok m ∧
    ∀ s, s ∈ specs ->
      value_of m (field s) = (if is_flag s then None else resolved given getenv s) ∧
      flag m (field s) = is_flag s && set (field s).
Proof.
  intros Hgiven Henv. unfold get_matches, command_line, add_env, add_defaults.
  destruct (command_line_prefix given set specs [] no_matches)
    as (m1 & H1 & Hm1 & Hin1 & _);
    [by split_and!; constructor|apply specs_fields_nodup|done|done|by eauto|].
  rewrite app_nil_r in H1. rewrite H1. cbn [parse_tokens resolve_pending result_bind].
  assert (∀ s, s ∈ specs -> is_Some (env s ≫= getenv) -> is_flag s = false) as Hkind.
  { intros s Hs [v Hv]. destruct (is_flag s) eqn:Hflag; [|done].
    apply flags_without_env in Hflag as [Hnone _]; [|done]. by rewrite Hnone in Hv. }
  destruct (add_values_found (λ s, env s ≫= getenv) m1) as (m2 & -> & Hflags2 & Hm2 & Hin2);
    [done|done|..].
  { intros s value Hs Hsource Hnone. eapply Henv; [done| |done].
    destruct (Hin1 s Hs) as [Hvalue _]. rewrite Hnone in Hvalue.
    by rewrite (Hkind s Hs) in Hvalue by by rewrite Hsource. }
  cbn [result_bind].
  destruct (add_values_found default_value m2) as (m3 & -> & Hflags3 & _ & Hin3); [done|..].
  { intros s Hs [v Hv]. unfold default_value, is_flag in *. by destruct (takes s). }
  { intros s value Hs ? _. by apply defaults_valid. }
  exists m3. split; [done|]. intros s Hs.
  destruct (Hin1 s Hs) as [Hvalue Hflag]. rewrite Hin3, Hin2, Hvalue by done. split.
  - destruct (is_flag s) eqn:Hkind'; [|unfold resolved; by destruct (given (field s))].
    by destruct (flags_without_env s) as [-> ->].
  - rewrite <-Hflag. unfold flag. by rewrite Hflags3, Hflags2.
Qed.

Lemma resolve_field given getenv s :
  s ∈ specs -> resolve given getenv (field s) = resolved given getenv s.
Proof.
  revert s. apply (Forall_forall (λ s, resolve _ _ (field s) = resolved _ _ s)).
  by repeat (apply Forall_cons; split).
Qed.

(** The record is built from the values of the options that take one
    and from the flags. *)
Lemma matches_record m (value : string -> option string) (set : string -> bool) :
  (∀ s, s ∈ specs ->
     (is_flag s = false -> value_of m (field s) = value (field s)) ∧
     (is_flag s = true -> flag m (field s) = set (field s))) ->
  from_arg_matches (value_of m) (flag m) = from_arg_matches value set.
Proof.
  intros Hobs. apply Forall_forall in Hobs.
  repeat (apply Forall_cons in Hobs as [[? ?] Hobs]). unfold from_arg_matches. simpl in *.
  repeat match goal with
         | H : _ -> value_of m _ = _ |- _ => rewrite H by done; clear H
         | H : _ -> flag m _ = _ |- _ => rewrite H by done; clear H
         end.
  done.
Qed.

(** The canonical command line gives the record of its options. *)
Lemma parse_command_line given set getenv :
  (∀ s value, s ∈ specs -> is_flag s = false -> given (field s) = Some value ->
              value_parses s value = true) ->
  (∀ s value, s ∈ specs -> given (field s) = None -> env s ≫= getenv = Some value ->
              value_parses s value = true) ->
  parse (command_line given set) getenv
  = from_option Ok (Err (MissingRequiredArgument "port")) (record_of given set getenv).
Proof.
  intros Hgiven Henv.
  destruct (get_matches_command_line given set getenv) as (m & Hm & Hobs); [done..|].
  unfold parse, record_of. rewrite Hm. cbn [result_bind].
  rewrite (matches_record m (resolve given getenv) set); [by destruct (from_arg_matches _ _)|].
  intros s Hs. destruct (Hobs s Hs) as [Hvalue Hflag]. rewrite Hvalue, Hflag, resolve_field by done.
  split; by intros ->.
Qed.

(** A value of the environment that does not parse ends the parse. *)
Lemma add_value_rejected source s m value :
  source s = Some value -> present m (field s) = false -> value_parses s value = false ->
  add_value source (Ok m) s = Err (value_error s value).
Proof. unfold add_value, react_set. cbn [result_bind]. by intros -> -> ->. Qed.

Lemma add_value_Err source e (l : list Spec) : foldl (add_value source) (Err e) l = Err e.
Proof. by induction l. Qed.

(** Every text is a [String]. *)
Lemma text_parses s value : ty s = Text -> value_parses s value = true.
Proof. unfold value_parses. by intros ->. Qed.

(** *** What is found stays found *)

Lemma present_snoc_value m key value name :
  present m name = true ->
  present {| values := values m ++ [(key, value)]; flags := flags m |} name = true.
Proof.
  unfold present, flag. simpl. rewrite !orb_true_iff, !bool_decide_eq_true, fmap_app, elem_of_app.
  tauto.
Qed.

Lemma add_value_present source s m m' :
  add_value source (Ok m) s = Ok m' ->
  (is_Some (source s) -> present m' (field s) = true) ∧
  ∀ name, present m name = true -> present m' name = true.
Proof.
  unfold add_value, react_set. cbn [result_bind].
  destruct (source s) as [value|]; [|intros [= <-]; split; [by intros [? ?]|done]].
  destruct (present m (field s)) eqn:Hpresent; [by intros [= <-]|].
  destruct (value_parses _ _); [|done]. intros [= <-]. split.
  - intros _. unfold present. simpl. rewrite fmap_app, orb_true_iff, bool_decide_eq_true.
    left. apply elem_of_app. right. by left.
  - intros name. apply present_snoc_value.
Qed.

Lemma add_values_present source m m' s :
  add_values source m = Ok m' -> s ∈ specs -> is_Some (source s) ->
  present m' (field s) = true.
Proof.
  unfold add_values. generalize specs as l. intros l. revert m'.
  induction l as [|s' l IH] using rev_ind; intros m' Hfold Hs Hsome.
  { by apply elem_of_nil in Hs. }
  rewrite foldl_app in Hfold. cbn [foldl] in Hfold.
  destruct (foldl _ _ l) as [m1|] eqn:Hl; [|done].
  apply add_value_present in Hfold as [Hat Hkeep].
  apply elem_of_app in Hs as [Hs| ->%list_elem_of_singleton]; [|by apply Hat].
  by apply Hkeep, IH.
Qed.

(** A value found has passed its parser. *)
Lemma value_of_valid m s value :
  matches_wf m -> s ∈ specs -> value_of m (field s) = Some value ->
  value_parses s value = true.
Proof.
  intros (_ & Hvalues & _) Hs Hin%value_of_elem.
  by apply (proj1 (Forall_forall _ _) Hvalues _ Hin).
Qed.

(** After the default values, an option that has one is found. *)
Lemma get_matches_defaulted argv getenv m s :
  get_matches argv getenv = Ok m -> s ∈ specs -> is_Some (default_value s) ->
  ∃ value, value_of m (field s) = Some value ∧ value_parses s value = true.
Proof.
  intros Hm Hs Hdefault. pose proof (get_matches_wf _ _ _ Hm) as Hwf.
  assert (is_flag s = false) as Hkind.
  { destruct Hdefault as [v Hv]. unfold default_value, is_flag in *. by destruct (takes s). }
  unfold get_matches in Hm.
  destruct (parse_tokens _ _ _) as [m1|]; [|done]. cbn [result_bind] in Hm.
  destruct (add_env getenv m1) as [m2|]; [|done]. cbn [result_bind] in Hm.
  eapply add_values_present in Hm; [|done..].
  rewrite present_value in Hm by done. apply bool_decide_eq_true in Hm as [value Hvalue].
  exists value. split; [done|]. by eapply value_of_valid.
Qed.

(** A command line that passes the parser gives a record: the options
    with a default value are found, so the construction of the record
    never fails, and its port is a [u16]. *)
Lemma parse_total argv getenv m :
  get_matches argv getenv = Ok m -> ∃ a, parse argv getenv = Ok a ∧ 0 ≤ port a < 65536.
Proof.
  intros Hm. unfold parse. rewrite Hm. cbn [result_bind]. unfold from_arg_matches.
  destruct (get_matches_defaulted argv getenv m (Build_Spec "port" ShortOfField
              (Some "MQTT_PORT") (Defaulted "1883") U16)) as (port & Hfound1 & Hport);
    [done|by repeat constructor|done|].
  destruct (get_matches_defaulted argv getenv m (Build_Spec "discovery_prefix" NoShort None
              (Defaulted "homeassistant") Text)) as (prefix & Hfound2 & _);
    [done|by repeat constructor|done|].
  destruct (get_matches_defaulted argv getenv m (Build_Spec "device_name" NoShort None
              (Defaulted "unraid") Text)) as (name & Hfound3 & _);
    [done|by repeat constructor|done|].
  simpl in *. rewrite Hfound1, Hfound2, Hfound3.
  apply bool_decide_eq_true in Hport as [n Hn]. simpl. rewrite Hn. simpl.
  eexists. split; [done|]. simpl. unfold parse_u16 in Hn.
  destruct (parse_i64 port); simplify_option_eq; lia.
Qed.

(** *** A value that looks like an option *)

Lemma hyphen_token token :
  Str.starts_with token "-" = true -> token ≠ "-" ->
  token = "--" ∨ is_Some (to_long token) ∨ is_Some (to_short token).
Proof.
  destruct token as [|c r]; [done|]. intros Hstart Hne.
  assert (c = "-"%char) as ->.
  { unfold Str.starts_with in Hstart. cbn [String.prefix] in Hstart.
    by destruct (ascii_dec "-" c). }
  destruct r as [|c' r']; [done|]. destruct (Ascii.eqb c' "-") eqn:Hc'.
  - apply Ascii.eqb_eq in Hc' as ->. destruct r'; [by left|right; by left].
  - right. right. unfold to_short. by rewrite Hc'.
Qed.

Lemma to_short_cons token cluster :
  to_short token = Some cluster -> ∃ c rest, cluster = String c rest.
Proof. unfold to_short. intros. repeat case_match; simplify_eq; eauto. Qed.

Lemma parse_long_arg_waiting name attached m s :
  ∃ e, parse_long_arg name attached m (Some (s, None)) = Err e.
Proof.
  unfold parse_long_arg. case_bool_decide; [destruct attached; by eexists|].
  destruct (find_long name) as [s'|]; [|by eexists].
  destruct (takes s'), attached; by eexists.
Qed.

Lemma parse_short_arg_waiting c rest m s :
  ∃ e, parse_short_arg (String c rest) m (Some (s, None)) = Err e.
Proof.
  simpl. case_bool_decide; [by eexists|].
  destruct (find_short c) as [s'|]; [|by eexists].
  destruct (takes s'), rest; by eexists.
Qed.

Lemma long_token_waits s :
  s ∈ specs -> is_flag s = false ->
  ∀ rest m, parse_tokens (long_token s :: rest) m None = parse_tokens rest m (Some (s, None)).
Proof.
  revert s.
  apply (Forall_forall (λ s, is_flag s = false -> ∀ rest m,
    parse_tokens (long_token s :: rest) m None = parse_tokens rest m (Some (s, None)))).
  repeat (apply Forall_cons; split); [..|done]; by intros Hflag rest m.
Qed.

(** *** A flag on the command line *)

Lemma flag_kept_by_value name s value m m' :
  flag m name = true -> react_set s value m = Ok m' -> flag m' name = true.
Proof.
  unfold react_set. destruct (present _ _); [done|]. destruct (value_parses _ _); [|done].
  by intros ? [= <-].
Qed.

Lemma flag_kept_by_flag name s m m' :
  flag m name = true -> react_flag s m = Ok m' -> flag m' name = true.
Proof.
  unfold react_flag. destruct (present _ _); [done|]. intros Hset [= <-].
  by rewrite flag_snoc, Hset, orb_true_r.
Qed.

Lemma react_flag_sets s m m' : react_flag s m = Ok m' -> flag m' (field s) = true.
Proof.
  unfold react_flag. destruct (present _ _); [done|]. intros [= <-].
  by rewrite flag_snoc, bool_decide_eq_true_2.
Qed.

(** A flag that is a token of a command line the parser accepts is
    set. *)
Lemma parse_tokens_flag s tokens m pending m' :
  s ∈ specs -> is_flag s = true -> pending_wf pending -> long_token s ∈ tokens ->
  parse_tokens tokens m pending = Ok m' -> flag m' (field s) = true.
Proof.
  intros Hs Hkind. revert m pending.
  induction tokens as [|token tokens IH]; intros m pending Hp Hin; [by apply elem_of_nil in Hin|].
  apply elem_of_cons in Hin as [<-|Hin].
  { rewrite long_token_step by done.
    destruct (resolve_pending m pending) as [m1|]; [|done]. cbn [result_bind].
    destruct (react_flag s m1) as [m2|] eqn:Hm2; [|done]. cbn [result_bind].
    apply (parse_tokens_keeps (λ m, flag m (field s) = true));
      [eauto using flag_kept_by_value|eauto using flag_kept_by_flag|
       by eapply react_flag_sets|done]. }
  simpl. case_bool_decide; [destruct tokens; [by apply elem_of_nil in Hin|done]|].
  destruct (to_long token) as [[name attached]|].
  { destruct (parse_long_arg _ _ _ _) as [found|] eqn:Hfound; [|done]. simpl.
    apply (parse_long_arg_keeps (λ _, True)) in Hfound as [_ ?]; [|done..]. by apply IH. }
  destruct (to_short token) as [cluster|].
  { destruct (parse_short_arg _ _ _) as [found|] eqn:Hfound; [|done]. simpl.
    apply (parse_short_arg_keeps (λ _, True)) in Hfound as [_ ?]; [|done..]. by apply IH. }
  destruct pending as [[s' [value|]]|]; [done| |done]. by apply IH.
Qed.

Lemma from_arg_matches_flags value_of flag a s :
  s ∈ specs -> is_flag s = true -> from_arg_matches value_of flag = Some a ->
  flag_in a (field s) = flag (field s).
Proof.
  intros Hs Hkind. unfold from_arg_matches. intros; simplify_option_eq.
  revert s Hs Hkind. apply (Forall_forall (λ s, is_flag s = true -> _ = flag (field s))).
  repeat (apply Forall_cons; split); [..|done]; by intros [=].
Qed.

Lemma flag_given s argv getenv a :
  s ∈ specs -> is_flag s = true -> long_token s ∈ argv -> parse argv getenv = Ok a ->
  flag_in a (field s) = true.
Proof.
  intros Hs Hkind Hin. unfold parse.
  destruct (get_matches argv getenv) as [m|] eqn:Hm; [|done]. cbn [result_bind].
  destruct (from_arg_matches _ _) as [a'|] eqn:Ha; [|done]. intros [= <-].
  rewrite (from_arg_matches_flags _ _ _ _ Hs Hkind Ha). unfold get_matches in Hm.
  destruct (parse_tokens argv no_matches None) as [m1|] eqn:H1; [|done].
  apply (parse_tokens_flag s) in H1; [|done..]. cbn [result_bind] in Hm.
  destruct (add_env getenv m1) as [m2|] eqn:H2; [|done]. cbn [result_bind] in Hm.
  apply (add_values_keeps (λ m, flag m (field s) = true)) in H2;
    [|eauto using flag_kept_by_value|intros; eapply sources_take_values; eauto|done].
  apply (add_values_keeps (λ m, flag m (field s) = true)) in Hm;
    [done|eauto using flag_kept_by_value| |done].
  intros. eapply (sources_take_values (λ _, None)); eauto.
Qed.

(** *** An option the command line does not name *)

Lemma react_set_other t s value m m' :
  s ∈ specs -> t ∈ specs -> s ≠ t -> present m (field t) = false ->
  react_set s value m = Ok m' -> present m' (field t) = false.
Proof.
  intros Hs Ht Hne Hm. unfold react_set. destruct (present m (field s)); [done|].
  destruct (value_parses s value); [|done]. intros [= <-].
  apply present_false in Hm as [Hvalue Hflag]. apply present_false. simpl.
  split; [|done]. rewrite fmap_app. apply not_elem_of_app. split; [done|].
  intros ->%list_elem_of_singleton%(specs_field_inj t s); done.
Qed.

Lemma react_flag_other t s m m' :
  s ∈ specs -> t ∈ specs -> s ≠ t -> present m (field t) = false ->
  react_flag s m = Ok m' -> present m' (field t) = false.
Proof.
  intros Hs Ht Hne Hm. unfold react_flag. destruct (present m (field s)); [done|].
  intros [= <-]. apply present_false in Hm as [Hvalue Hflag]. apply present_false. simpl.
  split; [done|]. apply not_elem_of_app. split; [done|].
  intros ->%list_elem_of_singleton%(specs_field_inj t s); done.
Qed.

(** An option without a short name, an environment variable and a
    default value is found only when a token names it. *)
Lemma not_named_not_found t argv getenv m :
  t ∈ specs -> short t = None -> env t = None -> default_value t = None ->
  Forall (λ token, long_name token ≠ Some (long t)) argv ->
  get_matches argv getenv = Ok m -> present m (field t) = false.
Proof.
  intros Ht Hshort Henv Hdefault Hargv.
  apply (get_matches_on (λ s, s ≠ t) (λ m, present m (field t) = false)).
  - intros c s [_ Hs]%find_short_specs ->. congruence.
  - intros s value m1 m2 ? ? _. by apply react_set_other.
  - intros s m1 m2 ? ? _. by apply react_flag_other.
  - eapply Forall_impl; [exact Hargv|]. intros token Hne name s Hname [_ Hlong]%find_long_specs ->.
    apply Hne. by rewrite Hname, Hlong.
  - intros s Hs [[v Hv]|[v Hv]] ->; [by rewrite Henv in Hv|by rewrite Hdefault in Hv].
  - done.
Qed.

(** The two options that select the mode of a run are such options:
    without a token that names them the record has no dump path and
    the JSON mode is off, whatever the environment. *)
Lemma modes_not_named argv getenv a :
  Forall (λ token, long_name token ∉ [Some "json-output"; Some "sensor-dump"]) argv ->
  parse argv getenv = Ok a -> json_output a = false ∧ sensor_dump a = None.
Proof.
  intros Hargv. unfold parse.
  destruct (get_matches argv getenv) as [m|] eqn:Hm; [|done]. cbn [result_bind].
  destruct (from_arg_matches _ _) as [a'|] eqn:Ha; [|done]. intros [= <-].
  unfold from_arg_matches in Ha. simplify_option_eq. simpl.
  pose proof (not_named_not_found (Build_Spec "json_output" NoShort None Flag Bool)
                argv getenv m) as Hjson.
  pose proof (not_named_not_found (Build_Spec "sensor_dump" NoShort None Optional PathBuf)
                argv getenv m) as Hdump.
  simpl in Hjson, Hdump. split.
  - apply orb_false_iff in Hjson as [_ ?]; [done|by repeat constructor|done..| |done].
    eapply Forall_impl; [exact Hargv|]. intros token Hnot Heq. apply Hnot. rewrite Heq. by left.
  - apply value_of_None.
    apply present_false in Hdump as [? _]; [done|by repeat constructor|done..| |done].
    eapply Forall_impl; [exact Hargv|]. intros token Hnot Heq. apply Hnot. rewrite Heq.
    right. by left.
Qed.

(** *** The forms of an option *)

(** The short form of an option with its value attached ([-Hbroker],
    [-H=broker]) reads as the long form [--host=broker]. *)
Lemma short_form_attached s c :
  s ∈ specs -> short s = Some c ->
  ∀ c' text rest m pending,
    parse_tokens (short_token c (String c' text) :: rest) m pending
    = parse_tokens (option_token s (attached_value (String c' text)) :: rest) m pending.
Proof.
  intros Hs. revert s Hs c.
  apply (Forall_forall (λ s, ∀ c, short s = Some c -> ∀ c' text rest m pending,
    parse_tokens (short_token c (String c' text) :: rest) m pending
    = parse_tokens (option_token s (attached_value (String c' text)) :: rest) m pending)).
  repeat (apply Forall_cons; split); [..|done]; by intros c [= <-].
Qed.

(** The short form of an option whose value follows ([-H broker]) reads
    as the long form [--host broker]. *)
Lemma short_form_waiting s c :
  s ∈ specs -> short s = Some c ->
  ∀ rest m pending,
    parse_tokens (short_token c "" :: rest) m pending
    = parse_tokens (long_token s :: rest) m pending.
Proof.
  intros Hs. revert s Hs c.
  apply (Forall_forall (λ s, ∀ c, short s = Some c -> ∀ rest m pending,
    parse_tokens (short_token c "" :: rest) m pending
    = parse_tokens (long_token s :: rest) m pending)).
  repeat (apply Forall_cons; split); [..|done]; by intros c [= <-].
Qed.

End parser_facts.

Section parser_properties.
Import Args Parser.

(** The values of a record pass the parsers of their fields when its
    port is a [u16] and its paths are not empty, and the environment
    has nothing to say about the port of a record. *)
Lemma record_values_parse (a : Args.t) s value :
  0 ≤ port a < 65536 -> config_file a ≠ Some "" -> sensor_dump a ≠ Some "" ->
  s ∈ specs -> value_in a (field s) = Some value -> value_parses s value = true.
Proof.
  intros Hport Hconfig Hdump Hs. revert s Hs value.
  apply (Forall_forall (λ s, ∀ value, value_in a (field s) = Some value -> _)).
  repeat (apply Forall_cons; split); [..|done]; intros value; try done;
    unfold value_parses; simpl.
  - intros [= <-]. by rewrite parse_u16_int_to_string, bool_decide_eq_true_2.
  - intros Hvalue. apply negb_true_iff, bool_decide_eq_false. by intros ->.
  - intros Hvalue. apply negb_true_iff, bool_decide_eq_false. by intros ->.
Qed.

Lemma record_env_parses (a : Args.t) (getenv : string -> option string) s value :
  s ∈ specs -> value_in a (field s) = None -> env s ≫= getenv = Some value ->
  value_parses s value = true.
Proof.
  intros Hs. revert s Hs value.
  apply (Forall_forall (λ s, ∀ value, value_in a (field s) = None -> _ -> _)).
  by repeat (apply Forall_cons; split).
Qed.

(** C17: the command line that spells out a record, one [--name=value]
    per option that has a value and one [--name] per flag that is set,
    is parsed as that record, whatever the environment holds: the
    command line wins over the environment and the default values.  The
    options the record leaves open are taken from the environment where
    their declaration names a variable.  The record is one the program
    can get: its port is a [u16], and its paths are not empty, for an
    empty text is no [PathBuf] to the parser. *)
Theorem parse_to_argv (a : Args.t) getenv :
  0 ≤ port a < 65536 -> config_file a ≠ Some "" -> sensor_dump a ≠ Some "" ->
  parse (to_argv a) getenv = Ok (with_env getenv a).
Proof.
  intros Hport Hconfig Hdump. unfold to_argv.
  rewrite parse_command_line
    by eauto using record_values_parse, record_env_parses.
  unfold record_of, from_arg_matches, resolve, with_env. simpl.
  rewrite parse_u16_int_to_string by done.
  destruct a as [host ? client_id username password config_file sensor_dump ? ? ? ?]. simpl.
  do 2 f_equal; try done.
  - by destruct host, (getenv "MQTT_HOST").
  - by destruct client_id, (getenv "MQTT_CLIENT_ID").
  - by destruct username, (getenv "MQTT_USER").
  - by destruct password, (getenv "MQTT_PASSWORD").
  - by destruct config_file.
  - by destruct sensor_dump.
Qed.

(** An empty path is rejected where it is found, as a value that was
    not supplied. *)
Lemma empty_path_rejected s rest getenv :
  s ∈ specs -> ty s = PathBuf ->
  parse (option_token s "" :: rest) getenv = Err (InvalidValue (field s)).
Proof.
  intros Hs Hty. unfold parse, get_matches.
  assert (is_flag s = false) as Hflag.
  { revert s Hs Hty. apply (Forall_forall (λ s, ty s = PathBuf -> is_flag s = false)).
    by repeat (apply Forall_cons; split). }
  rewrite option_token_step by done. unfold react_set, value_parses, value_error.
  by rewrite Hty.
Qed.

(** C19: a run without options takes every option from the environment
    and the default values: the broker's host, client id, user and
    password are what the variables [MQTT_HOST], [MQTT_CLIENT_ID],
    [MQTT_USER] and [MQTT_PASSWORD] hold, if anything; the port is the
    [u16] that [MQTT_PORT] holds, 1883 without the variable; there is
    no configuration file and no dump, the run is a broker run with
    discovery, under [homeassistant] and as device [unraid].  When
    [MQTT_PORT] holds a text that is not a [u16] the run ends with the
    error of the value. *)
Theorem parse_without_options getenv :
  parse [] getenv =
    let text := from_option id "1883" (getenv "MQTT_PORT") in
    match parse_u16 text with
    | Some port =>
        Ok {| host := getenv "MQTT_HOST"; port := port;
              client_id := getenv "MQTT_CLIENT_ID"; username := getenv "MQTT_USER";
              password := getenv "MQTT_PASSWORD"; config_file := None; sensor_dump := None;
              json_output := false; discovery_prefix := "homeassistant";
              device_name := "unraid"; skip_discovery := false |}
    | None => Err (ValueValidation "port" text)
    end.
Proof.
  cbv zeta. destruct (parse_u16 (from_option id "1883" (getenv "MQTT_PORT"))) as [port|] eqn:Hport.
  - change [] with (command_line (λ _, None) (λ _, false)).
    rewrite parse_command_line.
    + unfold record_of, from_arg_matches, resolve, default_value_of, env_of. simpl.
      replace (opt_or (getenv "MQTT_PORT") (Some "1883"))
        with (Some (from_option id "1883" (getenv "MQTT_PORT")))
        by by destruct (getenv "MQTT_PORT").
      cbn [mbind option_bind]. rewrite Hport. simpl. by rewrite !opt_or_None_r.
    + done.
    + intros s value Hs _. revert s Hs value.
      apply (Forall_forall (λ s, ∀ value, env s ≫= getenv = Some value -> _)).
      repeat (apply Forall_cons; split); [..|done]; intros value; try done.
      unfold value_parses. simpl. intros Hvalue. rewrite Hvalue in Hport. simpl in Hport.
      by rewrite Hport, bool_decide_eq_true_2.
  - destruct (getenv "MQTT_PORT") as [text|] eqn:Htext; [|done]. simpl in Hport.
    unfold parse, get_matches, add_env, add_values. cbn [parse_tokens resolve_pending result_bind].
    change specs with ([Build_Spec "host" (ShortChar "H") (Some "MQTT_HOST") Optional Text;
                        Build_Spec "port" ShortOfField (Some "MQTT_PORT") (Defaulted "1883") U16]
                       ++ drop 2 specs).
    rewrite foldl_app. cbn [foldl app].
    destruct (add_value_step (λ s, env s ≫= getenv)
                (Build_Spec "host" (ShortChar "H") (Some "MQTT_HOST") Optional Text) no_matches)
      as (m1 & -> & _ & Hm1 & _ & Hother);
      [by split_and!; constructor|by repeat constructor|done|by intros; apply text_parses|].
    erewrite add_value_rejected; [|exact Htext| |].
    + by rewrite add_value_Err.
    + rewrite present_value by (done || by repeat constructor).
      by rewrite Hother.
    + unfold value_parses. simpl. by rewrite Hport.
Qed.

(** C20: the value of an option cannot begin with a hyphen when it is
    given as the token after the option: whatever the option and
    whatever follows, the command line is rejected, unless the value is
    the single hyphen.  Such a value, a password for one, can only be
    given attached ([--password=-secret]) or through the
    environment. *)
Theorem hyphen_value_rejected s value rest getenv :
  s ∈ specs -> is_flag s = false -> Str.starts_with value "-" = true -> value ≠ "-" ->
  ∃ e, parse (long_token s :: value :: rest) getenv = Err e.
Proof.
  intros Hs Hflag Hhyphen Hvalue. unfold parse, get_matches.
  enough (∃ e, parse_tokens (long_token s :: value :: rest) no_matches None = Err e)
    as [e ->] by by eexists.
  rewrite long_token_waits by done. cbn [parse_tokens].
  destruct (hyphen_token value) as [->|[[[name attached] ->]|[cluster Hcluster]]]; [done..| | |].
  - rewrite bool_decide_eq_true_2 by done. destruct rest; by eexists.
  - case_bool_decide; [destruct rest; by eexists|].
    destruct (parse_long_arg_waiting name attached no_matches s) as [e ->]. by eexists.
  - case_bool_decide; [destruct rest; by eexists|]. pose proof Hcluster as Hshort.
    rewrite Hcluster. destruct (to_long value) as [[name attached]|].
    + destruct (parse_long_arg_waiting name attached no_matches s) as [e ->]. by eexists.
    + apply to_short_cons in Hshort as (c & r & ->).
      destruct (parse_short_arg_waiting c r no_matches s) as [e ->]. by eexists.
Qed.

End parser_properties.

(** The options of a run in JSON mode with a configuration file, on a
    host whose environment names a broker. *)
Definition example_record : Args.t := {|
  Args.host := None;
  Args.port := 1883;
  Args.client_id := None;
  Args.username := None;
  Args.password := None;
  Args.config_file := Some "sensors.toml";
  Args.sensor_dump := None;
  Args.json_output := true;
  Args.discovery_prefix := "homeassistant";
  Args.device_name := "tower";
  Args.skip_discovery := false;
|}.

Definition example_env (name : string) : option string :=
  if bool_decide (name = "MQTT_HOST") then Some "broker.lan"
  else if bool_decide (name = "MQTT_PORT") then Some "8883"
  else None.

Lemma parse_to_argv_witness :
  Parser.parse (Parser.to_argv example_record) example_env
  = Ok (Parser.with_env example_env example_record).
Proof. by apply (parse_to_argv example_record example_env). Defined.

Example example_argv :
  Parser.to_argv example_record
  = ["--port=1883"; "--config-file=sensors.toml"; "--json-output";
     "--discovery-prefix=homeassistant"; "--device-name=tower"].
Proof. by vm_compute. Qed.

Lemma hyphen_value_rejected_witness :
  ∃ e, Parser.parse ["--password"; "-secret"; "--json-output"] example_env = Err e.
Proof.
  apply (hyphen_value_rejected
           (Args.Build_Spec "password" (Args.ShortChar "P") (Some "MQTT_PASSWORD") Args.Optional
              Args.Text)
           "-secret" ["--json-output"] example_env); [by repeat constructor|done..].
Defined.

(** The same password attached to its option, and the short forms. *)
Example hyphen_value_attached :
  Parser.parse ["--password=-secret"; "-H"; "broker"; "-p8883"] (λ _, None)
  = Ok (Args.mk (Some "broker") 8883 None None (Some "-secret") None None false
                "homeassistant" "unraid" false) ∧
  Parser.parse ["-P=-secret"] (λ _, None)
  = Ok (Args.mk None 1883 None None (Some "-secret") None None false
                "homeassistant" "unraid" false).
Proof. by vm_compute. Qed.

(** Help is shown where the parser meets it, also before the
    environment is read. *)
Example help_is_shown :
  Parser.parse ["--json-output"; "-h"; "--bogus"] (λ _, Some "x") = Err Parser.DisplayHelp ∧
  Parser.exit_code Parser.DisplayHelp = 0 ∧
  Parser.parse ["--port"; "x"; "--help"] (λ _, None) = Err (Parser.ValueValidation "port" "x").
Proof. by vm_compute. Qed.

(** The environment gives what the command line leaves open, and a
    port of the environment is parsed too. *)
Example environment_is_read :
  Parser.parse [] example_env
  = Ok (Args.mk (Some "broker.lan") 8883 None None None None None false
                "homeassistant" "unraid" false) ∧
  Parser.parse [] (λ _, Some "x") = Err (Parser.ValueValidation "port" "x").
Proof. by vm_compute. Qed.

(** An empty text is no path, attached or as the next token, and it
    is a host. *)
Example empty_path_is_rejected :
  Parser.parse ["--config-file="] (λ _, None) = Err (Parser.InvalidValue "config_file") ∧
  Parser.parse ["--sensor-dump"; ""] (λ _, None) = Err (Parser.InvalidValue "sensor_dump") ∧
  Parser.parse ["--host="] (λ _, None)
  = Ok (Args.mk (Some "") 1883 None None None None None false "homeassistant" "unraid" false).
Proof. by vm_compute. Qed.
