(* ===== verification/Mqtt.v ===== *)
(** [src/src/mqtt_config.rs]: the broker settings resolved from the
    arguments, and the options the session is opened with. *)

From Stdlib Require Import ZArith String.
From stdpp Require Import base tactics option list strings.
From S2P Require Import Prelude RustStr RustNum World Cli.

Local Open Scope Z_scope.

Module MqttConfig.

Record t := mk {
  host : string;
  port : Z;
  client_id : string;
  username : string;
  password : string;
}.

Definition is_empty (s : string) : bool := bool_decide (s = "").

Definition host_required : string :=
  "MQTT host is required. Set via --host, MQTT_HOST env var, or config file".

(** [MqttConfig::from_args_and_file]: each setting the arguments carry
    replaces the empty default; a missing host is an error; a missing
    client id is made from the process id. *)
Definition from_args_and_file (args : Args.t) : M (result t string) :=
  let config := {|
    host := "";
    port := Args.port args;
    client_id := "";
    username := "";
    password := "";
  |} in
  let config :=
    match Args.host args with
    | Some host =>
        mk host (port config) (client_id config) (username config) (password config)
    | None => config
    end in
  let config :=
    match Args.client_id args with
    | Some client_id =>
        mk (host config) (port config) client_id (username config) (password config)
    | None => config
    end in
  let config :=
    match Args.username args with
    | Some username =>
        mk (host config) (port config) (client_id config) username (password config)
    | None => config
    end in
  let config :=
    match Args.password args with
    | Some password =>
        mk (host config) (port config) (client_id config) (username config) password
    | None => config
    end in
  if is_empty (host config) then mret (Err host_required)
  else if is_empty (client_id config) then
    pid ← ask process_id;
    mret (Ok (mk (host config) (port config)
                 ("unraid-mqtt-stats-" +:+ int_to_string pid)
                 (username config) (password config)))
  else mret (Ok config).

(** The options [create_mqtt_client] builds: credentials only when both
    the user name and the password are not empty, keep-alive 5 s. *)
Definition mqtt_options (self : t) : MqttOptions.t := {|
  MqttOptions.client_id := client_id self;
  MqttOptions.host := host self;
  MqttOptions.port := port self;
  MqttOptions.credentials :=
    if negb (is_empty (username self)) && negb (is_empty (password self))
    then Some (username self, password self) else None;
  MqttOptions.keep_alive := 5;
|}.

(** [MqttConfig::create_mqtt_client]: a client and its event loop with
    a request queue of 10; it never fails. *)
Definition create_mqtt_client (self : t) : M (result AsyncClient string) :=
  call (EvMqttConnect (mqtt_options self) 10) (λ _ _, tt);;
  mret (Ok ClientHandle).

End MqttConfig.

(** ** Properties *)

Section mqtt_properties.
Implicit Types (args : Args.t) (ω : Oracle) (σ : State).

(** The client id a run uses when the arguments give none (or an empty
    one). *)
Definition default_client_id (ω : Oracle) : string :=
  "unraid-mqtt-stats-" +:+ int_to_string (process_id ω).

Definition nonempty_or (o : option string) (d : string) : string :=
  match o with
  | Some s => if MqttConfig.is_empty s then d else s
  | None => d
  end.

(** C37: [from_args_and_file] reads nothing but the arguments and the
    process id, and never panics.  Without a host, or with an empty one,
    the result is the error that names the host; otherwise the settings
    are the arguments', an absent user name or password being empty, and
    an absent or empty client id being [unraid-mqtt-stats-] followed by
    the process id. *)
Theorem from_args_and_file_contract args ω σ :
  MqttConfig.from_args_and_file args ω σ =
    Returned
      (if MqttConfig.is_empty (default "" (Args.host args))
       then Err MqttConfig.host_required
       else Ok {|
         MqttConfig.host := default "" (Args.host args);
         MqttConfig.port := Args.port args;
         MqttConfig.client_id := nonempty_or (Args.client_id args) (default_client_id ω);
         MqttConfig.username := default "" (Args.username args);
         MqttConfig.password := default "" (Args.password args);
       |})
      σ.
Proof.
  unfold MqttConfig.from_args_and_file, nonempty_or, default_client_id.
  destruct (Args.host args) as [host|], (Args.client_id args) as [client_id|],
    (Args.username args), (Args.password args); simpl;
    try destruct (MqttConfig.is_empty host); try done;
    try destruct (MqttConfig.is_empty client_id); done.
Qed.

(** The user name and password a session is opened with: both, or
    none. *)
Definition credentials_of (username password : option string)
  : option (string * string) :=
  match username, password with
  | Some username, Some password =>
      if MqttConfig.is_empty username || MqttConfig.is_empty password then None
      else Some (username, password)
  | _, _ => None
  end.

(** The session of a run with a host: one connection, with the host and
    port of the arguments, a keep-alive of five seconds and a queue of
    ten requests; it carries credentials only when a user name and a
    password are both given and neither is empty, so a user name alone
    is dropped. *)
Theorem session_of_args args ω σ host :
  Args.host args = Some host -> host ≠ "" ->
  and_then (MqttConfig.from_args_and_file args) MqttConfig.create_mqtt_client ω σ =
    Returned (Ok ClientHandle)
      {| history := history σ ++
           [EvMqttConnect
              {| MqttOptions.client_id :=
                   nonempty_or (Args.client_id args) (default_client_id ω);
                 MqttOptions.host := host;
                 MqttOptions.port := Args.port args;
                 MqttOptions.credentials :=
                   credentials_of (Args.username args) (Args.password args);
                 MqttOptions.keep_alive := 5 |} 10];
         stashes := stashes σ |}.
Proof.
  intros Hhost Hne.
  unfold and_then, MqttConfig.from_args_and_file, MqttConfig.create_mqtt_client,
    MqttConfig.mqtt_options, credentials_of, nonempty_or, default_client_id.
  rewrite Hhost.
  destruct (Args.client_id args) as [client_id|], (Args.username args) as [username|],
    (Args.password args) as [password|]; simpl.
  all: replace (MqttConfig.is_empty host) with false
         by (symmetry; by apply bool_decide_eq_false_2).
  all: try destruct (MqttConfig.is_empty client_id); run_M; do 4 f_equal.
  all: try by destruct (MqttConfig.is_empty username), (MqttConfig.is_empty password).
  all: by destruct (MqttConfig.is_empty username).
Qed.

End mqtt_properties.

(** A user name without a password: the session is opened without
    credentials. *)
Example session_drops_lone_username :
  ∃ options σ,
    and_then (MqttConfig.from_args_and_file
                (Args.mk (Some "broker") 1883 None (Some "stats") None None None
                   false "homeassistant" "unraid" false))
             MqttConfig.create_mqtt_client
             quiet_world
             initial_state
    = Returned (Ok ClientHandle) σ ∧
    history σ = [EvMqttConnect options 10] ∧
    MqttOptions.credentials options = None ∧
    MqttOptions.client_id options = "unraid-mqtt-stats-1".
Proof. eexists _, _. by vm_compute. Qed.
