(* ===== verification/Publisher.v ===== *)
(** The publisher: the rest of [impl UnraidStats] in
    [src/src/unraid_stats.rs] ([new], [dump_sensors_toml],
    [get_device_info], [get_unraid_version], [publish_discovery],
    [publish_stats], [publish_ha_state], [publish_raw]) and
    [load_config] of [src/src/config.rs].  A pass is a loop over the
    sensor list whose body may end the pass with the transport's
    error. *)

From Stdlib Require Import ZArith Ascii String.
From stdpp Require Import base tactics option list numbers gmap strings.
From S2P Require Import Prelude RustStr RustNum RustFloat Json World.
From S2P Require Import Config Catalog Override Reporter Cli.

(** The TOML reader and printer of the toml crate, on the two shapes the
    program uses them with: the [sensors] table of a configuration file
    as serde reads it (before [deserialize_sensors] assigns the ids), and
    the text of a dump. *)
Class TomlText := {
  toml_from_str : string -> result (gmap string Sensors.t) string;
  toml_to_string : ConfigDump.t -> result string string;
}.

Section publisher.
Context `{!FloatText, !HashOrder, !TomlText}.

(** [config::load_config]: both failures panic ([expect]). *)
Definition load_config (file : string) : M Config.t :=
  content ← call (EvReadFile file) (λ ω h, fs_read_to_string ω h file);
  match content with
  | Ok content =>
      match deserialize_sensors (toml_from_str content) with
      | Ok sensors => mret (Config.mk sensors)
      | Err _ => panic "Failed to parse config file"
      end
  | Err _ => panic "Failed to read config file"
  end.

(** [UnraidStats::new] *)
Definition new (args : Args.t) : M (result UnraidStats.t string) :=
  and_then (call EvDockerConnect (λ ω h, docker_connect ω h)) (λ _,
    sensor_config ←
      match Args.config_file args with
      | Some file => config ← load_config file; mret (Some config)
      | None => mret None
      end;
    mret (Ok {|
      UnraidStats.sensor_config := sensor_config;
      UnraidStats.docker := DockerHandle;
      UnraidStats.json_output := Args.json_output args;
      UnraidStats.discovery_prefix := Args.discovery_prefix args;
      UnraidStats.device_name := Args.device_name args;
      UnraidStats.skip_discovery := Args.skip_discovery args;
    |})).

(** The map [dump_sensors_toml] collects: of two sensors with one id the
    later one stays. *)
Definition dump_of (sensors : list Sensor.t) : gmap string SensorsDump.t :=
  foldl (λ m s, <[Sensor.id s := SensorsDump.SensorOverride s]> m) ∅ sensors.

(** [UnraidStats::dump_sensors_toml] *)
Definition dump_sensors_toml (self : UnraidStats.t) (filename : string)
  : M (result unit string) :=
  sensors ← sensors self;
  let dump := ConfigDump.mk (dump_of sensors) in
  match toml_to_string dump with
  | Ok toml_string =>
      call (EvWriteFile filename toml_string) (λ ω h, fs_write ω h filename toml_string)
  | Err e => mret (Err e)
  end.

(** [UnraidStats::get_unraid_version]: the first line that starts with
    [version=], without the prefix and the double quotes around the
    rest. *)
Definition get_unraid_version : M (result string string) :=
  and_then (call (EvReadFile "/etc/unraid-version")
                 (λ ω h, fs_read_to_string ω h "/etc/unraid-version")) (λ content,
    match iter_find (λ line, Str.starts_with line "version=") (Str.lines content) with
    | Some line =>
        mret (Ok (Str.trim_matches Json.quote (Str.trim_start_matches_str "version=" line)))
    | None => mret (Ok "Unknown")
    end).

(** [UnraidStats::get_device_info] *)
Definition get_device_info (self : UnraidStats.t) : M Json.Value :=
  version ← get_unraid_version;
  mret (Json.obj [
    ("identifiers", Json.of_strings ["unraid_" +:+ UnraidStats.device_name self]);
    ("name", Json.String ("Unraid " +:+ UnraidStats.device_name self));
    ("model", Json.String "Unraid Server");
    ("manufacturer", Json.String "Lime Technology");
    ("sw_version", Json.String match version with
                               | Ok version => version
                               | Err _ => "Unknown"
                               end)
  ]).

(** The line both publishing functions print in JSON mode. *)
Definition json_line (topic payload : string) : string :=
  Json.to_string (Json.obj [("topic", Json.String topic); ("payload", Json.String payload)]).

(** [UnraidStats::publish_raw] *)
Definition publish_raw (self : UnraidStats.t) (client : option AsyncClient)
    (topic payload : string) (retain : bool) : M (result unit string) :=
  if UnraidStats.json_output self then
    println (json_line topic payload);; mret (Ok tt)
  else
    match client with
    | Some client =>
        and_then (call (EvPublish topic AtLeastOnce retain payload)
                       (λ ω h, mqtt_publish ω h topic AtLeastOnce retain payload))
                 (λ _, mret (Ok tt))
    | None => mret (Ok tt)
    end.

(** [UnraidStats::publish_ha_state] *)
Definition publish_ha_state (self : UnraidStats.t) (client : option AsyncClient)
    (topic_suffix value : string) : M (result unit string) :=
  if UnraidStats.json_output self then
    println (json_line topic_suffix value);; mret (Ok tt)
  else
    match client with
    | Some client =>
        and_then (publish_raw self (Some client) topic_suffix value false)
                 (λ _, mret (Ok tt))
    | None => mret (Ok tt)
    end.

Definition node_id (self : UnraidStats.t) : string :=
  "unraid_" +:+ UnraidStats.device_name self.

(** The body of the loop of [publish_discovery]. *)
Definition publish_discovery_step (self : UnraidStats.t) (client : option AsyncClient)
    (device_info : Json.Value) (sensor : Sensor.t) : M (result unit string) :=
  if Sensor.disabled sensor then mret (Ok tt)
  else
    let discovery_topic :=
      Sensor.discovery_topic sensor (UnraidStats.discovery_prefix self) (node_id self) in
    match Sensor.disovery_config sensor (UnraidStats.device_name self) (node_id self)
            device_info with
    | Some config => publish_raw self client discovery_topic (Json.to_string config) true
    | None => panic "cannot access key in JSON value"
    end.

(** [UnraidStats::publish_discovery] *)
Definition publish_discovery (self : UnraidStats.t) (client : option AsyncClient)
  : M (result unit string) :=
  if UnraidStats.skip_discovery self then mret (Ok tt)
  else
    device_info ← get_device_info self;
    sensors ← sensors self;
    try_for_each (publish_discovery_step self client device_info) sensors.

(** The body of the loop of [publish_stats]. *)
Definition publish_stats_step (self : UnraidStats.t) (client : option AsyncClient)
    (sensor : Sensor.t) : M (result unit string) :=
  if Sensor.disabled sensor then mret (Ok tt)
  else
    let sensor_topic := Sensor.sensor_topic sensor (node_id self) in
    match Sensor.reporter sensor with
    | Some source =>
        value ← get_value source;
        match value with
        | Some value => publish_ha_state self client sensor_topic value
        | None => mret (Ok tt)
        end
    | None => mret (Ok tt)
    end.

(** [UnraidStats::publish_stats] *)
Definition publish_stats (self : UnraidStats.t) (client : option AsyncClient)
  : M (result unit string) :=
  sensors ← sensors self;
  try_for_each (publish_stats_step self client) sensors.

End publisher.

(** ** Specification vocabulary *)

(** A broker that accepts every message, and one that rejects every
    message with the same error. *)
Definition accepting (ω : Oracle) : Prop :=
  ∀ h topic qos retain payload, mqtt_publish ω h topic qos retain payload = Ok tt.

Definition rejecting (ω : Oracle) (e : string) : Prop :=
  ∀ h topic qos retain payload, mqtt_publish ω h topic qos retain payload = Err e.

(** What handing one message to the transport adds to the history: a
    printed line in JSON mode, a publish request with a client, nothing
    without one. *)
Definition transport_events (self : UnraidStats.t) (client : option AsyncClient)
    (topic payload : string) (retain : bool) : list Event :=
  if UnraidStats.json_output self then [EvPrintln (json_line topic payload)]
  else
    match client with
    | Some _ => [EvPublish topic AtLeastOnce retain payload]
    | None => []
    end.

(** The discovery message of a sensor: its topic and its document. *)
Definition discovery_message (self : UnraidStats.t) (device_info : Json.Value)
    (s : Sensor.t) : string * string :=
  (Sensor.discovery_topic s (UnraidStats.discovery_prefix self) (node_id self),
   Json.to_string
     (Json.Object (discovery_members s (UnraidStats.device_name self) (node_id self)
                     device_info))).

Definition discovery_events (self : UnraidStats.t) (client : option AsyncClient)
    (device_info : Json.Value) (s : Sensor.t) : list Event :=
  if Sensor.disabled s then []
  else
    let '(topic, payload) := discovery_message self device_info s in
    transport_events self client topic payload true.

Definition enabled (s : Sensor.t) : bool := negb (Sensor.disabled s).

(** ** Facts *)

Section publisher_facts.
Context `{!FloatText, !HashOrder, !TomlText}.
Implicit Types (self : UnraidStats.t) (client : option AsyncClient) (ω : Oracle)
  (σ : State) (s : Sensor.t).

Lemma state_app_nil σ : {| history := history σ ++ []; stashes := stashes σ |} = σ.
Proof. destruct σ. simpl. by rewrite app_nil_r. Qed.

Lemma publish_raw_accepted self client topic payload retain ω σ :
  accepting ω ->
  publish_raw self client topic payload retain ω σ =
    Returned (Ok tt)
      {| history := history σ ++ transport_events self client topic payload retain;
         stashes := stashes σ |}.
Proof.
  intros Hω. unfold publish_raw, transport_events.
  destruct (UnraidStats.json_output self); [done|].
  destruct client; run_M; [by rewrite Hω|by rewrite state_app_nil].
Qed.

Lemma publish_raw_rejected self c topic payload retain ω σ e :
  rejecting ω e -> UnraidStats.json_output self = false ->
  publish_raw self (Some c) topic payload retain ω σ =
    Returned (Err e)
      {| history := history σ ++ [EvPublish topic AtLeastOnce retain payload];
         stashes := stashes σ |}.
Proof. intros Hω Hjson. unfold publish_raw. rewrite Hjson. run_M. by rewrite Hω. Qed.

Lemma publish_ha_state_accepted self client topic value ω σ :
  accepting ω ->
  publish_ha_state self client topic value ω σ =
    Returned (Ok tt)
      {| history := history σ ++ transport_events self client topic value false;
         stashes := stashes σ |}.
Proof.
  intros Hω. unfold publish_ha_state.
  destruct (UnraidStats.json_output self) eqn:Hjson;
    [by unfold transport_events; rewrite Hjson|].
  destruct client as [c|].
  - unfold and_then. erewrite bind_returned by by apply publish_raw_accepted. done.
  - unfold transport_events. rewrite Hjson. run_M. by rewrite state_app_nil.
Qed.

(** The version a version line carries. *)
Lemma version_of_line v :
  Str.free_of Json.quote v = true ->
  Str.trim_matches Json.quote
    (Str.trim_start_matches_str "version="
       ("version=" +:+ String Json.quote (v +:+ String Json.quote ""))) = v.
Proof. intros Hv. by rewrite Str.trim_start_matches_str_once, Str.trim_matches_between. Qed.

(** A message the transport took is in the history, whatever the broker
    is like. *)
Lemma publish_ha_state_ok self client topic value ω σ σ' :
  publish_ha_state self client topic value ω σ = Returned (Ok tt) σ' ->
  σ' = {| history := history σ ++ transport_events self client topic value false;
          stashes := stashes σ |}.
Proof.
  unfold publish_ha_state, publish_raw, transport_events.
  destruct (UnraidStats.json_output self); [by intros [= <-]|].
  destruct client; run_M; [|intros [= <-]; by rewrite state_app_nil].
  destruct (mqtt_publish _ _ _ _ _ _); simpl; by intros [= <-].
Qed.

(** What an enabled sensor's round of the value pass did when it
    returned [Ok]: it read the value source and handed the value, if
    there was one, to the transport. *)
Lemma publish_stats_step_ok self client s source ω σ σ' :
  Sensor.disabled s = false -> Sensor.reporter s = Some source ->
  publish_stats_step self client s ω σ = Returned (Ok tt) σ' ->
  ∃ value σ1,
    get_value source ω σ = Returned value σ1 ∧
    history σ' =
      history σ1 ++
      from_option (λ v, transport_events self client (Sensor.sensor_topic s (node_id self))
                          v false) [] value.
Proof.
  intros Hs Hsource. unfold publish_stats_step. rewrite Hs, Hsource.
  unfold mbind, M_bind, bind. destruct (get_value source ω σ) as [[v|] σ1|]; [| |done].
  - intros ->%publish_ha_state_ok. by eexists (Some v), σ1.
  - intros [= <-]. exists None, σ1. by rewrite app_nil_r.
Qed.

(** Reading the device information never fails: a missing version file
    reads as [Unknown]. *)
Lemma get_device_info_run self ω σ :
  ∃ device_info,
    get_device_info self ω σ =
      Returned device_info
        {| history := history σ ++ [EvReadFile "/etc/unraid-version"];
           stashes := stashes σ |}.
Proof.
  unfold get_device_info, get_unraid_version. run_M.
  destruct (fs_read_to_string _ _ _) as [content|];
    [destruct (iter_find _ (Str.lines content))|]; by eexists.
Qed.

Lemma sensors_returns self ω σ : ∃ sensors σ', Override.sensors self ω σ = Returned sensors σ'.
Proof.
  pose proof (sensors_unfold self ω σ) as Hrun. cbv zeta in Hrun. rewrite Hrun.
  by eexists _, _.
Qed.

Lemma publish_discovery_step_accepted self client device_info s ω σ :
  accepting ω ->
  publish_discovery_step self client device_info s ω σ =
    Returned (Ok tt)
      {| history := history σ ++ discovery_events self client device_info s;
         stashes := stashes σ |}.
Proof.
  intros Hω. unfold publish_discovery_step, discovery_events, discovery_message.
  destruct (Sensor.disabled s); [run_M; by rewrite state_app_nil|].
  rewrite disovery_config_members. by apply publish_raw_accepted.
Qed.

Lemma publish_discovery_step_rejected self c device_info s ω σ e :
  rejecting ω e -> UnraidStats.json_output self = false -> enabled s = true ->
  publish_discovery_step self (Some c) device_info s ω σ =
    Returned (Err e)
      {| history := history σ ++ discovery_events self (Some c) device_info s;
         stashes := stashes σ |}.
Proof.
  intros Hω Hjson Hs. unfold publish_discovery_step, discovery_events, discovery_message,
    transport_events, enabled in *.
  destruct (Sensor.disabled s); [done|].
  rewrite disovery_config_members, Hjson. by apply publish_raw_rejected.
Qed.

Lemma publish_step_disabled self client device_info s ω σ :
  enabled s = false ->
  publish_discovery_step self client device_info s ω σ = Returned (Ok tt) σ ∧
  publish_stats_step self client s ω σ = Returned (Ok tt) σ.
Proof.
  unfold enabled, publish_discovery_step, publish_stats_step.
  by destruct (Sensor.disabled s).
Qed.

(** *** Effects of the passes

    [transport_allowed P self client retain]: [P] holds of every event
    the transport can add for this mode and client when it is handed a
    message with this retain flag. *)
Definition transport_allowed (P : Event -> Prop) self client (retain : bool) : Prop :=
  ∀ topic payload ev,
    ev ∈ transport_events self client topic payload retain -> P ev.

Lemma publish_raw_emits P self client topic payload retain :
  transport_allowed P self client retain ->
  emits P (publish_raw self client topic payload retain).
Proof.
  intros HP. pose proof (HP topic payload) as Hev.
  unfold publish_raw, transport_events in *.
  emits_auto; apply Hev; by left.
Qed.

Lemma publish_ha_state_emits P self client topic value :
  transport_allowed P self client false ->
  emits P (publish_ha_state self client topic value).
Proof.
  intros HP. pose proof (HP topic value) as Hev.
  unfold publish_ha_state. destruct (UnraidStats.json_output self) eqn:Hjson.
  - unfold transport_events in Hev. rewrite Hjson in Hev. emits_auto. apply Hev. by left.
  - destruct client; [|emits_auto].
    apply emits_and_then; [by apply publish_raw_emits|intros; emits_auto].
Qed.

Lemma publish_discovery_emits P self client :
  (∀ ev, ev ∈ sensors_calls -> P ev) ->
  P (EvReadFile "/etc/unraid-version") ->
  transport_allowed P self client true ->
  emits P (publish_discovery self client).
Proof.
  intros Hprobe Hread Hout. unfold publish_discovery, get_device_info, get_unraid_version.
  destruct (UnraidStats.skip_discovery self); [emits_auto|].
  apply emits_bind; [emits_auto; done|]. intros device_info.
  apply emits_bind; [by apply sensors_emits_calls|]. intros sensors.
  apply emits_try_for_each. intros s. unfold publish_discovery_step.
  emits_auto. by apply publish_raw_emits.
Qed.

Lemma publish_stats_step_emits P self client s :
  (∀ ev, is_probe ev = true -> P ev) ->
  transport_allowed P self client false ->
  emits P (publish_stats_step self client s).
Proof.
  intros Hprobe Hout. unfold publish_stats_step.
  destruct (Sensor.disabled s); [emits_auto|].
  destruct (Sensor.reporter s) as [source|]; [|emits_auto].
  apply emits_bind; [by apply get_value_emits|]. intros [value|]; [|emits_auto].
  by apply publish_ha_state_emits.
Qed.

Lemma publish_stats_emits P self client :
  (∀ ev, is_probe ev = true -> P ev) ->
  transport_allowed P self client false ->
  emits P (publish_stats self client).
Proof.
  intros Hprobe Hout. unfold publish_stats.
  apply emits_bind; [by apply sensors_emits|]. intros sensors.
  apply emits_try_for_each. intros s. by apply publish_stats_step_emits.
Qed.

Lemma new_emits P args :
  P EvDockerConnect -> (∀ file, P (EvReadFile file)) -> emits P (new args).
Proof. intros Hconnect Hread. unfold new, load_config. emits_auto; done. Qed.

Lemma new_json_output args ω σ stats σ' :
  new args ω σ = Returned (Ok stats) σ' ->
  UnraidStats.json_output stats = Args.json_output args.
Proof.
  unfold new, load_config. run_M.
  destruct (docker_connect _ _); [|done].
  destruct (Args.config_file args); simpl; [|by intros [= <- _]].
  repeat case_match; simpl; try done; by intros [= <- _].
Qed.

Lemma dump_sensors_toml_emits P self filename :
  (∀ ev, ev ∈ sensors_calls -> P ev) -> (∀ contents, P (EvWriteFile filename contents)) ->
  emits P (dump_sensors_toml self filename).
Proof.
  intros Hprobe Hwrite. unfold dump_sensors_toml.
  apply emits_bind; [by apply sensors_emits_calls|]. intros sensors. emits_auto. done.
Qed.

End publisher_facts.

(** ** Properties *)

Section publisher_properties.
Context `{!FloatText, !HashOrder, !TomlText}.
Implicit Types (self : UnraidStats.t) (client : option AsyncClient) (ω : Oracle)
  (σ : State) (s : Sensor.t).

(** C11: the discovery pass with a transport that accepts every message
    (always so in JSON mode and without a client): it reads the version
    file, builds the sensor list, and hands to the transport, in the
    order of the list, one retained message per enabled sensor, whose
    topic is the sensor's discovery topic and whose payload is the text
    of its discovery document; nothing else is printed or published and
    the pass succeeds. *)
Theorem publish_discovery_pass self client ω σ :
  accepting ω -> UnraidStats.skip_discovery self = false ->
  ∃ device_info sensors σ1 σ2,
    get_device_info self ω σ = Returned device_info σ1 ∧
    Override.sensors self ω σ1 = Returned sensors σ2 ∧
    publish_discovery self client ω σ =
      Returned (Ok tt)
        {| history := history σ2
                      ++ concat (discovery_events self client device_info <$> sensors);
           stashes := stashes σ2 |}.
Proof.
  intros Hω Hskip. destruct (get_device_info_run self ω σ) as [device_info Hinfo].
  destruct (sensors_returns self ω
              {| history := history σ ++ [EvReadFile "/etc/unraid-version"];
                 stashes := stashes σ |}) as (sensors & σ2 & Hsensors).
  eexists device_info, sensors, _, σ2. split_and!; [done..|].
  unfold publish_discovery. rewrite Hskip.
  erewrite bind_returned by done. erewrite bind_returned by done.
  apply try_for_each_ok. intros. by apply publish_discovery_step_accepted.
Qed.

(** C21: a transport failure ends the discovery pass: when the broker
    rejects the messages, the pass returns the broker's error after the
    request for the first enabled sensor of the list, and makes no
    request for the sensors after it.  With no enabled sensor the pass
    succeeds without a request. *)
Theorem publish_discovery_stops_at_failure self c ω σ e :
  rejecting ω e ->
  UnraidStats.json_output self = false -> UnraidStats.skip_discovery self = false ->
  ∃ device_info sensors σ1 σ2,
    get_device_info self ω σ = Returned device_info σ1 ∧
    Override.sensors self ω σ1 = Returned sensors σ2 ∧
    publish_discovery self (Some c) ω σ =
      match List.find enabled sensors with
      | Some s =>
          let '(topic, payload) := discovery_message self device_info s in
          Returned (Err e)
            {| history := history σ2 ++ [EvPublish topic AtLeastOnce true payload];
               stashes := stashes σ2 |}
      | None => Returned (Ok tt) σ2
      end.
Proof.
  intros Hω Hjson Hskip. destruct (get_device_info_run self ω σ) as [device_info Hinfo].
  destruct (sensors_returns self ω
              {| history := history σ ++ [EvReadFile "/etc/unraid-version"];
                 stashes := stashes σ |}) as (sensors & σ2 & Hsensors).
  eexists device_info, sensors, _, σ2. split_and!; [done..|].
  unfold publish_discovery. rewrite Hskip.
  erewrite bind_returned by done. erewrite bind_returned by done.
  rewrite (try_for_each_stops _ enabled (discovery_events self (Some c) device_info) e).
  - destruct (List.find enabled sensors) as [s|] eqn:Hfind; [|done].
    apply find_some in Hfind as [_ Hs]. unfold discovery_events, enabled in *.
    destruct (Sensor.disabled s); [done|]. unfold transport_events. by rewrite Hjson.
  - intros. by apply publish_step_disabled.
  - intros. by apply publish_discovery_step_rejected.
Qed.

(** The version of the host.  On a version file with the one line
    [version=] followed by a text between double quotes (the text
    without a double quote), [get_unraid_version] returns the text
    without the quotes, after one read of [/etc/unraid-version]. *)
Theorem get_unraid_version_quoted v ω σ :
  Str.is_line v = true -> Str.free_of Json.quote v = true ->
  fs_read_to_string ω (history σ) "/etc/unraid-version"
    = Ok ("version=" +:+ String Json.quote (v +:+ String Json.quote "") +:+ String "010" "") ->
  get_unraid_version ω σ =
    Returned (Ok v)
      {| history := history σ ++ [EvReadFile "/etc/unraid-version"];
         stashes := stashes σ |}.
Proof.
  intros Hline Hfree Hread. unfold get_unraid_version. run_M. rewrite Hread. simpl.
  rewrite <-Str.app_assoc, Str.lines_one
    by (rewrite Str.is_line_app; change (String Json.quote ?s) with (String Json.quote "" +:+ s);
        by rewrite !Str.is_line_app, Hline).
  unfold iter_find. cbn [List.find]. rewrite Str.starts_with_app.
  do 2 f_equal. by apply version_of_line.
Qed.

(** C10: the value pass skips disabled sensors altogether: they are
    neither read (no command is run and no engine query is made for
    them) nor published, so the pass is the pass over the enabled
    sensors of the list.  For an enabled sensor whose reporter yields a
    value, the transport gets one unretained message under the sensor's
    state topic; a reporter that yields no value gets none and the pass
    goes on. *)
Theorem publish_stats_pass self client ω σ :
  accepting ω ->
  publish_stats self client ω σ =
    (sensors ← Override.sensors self;
     try_for_each (publish_stats_step self client)
       (filter (λ s, enabled s = true) sensors)) ω σ ∧
  ∀ s source σ0,
    enabled s = true -> Sensor.reporter s = Some source ->
    publish_stats_step self client s ω σ0 =
      match get_value source ω σ0 with
      | Returned (Some value) σ1 =>
          Returned (Ok tt)
            {| history := history σ1
                          ++ transport_events self client
                               (Sensor.sensor_topic s (node_id self)) value false;
               stashes := stashes σ1 |}
      | Returned None σ1 => Returned (Ok tt) σ1
      | Panicked msg σ1 => Panicked msg σ1
      end.
Proof.
  intros Hω. split.
  - unfold publish_stats. destruct (sensors_returns self ω σ) as (sensors & σ' & Hs).
    erewrite !bind_returned by done.
    apply try_for_each_filter. intros. by apply (publish_step_disabled _ _ Json.Null).
  - intros s source σ0 Hs Hsource. unfold publish_stats_step, enabled in *.
    destruct (Sensor.disabled s); [done|]. rewrite Hsource. run_M.
    destruct (get_value source ω σ0) as [[value|] σ1|]; [|done..].
    by apply publish_ha_state_accepted.
Qed.

End publisher_properties.

(** ** The theorems on a concrete world *)

(** A stand-in for the toml crate that reads every file as an empty
    table and prints every dump as the empty text. *)
Definition example_toml : TomlText := {|
  toml_from_str := λ _, Ok ∅;
  toml_to_string := λ _, Ok EmptyString;
|}.

(** The world of [Reporter], with a broker that rejects every
    message. *)
Definition example_world_rejecting : Oracle :=
  with_broker (λ _ _ _ _ _, Err "connection refused") (example_world true).

(** The same world on a host whose version file names 6.12.4. *)
Definition example_world_versioned : Oracle :=
  with_files
    (λ _ path,
       if bool_decide (path = "/etc/unraid-version")
       then Ok ("version=" +:+ String Json.quote ("6.12.4" +:+ String Json.quote "")
                +:+ String "010" "")
       else Err "no such file")
    (example_world true).

Lemma get_unraid_version_quoted_witness :
  get_unraid_version example_world_versioned initial_state =
    Returned (Ok "6.12.4")
      {| history := [EvReadFile "/etc/unraid-version"]; stashes := [] |}.
Proof. by apply (get_unraid_version_quoted "6.12.4"). Defined.

Lemma publish_discovery_pass_witness :
  ∃ device_info sensors σ1 σ2,
    get_device_info example_stats (example_world true) initial_state
      = Returned device_info σ1 ∧
    Override.sensors example_stats (example_world true) σ1 = Returned sensors σ2 ∧
    publish_discovery example_stats (Some ClientHandle)
      (example_world true) initial_state =
      Returned (Ok tt)
        {| history := history σ2
                      ++ concat (discovery_events example_stats (Some ClientHandle)
                                   device_info <$> sensors);
           stashes := stashes σ2 |}.
Proof. by apply (publish_discovery_pass). Defined.

Lemma publish_discovery_stops_at_failure_witness :
  ∃ device_info sensors σ1 σ2,
    get_device_info example_stats example_world_rejecting initial_state
      = Returned device_info σ1 ∧
    Override.sensors example_stats example_world_rejecting σ1 = Returned sensors σ2 ∧
    publish_discovery example_stats (Some ClientHandle)
      example_world_rejecting initial_state =
      match List.find enabled sensors with
      | Some s =>
          let '(topic, payload) := discovery_message example_stats device_info s in
          Returned (Err "connection refused")
            {| history := history σ2 ++ [EvPublish topic AtLeastOnce true payload];
               stashes := stashes σ2 |}
      | None => Returned (Ok tt) σ2
      end.
Proof. by apply (publish_discovery_stops_at_failure). Defined.

Lemma publish_stats_pass_witness :
  publish_stats example_stats None (example_world true) initial_state =
    (sensors ← Override.sensors example_stats;
     try_for_each (publish_stats_step example_stats None)
       (filter (λ s, enabled s = true) sensors)) (example_world true) initial_state.
Proof. by apply (publish_stats_pass). Defined.
