(* ===== verification/Serde.v ===== *)
(** The [Serialize] and [Deserialize] implementations that the [derive]
    attributes of [src/src/config.rs] generate, over the documents of
    [Toml], and with them the reader and the printer the program calls:
    [toml::from_str] into a [Config] or a [ConfigDump] and
    [toml::to_string] of a [ConfigDump].

    - A struct is read from a table: the values of its fields are
      checked in the order of the table, then the fields are taken in the
      order of the declaration; an [Option] field may be absent, any
      other field must be there; a field marked [skip_deserializing]
      gets its default; keys that name no field are ignored.
    - A struct is written as a table of its fields in the order of the
      declaration, without the fields that are [None] or marked
      [skip_serializing].
    - An enum with [tag = "type"] is read by its [type] entry and written
      with it first.
    - A [HashMap] is written in its iteration order and read entry by
      entry. *)

From Stdlib Require Import ZArith Ascii String.
From stdpp Require Import base tactics option list numbers gmap strings.
From S2P Require Import Prelude RustStr RustNum RustFloat Json Toml TomlLex TomlDoc.
From S2P Require Import World Config Catalog Override Reporter Cli Publisher.

(** ** The traits *)

Variant DeError : Type :=
| Syntax (e : Toml.Error)
| InvalidType (expected : string)
| MissingField (field : string)
| UnknownVariant (variant : string) (expected : list string).

Class Deserialize (A : Type) := deserialize : Toml.Value -> result A DeError.
Class Serialize (A : Type) := serialize : A -> Toml.Value.

(** A type whose values are read back as they were written, and a type
    that is written as a value, not as a table. *)
Class RoundTrip (A : Type) `{!Serialize A, !Deserialize A} : Prop :=
  round_trip a : deserialize (serialize a) = Ok a.

Class Plain (A : Type) `{!Serialize A} : Prop :=
  plain_value a : Toml.is_table (serialize a) = false ∧ Toml.normal (serialize a) = true.

(** The message of an error, without the position the crate adds. *)
Definition error_message (e : DeError) : string :=
  match e with
  | Syntax (Toml.Syntax line) => "invalid TOML"
  | Syntax (Toml.DuplicateKey key) => "duplicate key " +:+ key
  | Syntax (Toml.DuplicateTable path) => "duplicate table " +:+ Toml.print_path path
  | InvalidType expected => "invalid type, expected " +:+ expected
  | MissingField field => "missing field " +:+ field
  | UnknownVariant variant _ => "unknown variant " +:+ variant
  end.

(** ** Reading and writing a struct *)

(** [deserialize] for its verdict only. *)
Definition checks (A : Type) `{!Deserialize A} (v : Toml.Value) : result unit DeError :=
  (let? _ := deserialize (A := A) v in Ok tt)%rs.

Definition Checks : Type := list (string * (Toml.Value -> result unit DeError)).

Fixpoint check_of (key : string) (fields : Checks)
  : option (Toml.Value -> result unit DeError) :=
  match fields with
  | [] => None
  | (k, check) :: fields' => if bool_decide (k = key) then Some check else check_of key fields'
  end.

(** The visit of a table by the visitor of a struct: every entry that
    names a field is read as the field's type, in the order of the
    table. *)
Fixpoint visit (fields : Checks) (t : Toml.table) : result unit DeError :=
  match t with
  | [] => Ok tt
  | (k, v) :: t' =>
      match check_of k fields with
      | Some check => (let? _ := check v in visit fields t')%rs
      | None => visit fields t'
      end
  end.

(** A field that must be there, and an [Option] field. *)
Definition field {A} `{!Deserialize A} (name : string) (t : Toml.table) : result A DeError :=
  match Toml.get name t with
  | Some v => deserialize v
  | None => Err (MissingField name)
  end.

Definition field_opt {A} `{!Deserialize A} (name : string) (t : Toml.table)
  : result (option A) DeError :=
  match Toml.get name t with
  | Some v => (let? a := deserialize v in Ok (Some a))%rs
  | None => Ok None
  end.

(** The entries of a struct: a field that is [None] is left out. *)
Definition entries (fields : list (string * option Toml.Value)) : Toml.table :=
  omap (λ kv, (λ v, (kv.1, v)) <$> kv.2) fields.

(** The table of a struct that has no [type] field and no struct
    field. *)
Definition flat (t : Toml.table) : Prop :=
  NoDup (Toml.keys t) ∧ ("type" ∉ Toml.keys t)
  ∧ Forall (λ kv, Toml.is_table kv.2 = false ∧ Toml.normal kv.2 = true) t.

Definition as_table (expected : string) (v : Toml.Value) : result Toml.table DeError :=
  match v with
  | Toml.Table t => Ok t
  | _ => Err (InvalidType expected)
  end.

(** ** Strings, booleans, vectors *)

#[export] Instance Deserialize_String : Deserialize string := λ v,
  match v with
  | Toml.String s => Ok s
  | _ => Err (InvalidType "a string")
  end.

#[export] Instance Serialize_String : Serialize string := Toml.String.

#[export] Instance Deserialize_bool : Deserialize bool := λ v,
  match v with
  | Toml.Boolean b => Ok b
  | _ => Err (InvalidType "a boolean")
  end.

#[export] Instance Serialize_bool : Serialize bool := Toml.Boolean.

Fixpoint deserialize_seq {A} `{!Deserialize A} (l : list Toml.Value) : result (list A) DeError :=
  match l with
  | [] => Ok []
  | v :: l' =>
      (let? a := deserialize v in
       let? r := deserialize_seq l' in
       Ok (a :: r))%rs
  end.

#[export] Instance Deserialize_Vec {A} `{!Deserialize A} : Deserialize (list A) := λ v,
  match v with
  | Toml.Array l => deserialize_seq l
  | _ => Err (InvalidType "a sequence")
  end.

#[export] Instance Serialize_Vec {A} `{!Serialize A} : Serialize (list A) := λ l,
  Toml.Array (serialize <$> l).

(** ** [HashMap<String, V>] *)

Fixpoint deserialize_entries {A} `{!Deserialize A} (t : Toml.table)
  : result (list (string * A)) DeError :=
  match t with
  | [] => Ok []
  | (k, v) :: t' =>
      (let? a := deserialize v in
       let? r := deserialize_entries t' in
       Ok ((k, a) :: r))%rs
  end.

(** The map collected from entries: a later entry replaces an earlier
    one of the same key. *)
Definition collect {A} (l : list (string * A)) : gmap string A :=
  foldl (λ m kv, <[kv.1 := kv.2]> m) ∅ l.

#[export] Instance Deserialize_HashMap {A} `{!Deserialize A} : Deserialize (gmap string A) := λ v,
  (let? t := as_table "a map" v in
   let? l := deserialize_entries t in
   Ok (collect l))%rs.

#[export] Instance Serialize_HashMap {A} `{!HashOrder, !Serialize A}
  : Serialize (gmap string A) := λ m,
  Toml.Table ((λ kv : string * A, (kv.1, serialize kv.2)) <$> hash_entries m).

(** ** The enums without data *)

#[export] Instance Deserialize_DeviceClass : Deserialize DeviceClass.t := λ v,
  match v with
  | Toml.String s =>
      match DeviceClass.of_name s with
      | Some d => Ok d
      | None => Err (UnknownVariant s (DeviceClass.name <$> DeviceClass.all))
      end
  | _ => Err (InvalidType "a variant of DeviceClass")
  end.

#[export] Instance Serialize_DeviceClass : Serialize DeviceClass.t := λ d,
  Toml.String (DeviceClass.name d).

Definition post_process_all : list PostProcess.t :=
  [PostProcess.TrimWhitespace; PostProcess.ParseFloat; PostProcess.ParseInteger;
   PostProcess.ExtractNumber; PostProcess.ToUpperCase; PostProcess.ToLowerCase].

(** The variants of [PostProcess] keep their names. *)
Definition post_process_name (p : PostProcess.t) : string :=
  match p with
  | PostProcess.TrimWhitespace => "TrimWhitespace"
  | PostProcess.ParseFloat => "ParseFloat"
  | PostProcess.ParseInteger => "ParseInteger"
  | PostProcess.ExtractNumber => "ExtractNumber"
  | PostProcess.ToUpperCase => "ToUpperCase"
  | PostProcess.ToLowerCase => "ToLowerCase"
  end.

#[export] Instance Deserialize_PostProcess : Deserialize PostProcess.t := λ v,
  match v with
  | Toml.String s =>
      match List.find (λ p, bool_decide (post_process_name p = s)) post_process_all with
      | Some p => Ok p
      | None => Err (UnknownVariant s (post_process_name <$> post_process_all))
      end
  | _ => Err (InvalidType "a variant of PostProcess")
  end.

#[export] Instance Serialize_PostProcess : Serialize PostProcess.t := λ p,
  Toml.String (post_process_name p).

(** ** The structs *)

(** [SensorConfig]: [id] is written and not read. *)
Definition sensor_config_checks : Checks :=
  [("name", checks string); ("unit", checks string);
   ("device_class", checks DeviceClass.t); ("icon", checks string);
   ("disabled", checks bool)].

Definition deserialize_sensor_config (t : Toml.table) : result SensorConfig.t DeError :=
  (let? _ := visit sensor_config_checks t in
   let? name := field_opt "name" t in
   let? unit := field_opt "unit" t in
   let? device_class := field_opt "device_class" t in
   let? icon := field_opt "icon" t in
   let? disabled := field "disabled" t in
   Ok (SensorConfig.mk "" name unit device_class icon disabled))%rs.

#[export] Instance Deserialize_SensorConfig : Deserialize SensorConfig.t := λ v,
  (let? t := as_table "struct SensorConfig" v in deserialize_sensor_config t)%rs.

Definition serialize_sensor_config (c : SensorConfig.t) : Toml.table :=
  entries [("id", Some (serialize (SensorConfig.id c)));
           ("name", serialize <$> SensorConfig.name c);
           ("unit", serialize <$> SensorConfig.unit c);
           ("device_class", serialize <$> SensorConfig.device_class c);
           ("icon", serialize <$> SensorConfig.icon c);
           ("disabled", Some (serialize (SensorConfig.disabled c)))].

#[export] Instance Serialize_SensorConfig : Serialize SensorConfig.t := λ c,
  Toml.Table (serialize_sensor_config c).

(** [CommandSensor]: [id] is written and not read. *)
Definition command_sensor_checks : Checks :=
  [("name", checks string); ("unit", checks string);
   ("device_class", checks DeviceClass.t); ("icon", checks string);
   ("command", checks string); ("args", checks (list string));
   ("post_process", checks PostProcess.t); ("disabled", checks bool)].

Definition deserialize_command_sensor (t : Toml.table) : result CommandSensor.t DeError :=
  (let? _ := visit command_sensor_checks t in
   let? name := field "name" t in
   let? unit := field_opt "unit" t in
   let? device_class := field_opt "device_class" t in
   let? icon := field_opt "icon" t in
   let? command := field "command" t in
   let? args := field_opt "args" t in
   let? post_process := field_opt "post_process" t in
   let? disabled := field "disabled" t in
   Ok (CommandSensor.mk "" name unit device_class icon command args post_process disabled))%rs.

#[export] Instance Deserialize_CommandSensor : Deserialize CommandSensor.t := λ v,
  (let? t := as_table "struct CommandSensor" v in deserialize_command_sensor t)%rs.

Definition serialize_command_sensor (c : CommandSensor.t) : Toml.table :=
  entries [("id", Some (serialize (CommandSensor.id c)));
           ("name", Some (serialize (CommandSensor.name c)));
           ("unit", serialize <$> CommandSensor.unit c);
           ("device_class", serialize <$> CommandSensor.device_class c);
           ("icon", serialize <$> CommandSensor.icon c);
           ("command", Some (serialize (CommandSensor.command c)));
           ("args", serialize <$> CommandSensor.args c);
           ("post_process", serialize <$> CommandSensor.post_process c);
           ("disabled", Some (serialize (CommandSensor.disabled c)))].

#[export] Instance Serialize_CommandSensor : Serialize CommandSensor.t := λ c,
  Toml.Table (serialize_command_sensor c).

(** [Sensor]: [id] and [reporter] are neither written nor read. *)
Definition sensor_checks : Checks :=
  [("name", checks string); ("unit", checks string);
   ("device_class", checks DeviceClass.t); ("icon", checks string);
   ("disabled", checks bool)].

Definition deserialize_sensor (t : Toml.table) : result Sensor.t DeError :=
  (let? _ := visit sensor_checks t in
   let? name := field "name" t in
   let? unit := field_opt "unit" t in
   let? device_class := field_opt "device_class" t in
   let? icon := field_opt "icon" t in
   let? disabled := field "disabled" t in
   Ok (Sensor.mk "" name unit device_class icon disabled None))%rs.

#[export] Instance Deserialize_Sensor : Deserialize Sensor.t := λ v,
  (let? t := as_table "struct Sensor" v in deserialize_sensor t)%rs.

Definition serialize_sensor (s : Sensor.t) : Toml.table :=
  entries [("name", Some (serialize (Sensor.name s)));
           ("unit", serialize <$> Sensor.unit s);
           ("device_class", serialize <$> Sensor.device_class s);
           ("icon", serialize <$> Sensor.icon s);
           ("disabled", Some (serialize (Sensor.disabled s)))].

#[export] Instance Serialize_Sensor : Serialize Sensor.t := λ s,
  Toml.Table (serialize_sensor s).

(** ** The enums tagged by [type] *)

(** The entry [type] of a table, and the table without it. *)
Definition tag_of (expected : string) (v : Toml.Value) : result (string * Toml.table) DeError :=
  (let? t := as_table expected v in
   match Toml.get "type" t with
   | None => Err (MissingField "type")
   | Some (Toml.String tag) => Ok (tag, filter (λ kv, kv.1 ≠ "type") t)
   | Some _ => Err (InvalidType "a variant identifier")
   end)%rs.

Definition tagged (tag : string) (t : Toml.table) : Toml.Value :=
  Toml.Table (("type", Toml.String tag) :: t).

#[export] Instance Deserialize_Sensors : Deserialize Sensors.t := λ v,
  (let? variant := tag_of "enum Sensors" v in
   if bool_decide (variant.1 = "override") then
     let? c := deserialize_sensor_config variant.2 in Ok (Sensors.SensorOverride c)
   else if bool_decide (variant.1 = "command") then
     let? c := deserialize_command_sensor variant.2 in Ok (Sensors.Command c)
   else Err (UnknownVariant variant.1 ["override"; "command"]))%rs.

#[export] Instance Serialize_Sensors : Serialize Sensors.t := λ s,
  match s with
  | Sensors.SensorOverride c => tagged "override" (serialize_sensor_config c)
  | Sensors.Command c => tagged "command" (serialize_command_sensor c)
  end.

#[export] Instance Deserialize_SensorsDump : Deserialize SensorsDump.t := λ v,
  (let? variant := tag_of "enum SensorsDump" v in
   if bool_decide (variant.1 = "override") then
     let? s := deserialize_sensor variant.2 in Ok (SensorsDump.SensorOverride s)
   else Err (UnknownVariant variant.1 ["override"]))%rs.

#[export] Instance Serialize_SensorsDump : Serialize SensorsDump.t := λ d,
  match d with
  | SensorsDump.SensorOverride s => tagged "override" (serialize_sensor s)
  end.

(** An entry as a file holds it: without its id. *)
Definition unnamed (s : Sensors.t) : Sensors.t :=
  match s with
  | Sensors.SensorOverride c => Sensors.SensorOverride (SensorConfig.with_id "" c)
  | Sensors.Command c => Sensors.Command (CommandSensor.with_id "" c)
  end.

(** ** [Config] and [ConfigDump] *)

(** The field [sensors] as [HashMap::deserialize] reads it, before the
    ids are assigned. *)
Definition read_sensors {A} `{!Deserialize A} (expected : string) (v : Toml.Value)
  : result (gmap string A) DeError :=
  (let? t := as_table expected v in field "sensors" t)%rs.

#[export] Instance Deserialize_Config : Deserialize Config.t := λ v,
  (let? sensors := deserialize_sensors (read_sensors "struct Config" v) in
   Ok (Config.mk sensors))%rs.

#[export] Instance Serialize_Config `{!HashOrder} : Serialize Config.t := λ c,
  Toml.Table [("sensors", serialize (Config.sensors c))].

#[export] Instance Deserialize_ConfigDump : Deserialize ConfigDump.t := λ v,
  (let? sensors := dump_deserialize_sensors (read_sensors "struct ConfigDump" v) in
   Ok (ConfigDump.mk sensors))%rs.

#[export] Instance Serialize_ConfigDump `{!HashOrder} : Serialize ConfigDump.t := λ c,
  Toml.Table [("sensors", dump_serialize_sensors (ConfigDump.sensors c) serialize)].

(** ** [toml::from_str] and [toml::to_string] *)

Definition document (v : Toml.Value) : Toml.table :=
  match v with
  | Toml.Table t => t
  | _ => []
  end.

Definition from_str (A : Type) `{!Deserialize A} (text : string) : result A DeError :=
  match Toml.from_str text with
  | Ok doc => deserialize (Toml.Table doc)
  | Err e => Err (Syntax e)
  end.

Definition to_string {A} `{!Serialize A} (a : A) : string :=
  Toml.to_string (document (serialize a)).

(** The reader and the printer as the publisher calls them. *)
#[export] Instance toml_crate `{!HashOrder} : TomlText := {|
  toml_from_str text :=
    match Toml.from_str text with
    | Ok doc =>
        match read_sensors "struct Config" (Toml.Table doc) with
        | Ok sensors => Ok sensors
        | Err e => Err (error_message e)
        end
    | Err e => Err (error_message (Syntax e))
    end;
  toml_to_string dump := Ok (to_string dump);
|}.

(** ** The laws of the values *)

#[local] Arguments deserialize : simpl never.
#[local] Arguments serialize : simpl never.
#[local] Arguments checks : simpl never.

Lemma checks_round_trip `{RoundTrip A} a : checks A (serialize a) = Ok tt.
Proof. unfold checks. by rewrite round_trip. Qed.

(** A struct read from the table it was written as: the entries are
    found by evaluation, the values by their laws. *)
Ltac read_written := repeat (simpl; rewrite ?checks_round_trip, ?round_trip); try done.

#[export] Instance string_round_trip : RoundTrip string.
Proof. done. Qed.

#[export] Instance bool_round_trip : RoundTrip bool.
Proof. done. Qed.

Lemma deserialize_seq_serialize `{RoundTrip A} (l : list A) :
  deserialize_seq (serialize <$> l) = Ok l.
Proof.
  induction l as [|a l IH]; [done|]. cbn [fmap list_fmap deserialize_seq].
  by rewrite round_trip, IH.
Qed.

#[export] Instance vec_round_trip `{RoundTrip A} : RoundTrip (list A).
Proof. intros l. apply deserialize_seq_serialize. Qed.

#[export] Instance device_class_round_trip : RoundTrip DeviceClass.t.
Proof.
  intros d. unfold deserialize, serialize, Deserialize_DeviceClass, Serialize_DeviceClass.
  by rewrite device_class_of_name_name.
Qed.

#[export] Instance post_process_round_trip : RoundTrip PostProcess.t.
Proof. by intros []. Qed.

#[export] Instance string_plain : Plain string.
Proof. done. Qed.

#[export] Instance bool_plain : Plain bool.
Proof. done. Qed.

#[export] Instance device_class_plain : Plain DeviceClass.t.
Proof. done. Qed.

#[export] Instance post_process_plain : Plain PostProcess.t.
Proof. done. Qed.

#[export] Instance strings_plain : Plain (list string).
Proof.
  intros l. split; [done|]. unfold serialize, Serialize_Vec. cbn [Toml.normal].
  by induction l.
Qed.

(** ** The structs read from what was written *)

Section structs.
Implicit Types (t : Toml.table) (v : Toml.Value) (tag key : string).

Lemma sensor_config_written (c : SensorConfig.t) :
  deserialize_sensor_config (serialize_sensor_config c) = Ok (SensorConfig.with_id "" c).
Proof.
  destruct c as [id [name|] [unit|] [dc|] [icon|] disabled].
  all: unfold deserialize_sensor_config, serialize_sensor_config, field, field_opt.
  all: read_written.
Qed.

Lemma command_sensor_written (c : CommandSensor.t) :
  deserialize_command_sensor (serialize_command_sensor c) = Ok (CommandSensor.with_id "" c).
Proof.
  destruct c as [id name [unit|] [dc|] [icon|] command [args|] [post|] disabled].
  all: unfold deserialize_command_sensor, serialize_command_sensor, field, field_opt.
  all: read_written.
Qed.

Lemma sensor_written (s : Sensor.t) :
  deserialize_sensor (serialize_sensor s)
  = Ok (Sensor.mk "" (Sensor.name s) (Sensor.unit s) (Sensor.device_class s)
                  (Sensor.icon s) (Sensor.disabled s) None).
Proof.
  destruct s as [id name [unit|] [dc|] [icon|] disabled reporter].
  all: unfold deserialize_sensor, serialize_sensor, field, field_opt.
  all: read_written.
Qed.

(** The table of a [Sensor] read as a [SensorConfig]: the name is
    there, the id is not. *)
Lemma sensor_written_as_config (s : Sensor.t) :
  deserialize_sensor_config (serialize_sensor s)
  = Ok (SensorConfig.mk "" (Some (Sensor.name s)) (Sensor.unit s) (Sensor.device_class s)
                        (Sensor.icon s) (Sensor.disabled s)).
Proof.
  destruct s as [id name [unit|] [dc|] [icon|] disabled reporter].
  all: unfold deserialize_sensor_config, serialize_sensor, field, field_opt.
  all: read_written.
Qed.

(** *** Their tables *)

Lemma entries_keys fields : Toml.keys (entries fields) `sublist_of` fields.*1.
Proof.
  induction fields as [|[k [v|]] fields IH]; [done|..]; unfold entries in *; csimpl;
    by constructor.
Qed.

Lemma flat_entries fields :
  NoDup fields.*1 -> "type" ∉ fields.*1 ->
  Forall (λ kv, from_option (λ v, Toml.is_table v = false ∧ Toml.normal v = true) True kv.2)
         fields ->
  flat (entries fields).
Proof.
  intros Hnodup Htype Hall. split_and!.
  - eapply sublist_NoDup; [exact Hnodup|apply entries_keys].
  - intros Hin. eapply Htype, elem_of_sublist; [done|apply entries_keys].
  - clear Hnodup Htype. unfold entries.
    induction Hall as [|[k [v|]] fields Hv _ IH]; csimpl; [done|by constructor|done].
Qed.

Lemma option_plain `{Plain A} (o : option A) :
  from_option (λ v, Toml.is_table v = false ∧ Toml.normal v = true) True (serialize <$> o).
Proof. destruct o; [apply plain_value|done]. Qed.

(** The fields of a struct, one by one. *)
Ltac flat_struct :=
  apply flat_entries; [by apply (bool_decide_unpack _)..|];
  repeat first [apply Forall_nil_2 | apply Forall_cons_2];
  first [apply option_plain | apply (plain_value (A := _))].

Lemma sensor_config_flat (c : SensorConfig.t) : flat (serialize_sensor_config c).
Proof. flat_struct. Qed.

Lemma command_sensor_flat (c : CommandSensor.t) : flat (serialize_command_sensor c).
Proof. flat_struct. Qed.

Lemma sensor_flat (s : Sensor.t) : flat (serialize_sensor s).
Proof. flat_struct. Qed.

End structs.

(** The rest of a struct's reader after a step that may fail. *)
Ltac skip_step :=
  match goal with
  | |- ∃ e, result_bind ?r _ = Err e => destruct r; [cbn [result_bind]|by eexists]
  end.

(** ** The tagged enums *)

Section enums.
Implicit Types (t : Toml.table) (tag : string).

Lemma filter_other_keys key t : key ∉ Toml.keys t -> filter (λ kv, kv.1 ≠ key) t = t.
Proof.
  induction t as [|[k v] t IH]; [done|]. intros [Hk Ht]%not_elem_of_cons.
  rewrite filter_cons_True by (intros ?; simplify_eq/=). by rewrite IH.
Qed.

Lemma tag_of_tagged expected tag t :
  flat t -> tag_of expected (tagged tag t) = Ok (tag, t).
Proof.
  intros (_ & Htype & _). unfold tag_of, tagged. cbn [as_table result_bind Toml.get].
  rewrite bool_decide_eq_true_2 by done.
  rewrite filter_cons_False by (simpl; auto). by rewrite filter_other_keys.
Qed.

Lemma normal_tagged tag t : flat t -> Toml.normal (tagged tag t) = true.
Proof.
  intros (Hnodup & Htype & Hall). apply normal_table. split_and!.
  - by constructor.
  - cbn [Toml.plain_first Toml.is_table]. clear Hnodup Htype.
    induction Hall as [|[k v] t [Hv _] _ IH]; [done|]. cbn [Toml.plain_first]. simpl in Hv.
    by rewrite Hv.
  - constructor; [done|]. eapply Forall_impl; [done|]. by intros kv [_ ?].
Qed.

Lemma sensors_round_trip (s : Sensors.t) : deserialize (serialize s) = Ok (unnamed s).
Proof.
  destruct s as [c|c]; unfold deserialize, serialize, Deserialize_Sensors, Serialize_Sensors.
  - rewrite tag_of_tagged by apply sensor_config_flat. cbn [result_bind fst snd].
    rewrite bool_decide_eq_true_2 by done. by rewrite sensor_config_written.
  - rewrite tag_of_tagged by apply command_sensor_flat. cbn [result_bind fst snd].
    rewrite bool_decide_eq_false_2, bool_decide_eq_true_2 by done.
    by rewrite command_sensor_written.
Qed.

Lemma sensors_normal (s : Sensors.t) :
  Toml.is_table (serialize s) = true ∧ Toml.normal (serialize s) = true.
Proof.
  destruct s; (split; [done|]); apply normal_tagged;
    [apply sensor_config_flat|apply command_sensor_flat].
Qed.

Lemma sensors_dump_normal (d : SensorsDump.t) :
  Toml.is_table (serialize d) = true ∧ Toml.normal (serialize d) = true.
Proof. destruct d. split; [done|]. apply normal_tagged, sensor_flat. Qed.

(** *** A field that is not there *)

Lemma field_missing {A} `{!Deserialize A} name t :
  Toml.get name t = None -> field (A := A) name t = Err (MissingField name).
Proof. unfold field. by intros ->. Qed.

Lemma get_filter_None key (P : string * Toml.Value -> Prop) `{!∀ kv, Decision (P kv)} t :
  Toml.get key t = None -> Toml.get key (filter P t) = None.
Proof.
  rewrite !get_None. intros Hkey Hin. apply Hkey. unfold Toml.keys in *.
  apply list_elem_of_fmap in Hin as (kv & -> & [_ Hin]%list_elem_of_filter).
  by apply list_elem_of_fmap_2.
Qed.

Lemma sensor_config_needs_disabled t :
  Toml.get "disabled" t = None -> ∃ e, deserialize_sensor_config t = Err e.
Proof.
  intros Hget. unfold deserialize_sensor_config. rewrite (field_missing "disabled") by done.
  repeat skip_step. by eexists.
Qed.

Lemma command_sensor_needs_disabled t :
  Toml.get "disabled" t = None -> ∃ e, deserialize_command_sensor t = Err e.
Proof.
  intros Hget. unfold deserialize_command_sensor. rewrite (field_missing "disabled") by done.
  repeat skip_step. by eexists.
Qed.

End enums.

(** ** Maps *)

Section maps.
Context `{!HashOrder}.

Lemma collect_list_to_map {A} (l : list (string * A)) :
  NoDup l.*1 -> collect l = list_to_map l.
Proof.
  unfold collect. induction l as [|[k a] l IH] using rev_ind; [done|].
  rewrite fmap_app. intros [Hl [Hk _]]%NoDup_app. rewrite foldl_app. simpl.
  rewrite list_to_map_snoc, IH; [done..|]. intros Hin. apply (Hk k Hin). by left.
Qed.

Lemma hash_entries_nodup {A} (m : gmap string A) : NoDup (hash_entries m).*1.
Proof. rewrite hash_entries_perm. apply NoDup_fst_map_to_list. Qed.

Lemma deserialize_entries_written {A B} `{!Serialize A, !Deserialize B} (f : A -> B)
    (l : list (string * A)) :
  (∀ a, deserialize (serialize a) = Ok (f a)) ->
  deserialize_entries ((λ kv : string * A, (kv.1, serialize kv.2)) <$> l)
  = Ok (prod_map id f <$> l).
Proof.
  intros Hf. induction l as [|[k a] l IH]; [done|].
  cbn [fmap list_fmap deserialize_entries fst snd]. by rewrite Hf, IH.
Qed.

(** A map read from what was written: entry by entry. *)
Lemma hash_map_written {A B} `{!Serialize A, !Deserialize B} (f : A -> B)
    (m : gmap string A) :
  (∀ a, deserialize (serialize a) = Ok (f a)) ->
  deserialize (A := gmap string B) (serialize m) = Ok (f <$> m).
Proof.
  intros Hf. unfold deserialize at 1, serialize at 1, Deserialize_HashMap, Serialize_HashMap.
  cbn [as_table result_bind]. rewrite (deserialize_entries_written f) by done.
  cbn [result_bind]. f_equal. rewrite collect_list_to_map.
  - rewrite list_to_map_fmap. f_equal. rewrite <-(list_to_map_to_list m) at 2.
    apply list_to_map_proper; [apply hash_entries_nodup|apply hash_entries_perm].
  - rewrite <-list_fmap_compose. apply hash_entries_nodup.
Qed.

#[export] Instance hash_map_round_trip `{RoundTrip A} : RoundTrip (gmap string A).
Proof. intros m. rewrite (hash_map_written id) by apply round_trip. by rewrite map_fmap_id. Qed.

Lemma hash_map_normal {A} `{!Serialize A} (m : gmap string A) :
  (∀ a, Toml.is_table (serialize a) = true ∧ Toml.normal (serialize a) = true) ->
  Toml.normal (serialize m) = true.
Proof.
  intros Ha. unfold serialize at 1, Serialize_HashMap. apply normal_table. split_and!.
  - unfold Toml.keys. rewrite <-list_fmap_compose. apply hash_entries_nodup.
  - induction (hash_entries m) as [|[k a] l IH]; [done|].
    cbn [fmap list_fmap Toml.plain_first fst snd]. rewrite (proj1 (Ha a)).
    clear IH. induction l as [|[k' a'] l IH]; [done|]. simpl. by rewrite (proj1 (Ha a')).
  - apply Forall_fmap, Forall_forall. intros kv _. apply Ha.
Qed.

End maps.

(** ** Documents *)

Section documents.
Context `{!HashOrder}.

Lemma read_sensors_written {A B} `{!Serialize A, !Deserialize B} (f : A -> B) expected
    (m : gmap string A) :
  (∀ a, deserialize (serialize a) = Ok (f a)) ->
  read_sensors (A := B) expected (Toml.Table [("sensors", serialize m)]) = Ok (f <$> m).
Proof. intros Hf. unfold read_sensors, field. simpl. by apply hash_map_written. Qed.

Lemma document_normal (v : Toml.Value) :
  Toml.normal v = true -> Toml.normal (Toml.Table [("sensors", v)]) = true.
Proof.
  intros Hv. apply normal_table. split_and!.
  - apply NoDup_singleton.
  - simpl. by destruct (Toml.is_table v).
  - by constructor.
Qed.

(** The text of a value read: the value's tree read. *)
Lemma text_as_tree {A} (B : Type) `{!Serialize A, !Deserialize B} (a : A) :
  Toml.is_table (serialize a) = true -> Toml.normal (serialize a) = true ->
  from_str B (to_string a) = deserialize (serialize a).
Proof.
  unfold from_str, to_string. destruct (serialize a) as [| | |t]; try done. intros _ Hnormal.
  simpl. by rewrite from_str_to_string.
Qed.

Lemma assign_ids_unnamed (sensors : gmap string Sensors.t) :
  ids_assigned sensors -> assign_ids (unnamed <$> sensors) = sensors.
Proof.
  intros Hids. apply map_eq. intros key. unfold assign_ids.
  rewrite map_lookup_imap, lookup_fmap.
  destruct (sensors !! key) as [s|] eqn:E; [|done]. apply Hids in E as <-. by destruct s as [[]|[]].
Qed.

(** What the reader of the program gives is the field [sensors] of the
    [Config] read. *)
Lemma toml_crate_config text :
  deserialize_sensors (toml_from_str text)
  = match from_str Config.t text with
    | Ok c => Ok (Config.sensors c)
    | Err e => Err (error_message e)
    end.
Proof.
  unfold from_str, deserialize, Deserialize_Config. simpl.
  destruct (Toml.from_str text) as [doc|e]; [|done].
  by destruct (read_sensors _ _).
Qed.

End documents.

(** ** Properties *)

Section properties.
Context `{!HashOrder}.

(** C24: a configuration whose entries carry their keys as ids is read
    from its text as it was: every override and command entry, with
    every optional field present or absent as it was. *)
Theorem config_text_round_trip (c : Config.t) :
  ids_assigned (Config.sensors c) -> from_str Config.t (to_string c) = Ok c.
Proof.
  intros Hids. rewrite text_as_tree; [|done|apply document_normal, hash_map_normal, sensors_normal].
  unfold deserialize, serialize at 1, Deserialize_Config, Serialize_Config.
  rewrite (read_sensors_written unnamed) by apply sensors_round_trip.
  simpl. rewrite assign_ids_unnamed by done. by destruct c.
Qed.

(** C23: an entry of the [sensors] table that does not spell out
    [disabled] is not read, whatever its type and its other fields: the
    field has no default. *)
Theorem sensors_need_disabled (t : Toml.table) :
  Toml.get "disabled" t = None -> ∃ e, deserialize (A := Sensors.t) (Toml.Table t) = Err e.
Proof.
  intros Hget. unfold deserialize, Deserialize_Sensors, tag_of. cbn [as_table result_bind].
  destruct (Toml.get "type" t) as [[tag| | |]|]; try by eexists.
  cbn [result_bind fst snd]. apply (get_filter_None _ (λ kv, kv.1 ≠ "type")) in Hget.
  repeat case_bool_decide; [| |by eexists].
  - destruct (sensor_config_needs_disabled _ Hget) as [e ->]. by eexists.
  - destruct (command_sensor_needs_disabled _ Hget) as [e ->]. by eexists.
Qed.

End properties.

(** The configuration of [Override], written and read. *)
Lemma config_text_round_trip_witness :
  from_str Config.t (to_string example_config) = Ok example_config.
Proof. apply (config_text_round_trip example_config), example_config_assigned. Defined.

(** An override of a name only. *)
Lemma sensors_need_disabled_witness :
  ∃ e, deserialize (A := Sensors.t)
         (Toml.Table [("type", Toml.String "override"); ("name", Toml.String "Temperature")])
       = Err e.
Proof. by apply sensors_need_disabled. Defined.

Example sensors_without_disabled :
  deserialize (A := Sensors.t)
    (Toml.Table [("type", Toml.String "override"); ("name", Toml.String "Temperature")])
  = Err (MissingField "disabled").
Proof. by vm_compute. Qed.

(** A file without a [sensors] table, the empty file for one, is not a
    configuration: the field has no default. *)
Example config_needs_sensors : from_str Config.t "" = Err (MissingField "sensors").
Proof. by vm_compute. Qed.

(** An [id] written in an entry is not read: the key is the id. *)
Example sensors_id_key_ignored :
  deserialize (A := Sensors.t)
    (Toml.Table [("type", Toml.String "override"); ("id", Toml.String "other");
                 ("disabled", Toml.Boolean true)])
  = Ok (Sensors.SensorOverride (SensorConfig.mk "" None None None None true)).
Proof. by vm_compute. Qed.
