(* ===== verification/Dump.v ===== *)
(** The dump of the sensor list used as a configuration: what
    [dump_sensors_toml] writes, read back through the [sensors] table of
    a configuration file, and applied to the catalogue again. *)

From Stdlib Require Import ZArith Ascii String.
From stdpp Require Import base tactics option list numbers gmap strings.
From S2P Require Import Prelude RustStr RustNum RustFloat Json Toml TomlDoc.
From S2P Require Import World Hoare Config Catalog Override Publisher Serde.

(** The entry a dumped sensor is read back as.  The dump prints a
    sensor's name, unit, device class, icon and disabled flag under the
    tag [override]; the id and the reporter are skipped, and the reader
    leaves the id empty until [deserialize_sensors] assigns the key. *)
Definition as_override (s : Sensor.t) : SensorConfig.t := {|
  SensorConfig.id := "";
  SensorConfig.name := Some (Sensor.name s);
  SensorConfig.unit := Sensor.unit s;
  SensorConfig.device_class := Sensor.device_class s;
  SensorConfig.icon := Sensor.icon s;
  SensorConfig.disabled := Sensor.disabled s;
|}.

Definition dump_entry (d : SensorsDump.t) : Sensors.t :=
  match d with
  | SensorsDump.SensorOverride s => Sensors.SensorOverride (as_override s)
  end.

(** The configuration a dump reads as. *)
Definition dump_as_config (dump : gmap string SensorsDump.t) : Config.t :=
  Config.mk (assign_ids (dump_entry <$> dump)).

(** What a file holds of a dumped sensor: the attributes of [Sensor]
    skip the id and the reporter, which a reader gets as the
    defaults. *)
Definition on_file (d : SensorsDump.t) : SensorsDump.t :=
  match d with
  | SensorsDump.SensorOverride s =>
      SensorsDump.SensorOverride
        (Sensor.mk "" (Sensor.name s) (Sensor.unit s) (Sensor.device_class s)
                   (Sensor.icon s) (Sensor.disabled s) None)
  end.

Definition without_reporter (d : SensorsDump.t) : SensorsDump.t :=
  match d with
  | SensorsDump.SensorOverride s =>
      SensorsDump.SensorOverride
        (Sensor.mk (Sensor.id s) (Sensor.name s) (Sensor.unit s) (Sensor.device_class s)
                   (Sensor.icon s) (Sensor.disabled s) None)
  end.

(** [s] is [s0] after patches: same id and reporter, no optional field
    lost, not enabled again. *)
Definition patched_from (s0 s : Sensor.t) : Prop :=
  Sensor.id s = Sensor.id s0 ∧ Sensor.reporter s = Sensor.reporter s0 ∧
  (Sensor.unit s = None -> Sensor.unit s0 = None) ∧
  (Sensor.device_class s = None -> Sensor.device_class s0 = None) ∧
  (Sensor.icon s = None -> Sensor.icon s0 = None) ∧
  (Sensor.disabled s0 = true -> Sensor.disabled s = true).

Section dump_facts.
Implicit Types (s base : Sensor.t) (l : list Sensor.t) (p : SensorConfig.t).

Lemma dump_of_snoc l s :
  dump_of (l ++ [s]) = <[Sensor.id s := SensorsDump.SensorOverride s]> (dump_of l).
Proof. unfold dump_of. by rewrite foldl_app. Qed.

Lemma dump_of_lookup l s :
  NoDup (Sensor.id <$> l) -> s ∈ l ->
  dump_of l !! Sensor.id s = Some (SensorsDump.SensorOverride s).
Proof.
  induction l as [|x l IH] using rev_ind; [by intros _ ?%elem_of_nil|].
  rewrite fmap_app, dump_of_snoc. intros (Hl & Hx & _)%NoDup_app.
  intros [Hs| ->%list_elem_of_singleton]%elem_of_app; [|by rewrite lookup_insert_eq].
  rewrite lookup_insert_ne; [by apply IH|].
  intros Heq. apply (Hx (Sensor.id s)); [by apply list_elem_of_fmap_2|].
  rewrite <-Heq. by left.
Qed.

Lemma dump_of_keys l key :
  is_Some (dump_of l !! key) -> key ∈ Sensor.id <$> l.
Proof.
  induction l as [|x l IH] using rev_ind; [by intros [? ?]|].
  rewrite fmap_app, dump_of_snoc, elem_of_app.
  destruct (decide (Sensor.id x = key)) as [<-|Hne].
  - intros _. right. by left.
  - rewrite lookup_insert_ne by done. auto.
Qed.

(** The keys of the dump are the ids of its sensors. *)
Lemma dump_of_ids l key s :
  dump_of l !! key = Some (SensorsDump.SensorOverride s) -> Sensor.id s = key.
Proof.
  revert s. induction l as [|x l IH] using rev_ind; intros s; [done|].
  rewrite dump_of_snoc. destruct (decide (Sensor.id x = key)) as [<-|Hne].
  - rewrite lookup_insert_eq. by intros [= ->].
  - rewrite lookup_insert_ne by done. apply IH.
Qed.

Lemma patched_from_refl s : patched_from s s.
Proof. by repeat split. Qed.

Lemma patched_from_patch base s p : patched_from base s -> patched_from base (apply_patch s p).
Proof.
  intros (Hid & Hrep & Hunit & Hclass & Hicon & Hdis). unfold apply_patch.
  split_and!; simpl; [done..| | | |].
  - destruct (SensorConfig.unit p); [done|auto].
  - destruct (SensorConfig.device_class p); [done|auto].
  - destruct (SensorConfig.icon p); [done|auto].
  - intros ->%Hdis. apply orb_true_r.
Qed.

Lemma patched_from_overrides sensor_config base :
  ids_assigned (Config.sensors sensor_config) ->
  patched_from base (apply_overrides sensor_config base).
Proof.
  intros Hids. rewrite apply_overrides_patches by done.
  destruct (override_at _ (star_id _)), (override_at _ (Sensor.id base)); simpl;
    auto using patched_from_refl, patched_from_patch.
Qed.

(** A sensor's own dump entry, applied to the sensor it was patched
    from, gives the sensor back. *)
Lemma apply_patch_as_override base s key :
  patched_from base s -> apply_patch base (SensorConfig.with_id key (as_override s)) = s.
Proof.
  intros (Hid & Hrep & Hunit & Hclass & Hicon & Hdis).
  destruct base as [i0 n0 u0 c0 ic0 d0 r0], s as [i n u c ic d r]; simpl in *. subst.
  unfold apply_patch; simpl. f_equal.
  - destruct u; [done|]. by rewrite Hunit.
  - destruct c; [done|]. by rewrite Hclass.
  - destruct ic; [done|]. by rewrite Hicon.
  - destruct d0; [by rewrite Hdis|apply orb_false_r].
Qed.

Lemma dump_as_config_assigned dump : ids_assigned (Config.sensors (dump_as_config dump)).
Proof. apply assign_ids_assigned. Qed.

Lemma dump_as_config_lookup dump key :
  Config.sensors (dump_as_config dump) !! key =
    (λ d, match d with
          | SensorsDump.SensorOverride s =>
              Sensors.SensorOverride (SensorConfig.with_id key (as_override s))
          end) <$> dump !! key.
Proof.
  unfold dump_as_config. simpl. rewrite assign_ids_lookup, lookup_fmap.
  by destruct (dump !! key) as [[]|].
Qed.

(** An entry of the dump read as an entry of a configuration, and as
    an entry of a dump. *)
Lemma dump_entry_read (d : SensorsDump.t) :
  deserialize (A := Sensors.t) (serialize d) = Ok (dump_entry d).
Proof.
  destruct d as [s]. unfold deserialize, serialize, Deserialize_Sensors, Serialize_SensorsDump.
  rewrite tag_of_tagged by apply sensor_flat. cbn [result_bind fst snd].
  rewrite bool_decide_eq_true_2 by done. by rewrite sensor_written_as_config.
Qed.

Lemma on_file_read (d : SensorsDump.t) : deserialize (serialize d) = Ok (on_file d).
Proof.
  destruct d as [s]. unfold deserialize, serialize, Deserialize_SensorsDump, Serialize_SensorsDump.
  rewrite tag_of_tagged by apply sensor_flat. cbn [result_bind fst snd].
  rewrite bool_decide_eq_true_2 by done. by rewrite sensor_written.
Qed.

End dump_facts.

Section dump_properties.
Context `{!FloatText, !HashOrder}.
Implicit Types (sensor_config : Config.t) (catalogue : list Sensor.t).

(** A dump holds no command entry. *)
Lemma dump_command_sensors dump : command_sensors (dump_as_config dump) = [].
Proof.
  rewrite command_sensors_omap.
  assert (Forall (λ v : Sensors.t, command_of v = None)
            (hash_entries (Config.sensors (dump_as_config dump))).*2) as Hall.
  { apply Forall_fmap, Forall_forall. intros [key v] Hin. simpl.
    rewrite hash_entries_perm in Hin. apply elem_of_map_to_list in Hin.
    rewrite dump_as_config_lookup in Hin.
    by destruct (dump !! key) as [[]|]; simplify_eq/=. }
  induction Hall as [|v vs Hv _ IH]; csimpl; [done|]. by rewrite Hv, IH.
Qed.

(** The dump of the final sensor list, used as the configuration of
    a later run over the same catalogue, reproduces every catalogue
    sensor as the first configuration left it: name, unit, device
    class, icon and disabled flag.  The command sensors are not
    reproduced: the dump records them as overrides, which match no
    catalogue sensor, so the later run's list is the first run's list
    without them.  (The ids of the first run's list are assumed pairwise
    distinct and free of the wildcard marker.) *)
Theorem dump_reapply sensor_config catalogue :
  let final := configure (Some sensor_config) catalogue in
  ids_assigned (Config.sensors sensor_config) ->
  NoDup (Sensor.id <$> final) ->
  Forall (λ s, Str.contains (Sensor.id s) "_*_" = false) final ->
  configure (Some (dump_as_config (dump_of final))) catalogue
  = apply_overrides sensor_config <$> catalogue.
Proof.
  intros final Hids Hnodup Hplain. unfold configure at 1.
  rewrite dump_command_sensors, app_nil_r. apply list_fmap_ext. intros _ s0 Hs0%list_elem_of_lookup_2.
  set (s := apply_overrides sensor_config s0).
  assert (s ∈ final) as Hs
    by (apply elem_of_app; left; by apply list_elem_of_fmap_2).
  assert (patched_from s0 s) as Hpatched by by apply patched_from_overrides.
  rewrite apply_overrides_patches by apply dump_as_config_assigned.
  unfold override_at. rewrite !dump_as_config_lookup.
  assert (dump_of final !! star_id (Sensor.id s0) = None) as ->.
  { apply eq_None_not_Some. intros (s' & Heq & Hs')%dump_of_keys%list_elem_of_fmap.
    rewrite Forall_forall in Hplain. apply Hplain in Hs'.
    by rewrite <-Heq, star_id_contains in Hs'. }
  destruct Hpatched as [Hid ?]. rewrite <-Hid, dump_of_lookup by done. simpl.
  apply apply_patch_as_override. by split.
Qed.

(** The entries of a dump as a file holds them, with their keys as
    ids again: the entries of the dump without the reporters, because
    the keys of the dump are the ids of its sensors. *)
Lemma dump_assign_ids_on_file (sensors : list Sensor.t) :
  dump_assign_ids (on_file <$> dump_of sensors) = without_reporter <$> dump_of sensors.
Proof.
  apply map_eq. intros key. unfold dump_assign_ids. rewrite map_lookup_imap, !lookup_fmap.
  destruct (dump_of sensors !! key) as [[s]|] eqn:E; [|done]. simpl.
  by apply dump_of_ids in E as <-.
Qed.

(** The text [dump_sensors_toml] writes, read as a configuration file:
    it parses, and the configuration has one override entry per sensor
    of the dump, under the sensor's key, that carries the sensor's
    name, unit, device class, icon and disabled flag. *)
Lemma dump_read_as_config (dump : gmap string SensorsDump.t) :
  Serde.from_str Config.t (Serde.to_string (ConfigDump.mk dump)) = Ok (dump_as_config dump).
Proof.
  rewrite text_as_tree; [|done|apply document_normal, hash_map_normal, sensors_dump_normal].
  unfold deserialize, serialize at 1, Deserialize_Config, Serialize_ConfigDump,
    dump_serialize_sensors.
  by rewrite (read_sensors_written dump_entry) by apply dump_entry_read.
Qed.

(** The text of the dump of a sensor list read as a dump: it
    parses, and gives the dump itself without the reporters.  The ids,
    which the text does not hold, come back from the keys, whatever the
    sensor list. *)
Theorem dump_text_round_trip (sensors : list Sensor.t) :
  Serde.from_str ConfigDump.t (Serde.to_string (ConfigDump.mk (dump_of sensors)))
  = Ok (ConfigDump.mk (without_reporter <$> dump_of sensors)).
Proof.
  rewrite text_as_tree; [|done|apply document_normal, hash_map_normal, sensors_dump_normal].
  unfold deserialize, serialize at 1, Deserialize_ConfigDump, Serialize_ConfigDump.
  unfold dump_serialize_sensors at 1.
  rewrite (read_sensors_written on_file) by apply on_file_read.
  simpl. by rewrite dump_assign_ids_on_file.
Qed.

(** [load_config] with the reader of [Serde]: the file is read and its
    text is read as a [Config]. *)
Lemma load_config_reads file ω σ :
  load_config file ω σ
  = match fs_read_to_string ω (history σ) file with
    | Ok text =>
        match Serde.from_str Config.t text with
        | Ok config => Returned config (record (EvReadFile file) σ)
        | Err _ => Panicked "Failed to parse config file" (record (EvReadFile file) σ)
        end
    | Err _ => Panicked "Failed to read config file" (record (EvReadFile file) σ)
    end.
Proof.
  unfold load_config, mbind, M_bind, bind, call. cbv beta iota.
  destruct (fs_read_to_string _ _ _) as [text|]; [|done]. rewrite toml_crate_config.
  by destruct (Serde.from_str _ _) as [[]|].
Qed.

(** [dump_sensors_toml] with the printer of [Serde]: after the sensor
    list is built, the text of its dump is written to the file, and the
    outcome of the write is returned. *)
Lemma dump_sensors_toml_writes self filename ω σ :
  dump_sensors_toml self filename ω σ
  = match sensors self ω σ with
    | Returned l σ1 =>
        let text := Serde.to_string (ConfigDump.mk (dump_of l)) in
        Returned (fs_write ω (history σ1) filename text) (record (EvWriteFile filename text) σ1)
    | Panicked msg σ1 => Panicked msg σ1
    end.
Proof. unfold dump_sensors_toml, mbind, M_bind, bind. by destruct (sensors self ω σ). Qed.

(** [load_config] on a file that holds the text [dump_sensors_toml]
    wrote of a dump returns the configuration that has one override
    entry per sensor of the dump, under the sensor's key, with the
    sensor's name, unit, device class, icon and disabled flag; it does
    nothing but read the file. *)
Theorem load_config_of_dump file (dump : gmap string SensorsDump.t) ω σ :
  fs_read_to_string ω (history σ) file = Ok (Serde.to_string (ConfigDump.mk dump)) ->
  load_config file ω σ = Returned (dump_as_config dump) (record (EvReadFile file) σ).
Proof.
  intros Hread. by rewrite load_config_reads, Hread, dump_read_as_config.
Qed.

(** C22: the dump file of a run, used as the configuration file of a
    later run over the same catalogue: [load_config] parses the text
    [dump_sensors_toml] wrote and does nothing but read the file, and
    the configuration it returns reproduces every catalogue sensor as
    the first configuration left it: name, unit, device class, icon and
    disabled flag.  The command sensors are not reproduced: the dump
    records them as overrides, which match no catalogue sensor.  (The
    ids of the first run's list are assumed pairwise distinct and free
    of the wildcard marker.) *)
Theorem dump_reloaded sensor_config catalogue file ω σ :
  let final := configure (Some sensor_config) catalogue in
  ids_assigned (Config.sensors sensor_config) ->
  NoDup (Sensor.id <$> final) ->
  Forall (λ s, Str.contains (Sensor.id s) "_*_" = false) final ->
  fs_read_to_string ω (history σ) file = Ok (Serde.to_string (ConfigDump.mk (dump_of final))) ->
  ∃ config,
    load_config file ω σ = Returned config (record (EvReadFile file) σ) ∧
    configure (Some config) catalogue = apply_overrides sensor_config <$> catalogue.
Proof.
  intros final Hids Hnodup Hplain Hread. exists (dump_as_config (dump_of final)). split.
  - by apply load_config_of_dump.
  - by apply dump_reapply.
Qed.

End dump_properties.

(** The configuration and the memory sensor of the container [web] of
    [Override]: the sensor comes back from the dump as it was
    configured, the command sensor [backup_age] does not. *)
Lemma dump_reapply_witness :
  configure (Some (dump_as_config
                     (dump_of (configure (Some example_config) [example_web_memory]))))
            [example_web_memory]
  = apply_overrides example_config <$> [example_web_memory].
Proof.
  apply (dump_reapply example_config [example_web_memory]).
  - apply example_config_assigned.
  - apply (bool_decide_unpack _). by vm_compute.
  - apply (bool_decide_unpack _). by vm_compute.
Defined.

(** The dump of the configured memory sensor of [web] and of the
    command sensor [backup_age], on a file. *)
Definition example_dump : gmap string SensorsDump.t :=
  dump_of (configure (Some example_config) [example_web_memory]).

Definition example_world_dumped : Oracle :=
  with_files
    (λ _ file, if bool_decide (file = "sensors.toml")
               then Ok (Serde.to_string (ConfigDump.mk example_dump))
               else Err "no such file")
    quiet_world.

Lemma load_config_of_dump_witness :
  load_config "sensors.toml" example_world_dumped initial_state
  = Returned (dump_as_config example_dump) (record (EvReadFile "sensors.toml") initial_state).
Proof. by apply (load_config_of_dump "sensors.toml" example_dump). Defined.

Lemma dump_reloaded_witness :
  ∃ config,
    load_config "sensors.toml" example_world_dumped initial_state
    = Returned config (record (EvReadFile "sensors.toml") initial_state) ∧
    configure (Some config) [example_web_memory]
    = apply_overrides example_config <$> [example_web_memory].
Proof.
  apply (dump_reloaded example_config [example_web_memory] "sensors.toml").
  - apply example_config_assigned.
  - apply (bool_decide_unpack _). by vm_compute.
  - apply (bool_decide_unpack _). by vm_compute.
  - done.
Defined.

(** The text of that dump. *)
Example example_dump_text :
  Toml.print_lines (Serde.document (serialize (ConfigDump.mk example_dump)))
  = [ "[sensors.backup_age]";
      "type = " +:+ Toml.quoted "override";
      "name = " +:+ Toml.quoted "Backup age";
      "unit = " +:+ Toml.quoted "d";
      "disabled = false";
      "";
      "[sensors.dockercontainer_web_memory]";
      "type = " +:+ Toml.quoted "override";
      "name = " +:+ Toml.quoted "Web memory";
      "unit = " +:+ Toml.quoted "MiB";
      "device_class = " +:+ Toml.quoted "data_size";
      "icon = " +:+ Toml.quoted "mdi:memory";
      "disabled = true" ].
Proof. by vm_compute. Qed.
