(* ===== verification/Tests.v ===== *)
(** The integration tests of [src/tests/config.rs]: a configuration file
    is parsed, a dump is generated, and a dump is parsed and generated
    again.  A test is a value of [result unit string]: it passes, or it
    panics with a message.  The tests run on the reader and the printer
    of [Serde]. *)

From Stdlib Require Import ZArith Ascii String.
From stdpp Require Import base tactics option list numbers gmap strings.
From S2P Require Import Prelude RustStr Toml TomlDoc Config Override Serde.

(** ** The harness *)

(** [r.expect(msg)] *)
Definition expect {A E} (r : result A E) (msg : string) : result A string :=
  match r with
  | Ok a => Ok a
  | Err _ => Err msg
  end.

(** [assert!(b)] and [assert_eq!(a, b)] *)
Definition assert (b : bool) : result unit string :=
  if b then Ok tt else Err "assertion failed".

Definition assert_eq {A} `{!EqDecision A} (left right : A) : result unit string :=
  if bool_decide (left = right) then Ok tt else Err "assertion `left == right` failed".

(** A line [key = "value"]. *)
Definition entry (key value : string) : string := key +:+ " = " +:+ Toml.quoted value.

(** ** The tests *)

(** [example_toml]: the raw string, which begins with a line break. *)
Definition example_toml : string :=
  Toml.unlines
    [ "";
      "[sensors.temp_sensor]";
      entry "type" "override";
      entry "name" "Temperature";
      entry "unit" "°C";
      entry "device_class" "temperature";
      entry "icon" "mdi:thermometer";
      "disabled = false";
      "";
      "[sensors.disk_sensor]";
      entry "type" "override";
      entry "name" "Disk Usage";
      entry "unit" "%";
      entry "icon" "mdi:harddisk";
      "disabled = false";
      "";
      "[sensors.disk_command]";
      entry "type" "command";
      entry "name" "Disk Usage";
      entry "unit" "%";
      entry "command" "df" +:+ " ";
      "args = [" +:+ Toml.quoted "-h" +:+ ", " +:+ Toml.quoted "/mnt/user/appdata" +:+ "]";
      entry "icon" "mdi:harddisk";
      "disabled = false" ].

(** [test_parse_config]; the index [config.sensors["temp_sensor"]]
    panics when the key is not there. *)
Definition test_parse_config : result unit string :=
  (let toml_str := example_toml in
   let? config := expect (from_str Config.t toml_str) "Failed to parse config TOML" in
   let? _ := assert_eq (size (Config.sensors config)) 3 in
   match Config.sensors config !! "temp_sensor" with
   | Some (Sensors.SensorOverride sc) =>
       let? _ := assert_eq (SensorConfig.name sc) (Some "Temperature") in
       let? _ := assert_eq (SensorConfig.unit sc) (Some "°C") in
       let? _ := assert_eq (DeviceClass.ident <$> SensorConfig.device_class sc)
                           (Some "Temperature") in
       let? _ := assert_eq (SensorConfig.icon sc) (Some "mdi:thermometer") in
       assert (negb (SensorConfig.disabled sc))
   | Some _ => Err "Expected SensorOverride"
   | None => Err "key not found"
   end)%rs.

(** The sensor [test_generate_config_dump] puts in its dump. *)
Definition temp_sensor : Sensor.t := {|
  Sensor.id := "temp_sensor";
  Sensor.name := "Temperature";
  Sensor.unit := Some "°C";
  Sensor.device_class := Some DeviceClass.Temperature;
  Sensor.icon := Some "mdi:thermometer";
  Sensor.disabled := false;
  Sensor.reporter := None;
|}.

Section tests.
Context `{!HashOrder}.

(** [test_generate_config_dump] *)
Definition test_generate_config_dump : result unit string :=
  (let sensors : gmap string SensorsDump.t := ∅ in
   let sensors := <["temp_sensor" := SensorsDump.SensorOverride temp_sensor]> sensors in
   let config_dump := ConfigDump.mk sensors in
   let? toml_str := expect (Ok (E := string) (to_string config_dump))
                           "Failed to serialize ConfigDump" in
   let? _ := assert (Str.contains toml_str "temp_sensor") in
   assert (Str.contains toml_str "Temperature"))%rs.

(** [test_round_trip_config_dump] *)
Definition test_round_trip_config_dump : result unit string :=
  (let toml_str :=
     Toml.unlines
       [ "";
         "[sensors.temp_sensor]";
         entry "type" "override";
         entry "name" "Temperature";
         entry "unit" "°C";
         entry "device_class" "temperature";
         entry "icon" "mdi:thermometer";
         "disabled = false" ] in
   let? config_dump := expect (from_str ConfigDump.t toml_str)
                              "Failed to parse ConfigDump TOML" in
   let? toml_out := expect (Ok (E := string) (to_string config_dump))
                           "Failed to serialize ConfigDump" in
   let? _ := assert (Str.contains toml_out "temp_sensor") in
   assert (Str.contains toml_out "Temperature"))%rs.

(** ** Facts *)

(** A map of one entry has one iteration order. *)
Lemma hash_entries_singleton {A} (key : string) (a : A) :
  hash_entries (<[key := a]> ∅) = [(key, a)].
Proof.
  apply Permutation_singleton_r. by rewrite hash_entries_perm, insert_empty, map_to_list_singleton.
Qed.

(** The text of a dump of one entry. *)
Lemma to_string_singleton (key : string) (d : SensorsDump.t) :
  to_string (ConfigDump.mk (<[key := d]> ∅))
  = Toml.to_string [("sensors", Toml.Table [(key, serialize d)])].
Proof.
  unfold to_string, serialize at 1, Serialize_ConfigDump, dump_serialize_sensors.
  cbn [ConfigDump.sensors document]. unfold serialize at 1, Serialize_HashMap.
  by rewrite hash_entries_singleton.
Qed.

(** ** The tests run

    The three tests pass on the model, whatever the iteration order of
    the hash maps (the maps of the tests have one entry): the example
    file is read as three entries of which [temp_sensor] is the override
    the test expects, and the text of the dump names the sensor's key
    and its name, both when the dump is built and when it is read from
    its text. *)
Theorem tests_pass :
  test_parse_config = Ok tt ∧ test_generate_config_dump = Ok tt
  ∧ test_round_trip_config_dump = Ok tt.
Proof.
  split_and!; [by vm_compute|..].
  - unfold test_generate_config_dump. cbv zeta. rewrite to_string_singleton. by vm_compute.
  - unfold test_round_trip_config_dump. cbv zeta.
    match goal with
    | |- context [from_str ConfigDump.t ?text] =>
        replace (from_str ConfigDump.t text)
          with (Ok (E := DeError)
                  (ConfigDump.mk (<["temp_sensor" := SensorsDump.SensorOverride temp_sensor]> ∅)))
          by by vm_compute
    end.
    cbn [expect result_bind]. rewrite to_string_singleton. by vm_compute.
Qed.

End tests.
