(* ===== verification/Pass.v ===== *)
(** The value pass as a whole: [UnraidStats::publish_stats] of
    [src/src/unraid_stats.rs] composed with the sensor list of
    [UnraidStats::sensors] and the reporters of [src/src/config.rs].

    - Well-formedness of the sensor list: every sensor has a value
      source, and a container sensor holds a listed container and the
      cache cell allocated for that container.  The ids of the list
      are pairwise distinct under the conditions the catalogue and the
      override engine need.
    - The statistics queries of a pass: with a stream that gives a
      sample, at most one query per container; with a stream that
      never gives one, one query per enabled sensor of the container.
    - Progress: a pass that returns has read every enabled sensor and
      handed every value read to the transport. *)

From Stdlib Require Import ZArith Ascii String.
From stdpp Require Import base tactics option list numbers gmap strings.
From S2P Require Import Prelude RustStr RustNum RustFloat Json World Hoare.
From S2P Require Import Config Catalog Override Reporter Cli Publisher.

(** ** Vocabulary *)

(** A container reporter of the list built over the containers
    [containers], whose cells start at [base]: it holds the [i]-th
    container and the [i]-th cell, for some [i]. *)
Definition reporter_wf (base : nat) (containers : list ContainerSummary.t)
    (source : SensorReporterType.t) : Prop :=
  match source with
  | SensorReporterType.DockerContainer r =>
      ∃ i, DockerContainerSensorReporter.stats_stash r = (base + i)%nat ∧
           containers !! i = Some (DockerContainerSensorReporter.container r)
  | _ => True
  end.

Definition sensor_wf (base : nat) (containers : list ContainerSummary.t)
    (s : Sensor.t) : Prop :=
  ∃ source, Sensor.reporter s = Some source ∧ reporter_wf base containers source.

(** The cells of the containers are allocated in the store. *)
Definition cells_allocated (base : nat) (containers : list ContainerSummary.t)
    (σ : State) : Prop :=
  ∀ i, (i < length containers)%nat -> is_Some (stashes σ !! (base + i)%nat).

(** The statistics queries for the container [cid] in a history. *)
Definition is_stats_query (cid : string) (ev : Event) : bool :=
  match ev with
  | EvStats id => bool_decide (id = cid)
  | _ => false
  end.

Definition stats_queries (cid : string) (h : list Event) : nat :=
  length (filter (λ ev, is_stats_query cid ev = true) h).

(** The sensors whose round asks the engine for the statistics of the
    container [cid] when the cell is empty: the enabled container
    sensors of a container with that id. *)
Definition asks (cid : string) (s : Sensor.t) : bool :=
  negb (Sensor.disabled s) &&
  match Sensor.reporter s with
  | Some (SensorReporterType.DockerContainer r) =>
      bool_decide (ContainerSummary.id (DockerContainerSensorReporter.container r) = Some cid)
  | _ => false
  end.

(** The containers the engine lists to a pass that starts after the
    history [h]; an engine error reads as no container. *)
Definition listed (ω : Oracle) (h : History) : list ContainerSummary.t :=
  default [] (result_ok (docker_list_containers ω h true running_filter)).

(** No two of the containers have the id [cid]. *)
Definition id_unique (cid : string) (containers : list ContainerSummary.t) : Prop :=
  ∀ i j c c',
    containers !! i = Some c -> containers !! j = Some c' ->
    ContainerSummary.id c = Some cid -> ContainerSummary.id c' = Some cid -> i = j.

(** A run of [m] in the world [ω] adds at most [k] statistics queries
    for [cid] to the history, whether it returns or panics. *)
Definition adds_at_most {A} (ω : Oracle) (cid : string) (k : nat) (m : M A) : Prop :=
  ∀ σ, (stats_queries cid (history (final_state (m ω σ)))
        ≤ k + stats_queries cid (history σ))%nat.

(** ** Well-formedness of the sensor list *)

Section well_formed.
Context `{!FloatText, !HashOrder}.
Context (base : nat) (containers : list ContainerSummary.t).
Implicit Types (s : Sensor.t) (sensors : list Sensor.t) (self : UnraidStats.t).

Lemma builtin_sensors_wf self sys_cpu sys_usage sys_total sys_used sys_uptime :
  Forall (sensor_wf base containers)
    (UnraidStats.builtin_sensors self sys_cpu sys_usage sys_total sys_used sys_uptime).
Proof. repeat constructor; by eexists. Qed.

Lemma triplets_wf docker device_name :
  Forall (sensor_wf base containers)
    (concat (triplets_from docker device_name base containers)).
Proof.
  apply Forall_concat, Forall_forall. intros triplet Hin.
  apply elem_of_lookup_imap in Hin as (i & container & -> & Hi).
  repeat constructor; (eexists; split; [done|]); by exists i.
Qed.

Lemma command_sensors_wf sensor_config :
  Forall (sensor_wf base containers) (command_sensors sensor_config).
Proof.
  rewrite command_sensors_omap. apply Forall_fmap, Forall_true.
  intros command. by eexists.
Qed.

Lemma apply_overrides_wf sensor_config s :
  sensor_wf base containers s -> sensor_wf base containers (apply_overrides sensor_config s).
Proof. unfold sensor_wf. by rewrite apply_overrides_reporter. Qed.

(** The override engine keeps a well-formed list well-formed. *)
Lemma configure_wf sensor_config sensors :
  Forall (sensor_wf base containers) sensors ->
  Forall (sensor_wf base containers) (configure sensor_config sensors).
Proof.
  intros Hwf. destruct sensor_config as [sensor_config|]; [|done]. simpl.
  apply Forall_app. split; [|apply command_sensors_wf].
  apply Forall_fmap. eapply Forall_impl; [done|]. apply apply_overrides_wf.
Qed.

End well_formed.

Section well_formed_run.
Context `{!FloatText, !HashOrder}.
Implicit Types (self : UnraidStats.t) (ω : Oracle) (σ : State).

(** The state a pass reads its sensors in. *)
Lemma sensors_run self ω σ :
  ∃ sensors σ',
    Override.sensors self ω σ = Returned sensors σ' ∧
    Forall (sensor_wf (length (stashes σ)) (listed ω (history σ))) sensors ∧
    history σ' = history σ ++ sensors_calls ∧
    stashes σ' = stashes σ ++ replicate (length (listed ω (history σ))) None.
Proof.
  pose proof (sensors_unfold self ω σ) as Hrun. cbv zeta in Hrun.
  eexists _, _. split; [exact Hrun|]. split_and!; [|by rewrite <-!app_assoc|done].
  apply configure_wf, Forall_app. split; [apply builtin_sensors_wf|apply triplets_wf].
Qed.

(** C14: every sensor of the list [UnraidStats::sensors] returns is
    well-formed, with or without a configuration: it has a value source
    (so the branch of [publish_stats] for a sensor without one is never
    taken), and the source of a container sensor holds one of the listed
    containers together with the cache cell allocated for that container
    in this very run, a cell of the store the run ends in. *)
Theorem sensors_well_formed self ω σ :
  ∃ sensors σ',
    Override.sensors self ω σ = Returned sensors σ' ∧
    Forall (sensor_wf (length (stashes σ)) (listed ω (history σ))) sensors ∧
    cells_allocated (length (stashes σ)) (listed ω (history σ)) σ' ∧
    length (stashes σ') = (length (stashes σ) + length (listed ω (history σ)))%nat.
Proof.
  destruct (sensors_run self ω σ) as (sensors & σ' & Hrun & Hwf & Hh & Hs).
  exists sensors, σ'. split_and!; [done..| |by rewrite Hs, length_app, length_replicate].
  intros i Hi. apply lookup_lt_is_Some. rewrite Hs, length_app, length_replicate. lia.
Qed.

(** C34: the ids of the list [sensors] returns are pairwise distinct when
    the names of the listed containers are, every entry of the
    configuration carries its key as id, and no command entry is keyed
    by the id of a catalogue sensor. *)
Theorem sensors_ids_unique self ω σ :
  let names := container_name <$> listed ω (history σ) in
  NoDup names ->
  (∀ sensor_config,
     UnraidStats.sensor_config self = Some sensor_config ->
     ids_assigned (Config.sensors sensor_config) ∧
     ∀ id command,
       Config.sensors sensor_config !! id = Some (Sensors.Command command) ->
       id ∉ builtin_ids ++ names ≫= container_ids) ->
  ∃ sensors σ',
    Override.sensors self ω σ = Returned sensors σ' ∧ NoDup (Sensor.id <$> sensors).
Proof.
  intros names Hnames Hconfig.
  pose proof (sensors_unfold self ω σ) as Hrun. cbv zeta in Hrun.
  eexists _, _. split; [exact Hrun|].
  match goal with |- NoDup (_ <$> configure _ ?l) => set (catalogue := l) end.
  assert (Sensor.id <$> catalogue = builtin_ids ++ names ≫= container_ids) as Hids
    by (unfold catalogue; by rewrite fmap_app, triplets_ids).
  assert (NoDup (Sensor.id <$> catalogue)) as Hcatalogue.
  { rewrite Hids, NoDup_app, container_ids_unique.
    split_and!; [apply builtin_ids_nodup| |done].
    intros id Hb Hc. by eapply builtin_ids_apart. }
  destruct (UnraidStats.sensor_config self) as [sensor_config|]; [|done].
  destruct (Hconfig sensor_config eq_refl) as [Hassigned Hfresh].
  apply configure_ids_unique; [done..|].
  intros s command Hs Hc. apply (Hfresh _ _ Hc). rewrite <-Hids.
  by apply list_elem_of_fmap_2.
Qed.

End well_formed_run.

(** ** The statistics queries of a pass *)

Section counting.
Implicit Types (cid : string) (h : History) (ev : Event).

Lemma stats_queries_app cid h h' :
  stats_queries cid (h ++ h') = (stats_queries cid h + stats_queries cid h')%nat.
Proof. unfold stats_queries. by rewrite filter_app, length_app. Qed.

Lemma stats_queries_snoc cid h ev :
  stats_queries cid (h ++ [ev])
  = (stats_queries cid h + if is_stats_query cid ev then 1 else 0)%nat.
Proof.
  rewrite stats_queries_app. f_equal. unfold stats_queries.
  destruct (is_stats_query cid ev) eqn:E;
    [by rewrite filter_cons_True|by rewrite filter_cons_False by by rewrite E].
Qed.

Lemma stats_queries_other cid h ev :
  is_stats_query cid ev = false -> stats_queries cid (h ++ [ev]) = stats_queries cid h.
Proof. intros E. rewrite stats_queries_snoc, E. lia. Qed.

Lemma sensors_calls_no_query cid : stats_queries cid sensors_calls = 0%nat.
Proof. done. Qed.

Lemma stats_queries_none cid h :
  Forall (λ ev, is_stats_query cid ev = false) h -> stats_queries cid h = 0%nat.
Proof.
  unfold stats_queries. induction 1 as [|ev h Hev _ IH]; [done|].
  by rewrite filter_cons_False by by rewrite Hev.
Qed.

End counting.

(** A round of the pass keeps what the events other than the queries
    for [cid] keep, when the filling of the cell does. *)
Section rounds.
Context `{!FloatText, !HashOrder}.
Context (ω : Oracle) (cid : string) (I : State -> Prop).
Context (Hst : stable I (λ ev, is_stats_query cid ev = false)).
Implicit Types (r : DockerContainerSensorReporter.t) (s : Sensor.t).

Lemma get_value_keeps source :
  (∀ r, source = SensorReporterType.DockerContainer r -> keeps ω I (fill_stash r)) ->
  keeps ω I (get_value source).
Proof.
  intros Hfill. destruct source as [reporter|reporter|reporter|reporter]; simpl.
  - unfold system_get_value. keeps_auto Hst. done.
  - unfold command_get_value. keeps_auto Hst. done.
  - apply keeps_bind; [by apply Hfill|].
    intros _. apply keeps_silent. intros. apply read_stash_state.
  - unfold docker_get_value, list_containers. keeps_auto Hst; done.
Qed.

Lemma publish_ha_state_keeps self client topic value :
  keeps ω I (publish_ha_state self client topic value).
Proof. unfold publish_ha_state, publish_raw. keeps_auto Hst; done. Qed.

Lemma publish_stats_step_keeps self client s :
  (∀ r, Sensor.disabled s = false ->
        Sensor.reporter s = Some (SensorReporterType.DockerContainer r) ->
        keeps ω I (fill_stash r)) ->
  keeps ω I (publish_stats_step self client s).
Proof.
  intros Hfill. unfold publish_stats_step.
  destruct (Sensor.disabled s); [by apply keeps_ret|].
  destruct (Sensor.reporter s) as [source|]; [|by apply keeps_ret].
  apply keeps_bind; [apply get_value_keeps; intros r ->; by apply Hfill|].
  intros [value|]; [apply publish_ha_state_keeps|by apply keeps_ret].
Qed.

End rounds.

Section queries.
Context `{!FloatText, !HashOrder}.
Context (ω : Oracle) (cid : string) (base : nat) (containers : list ContainerSummary.t).
Context (before : nat).
Implicit Types (σ : State) (r : DockerContainerSensorReporter.t) (s : Sensor.t).

(** Every cell of a container with the id [cid] holds a sample. *)
Definition cells_full (σ : State) : Prop :=
  ∀ i c, containers !! i = Some c -> ContainerSummary.id c = Some cid ->
    ∃ stats, stashes σ !! (base + i)%nat = Some (Some stats).

(** The invariant of the loop of a pass that started with [before]
    queries for [cid] in the history: no query was added, or one was and
    the cells of [cid] are full. *)
Definition one_query (σ : State) : Prop :=
  cells_allocated base containers σ ∧
  (stats_queries cid (history σ) = before ∨
   stats_queries cid (history σ) = S before ∧ cells_full σ).

Lemma one_query_stable : stable one_query (λ ev, is_stats_query cid ev = false).
Proof.
  intros ev σ Hev (Halloc & Hq). split; [done|]. simpl.
  by rewrite stats_queries_other.
Qed.

(** Storing a sample in a cell keeps the invariant. *)
Lemma one_query_store σ l stats :
  one_query σ ->
  one_query {| history := history σ; stashes := <[l := Some stats]> (stashes σ) |}.
Proof.
  intros (Halloc & Hq). split.
  - intros i Hi. simpl. apply lookup_lt_is_Some. rewrite length_insert.
    by apply lookup_lt_is_Some, Halloc.
  - destruct Hq as [Hq|[Hq Hfull]]; [by left|right]. split; [done|].
    intros i c Hi Hc. destruct (Hfull i c Hi Hc) as [stats' Hl]. simpl.
    destruct (decide (l = (base + i)%nat)) as [->|Hne].
    + exists stats. apply list_lookup_insert_eq. by eapply lookup_lt_Some.
    + exists stats'. by rewrite list_lookup_insert_ne.
Qed.

(** A query for another container keeps the invariant, whatever the
    stream answers. *)
Lemma one_query_other σ l id :
  id ≠ cid -> one_query σ ->
  one_query
    {| history := history σ ++ [EvStats id];
       stashes := match docker_stats_next ω (history σ) id with
                  | Some (Ok stats) => <[l := Some stats]> (stashes σ)
                  | _ => stashes σ
                  end |}.
Proof.
  intros Hne HI.
  assert (is_stats_query cid (EvStats id) = false) as Hev
    by by apply bool_decide_eq_false_2.
  destruct (docker_stats_next ω (history σ) id) as [[stats|]|];
    [|by apply (one_query_stable _ σ Hev)..].
  by apply (one_query_store (record (EvStats id) σ)), one_query_stable.
Qed.

Section sampled.
Context (Hsample : ∀ h, ∃ stats, docker_stats_next ω h cid = Some (Ok stats)).
Context (Hunique : id_unique cid containers).

(** The first query for [cid]: the cell of its container was empty, so
    no query was made before, and the sample fills the only cell. *)
Lemma one_query_first σ i c :
  containers !! i = Some c -> ContainerSummary.id c = Some cid ->
  mjoin (stashes σ !! (base + i)%nat) = None ->
  one_query σ ->
  one_query
    {| history := history σ ++ [EvStats cid];
       stashes := match docker_stats_next ω (history σ) cid with
                  | Some (Ok stats) => <[(base + i)%nat := Some stats]> (stashes σ)
                  | _ => stashes σ
                  end |}.
Proof.
  intros Hi Hc Hempty (Halloc & Hq). destruct (Hsample (history σ)) as [stats ->].
  assert (stats_queries cid (history σ) = before) as Hbefore.
  { destruct Hq as [Hq|[_ Hfull]]; [done|].
    destruct (Hfull i c Hi Hc) as [stats' Hl]. by rewrite Hl in Hempty. }
  assert (base + i < length (stashes σ))%nat as Hlt
    by (apply lookup_lt_is_Some, Halloc; by eapply lookup_lt_Some).
  split.
  - intros j Hj. simpl. apply lookup_lt_is_Some. rewrite length_insert.
    by apply lookup_lt_is_Some, Halloc.
  - right. simpl. rewrite stats_queries_snoc, Hbefore. simpl.
    rewrite bool_decide_eq_true_2 by done. split; [lia|].
    intros j c' Hj Hc'. rewrite (Hunique j i c' c) by done.
    exists stats. by apply list_lookup_insert_eq.
Qed.

Lemma fill_stash_keeps r :
  reporter_wf base containers (SensorReporterType.DockerContainer r) ->
  keeps ω one_query (fill_stash r).
Proof.
  intros (i & Hl & Hi) σ HI.
  destruct (mjoin (stashes σ !! DockerContainerSensorReporter.stats_stash r))
    as [stats|] eqn:Hcell.
  { apply bind_Some in Hcell as (cell & Hcell & ->). by erewrite fill_stash_hit. }
  destruct (ContainerSummary.id (DockerContainerSensorReporter.container r))
    as [id|] eqn:Hid; [|by erewrite fill_stash_no_id].
  erewrite fill_stash_miss by done. simpl.
  destruct (decide (id = cid)) as [->|Hne]; [|by apply one_query_other].
  rewrite Hl in *. by eapply one_query_first.
Qed.

Lemma publish_stats_step_one_query self client s :
  sensor_wf base containers s -> keeps ω one_query (publish_stats_step self client s).
Proof.
  intros (source & Hsource & Hwf). apply (publish_stats_step_keeps ω cid).
  - apply one_query_stable.
  - intros r _ Hr. apply fill_stash_keeps. by simplify_eq.
Qed.

End sampled.

End queries.

(** *** A container whose stream gives no sample *)

Section unsampled.
Context `{!FloatText, !HashOrder}.
Context (ω : Oracle) (cid : string) (base : nat) (containers : list ContainerSummary.t).
Context (Hnone : ∀ h stats, docker_stats_next ω h cid ≠ Some (Ok stats)).
Implicit Types (σ : State) (r : DockerContainerSensorReporter.t) (s : Sensor.t) (n : nat).

(** Every cell of a container with the id [cid] is empty. *)
Definition cells_empty (σ : State) : Prop :=
  ∀ i c, containers !! i = Some c -> ContainerSummary.id c = Some cid ->
    mjoin (stashes σ !! (base + i)%nat) = None.

(** The invariant of the loop after [n] queries for [cid]. *)
Definition asked (n : nat) (σ : State) : Prop :=
  cells_empty σ ∧ stats_queries cid (history σ) = n.

Lemma asked_stable n : stable (asked n) (λ ev, is_stats_query cid ev = false).
Proof. intros ev σ Hev [Hcells Hq]. split; [done|]. simpl. by rewrite stats_queries_other. Qed.

(** The cell of another container is filled or not: the cells of [cid]
    stay empty. *)
Lemma fill_stash_other n r :
  reporter_wf base containers (SensorReporterType.DockerContainer r) ->
  ContainerSummary.id (DockerContainerSensorReporter.container r) ≠ Some cid ->
  keeps ω (asked n) (fill_stash r).
Proof.
  intros (j & Hl & Hj) Hother σ [Hcells Hq].
  destruct (mjoin (stashes σ !! DockerContainerSensorReporter.stats_stash r))
    as [stats|] eqn:Hcell.
  { apply bind_Some in Hcell as (cell & Hcell & ->). by erewrite fill_stash_hit. }
  destruct (ContainerSummary.id (DockerContainerSensorReporter.container r))
    as [id|] eqn:Hid; [|by erewrite fill_stash_no_id].
  erewrite fill_stash_miss by done. simpl.
  split; [|simpl; rewrite stats_queries_other; [done|apply bool_decide_eq_false_2; congruence]].
  destruct (docker_stats_next ω (history σ) id) as [[stats|]|]; [|done..].
  intros i c Hi Hc. simpl. rewrite list_lookup_insert_ne; [by eapply Hcells|].
  rewrite Hl. intros Heq. assert (j = i) as -> by lia. congruence.
Qed.

(** The round of a sensor that does not ask, and of one that does. *)
Lemma round_other n self client s :
  sensor_wf base containers s -> asks cid s = false ->
  keeps ω (asked n) (publish_stats_step self client s).
Proof.
  intros (source & Hsource & Hwf) Hasks.
  apply (publish_stats_step_keeps ω cid); [apply asked_stable|].
  intros r Hdis Hr. apply fill_stash_other; [by simplify_eq|].
  unfold asks in Hasks. rewrite Hdis, Hr in Hasks. by apply bool_decide_eq_false in Hasks.
Qed.

Lemma round_asks n self client s σ :
  sensor_wf base containers s -> asks cid s = true -> asked n σ ->
  asked (S n) (final_state (publish_stats_step self client s ω σ)).
Proof.
  intros (source & Hsource & Hwf) Hasks [Hcells Hq]. unfold asks in Hasks.
  apply andb_true_iff in Hasks as [Hdis%negb_true_iff Hr]. rewrite Hsource in Hr.
  destruct source as [| |r|]; try done. apply bool_decide_eq_true in Hr.
  destruct Hwf as (i & Hl & Hi). unfold publish_stats_step. rewrite Hdis, Hsource.
  cbn [get_value].
  erewrite bind_returned
    by (apply docker_container_no_sample; [done|rewrite Hl; by eapply Hcells|auto]).
  split; [done|]. simpl. rewrite stats_queries_snoc, Hq. simpl.
  rewrite bool_decide_eq_true_2 by done. lia.
Qed.

Lemma round_counts n self client s σ :
  sensor_wf base containers s -> asked n σ ->
  asked (if asks cid s then S n else n) (final_state (publish_stats_step self client s ω σ)).
Proof.
  intros Hwf Hn. destruct (asks cid s) eqn:Hasks; [by apply round_asks|by apply round_other].
Qed.

End unsampled.

Section pass_properties.
Context `{!FloatText, !HashOrder}.
Implicit Types (self : UnraidStats.t) (client : option AsyncClient) (ω : Oracle)
  (σ : State) (s : Sensor.t).

(** The queries of a pass that starts in [σ]. *)
Lemma publish_stats_queries self client ω σ cid :
  (∀ h, ∃ stats, docker_stats_next ω h cid = Some (Ok stats)) ->
  id_unique cid (listed ω (history σ)) ->
  (stats_queries cid (history (final_state (publish_stats self client ω σ)))
   ≤ 1 + stats_queries cid (history σ))%nat.
Proof.
  intros Hsample Hunique.
  destruct (sensors_run self ω σ) as (sensors & σ1 & Hrun & Hwf & Hh & Hs).
  unfold publish_stats. erewrite bind_returned by exact Hrun.
  assert (one_query cid (length (stashes σ)) (listed ω (history σ))
            (stats_queries cid (history σ)) σ1) as HI.
  { split; [|left; by rewrite Hh, stats_queries_app, sensors_calls_no_query, Nat.add_0_r].
    intros i Hi. apply lookup_lt_is_Some. rewrite Hs, length_app, length_replicate. lia. }
  eapply keeps_try_for_each in HI as (_ & [->|[-> _]]); [lia..|].
  intros s Hin. apply publish_stats_step_one_query; [done..|].
  by eapply Forall_forall in Hwf.
Qed.

(** C13: in a value pass, at most one statistics query is made for a
    container, however many of its three sensors are enabled and
    whatever the configuration renames: the first of them that is read
    fills the cell they share and the others read the cell.  This holds
    for a container whose statistics stream gives a sample, when no
    other listed container has the same id; the pass may end early or
    panic. *)
Theorem publish_stats_single_query self client ω σ cid :
  (∀ h, ∃ stats, docker_stats_next ω h cid = Some (Ok stats)) ->
  id_unique cid (listed ω (history σ)) ->
  (stats_queries cid (history (final_state (publish_stats self client ω σ)))
   ≤ S (stats_queries cid (history σ)))%nat.
Proof. apply publish_stats_queries. Qed.

(** C28: without a sample the cell stays empty and every sensor of the
    container asks again.  For a container whose statistics stream
    never gives a sample (it ends, or its items are errors), a value
    pass that returns without an error adds to the history exactly one
    statistics query for each enabled sensor of that container in the
    list, whatever else the pass reads and publishes: the cache saves
    no query. *)
Theorem publish_stats_requeries_without_sample self client ω σ sensors σ1 σ2 cid :
  (∀ h stats, docker_stats_next ω h cid ≠ Some (Ok stats)) ->
  Override.sensors self ω σ = Returned sensors σ1 ->
  publish_stats self client ω σ = Returned (Ok tt) σ2 ->
  stats_queries cid (history σ2)
  = (stats_queries cid (history σ) + length (filter (λ s, asks cid s = true) sensors))%nat.
Proof.
  intros Hnone Hsensors Hpass.
  destruct (sensors_run self ω σ) as (sensors' & σ1' & Hrun & Hwf & Hh & Hs).
  rewrite Hsensors in Hrun. injection Hrun as <- <-.
  unfold publish_stats in Hpass. erewrite bind_returned in Hpass by exact Hsensors.
  eapply (try_for_each_counts _
            (asked cid (length (stashes σ)) (listed ω (history σ))) (asks cid))
    in Hpass as [_ Hq]; [exact Hq| |].
  - intros s n σa Hin Ha. apply round_counts; [done| |done].
    by eapply Forall_forall in Hwf.
  - split; [|by rewrite Hh, stats_queries_app, sensors_calls_no_query, Nat.add_0_r].
    intros i c Hi Hc. rewrite Hs, lookup_app_r by lia.
    destruct (replicate _ _ !! _) as [cell|] eqn:Hcell; [|done].
    by apply lookup_replicate in Hcell as [-> _].
Qed.

End pass_properties.

(** ** Counting the queries of a composed run *)

Section adds.
Context {A B : Type} (ω : Oracle) (cid : string).
Implicit Types (k : nat) (σ : State).

(** A computation that emits no statistics query for [cid] adds none. *)
Lemma adds_none (m : M A) :
  emits (λ ev, is_stats_query cid ev = false) m -> adds_at_most ω cid 0 m.
Proof.
  intros Hm σ. destruct (Hm ω σ) as (evs & -> & Hevs).
  rewrite stats_queries_app, (stats_queries_none cid evs) by done. lia.
Qed.

Lemma adds_bind k1 k2 (m : M A) (f : A -> M B) :
  adds_at_most ω cid k1 m -> (∀ a, adds_at_most ω cid k2 (f a)) ->
  adds_at_most ω cid (k1 + k2) (m ≫= f).
Proof.
  intros Hm Hf σ. specialize (Hm σ). unfold mbind, M_bind, bind.
  destruct (m ω σ) as [a σ1|msg σ1]; simpl in *; [|lia].
  specialize (Hf a σ1). lia.
Qed.

End adds.

Section adds_result.
Context {A B E : Type} (ω : Oracle) (cid : string).

Lemma adds_and_then k1 k2 (m : M (result A E)) (f : A -> M (result B E)) :
  adds_at_most ω cid k1 m -> (∀ a, adds_at_most ω cid k2 (f a)) ->
  adds_at_most ω cid (k1 + k2) (and_then m f).
Proof.
  intros Hm Hf. apply adds_bind; [done|]. intros [a|e]; [apply Hf|].
  intros σ. simpl. lia.
Qed.

End adds_result.

Section adds_passes.
Context `{!FloatText, !HashOrder}.
Context (ω : Oracle) (cid : string).
Implicit Types (self : UnraidStats.t) (client : option AsyncClient).

Lemma sensors_calls_quiet ev : ev ∈ sensors_calls -> is_stats_query cid ev = false.
Proof.
  intros Hin. repeat (apply elem_of_cons in Hin as [->|Hin]; [done|]).
  by apply elem_of_nil in Hin.
Qed.

Lemma transport_quiet self client retain :
  transport_allowed (λ ev, is_stats_query cid ev = false) self client retain.
Proof.
  intros topic payload ev. unfold transport_events.
  destruct (UnraidStats.json_output self), client; intros Hin;
    [by apply list_elem_of_singleton in Hin as ->..|by apply elem_of_nil in Hin].
Qed.

(** The discovery pass reads no value: it adds no query. *)
Lemma publish_discovery_adds self client :
  adds_at_most ω cid 0 (publish_discovery self client).
Proof.
  apply adds_none, publish_discovery_emits;
    [apply sensors_calls_quiet|done|apply transport_quiet].
Qed.

Lemma publish_stats_adds self client :
  (∀ h, ∃ stats, docker_stats_next ω h cid = Some (Ok stats)) ->
  (∀ h, id_unique cid (listed ω h)) ->
  adds_at_most ω cid 1 (publish_stats self client).
Proof. intros Hsample Hunique σ. by apply publish_stats_queries. Qed.

End adds_passes.

(** ** Progress of a pass *)

Section pass_progress.
Context `{!FloatText, !HashOrder}.
Implicit Types (self : UnraidStats.t) (client : option AsyncClient) (ω : Oracle)
  (σ : State) (s : Sensor.t).

(** C15: a value pass that returns without an error has served every
    enabled sensor of the list: at some point of the pass the sensor's
    value source was read, and the value read, if there was one, was
    handed to the transport under the sensor's state topic right after
    the reading (a line printed in JSON mode, a publish request with a
    client); all of this lies in the history of the pass, after the list
    was built. *)
Theorem publish_stats_serves_every_sensor self client ω σ sensors σ1 σ2 s source :
  Override.sensors self ω σ = Returned sensors σ1 ->
  publish_stats self client ω σ = Returned (Ok tt) σ2 ->
  s ∈ sensors -> Sensor.disabled s = false -> Sensor.reporter s = Some source ->
  ∃ σa value σb,
    history σ1 `prefix_of` history σa ∧
    get_value source ω σa = Returned value σb ∧
    history σb ++
      from_option (λ v, transport_events self client (Sensor.sensor_topic s (node_id self))
                          v false) [] value
      `prefix_of` history σ2.
Proof.
  intros Hsensors Hpass Hin Hs Hsource. unfold publish_stats in Hpass.
  erewrite bind_returned in Hpass by exact Hsensors.
  eapply (try_for_each_reaches _ (λ _, True)) in Hpass as (σa & σ' & Hstep & Ha & Hb);
    [|intros; by apply publish_stats_step_emits|exact Hin].
  eapply publish_stats_step_ok in Hstep as (value & σb & Hvalue & Hh); [|done..].
  exists σa, value, σb. by rewrite <-Hh.
Qed.

End pass_progress.

(** ** The theorems on a concrete world *)

(** The world of [Reporter] with two running containers: [web], whose
    statistics stream gives [example_sample], and [old], whose stream
    ends without a sample. *)
Definition example_containers : list ContainerSummary.t :=
  [ ContainerSummary.mk (Some "abc") (Some ["/web"]) (Some "Up 2 hours");
    ContainerSummary.mk (Some "gone") (Some ["/old"]) (Some "Up 1 second") ].

Definition example_world_listing : Oracle :=
  with_containers (λ _ _ _, Ok example_containers) (example_world true).

(** The history of the value pass in that world, in JSON mode. *)
Definition example_pass : History :=
  history (final_state (publish_stats example_stats None example_world_listing initial_state)).

Lemma sensors_well_formed_witness :
  ∃ sensors σ',
    Override.sensors example_stats example_world_listing initial_state
      = Returned sensors σ' ∧
    Forall (sensor_wf 0 example_containers) sensors ∧
    cells_allocated 0 example_containers σ' ∧
    length (stashes σ') = 2%nat.
Proof. exact (sensors_well_formed example_stats example_world_listing initial_state). Defined.

Lemma publish_stats_single_query_witness : (stats_queries "abc" example_pass ≤ 1)%nat.
Proof.
  apply (publish_stats_single_query example_stats None example_world_listing
           initial_state "abc").
  - intros h. by exists example_sample.
  - intros [|[|i]] [|[|j]] c c' Hi Hj Hc Hc'; by simplify_eq/=.
Defined.

Lemma publish_stats_requeries_without_sample_witness :
  stats_queries "gone" example_pass = (0 + 3)%nat.
Proof.
  refine (publish_stats_requeries_without_sample example_stats None example_world_listing
            initial_state _ _
            (final_state (publish_stats example_stats None example_world_listing
                            initial_state))
            "gone" _
            (sensors_unfold example_stats example_world_listing initial_state) _).
  - intros h stats. by vm_compute.
  - vm_compute; reflexivity.
Defined.

(** The container [web] of that pass, whose stream gives a sample, is
    asked once. *)
Example example_pass_queries : stats_queries "abc" example_pass = 1%nat.
Proof. by vm_compute. Qed.

(** The CPU sensor of the container [web] as the pass over the two
    containers builds it, and its value source. *)
Definition example_web_reporter : DockerContainerSensorReporter.t := {|
  DockerContainerSensorReporter.container :=
    ContainerSummary.mk (Some "abc") (Some ["/web"]) (Some "Up 2 hours");
  DockerContainerSensorReporter.docker := DockerHandle;
  DockerContainerSensorReporter.stats_stash := 0%nat;
  DockerContainerSensorReporter.stat := DockerContainerSensorReporterStat.CpuUsage;
|}.

Definition example_web_cpu : Sensor.t :=
  Sensor.mk "dockercontainer_web_cpu" "tower Docker web CPU" (Some "%") None
            (Some "mdi:cpu-64-bit") false
            (Some (SensorReporterType.DockerContainer example_web_reporter)).

Lemma publish_stats_serves_every_sensor_witness :
  ∃ σa value σb,
    sensors_calls `prefix_of` history σa ∧
    get_value (SensorReporterType.DockerContainer example_web_reporter)
      example_world_listing σa = Returned value σb ∧
    history σb ++
      from_option (λ v, transport_events example_stats None
                          "unraid_tower/sensor/dockercontainer_web_cpu/state" v false)
                  [] value
      `prefix_of` example_pass.
Proof.
  refine (publish_stats_serves_every_sensor example_stats None example_world_listing
            initial_state _ _
            (final_state (publish_stats example_stats None example_world_listing
                            initial_state))
            example_web_cpu _
            (sensors_unfold example_stats example_world_listing initial_state)
            _ _ eq_refl eq_refl).
  - vm_compute; reflexivity.
  - apply (list_elem_of_lookup_2 _ 15); reflexivity.
Defined.

Lemma sensors_ids_unique_witness :
  ∃ sensors σ',
    Override.sensors example_stats example_world_listing initial_state
      = Returned sensors σ' ∧
    NoDup (Sensor.id <$> sensors).
Proof.
  apply (sensors_ids_unique example_stats example_world_listing initial_state);
    [apply (bool_decide_unpack _); by vm_compute|done].
Defined.
