(* ===== verification/Main.v ===== *)
(** [src/src/main.rs]: one run of the program.  The three modes: dump
    the sensor list to a file; print discovery documents and values as
    JSON lines; or publish them to the broker.  The theorems are about
    whole runs: the modes keep apart, a run that publishes goes through
    its phases in order, and a run makes at most one statistics query
    per container; [run] is [main] from the command line.  Logging is
    not modelled. *)

From Stdlib Require Import ZArith String.
From stdpp Require Import base tactics option list strings.
From S2P Require Import Prelude RustNum RustFloat World Hoare Config Catalog.
From S2P Require Import Override Reporter Cli CliParser Mqtt Publisher Pass.

Local Open Scope Z_scope.

Section program.
Context `{!FloatText, !HashOrder, !TomlText}.

(** The branch of [main] that talks to the broker. *)
Definition publish_to_broker (args : Args.t) (stats : UnraidStats.t)
  : M (result unit string) :=
  and_then (MqttConfig.from_args_and_file args) (λ config,
  and_then (MqttConfig.create_mqtt_client config) (λ client,
    call EvSpawnPoll (λ _ _, tt);;
    and_then (if negb (Args.skip_discovery args)
              then publish_discovery stats (Some client)
              else mret (Ok tt)) (λ _,
    and_then (publish_stats stats (Some client)) (λ _,
      call (EvSleep 2) (λ _ _, tt);;
      mret (Ok tt))))).

(** [main] after the arguments are parsed. *)
Definition main (args : Args.t) : M (result unit string) :=
  and_then (new args) (λ stats,
    match Args.sensor_dump args with
    | Some dump_path => dump_sensors_toml stats dump_path
    | None =>
        if Args.json_output args then
          and_then (publish_discovery stats None) (λ _, publish_stats stats None)
        else publish_to_broker args stats
    end).

(** [main] from the command line and the environment: [Args::parse]
    ends the process on a command line it rejects, with the parser's
    error and before anything else is done. *)
Definition run (argv : list string) (getenv : string -> option string)
  : M (result (result unit string) Parser.Error) :=
  match Parser.parse argv getenv with
  | Ok args => outcome ← main args; mret (Ok outcome)
  | Err e => mret (Err e)
  end.

End program.

(** ** Properties *)

Section program_properties.
Context `{!FloatText, !HashOrder, !TomlText}.
Implicit Types (args : Args.t).

Lemma publish_to_broker_emits (P : Event -> Prop) args stats :
  UnraidStats.json_output stats = false ->
  (∀ ev, is_println ev = false -> is_file_write ev = false -> P ev) ->
  emits P (publish_to_broker args stats).
Proof.
  intros Hjson HP.
  assert (∀ retain, transport_allowed P stats (Some ClientHandle) retain) as Hout.
  { intros retain topic payload ev. unfold transport_events. rewrite Hjson.
    intros ->%list_elem_of_singleton. by apply HP. }
  assert (∀ ev, is_probe ev = true -> P ev) as Hprobe by (intros []; by auto).
  unfold publish_to_broker, MqttConfig.from_args_and_file, MqttConfig.create_mqtt_client.
  apply emits_and_then; [emits_auto|]. intros config.
  apply emits_and_then; [emits_auto; by apply HP|]. intros [].
  apply emits_bind; [emits_auto; by apply HP|]. intros _.
  apply emits_and_then.
  { destruct (negb _); [|emits_auto].
    apply publish_discovery_emits; auto using sensors_calls_probe. }
  intros _. apply emits_and_then; [by apply publish_stats_emits|].
  intros _. emits_auto. by apply HP.
Qed.

(** What a run may do, by its mode. *)
Lemma main_by_mode args :
  match Args.sensor_dump args, Args.json_output args with
  | Some _, _ => emits (λ ev, is_println ev = false ∧ is_broker ev = false) (main args)
  | None, true => emits (λ ev, is_file_write ev = false ∧ is_broker ev = false) (main args)
  | None, false => emits (λ ev, is_println ev = false ∧ is_file_write ev = false) (main args)
  end.
Proof.
  unfold main.
  destruct (Args.sensor_dump args) as [dump_path|]; [|destruct (Args.json_output args) eqn:Hjson].
  - apply emits_and_then; [by apply new_emits|]. intros stats.
    apply dump_sensors_toml_emits; [by intros ev Hev%sensors_calls_probe; destruct ev|done].
  - apply emits_and_then; [by apply new_emits|]. intros stats.
    assert (∀ retain,
              transport_allowed (λ ev, is_file_write ev = false ∧ is_broker ev = false)
                stats None retain) as Hout.
    { intros retain topic payload ev. unfold transport_events.
      destruct (UnraidStats.json_output stats); [|by intros ?%elem_of_nil].
      by intros ->%list_elem_of_singleton. }
    apply emits_and_then;
      [apply publish_discovery_emits; [by intros ev Hev%sensors_calls_probe; destruct ev|done..]|].
    intros _. apply publish_stats_emits; [by intros []|done].
  - apply (emits_and_then_post _ (λ stats, UnraidStats.json_output stats = false));
      [by apply new_emits| |].
    + intros ω σ stats σ' Hnew. apply new_json_output in Hnew. congruence.
    + intros stats Hstats. by apply publish_to_broker_emits.
Qed.

(** C16: the three modes of a run keep apart, whatever the world
    answers and also when the run fails or panics.  With a dump path the
    program writes the dump and neither prints a line nor contacts the
    broker.  In JSON mode without a dump path it prints and neither
    writes a file nor contacts the broker.  Otherwise it talks to the
    broker and neither prints a line nor writes a file. *)
Theorem main_modes args :
  match Args.sensor_dump args, Args.json_output args with
  | Some _, _ => emits (λ ev, is_println ev = false ∧ is_broker ev = false) (main args)
  | None, true => emits (λ ev, is_file_write ev = false ∧ is_broker ev = false) (main args)
  | None, false => emits (λ ev, is_println ev = false ∧ is_file_write ev = false) (main args)
  end.
Proof. apply main_by_mode. Qed.

(** C18: a process started with [--json-output] among the tokens of its
    command line never contacts the broker, whatever the other tokens,
    the environment and the answers of the world are: either the
    command line is rejected and nothing is done, or the flag is set
    and the run dumps or prints. *)
Theorem run_json_output argv getenv :
  "--json-output" ∈ argv -> emits (λ ev, is_broker ev = false) (run argv getenv).
Proof.
  intros Hin. unfold run.
  destruct (Parser.parse argv getenv) as [args|e] eqn:Hparse; [|apply emits_ret].
  apply emits_bind; [|intros; apply emits_ret].
  apply (flag_given (Args.Build_Spec "json_output" Args.NoShort None Args.Flag Args.Bool))
    in Hparse; [|by repeat constructor|done|done].
  pose proof (main_by_mode args) as Hmode. change (Args.json_output args = true) in Hparse.
  rewrite Hparse in Hmode.
  destruct (Args.sensor_dump args); (eapply emits_mono; [|exact Hmode]); by intros ev [_ ?].
Qed.

(** C25: the mode of a run is selected by the command line alone, and
    the broker mode is the default.  When the command line is accepted
    and has no token [--json-output] and no token [--sensor-dump] or
    [--sensor-dump=...], the run is a broker run: it prints no line and
    writes no file, whatever the other tokens, the environment and the
    answers of the world are.  Neither of the two options has a short
    name, an environment variable or a default value. *)
Theorem broker_mode_by_default argv getenv args :
  Forall (λ token, Parser.long_name token ∉ [Some "json-output"; Some "sensor-dump"]) argv ->
  Parser.parse argv getenv = Ok args ->
  emits (λ ev, is_println ev = false ∧ is_file_write ev = false) (main args).
Proof.
  intros Hargv [Hjson Hdump]%modes_not_named; [|done].
  pose proof (main_by_mode args) as Hmode. by rewrite Hdump, Hjson in Hmode.
Qed.

End program_properties.

(** ** The order of a run *)

(** The four phases of a run that publishes.  Setting up: the engine
    connection, the configuration file, the broker session and its
    event loop.  Announcing: the version file, the probes of the sensor
    list, and discovery messages, which are retained.  Reading: probes
    and state messages, which are not retained.  Closing: the sleep that
    lets the event loop send. *)
Definition is_setup (ev : Event) : bool :=
  match ev with
  | EvDockerConnect | EvReadFile _ | EvMqttConnect _ _ | EvSpawnPoll => true
  | _ => false
  end.

Definition is_announcing (ev : Event) : bool :=
  match ev with
  | EvReadFile _ | EvListContainers _ _ | EvSystemNewAll | EvSystemRefreshAll
  | EvPublish _ _ true _ | EvPrintln _ => true
  | _ => false
  end.

Definition is_reading (ev : Event) : bool :=
  match ev with
  | EvPublish _ _ false _ | EvPrintln _ => true
  | _ => is_probe ev
  end.

Definition is_closing (ev : Event) : bool :=
  match ev with
  | EvSleep _ => true
  | _ => false
  end.

Definition run_phases : list (Event -> Prop) :=
  [λ ev, is_setup ev = true; λ ev, is_announcing ev = true;
   λ ev, is_reading ev = true; λ ev, is_closing ev = true].

Section program_order.
Context `{!FloatText, !HashOrder, !TomlText}.
Implicit Types (args : Args.t) (stats : UnraidStats.t) (client : option AsyncClient).

Lemma transport_announcing stats client :
  transport_allowed (λ ev, is_announcing ev = true) stats client true.
Proof.
  intros topic payload ev. unfold transport_events.
  destruct (UnraidStats.json_output stats), client; intros Hin;
    [by apply list_elem_of_singleton in Hin as ->..|by apply elem_of_nil in Hin].
Qed.

Lemma transport_reading stats client :
  transport_allowed (λ ev, is_reading ev = true) stats client false.
Proof.
  intros topic payload ev. unfold transport_events.
  destruct (UnraidStats.json_output stats), client; intros Hin;
    [by apply list_elem_of_singleton in Hin as ->..|by apply elem_of_nil in Hin].
Qed.

Lemma publish_discovery_announces stats client :
  emits (λ ev, is_announcing ev = true) (publish_discovery stats client).
Proof.
  apply publish_discovery_emits; [|done|apply transport_announcing].
  intros ev Hin. repeat (apply elem_of_cons in Hin as [->|Hin]; [done|]).
  by apply elem_of_nil in Hin.
Qed.

Lemma publish_stats_reads stats client :
  emits (λ ev, is_reading ev = true) (publish_stats stats client).
Proof. apply publish_stats_emits; [by intros []|apply transport_reading]. Qed.

Lemma publish_to_broker_phases args stats :
  in_phases run_phases (publish_to_broker args stats).
Proof.
  unfold publish_to_broker, MqttConfig.from_args_and_file, MqttConfig.create_mqtt_client.
  apply in_phases_and_then; [emits_auto|]. intros config.
  apply in_phases_and_then; [by emits_auto|]. intros client.
  apply in_phases_bind; [by emits_auto|]. intros _.
  apply in_phases_next, in_phases_and_then.
  { destruct (negb _); [apply publish_discovery_announces|emits_auto]. }
  intros _. apply in_phases_next, in_phases_and_then; [apply publish_stats_reads|].
  intros _. apply in_phases_next, in_phases_last. by emits_auto.
Qed.

(** C12: a run that publishes goes through its phases in order and
    never back: first the set-up (the engine connection, the
    configuration file, the broker session); then the discovery pass
    with its retained messages; then the value pass with its unretained
    messages; then the closing sleep, after which nothing happens.  So
    no message is published before the session is opened, and no
    discovery message after a value.  This holds in JSON mode and in
    broker mode, whatever the world answers and wherever the run
    ends. *)
Theorem main_phases args :
  Args.sensor_dump args = None -> in_phases run_phases (main args).
Proof.
  intros Hdump. unfold main. rewrite Hdump.
  apply in_phases_and_then; [by apply new_emits|]. intros stats.
  destruct (Args.json_output args); [|apply publish_to_broker_phases].
  apply in_phases_next, in_phases_and_then; [apply publish_discovery_announces|].
  intros _. apply in_phases_next, in_phases_last, publish_stats_reads.
Qed.

End program_order.

(** ** The statistics queries of a run *)

Section program_queries.
Context `{!FloatText, !HashOrder, !TomlText}.
Context (ω : Oracle) (cid : string).
Context (Hsample : ∀ h, ∃ stats, docker_stats_next ω h cid = Some (Ok stats)).
Context (Hunique : ∀ h, id_unique cid (listed ω h)).
Implicit Types (args : Args.t) (stats : UnraidStats.t).

Lemma publish_to_broker_adds args stats :
  adds_at_most ω cid 1 (publish_to_broker args stats).
Proof.
  unfold publish_to_broker, MqttConfig.from_args_and_file, MqttConfig.create_mqtt_client.
  apply (adds_and_then _ _ 0 1); [apply adds_none; emits_auto|]. intros config.
  apply (adds_and_then _ _ 0 1); [apply adds_none; by emits_auto|]. intros client.
  apply (adds_bind _ _ 0 1); [apply adds_none; by emits_auto|]. intros _.
  apply (adds_and_then _ _ 0 1).
  { destruct (negb _); [apply publish_discovery_adds|apply adds_none; emits_auto]. }
  intros _. apply (adds_and_then _ _ 1 0); [by apply publish_stats_adds|].
  intros _. apply adds_none. by emits_auto.
Qed.

(** A whole run of the program, in any of its three modes, makes at
    most one statistics query for a container: building the sensor
    list, the dump and the discovery pass make none, and the value pass
    makes one.  This holds for a container whose statistics stream gives
    a sample, in a world where the engine never lists two containers
    with its id, also when the run fails or panics. *)
Theorem main_single_stats_query args σ :
  (stats_queries cid (history (final_state (main args ω σ)))
   ≤ S (stats_queries cid (history σ)))%nat.
Proof.
  revert σ. change (adds_at_most ω cid (0 + 1) (main args)). unfold main.
  apply adds_and_then; [apply adds_none, new_emits; done|]. intros stats.
  destruct (Args.sensor_dump args) as [dump_path|].
  { intros σ. etrans; [apply adds_none, dump_sensors_toml_emits|lia];
      [apply sensors_calls_quiet|done]. }
  destruct (Args.json_output args); [|apply publish_to_broker_adds].
  apply (adds_and_then _ _ 0 1); [apply publish_discovery_adds|].
  intros _. by apply publish_stats_adds.
Qed.

End program_queries.

(** A run in JSON mode in the world of [Pass], with its two
    containers. *)
Definition example_args : Args.t := {|
  Args.host := None;
  Args.port := 1883;
  Args.client_id := None;
  Args.username := None;
  Args.password := None;
  Args.config_file := None;
  Args.sensor_dump := None;
  Args.json_output := true;
  Args.discovery_prefix := "homeassistant";
  Args.device_name := "tower";
  Args.skip_discovery := false;
|}.

Lemma main_single_stats_query_witness :
  (stats_queries "abc"
     (history (final_state (main (H1 := example_toml) example_args example_world_listing
                              initial_state))) ≤ 1)%nat.
Proof.
  apply (main_single_stats_query (H1 := example_toml) example_world_listing "abc").
  - intros h. by exists example_sample.
  - intros h [|[|i]] [|[|j]] c c' Hi Hj Hc Hc'; by simplify_eq/=.
Defined.

Lemma main_phases_witness : in_phases run_phases (main (H1 := example_toml) example_args).
Proof. exact (main_phases (H1 := example_toml) example_args eq_refl). Defined.

(** A command line that names a broker, in an environment that sets
    every variable. *)
Lemma broker_mode_by_default_witness :
  emits (λ ev, is_println ev = false ∧ is_file_write ev = false)
    (main (H1 := example_toml)
       (Args.mk (Some "broker.lan") 8883 (Some "1") (Some "1") (Some "1") None None false
                "homeassistant" "unraid" false)).
Proof.
  apply (broker_mode_by_default (H1 := example_toml) ["--host"; "broker.lan"; "-p8883"]
           (λ _, Some "1")); [|by vm_compute].
  apply (bool_decide_unpack _). by vm_compute.
Defined.

(** A command line that asks for JSON lines and names a broker. *)
Lemma run_json_output_witness :
  emits (λ ev, is_broker ev = false)
    (run (H1 := example_toml) ["--host"; "broker.lan"; "--json-output"] (λ _, None)).
Proof.
  apply (run_json_output ["--host"; "broker.lan"; "--json-output"]). by repeat constructor.
Defined.
